(* ===== verification/_CoqProject ===== *)
-Q . S2P
Spec2Rocq.v
PyStr.v
Json.v
PyDecimal.v
Cloud.v
World.v
AwsOps.v
Substitute.v
Lookup.v
PrepareFiles.v
CleanUtils.v
Checks.v
Dynamo.v
TableClient.v
MysfitStore.v
Stacks.v
Schedule.v
Iam.v
ApiGw.v
ApiStack.v
Services.v
Containers.v
Website.v
Notebook.v
