(* ===== verification/Spec2Rocq.v ===== *)
(** * A verification development for the Mythical Mysfits CDK deployment scripts

    The repository deploys the Mythical Mysfits web application on AWS with
    the CDK (src/webgen/app.py and the stacks of src/webgen/webgen), and
    drives the deployment with Python scripts: src/webgen/utils/
    prepare_files.py looks the deployed resources up and writes their ids
    into the web pages and stack sources; clean_utils.py tears down what
    the stacks leave behind; test_ecr_empty.py, test_no_inference_endpoint.py
    and deploy_ecs_service.py are checks and a redeploy for the shell
    scripts; src/webgen/app/service/mysfitsTableClient.py is the service
    that reads and updates the DynamoDB table of the mysfits. All of them
    talk to AWS through boto3; AWS is modelled as an account state (an
    environment model written from the boto3 and AWS documentation, not
    code of the repository), and each script is a function on a [World]
    (files, unwritable paths, printed lines, [os.environ], the account).

    ** Files, in dependency order

    - [Spec2Rocq] (this file, the prelude): Python exceptions [exn]; the
      state-and-exception monad [pyM S A := S -> outcome A * S] with
      [raise], [try_except], [for_] and [fold_m] (a [for] loop with an
      accumulator) and its notation scope [py_scope]; truthiness
      ([Truthy]); frame conditions [preserves] and invariants [keeps] with
      their combinators in the hint database [py]; loop lemmas
      ([fold_m_ok], [for_ok], [fold_m_acc] and the tactics [for_loop],
      [fold_loop], [fold_acc_loop]) proving that a loop completes and what
      it computes; generic lemmas on strings, lists and maps.
    - [PyStr]: [str.find], [in], slicing, [str.replace] (CPython's
      leftmost non-overlapping algorithm, [str_replace]), [str.lower],
      [str.join], [int()]; the replacement is proved equal to a
      declarative decomposition of the text, and to work independently
      on each side of a character the pattern does not contain.
    - [Json]: JSON values, [json.dumps] with its default separators and
      [ensure_ascii] escaping, and [json.loads]: a scanner for the
      literal, integer, string, array and object syntax, run on fuel.
      [TableClient]'s [json.load] of populate-dynamodb.json and the
      [json.loads] of the Swagger text are this parser. A [str.replace]
      of a placeholder on the text [json.dumps] writes acts inside its
      strings only. Written from CPython's json module, not from src/.
    - [PyDecimal]: Python's [Decimal(str)] (its syntax: sign, digits,
      point, exponent, underscores, surrounding whitespace, [Infinity] and
      [NaN]), boto3's [DYNAMODB_CONTEXT] (38 digits, exponents from -128
      to 126, every inexact or out-of-range value trapped), DynamoDB's
      number range and the text DynamoDB answers for a number. Written
      from CPython's decimal module, boto3's [types.py] and the DynamoDB
      documentation.
    - [Cloud]: the account: REST APIs, user pools and clients, SageMaker
      endpoints, configs and models, log groups, tables, repositories and
      NAT gateways per region; buckets; ECR images; ECS deployments; the
      denied operations. The pages the list calls return (25 REST APIs,
      10 SageMaker items, 50 log groups, [MaxResults] user pools).
    - [World]: the [World] record, [print], [os.environ], [open], boto3
      clients ([client], [NoRegionError]); the read calls of prepare_files.py
      behind the interface [ProviderApi], whose laws ([ProviderApiLaws],
      the calls change nothing) are discharged by the AWS model.
    - [AwsOps]: the deleting and listing calls of clean_utils.py
      (delete_log_group, delete_table, delete_user_pool,
      delete_repository, SageMaker deletes, S3 list/location/empty/delete)
      with their [ClientError] codes; the invariant [world_wf] (names are
      unique) and its preservation by every call.
    - [Substitute]: [replace_string_in_file] (prepare_files.py:60-72): the
      bindings applied in order, a missing or empty value giving
      [NOT_FOUND]; [generate_swagger_spec_json] of apigateway_stack.py.
    - [Lookup]: get_execute_api_endpoint, get_user_pool_id,
      get_user_pool_client_id, get_sagemaker_endpoint_name
      (prepare_files.py:12-57, 157-174), proved against [ProviderApi].
    - [PrepareFiles]: the four update modes (web, kinesis, replace_email,
      recommendations) and the [__main__] dispatch of prepare_files.py.
    - [CleanUtils]: every function and the [__main__] block of
      clean_utils.py.
    - [Checks]: test_ecr_empty.py, test_no_inference_endpoint.py and
      deploy_ecs_service.py with the ECR ListImages and ECS UpdateService
      calls.
    - [Dynamo]: the table of dynamodb_stack.py (key, two global secondary
      indexes), DynamoDB's attribute values ([S], [N], [BOOL], [NULL],
      [L], [M]) and the calls of the service (Scan, Query on an index,
      GetItem, UpdateItem with [SET a = a + n] and its number-range
      check, PutItem with its key validation), over any state with a
      [HasDdb] instance; boto3's [TypeSerializer] turning the Python dict
      of [table.put_item(Item=item)] into attribute values.
    - [TableClient]: getAllMysfits, queryMysfits, getMysfit, likeMysfit,
      adoptMysfit and load_initial_values of mysfitsTableClient.py.
    - [MysfitStore]: the contract the service offers the web pages, a
      store of [Mysfit] records by id with its listing, page, like, adopt
      and load operations ([Store]); the abstraction [abstract_table]
      that decodes the items of [MysfitsTable] into that store; the page
      requests ([request]), their handlers ([handle]) and a session of
      requests served in order ([serve], [Store.session]).
    - [Stacks]: app.py and the resources of its ten stacks that the
      scripts look up; [cdk deploy] in dependency order with rollback of a
      stack whose resource names are taken.
    - [Schedule]: every order in which [cdk deploy] may deploy the stacks,
      as a step relation on (deployed, pending) stacks: a step deploys any
      pending stack whose dependencies are deployed; an inductive
      [eventually] (every run reaches a state); the deterministic
      [deploy_order] of [Stacks] as one run of the relation.
    - [Iam]: IAM policy statements as the CDK builds them
      ([PolicyStatement], [add_actions], [add_resources], roles and
      [add_to_policy]) and their evaluation (an [Allow] applies and no
      [Deny] does, actions compared case-insensitively, wildcards [*] and
      [?] matched by [wmatch], proved equal to the inductive [glob]).
      An environment model written from the IAM documentation.
    - [ApiGw]: API Gateway REST APIs, resources, methods, the three
      integration kinds of the code (an AWS service integration with its
      credentials role, a Lambda integration with the CDK's default
      [proxy=True], a mock) and the responses of the non-proxy ones.
    - [ApiStack]: the values one stack passes to another in app.py
      (the ECS stack's load balancer DNS name and ARN, the Cognito pool
      id) as CloudFormation values ([Ref], [Fn::GetAtt]) resolved at
      deployment; the CfnOutputs of the DynamoDB, ECS, Cognito and
      APIGateway stacks; apigateway_stack.py's constructs (the imported
      load balancer, the VPC link, the [CfnRestApi] with its Swagger body,
      the [CfnDeployment] to [prod]); the route API Gateway gives an
      execute-api URL.
    - [Services]: every construct of kinesis_firehose_stack.py,
      xray_stack.py and sagemaker_stack.py (statements, roles, Lambda
      functions, the delivery stream, the three REST APIs with their
      [OPTIONS] preflights) and the requests they make on AWS: the
      integrations' calls, the delivery stream's writes and its
      processor's invocation, the event source's stream reads, and the
      Lambda runtime's logs and trace segments.
    - [Containers]: the ECS stack's Fargate service, roles and security
      rules; network_ecr_stack.py's VPC, Fargate service, outputs and
      inline policy (decoded as [PolicyDocument.from_json] does, with its
      JSON round trip); the CiCd stack's build project and pipeline.
    - [Website]: web_application_stack.py: the bucket, the origin access
      identity and its read grant, the CloudFront distribution and the
      deployment of ./web; the upload of the local files and the answer
      to a viewer request.
    - [Notebook]: the SageMaker notebook mysfit_recommendations_knn.py,
      cell by cell ([setup_role], [load_data], [upload_train],
      [upload_test], [train], [deploy_endpoint], composed as [notebook])
      over a state [Notebook] that adds the IAM roles and the training jobs
      to the scripts' [World]; the SageMaker SDK calls ([default_bucket],
      [fit], [deploy]) are transitions written from the SDK's
      documentation. The section [notebook] takes what the SDK only looks
      up (the float syntax numpy accepts, the registry of the kNN image)
      as variables.

    ** What is proved

    - prepare_files.py (C1-C3, C10, C12-C14, C16-C20): the exit on a
      missing MysfitsApi; the functional behaviour of the substitution
      (one binding, C3; the bindings in sequence, so that inserted text is
      scanned again for every later token, C10) and of each lookup; the
      files each mode writes; the diagnostics that are dead code; the
      crash on a missing user pool; the first-page-only API listing. The
      substitution engine equals the [str.replace] chain of
      apigateway_stack.py (C13), and that chain, run on a template
      written by [json.dumps], gives the template's document with the
      values substituted in its strings (C36).
    - The notebook (C4, C28): run on a suitable account it completes and
      its endpoint is then found by prepare_files.py's lookup and by
      test_no_inference_endpoint.py; a role left without its policy is
      never repaired and every training job then fails.
    - The website (C5): the file [web/f] is served at [/f], and [/] is
      served [web/index.html].
    - The deployment (C6-C8, C29, C30): a table left by an earlier
      deployment makes the redeployment roll back (C6); every schedule
      [cdk deploy] may choose deploys all ten stacks of app.py, each after
      its dependencies and in particular in the order app.py's
      constructor arguments force ([app_py_order]: ECS after Network and
      ECR, APIGateway after ECS and Cognito, KinesisFirehose after
      DynamoDB) (liveness, C7); [deploy_order] finds such an order within
      its fuel whatever order app.py lists the stacks in (termination,
      C29); the URL prepare_files.py finds for MysfitsApi after the
      deployment is routed to the stage the [CfnDeployment] of
      apigateway_stack.py creates (C8); the ECS stack may be deployed
      while the DynamoDB stack is still pending (C30).
    - The service stacks (C11, C15, C27): every request AWS makes on
      behalf of the constructs (not the requests of the functions' code,
      which is not in the repository), for any object key and log group,
      is allowed by the statements of the role that makes it; the clicks API's role may do
      exactly one thing; the ECS task role reaches every DynamoDB table
      while the NetworkECR policy reaches only [MysfitsTable].
    - clean_utils.py (C21-C26): which resources each function deletes
      and which it leaves, the completion of every loop (an explicit loop
      invariant per [for]), the crash on a log group matching two
      prefixes, us-east-1 buckets never deleted. Lemmas of [CleanUtils]
      show every call keeps [world_wf].
    - The service (C9, C31-C35): on a table of complete items the
      handlers refine the store ([MysfitStore]): the reads answer what
      the store answers (C31); any sequence of page requests the store
      accepts, served one after another ([serve]), gets the store's
      answers, errors included (a like past DynamoDB's 38 digits raises
      [ValidationException]), and keeps the table complete ([table_ok])
      and abstracting to the store's state after the session (C32);
      [load_initial_values] on a file [json.dumps] wrote loads its
      storable mysfits (non-empty keys, numbers of at most 38 digits)
      into the store, through [Decimal], the boto3 serializer and
      DynamoDB's validation (C9), and listing after a load shows each
      loaded mysfit once, in the table's order (C35). [queryMysfits]
      answers the mysfits of the index (C34), and the adoption of an
      unknown id, outside the store's contract, succeeds and breaks every
      later listing (C33).
    - The checks: test_no_inference_endpoint.py's verdict,
      test_ecr_empty.py's and deploy_ecs_service.py's effects are
      specified by lemmas of [Checks].

    ** Bounds and fuel

    [replace_loop] runs on fuel [S (length s)]; every step consumes at
    least one character of a non-empty token, so this is enough, and
    [replace_loop_fuel] proves any larger fuel gives the same text.
    [deploy_order] runs on fuel [length stacks]: each round deploys one
    stack, and [deploy_order_complete_fuel] proves that this fuel (or
    more) finds an order whenever one exists. The scheduler relation of
    [Schedule] terminates because each step removes a pending stack.
    [json_loads] runs [read_value] on fuel [length s]: every call
    consumes at least one character, and [json_size_length] proves the
    fuel a document needs is at most the length of its text. All other
    loops are structural over the lists the code iterates. Python
    integers are [Z] and do not overflow; DynamoDB numbers are decimals
    [c * 10^e] kept to DynamoDB's bounds (38 significant digits,
    magnitudes from 1E-130 to below 1E126), which [UpdateItem] and
    [PutItem] check. The notebook's
    [int(0.9 * n)] is [9 * n / 10]: the double nearest to 0.9 is a little
    above it, so the product is never below [9n/10], and it stays below
    the next integer for every [n < 10^15].

    ** Not modelled

    The load balancer's forwarding and the VPCs' routing (the VPCs,
    load balancers and outputs are data); the CDK's encoding of a
    cross-stack value as a token inside the Swagger text (the constructor
    of apigateway_stack.py is run on the resolved values); the Lambda
    functions' code (not in the repository: the stacks name code
    directories that are absent), so the answers of the proxy
    integrations and the requests the functions make beyond the
    statements their stacks grant; what SNS and Firehose do with the
    data; CloudFormation's stack records (a rolled-back deployment is
    modelled by its effect on the resources, not by a ROLLBACK_COMPLETE
    stack left behind); ARNs are symbolic values compared for equality,
    which is all IAM evaluation and the lookups use; CloudFront caching; webgen_stack.py (it only calls the
    external CDK-SPA-Deploy library, and its instantiation is commented
    out); in the notebook, the random shuffle and the array contents (the
    state records object keys and array shapes, not data) and the
    comment and whitespace syntax of [np.loadtxt]; JSON floats,
    exponents and code points above 255 (the parser answers [None] for
    them); logging; and the
    network: an AWS call either answers from the account state or fails
    with its [ClientError]. *)

From Stdlib Require Import String ZArith.
From stdpp Require Import base list gmap strings.

(** * Prelude: the Python runtime the scripts run on

    This file holds what every component shares: the Python exceptions the
    scripts raise or let escape, the state-and-exception monad in which the
    statements of a script are sequenced, Python's truthiness test, the
    process exit status, and the generic lemmas and automation on them. *)

Declare Scope py_scope.
Delimit Scope py_scope with py.

(** ** Exceptions *)

(** The exceptions that reach the scripts: [ClientError] is botocore's
    error for a failed AWS call, carrying the ["Error"]["Code"] of the
    response; [ParamValidationError] is botocore's client-side check of the
    request parameters (raised before any network call); [NoRegionError] is
    raised when a client is created with no region and no default region;
    the others are the Python builtins ([TypeError] stands for the
    errors of subscripting a value that is not a dict or a list). [DecimalSignal] is a
    trapped signal of the [decimal] module ([decimal.InvalidOperation],
    [Inexact], [Rounded], [Overflow], [Underflow], [Clamped]). [SystemExit] is raised by
    [sys.exit]. [OSError] stands for the errors of [open(path, 'w')] on a
    path that cannot be written (missing directory, no permission). *)
Inductive exn :=
| ClientError (code : string)
| ParamValidationError (param : string)
| NoRegionError
| FileNotFoundError (path : string)
| OSError (path : string)
| KeyError (key : string)
| IndexError
| ValueError (msg : string)
| TypeError (msg : string)
| DecimalSignal (signal : string)
| SystemExit (status : Z).

#[export] Instance exn_eq_dec : EqDecision exn.
Proof. solve_decision. Qed.

(** ** The script monad: state passing with Python exceptions *)

(** The result of running a statement: a value, or a raised exception.
    The state is returned in both cases: side effects performed before an
    exception (a file written, a resource deleted) are not rolled back. *)
Inductive outcome (A : Type) :=
| Ok (a : A)
| Raise (e : exn).
Arguments Ok {A} a.
Arguments Raise {A} e.

Definition pyM (S A : Type) : Type := S -> outcome A * S.

#[export] Instance pyM_ret {S} : MRet (pyM S) := fun A a s => (Ok a, s).
#[export] Instance pyM_bind {S} : MBind (pyM S) := fun A B f m s =>
  match m s with
  | (Ok a, s') => f a s'
  | (Raise e, s') => (Raise e, s')
  end.

Definition raise {S A} (e : exn) : pyM S A := fun s => (Raise e, s).
Definition gets {S A} (f : S -> A) : pyM S A := fun s => (Ok (f s), s).
Definition modify {S} (f : S -> S) : pyM S unit := fun s => (Ok tt, f s).

(** [try: m except e: h e]. The handler sees the state reached when the
    exception was raised. *)
Definition try_except {S A} (m : pyM S A) (h : exn -> pyM S A) : pyM S A :=
  fun s =>
    match m s with
    | (Raise e, s') => h e s'
    | r => r
    end.

(** [for x in l: body x]. *)
Fixpoint for_ {S A} (l : list A) (body : A -> pyM S unit) : pyM S unit :=
  match l with
  | [] => mret tt
  | x :: l' => body x ;; for_ l' body
  end.

(** A [for] loop that accumulates a value, e.g. the list a loop appends
    to: [acc = init; for x in l: acc = body(acc, x)]. *)
Fixpoint fold_m {S A B} (body : B -> A -> pyM S B) (l : list A) (acc : B) : pyM S B :=
  match l with
  | [] => mret acc
  | x :: l' => acc' ← body acc x; fold_m body l' acc'
  end.

(** Running a statement from a state. *)
Definition run {S A} (m : pyM S A) (s : S) : outcome A * S := m s.

(** The exit status of a Python process whose main code ended with [o]:
    0 on normal completion, the argument of [sys.exit], and 1 for any
    other uncaught exception (the interpreter prints the traceback). *)
Definition exit_status {A} (o : outcome A) : Z :=
  match o with
  | Ok _ => 0
  | Raise (SystemExit n) => n
  | Raise _ => 1
  end.

(** ** Python truthiness ([if x:]) *)

Class Truthy (A : Type) := truthy : A -> bool.

#[export] Instance truthy_string : Truthy string :=
  fun s => negb (String.eqb s "").
#[export] Instance truthy_option {A} `{Truthy A} : Truthy (option A) :=
  fun o => match o with Some a => truthy a | None => false end.
#[export] Instance truthy_list {A} : Truthy (list A) :=
  fun l => match l with [] => false | _ => true end.
#[export] Instance truthy_bool : Truthy bool := fun b => b.

(** ** Automation *)

Create HintDb py discriminated.
Create Rewrite HintDb py_rw.

Section monad_laws.
Context {S : Type}.

Lemma bind_ret_l {A B} (a : A) (f : A -> pyM S B) :
  (mret a ≫= f) = f a.
Proof. reflexivity. Qed.

Lemma bind_ret_r {A} (m : pyM S A) s : run (m ≫= mret) s = run m s.
Proof. cbv [run mbind pyM_bind mret pyM_ret]. by destruct (m s) as [[] ?]. Qed.

Lemma bind_assoc {A B C} (m : pyM S A) (f : A -> pyM S B) (g : B -> pyM S C) s :
  run ((m ≫= f) ≫= g) s = run (m ≫= fun a => f a ≫= g) s.
Proof. cbv [run mbind pyM_bind]. by destruct (m s) as [[] ?]. Qed.

Lemma run_bind {A B} (m : pyM S A) (f : A -> pyM S B) s :
  run (m ≫= f) s =
    match run m s with
    | (Ok a, s') => run (f a) s'
    | (Raise e, s') => (Raise e, s')
    end.
Proof. reflexivity. Qed.

Lemma run_ret {A} (a : A) (s : S) : run (mret a) s = (Ok a, s).
Proof. reflexivity. Qed.

Lemma run_raise {A} (e : exn) (s : S) : run (raise (A := A) e) s = (Raise e, s).
Proof. reflexivity. Qed.

Lemma run_gets {A} (f : S -> A) (s : S) : run (gets f) s = (Ok (f s), s).
Proof. reflexivity. Qed.

Lemma run_modify (f : S -> S) (s : S) : run (modify f) s = (Ok tt, f s).
Proof. reflexivity. Qed.

Lemma run_if {A} (b : bool) (m1 m2 : pyM S A) (s : S) :
  run (if b then m1 else m2) s = if b then run m1 s else run m2 s.
Proof. by destruct b. Qed.

Lemma for_app {A} (l1 l2 : list A) (body : A -> pyM S unit) s :
  run (for_ (l1 ++ l2) body) s = run (for_ l1 body ;; for_ l2 body) s.
Proof.
  revert s. induction l1 as [|x l1 IH]; intros s; [done|].
  simpl. rewrite !run_bind. destruct (run (body x) s) as [[] s'] eqn:E; [|done].
  rewrite IH, run_bind. reflexivity.
Qed.

(** A loop whose body keeps an invariant of the state keeps it. *)
Lemma for_invariant {A} (P : S -> Prop) (l : list A) (body : A -> pyM S unit) s :
  (forall x s, x ∈ l -> P s -> P (snd (run (body x) s))) ->
  P s -> P (snd (run (for_ l body) s)).
Proof.
  revert s. induction l as [|x l IH]; intros s Hb Hs; [done|].
  simpl. rewrite run_bind.
  pose proof (Hb x s ltac:(set_solver) Hs) as Hx.
  destruct (run (body x) s) as [[] s'] eqn:E; simpl in *.
  - apply IH; [|done]. intros y t Hy. apply Hb. set_solver.
  - done.
Qed.
End monad_laws.

#[export] Hint Rewrite @run_bind @run_ret @run_raise @run_gets @run_modify @run_if : py_rw.

(** ** Frame conditions *)

(** [preserves proj m]: running [m] never changes the part [proj] of the
    state, whether it returns or raises. *)
Definition preserves {S T A} (proj : S -> T) (m : pyM S A) : Prop :=
  forall s, proj (snd (run m s)) = proj s.

Section preserves.
Context {S T : Type} (proj : S -> T).

Lemma preserves_ret {A} (a : A) : preserves proj (mret a).
Proof. done. Qed.

Lemma preserves_raise {A} (e : exn) : preserves proj (raise (A := A) e).
Proof. done. Qed.

Lemma preserves_gets {A} (f : S -> A) : preserves proj (gets f).
Proof. done. Qed.

Lemma preserves_bind {A B} (m : pyM S A) (f : A -> pyM S B) :
  preserves proj m -> (forall a, preserves proj (f a)) -> preserves proj (m ≫= f).
Proof.
  intros Hm Hf s. rewrite run_bind. specialize (Hm s).
  destruct (run m s) as [[a|e] s'] eqn:E; simpl in *; [|done].
  by rewrite Hf.
Qed.

Lemma preserves_modify (f : S -> S) :
  (forall s, proj (f s) = proj s) -> preserves proj (modify f).
Proof. intros Hf s. apply Hf. Qed.

Lemma preserves_try_except {A} (m : pyM S A) (h : exn -> pyM S A) :
  preserves proj m -> (forall e, preserves proj (h e)) ->
  preserves proj (try_except m h).
Proof.
  intros Hm Hh s. unfold run, try_except. specialize (Hm s). unfold run in Hm.
  destruct (m s) as [[a|e] s'] eqn:E; simpl in *; [done|].
  rewrite <- Hm. apply (Hh e s').
Qed.

Lemma preserves_for {A} (l : list A) (body : A -> pyM S unit) :
  (forall x, preserves proj (body x)) -> preserves proj (for_ l body).
Proof.
  intros Hb. induction l as [|x l IH]; simpl; [apply preserves_ret|].
  by apply preserves_bind.
Qed.
Lemma preserves_fold_m {A B} (body : B -> A -> pyM S B) (l : list A) (acc : B) :
  (forall b x, preserves proj (body b x)) -> preserves proj (fold_m body l acc).
Proof.
  intros Hb. revert acc. induction l as [|x l IH]; intros acc; simpl; [apply preserves_ret|].
  by apply preserves_bind.
Qed.
End preserves.

#[export] Hint Resolve preserves_ret preserves_raise preserves_gets preserves_bind
  preserves_try_except preserves_for preserves_fold_m : py.

(** [keeps P m]: running [m] from a state satisfying the invariant [P]
    ends in a state satisfying [P], whether it returns or raises. *)
Definition keeps {S A} (P : S -> Prop) (m : pyM S A) : Prop :=
  forall s, P s -> P (snd (run m s)).

Section keeps.
Context {S : Type} (P : S -> Prop).

Lemma keeps_preserves {T A} (proj : S -> T) (Q : T -> Prop) (m : pyM S A) :
  preserves proj m -> keeps (fun s => Q (proj s)) m.
Proof. intros Hm s Hs. by rewrite Hm. Qed.

Lemma keeps_ret {A} (a : A) : keeps P (mret a).
Proof. by intros s. Qed.

Lemma keeps_raise {A} (e : exn) : keeps P (raise (A := A) e).
Proof. by intros s. Qed.

Lemma keeps_gets {A} (f : S -> A) : keeps P (gets f).
Proof. by intros s. Qed.

Lemma keeps_bind {A B} (m : pyM S A) (f : A -> pyM S B) :
  keeps P m -> (forall a, keeps P (f a)) -> keeps P (m ≫= f).
Proof.
  intros Hm Hf s Hs. rewrite run_bind. specialize (Hm s Hs).
  destruct (run m s) as [[a|e] s'] eqn:E; simpl in *; [|done]. by apply Hf.
Qed.

Lemma keeps_if {A} (b : bool) (m1 m2 : pyM S A) :
  keeps P m1 -> keeps P m2 -> keeps P (if b then m1 else m2).
Proof. by destruct b. Qed.

Lemma keeps_try_except {A} (m : pyM S A) (h : exn -> pyM S A) :
  keeps P m -> (forall e, keeps P (h e)) -> keeps P (try_except m h).
Proof.
  intros Hm Hh s Hs. specialize (Hm s Hs). unfold run, try_except in *.
  destruct (m s) as [[a|e] s'] eqn:E; simpl in *; [done|]. by apply (Hh e s').
Qed.

Lemma keeps_for {A} (l : list A) (body : A -> pyM S unit) :
  (forall x, keeps P (body x)) -> keeps P (for_ l body).
Proof.
  intros Hb. induction l as [|x l IH]; simpl; [apply keeps_ret|]. by apply keeps_bind.
Qed.

Lemma keeps_fold_m {A B} (body : B -> A -> pyM S B) (l : list A) (acc : B) :
  (forall b x, keeps P (body b x)) -> keeps P (fold_m body l acc).
Proof.
  intros Hb. revert acc. induction l as [|x l IH]; intros acc; simpl; [apply keeps_ret|].
  by apply keeps_bind.
Qed.
Lemma keeps_option {A B} (o : option B) (f : B -> pyM S A) (m : pyM S A) :
  (forall b, keeps P (f b)) -> keeps P m ->
  keeps P (match o with Some b => f b | None => m end).
Proof. by destruct o. Qed.

Lemma keeps_ro {A} (m : pyM S A) : preserves id m -> keeps P m.
Proof. intros Hm s Hs. specialize (Hm s). cbv [id] in Hm. by rewrite Hm. Qed.
End keeps.

#[export] Hint Resolve keeps_ret keeps_raise keeps_gets keeps_bind keeps_if
  keeps_try_except keeps_for keeps_fold_m keeps_option : py.
#[export] Hint Resolve keeps_ro | 20 : py.

(** The part [proj] of the state after [m ≫= k], when [m] returns and [k]
    does not change [proj]. *)
Lemma frame_after {S T A B} (proj : S -> T) (m : pyM S A) (k : A -> pyM S B) s a s1 :
  run m s = (Ok a, s1) -> preserves proj (k a) -> proj (snd (run (m ≫= k) s)) = proj s1.
Proof. intros Hm Hk. rewrite run_bind, Hm. apply Hk. Qed.

Lemma fst_run_bind_raise {S A B} (m : pyM S A) (k : A -> pyM S B) s e :
  fst (run m s) = Raise e -> fst (run (m ≫= k) s) = Raise e.
Proof. rewrite run_bind. destruct (run m s) as [[a|e'] s']; simpl; congruence. Qed.

Lemma frame_ret {S T A B} (proj : S -> T) (m : pyM S A) (b : B) s :
  proj (snd (run (m ≫= fun _ => mret b) s)) = proj (snd (run m s)).
Proof. rewrite run_bind. by destruct (run m s) as [[] ?]. Qed.

(** A statement that changes nothing returns its outcome in the state it
    started from. *)
Lemma run_ro {S A} (m : pyM S A) (s : S) :
  preserves id m -> run m s = (fst (run m s), s).
Proof. intros H. specialize (H s). cbv [id] in H. destruct (run m s). by f_equal. Qed.

Lemma run_bind_ro_ok {S A B} (m : pyM S A) (f : A -> pyM S B) (s : S) (a : A) :
  preserves id m -> fst (run m s) = Ok a -> run (m ≫= f) s = run (f a) s.
Proof. intros Hro Ha. rewrite run_bind, (run_ro m s Hro), Ha. done. Qed.

Lemma run_bind_ro_raise {S A B} (m : pyM S A) (f : A -> pyM S B) (s : S) (e : exn) :
  preserves id m -> fst (run m s) = Raise e -> run (m ≫= f) s = (Raise e, s).
Proof. intros Hro He. rewrite run_bind, (run_ro m s Hro), He. done. Qed.

(** [ro_step H], with [H : fst (run m s) = o] for a statement [m] that
    changes nothing (proved by [auto with py]), steps over [m] in a goal
    [run (m ≫= f) s = _]. *)
Ltac ro_step H :=
  lazymatch type of H with
  | fst (run ?m ?s) = Ok _ =>
      rewrite (run_bind_ro_ok m _ s _ ltac:(auto with py) H)
  | fst (run ?m ?s) = Raise _ =>
      rewrite (run_bind_ro_raise m _ s _ ltac:(auto with py) H)
  end.

(** [ro_eval H], with [H : fst (run m s) = o] for a statement [m] that
    changes nothing, replaces [run m s] by [(o, s)] in the goal. *)
Ltac ro_eval H :=
  lazymatch type of H with
  | fst (run ?m ?s) = _ => rewrite (run_ro m s ltac:(auto with py)), H
  end.

(** [concrete] discharges a side condition on concrete data by
    evaluation: an equation by [vm_compute], a decidable proposition by
    evaluating its decision procedure. *)
Ltac concrete :=
  first [ reflexivity
        | lazymatch goal with |- _ = _ => vm_compute; reflexivity end
        | apply (bool_decide_unpack _); vm_compute; reflexivity
        | lia ].

(** [eqb_lits] decides the comparisons [String.eqb a b] of the goal whose
    sides are literals, and reduces the [if]s they guard. *)
Ltac eqb_lits :=
  repeat match goal with
  | |- context [String.eqb ?a ?b] =>
      let v := eval vm_compute in (String.eqb a b) in
      lazymatch v with
      | true => change (String.eqb a b) with true
      | false => change (String.eqb a b) with false
      end
  end; cbn iota.

(** [try: m except Exception as e: raise e] is [m]. *)
Lemma try_except_reraise {S A} (m : pyM S A) s :
  run (try_except m raise) s = run m s.
Proof. unfold run, try_except. by destruct (m s) as [[] ?]. Qed.

#[export] Hint Rewrite @try_except_reraise : py_rw.

Lemma run_try_except {S A} (m : pyM S A) (h : exn -> pyM S A) s :
  run (try_except m h) s =
    match run m s with
    | (Raise e, s') => run (h e) s'
    | r => r
    end.
Proof. reflexivity. Qed.

(** [py_run] evaluates the script monad on a concrete or symbolic state as
    far as the case analysis allows. *)
Ltac py_run :=
  repeat (cbn [mbind pyM_bind mret pyM_ret raise gets modify try_except for_ fold_m
               truthy truthy_option truthy_list truthy_bool negb]
          in *; autorewrite with py_rw in *).

(** ** Strings *)

(** Python [str] is modelled as Rocq's [string] (ASCII characters);
    concatenation [+] is stdpp's [+:+]. *)

(** stdpp makes [String.append] opaque to [simpl]; its two defining
    equations are stated here and used as rewrite rules. *)
Lemma str_app_nil_l (s : string) : "" +:+ s = s.
Proof. reflexivity. Qed.

Lemma str_app_cons (c : Ascii.ascii) (a b : string) :
  String c a +:+ b = String c (a +:+ b).
Proof. reflexivity. Qed.

Lemma str_app_nil_r (s : string) : s +:+ "" = s.
Proof. induction s as [|c s IH]; [done|by rewrite str_app_cons, IH]. Qed.

Lemma str_app_assoc (a b c : string) : (a +:+ b) +:+ c = a +:+ (b +:+ c).
Proof. induction a as [|ch a IH]; [done|by rewrite !str_app_cons, IH]. Qed.

Lemma str_length_app (a b : string) :
  String.length (a +:+ b) = String.length a + String.length b.
Proof. induction a as [|ch a IH]; [done|by rewrite str_app_cons; simpl; rewrite IH]. Qed.

#[export] Hint Rewrite str_app_nil_l str_app_cons str_app_nil_r str_app_assoc str_length_app : py_rw.

Lemma truthy_string_false (s : string) : truthy s = false <-> s = "".
Proof.
  unfold truthy, truthy_string. rewrite negb_false_iff, String.eqb_eq. done.
Qed.

Lemma truthy_option_false (o : option string) :
  truthy o = false <-> o = None \/ o = Some "".
Proof.
  destruct o as [s|]; [|naive_solver].
  change (truthy (Some s)) with (truthy s). rewrite truthy_string_false.
  naive_solver.
Qed.

(** ** Lists *)

Lemma filter_nil_Forall {A} (P : A -> Prop) `{forall x, Decision (P x)} (l : list A) :
  filter P l = [] <-> Forall (fun x => ~ P x) l.
Proof.
  induction l as [|x l IH]; [split; by constructor|].
  rewrite filter_cons, Forall_cons. case_decide; [naive_solver|]. rewrite IH. naive_solver.
Qed.

Lemma filter_all {A} (P : A -> Prop) `{forall x, Decision (P x)} (l : list A) :
  (forall x, x ∈ l -> P x) -> filter P l = l.
Proof.
  induction l as [|x l IH]; intros Hl; [done|]. rewrite filter_cons_True by set_solver.
  f_equal. apply IH. set_solver.
Qed.

(** ** Loops that complete *)

(** A [fold_m] loop completes when every iteration does, keeping an
    invariant [I] indexed by the items already processed. *)
Section loops.
Context {S A B : Type} (I : list A -> S -> Prop) (body : B -> A -> pyM S B) (l : list A).

Lemma fold_m_ok_from d rest acc s :
  l = d ++ rest ->
  (forall d x r b s, l = d ++ x :: r -> I d s ->
     exists b' s', run (body b x) s = (Ok b', s') /\ I (d ++ [x]) s') ->
  I d s -> exists b s', run (fold_m body rest acc) s = (Ok b, s') /\ I l s'.
Proof.
  revert d acc s. induction rest as [|x rest IH]; intros d acc s Hl Hstep HI.
  - exists acc, s. rewrite Hl, app_nil_r. done.
  - destruct (Hstep d x rest acc s Hl HI) as (b' & s' & Hrun & HI').
    simpl. rewrite run_bind, Hrun.
    apply (IH (d ++ [x])); [by rewrite <- app_assoc|done|done].
Qed.

Lemma fold_m_ok acc s :
  (forall d x r b s, l = d ++ x :: r -> I d s ->
     exists b' s', run (body b x) s = (Ok b', s') /\ I (d ++ [x]) s') ->
  I [] s -> exists b s', run (fold_m body l acc) s = (Ok b, s') /\ I l s'.
Proof. intros. by apply (fold_m_ok_from []). Qed.
End loops.

(** [filter (fun m => m ∉ d)] removes the names already processed. *)
Lemma filter_not_in_snoc {A} `{EqDecision A} (l d : list A) (n : A) :
  filter (fun m => m ∉ d ++ [n]) l = filter (fun m => m <> n) (filter (fun m => m ∉ d) l).
Proof. rewrite list_filter_filter. apply list_filter_iff. intros x. set_solver. Qed.

(** Names free in [d] and distinct stay free when one of them is taken. *)
Lemma Forall_notin_snoc {A} (l d : list A) (n : A) :
  Forall (fun m => m ∉ d) l -> n ∉ l -> Forall (fun m => m ∉ d ++ [n]) l.
Proof. rewrite !Forall_forall. intros Hl Hn x Hx. rewrite elem_of_app, list_elem_of_singleton.
  intros [Hd| ->]; [by eapply Hl|done]. Qed.

Lemma Forall_lookup_insert_None {K V} `{Countable K} (l : list K) (m : gmap K V) k v :
  Forall (fun k' => m !! k' = None) l -> k ∉ l -> Forall (fun k' => <[k := v]> m !! k' = None) l.
Proof. rewrite !Forall_forall. intros Hl Hk x Hx. rewrite lookup_insert_ne; [by apply Hl|].
  intros ->. done. Qed.

Lemma filter_idemp {A} (P : A -> Prop) `{forall x, Decision (P x)} (l : list A) :
  filter P (filter P l) = filter P l.
Proof. rewrite list_filter_filter. apply list_filter_iff. tauto. Qed.

(** The same for a [for] loop. *)
Section for_loops.
Context {S A : Type} (I : list A -> S -> Prop) (body : A -> pyM S unit) (l : list A).

Lemma for_ok_from d rest s :
  l = d ++ rest ->
  (forall d x r s, l = d ++ x :: r -> I d s ->
     exists s', run (body x) s = (Ok tt, s') /\ I (d ++ [x]) s') ->
  I d s -> exists s', run (for_ rest body) s = (Ok tt, s') /\ I l s'.
Proof.
  revert d s. induction rest as [|x rest IH]; intros d s Hl Hstep HI.
  - exists s. rewrite Hl, app_nil_r. done.
  - destruct (Hstep d x rest s Hl HI) as (s' & Hrun & HI').
    simpl. rewrite run_bind, Hrun.
    apply (IH (d ++ [x])); [by rewrite <- app_assoc|done|done].
Qed.

Lemma for_ok s :
  (forall d x r s, l = d ++ x :: r -> I d s ->
     exists s', run (body x) s = (Ok tt, s') /\ I (d ++ [x]) s') ->
  I [] s -> exists s', run (for_ l body) s = (Ok tt, s') /\ I l s'.
Proof. intros. by apply (for_ok_from []). Qed.
End for_loops.

(** [for_loop I as p] / [fold_loop I as p]: the loop of the goal completes
    with the invariant [I]; the side goals are the step and the initial
    state, after the main goal. *)
Tactic Notation "for_loop" constr(I) "as" simple_intropattern(p) :=
  match goal with
  | |- context [run (for_ ?l ?body) ?s] => destruct (for_ok I body l s) as p
  end.
Tactic Notation "fold_loop" constr(I) "as" simple_intropattern(p) :=
  match goal with
  | |- context [run (fold_m ?body ?l ?acc) ?s] => destruct (fold_m_ok I body l acc s) as p
  end.

(** A [fold_m] loop whose invariant also speaks of the accumulator. *)
Section fold_acc.
Context {S A B : Type} (I : list A -> B -> S -> Prop) (body : B -> A -> pyM S B) (l : list A).

Lemma fold_m_acc_from d rest acc s :
  l = d ++ rest ->
  (forall d x r b s, l = d ++ x :: r -> I d b s ->
     exists b' s', run (body b x) s = (Ok b', s') /\ I (d ++ [x]) b' s') ->
  I d acc s -> exists b s', run (fold_m body rest acc) s = (Ok b, s') /\ I l b s'.
Proof.
  revert d acc s. induction rest as [|x rest IH]; intros d acc s Hl Hstep HI.
  - exists acc, s. rewrite Hl, app_nil_r. done.
  - destruct (Hstep d x rest acc s Hl HI) as (b' & s' & Hrun & HI').
    simpl. rewrite run_bind, Hrun.
    apply (IH (d ++ [x])); [by rewrite <- app_assoc|done|done].
Qed.

Lemma fold_m_acc acc s :
  (forall d x r b s, l = d ++ x :: r -> I d b s ->
     exists b' s', run (body b x) s = (Ok b', s') /\ I (d ++ [x]) b' s') ->
  I [] acc s -> exists b s', run (fold_m body l acc) s = (Ok b, s') /\ I l b s'.
Proof. intros. by apply (fold_m_acc_from []). Qed.
End fold_acc.

Tactic Notation "fold_acc_loop" constr(I) "as" simple_intropattern(p) :=
  match goal with
  | |- context [run (fold_m ?body ?l ?acc) ?s] => destruct (fold_m_acc I body l acc s) as p
  end.

Lemma filter_ext_in {A} (P Q : A -> Prop) `{forall x, Decision (P x)} `{forall x, Decision (Q x)}
    (l : list A) :
  (forall x, x ∈ l -> P x <-> Q x) -> filter P l = filter Q l.
Proof.
  induction l as [|x l IH]; intros Hl; [done|]. rewrite !filter_cons.
  rewrite IH by set_solver. pose proof (Hl x ltac:(set_solver)).
  repeat case_decide; naive_solver.
Qed.
