(* ===== verification/PyStr.v ===== *)
(** * Python [str] operations used by the scripts

    [str.find] and the [in] test, slicing [s[:n]] and [s[n:]],
    [str.replace] and [str.lower]. [str.replace] is modelled as CPython
    computes it: for an empty pattern the replacement is interleaved
    around every character; otherwise a loop finds the leftmost occurrence,
    copies the text before it and the replacement, and continues after the
    occurrence. Its specification is the decomposition of the text into the
    pieces between leftmost non-overlapping occurrences ([leftmost_decomp]):
    the result is the pieces joined by the replacement. *)

From Stdlib Require Import String ZArith Lia.
From stdpp Require Import base list strings.
From S2P Require Import Spec2Rocq.

(** ** Prefixes, [s.find(sub)] and [sub in s] *)

Lemma prefix_app_iff (p s : string) :
  String.prefix p s = true <-> exists r, s = p +:+ r.
Proof.
  revert s. induction p as [|c p IH]; intros s.
  - split; [by exists s|]. by destruct s.
  - destruct s as [|d s]; simpl.
    + split; [done|]. intros [r Hr]. discriminate.
    + destruct (Ascii.ascii_dec c d) as [->|Hne].
      * rewrite IH. split; intros [r Hr]; exists r.
        -- by rewrite Hr.
        -- rewrite str_app_cons in Hr. congruence.
      * split; [done|]. intros [r Hr]. rewrite str_app_cons in Hr. congruence.
Qed.

Lemma prefix_app (p r : string) : String.prefix p (p +:+ r) = true.
Proof. apply prefix_app_iff. by exists r. Qed.

(** [s.find(sub)], with [None] for Python's [-1]. *)
Fixpoint find (sub s : string) : option nat :=
  if String.prefix sub s then Some 0
  else match s with
       | EmptyString => None
       | String _ s' => S <$> find sub s'
       end.

(** [sub in s]. *)
Definition contains (sub s : string) : bool := bool_decide (is_Some (find sub s)).

Lemma find_unfold (sub s : string) :
  find sub s =
    if String.prefix sub s then Some 0
    else match s with
         | EmptyString => None
         | String _ s' => S <$> find sub s'
         end.
Proof. by destruct s. Qed.

(** Slicing: [s[:n]] and [s[n:]] (both clamp at the end of [s]). *)
Fixpoint str_take (n : nat) (s : string) : string :=
  match n, s with
  | O, _ | _, EmptyString => EmptyString
  | S n, String c s => String c (str_take n s)
  end.

Fixpoint str_drop (n : nat) (s : string) : string :=
  match n, s with
  | O, _ => s
  | _, EmptyString => EmptyString
  | S n, String _ s => str_drop n s
  end.

Lemma str_take_drop (n : nat) (s : string) : str_take n s +:+ str_drop n s = s.
Proof.
  revert s. induction n as [|n IH]; intros [|c s]; try done.
  simpl. rewrite str_app_cons, IH. done.
Qed.

Lemma str_take_app_length (a b : string) : str_take (String.length a) (a +:+ b) = a.
Proof. induction a as [|c a IH]; [by destruct b|]. rewrite str_app_cons. simpl. by rewrite IH. Qed.

Lemma str_drop_app_length (a b : string) : str_drop (String.length a) (a +:+ b) = b.
Proof. induction a as [|c a IH]; [by destruct b|]. rewrite str_app_cons. simpl. by rewrite IH. Qed.

Lemma str_drop_add (n m : nat) (s : string) : str_drop (n + m) s = str_drop m (str_drop n s).
Proof.
  revert s. induction n as [|n IH]; intros [|c s]; simpl; try done.
  by destruct m.
Qed.

Lemma str_app_inv_length (a b x y : string) :
  String.length a = String.length b -> a +:+ x = b +:+ y -> a = b /\ x = y.
Proof.
  revert b. induction a as [|c a IH]; intros [|d b] Hl Heq; try done.
  rewrite !str_app_cons in Heq. injection Heq as -> Heq.
  simpl in Hl. destruct (IH b ltac:(lia) Heq) as [-> ->]. done.
Qed.

(** The occurrence [find] reports is an occurrence. *)
Lemma find_Some (sub s : string) (i : nat) :
  find sub s = Some i ->
  String.length (str_take i s) = i /\
  s = str_take i s +:+ sub +:+ str_drop (i + String.length sub) s.
Proof.
  revert i. induction s as [|c s IH]; intros i Hf; rewrite find_unfold in Hf.
  - destruct (String.prefix sub "") eqn:Hp; [|done].
    injection Hf as <-. apply prefix_app_iff in Hp as [r Hr].
    destruct sub; [|by rewrite str_app_cons in Hr]. done.
  - destruct (String.prefix sub (String c s)) eqn:Hp.
    + injection Hf as <-. apply prefix_app_iff in Hp as [r Hr].
      rewrite Hr, Nat.add_0_l, str_drop_app_length. done.
    + destruct (find sub s) as [j|] eqn:Hj; simpl in Hf; [|done].
      injection Hf as <-. destruct (IH j eq_refl) as [Hl Hs].
      simpl. rewrite Hl, str_app_cons, <- Hs. done.
Qed.

(** No occurrence starts before the position [find] reports. *)
Lemma find_Some_first (sub s : string) (i : nat) :
  find sub s = Some i ->
  forall j, j < i -> String.prefix sub (str_drop j s) = false.
Proof.
  revert i. induction s as [|c s IH]; intros i Hf j Hj; rewrite find_unfold in Hf.
  - destruct (String.prefix sub ""); [injection Hf as <-; lia|done].
  - destruct (String.prefix sub (String c s)) eqn:Hp.
    + injection Hf as <-. lia.
    + destruct (find sub s) as [k|] eqn:Hk; simpl in Hf; [|done].
      injection Hf as <-. destruct j as [|j]; [done|]. simpl.
      apply (IH k eq_refl). lia.
Qed.

Lemma find_None (sub s : string) :
  find sub s = None <-> forall a b, s <> a +:+ sub +:+ b.
Proof.
  split.
  - intros Hf a. revert s Hf. induction a as [|c a IH]; intros s Hf b ->.
    + rewrite str_app_nil_l, find_unfold, prefix_app in Hf. done.
    + rewrite str_app_cons, find_unfold in Hf.
      destruct (String.prefix _ _); [done|].
      destruct (find sub (a +:+ sub +:+ b)) eqn:E; [done|]. by eapply IH.
  - intros H. destruct (find sub s) as [i|] eqn:Hf; [|done].
    destruct (find_Some _ _ _ Hf) as [_ Hs]. by destruct (H _ _ Hs).
Qed.

Lemma contains_false (sub s : string) :
  contains sub s = false <-> find sub s = None.
Proof.
  unfold contains. rewrite bool_decide_eq_false.
  destruct (find sub s); split; intros H; try done. by destruct H.
Qed.

(** ** [s.replace(old, new)] *)

(** CPython's interleaving case: an empty pattern matches before every
    character and at the end ([''.replace('', 'x') == 'x']). *)
Fixpoint interleave (new s : string) : string :=
  match s with
  | EmptyString => new
  | String c s' => new +:+ String c (interleave new s')
  end.

(** CPython's loop for a non-empty pattern: find the next occurrence, copy
    the text before it and the replacement, go on after the occurrence.
    The fuel bounds the number of occurrences; [str_replace] gives one more
    than the length of the text, which is enough ([replace_loop_fuel]). *)
Fixpoint replace_loop (fuel : nat) (s old new : string) : string :=
  match fuel with
  | O => s
  | S fuel =>
      match find old s with
      | None => s
      | Some i =>
          str_take i s +:+ new +:+
            replace_loop fuel (str_drop (i + String.length old) s) old new
      end
  end.

(** [s.replace(old, new)]. *)
Definition str_replace (s old new : string) : string :=
  if String.length old =? 0 then interleave new s
  else replace_loop (S (String.length s)) s old new.

(** *** Specification: the leftmost decomposition *)

(** [leftmost_decomp old s ps]: [s] is the pieces [ps] separated by
    occurrences of [old], each separator the leftmost occurrence of [old]
    in what remains, and the last piece free of [old]. *)
Inductive leftmost_decomp (old : string) : string -> list string -> Prop :=
| ld_last s :
    find old s = None -> leftmost_decomp old s [s]
| ld_cons p r ps :
    find old (p +:+ old +:+ r) = Some (String.length p) ->
    leftmost_decomp old r ps ->
    leftmost_decomp old (p +:+ old +:+ r) (p :: ps).

(** [sep.join(ps)] is [String.concat sep ps]. *)
Lemma concat_cons (sep p : string) (ps : list string) :
  ps <> [] -> String.concat sep (p :: ps) = p +:+ sep +:+ String.concat sep ps.
Proof. by destruct ps. Qed.

Lemma decomp_nonempty old s ps : leftmost_decomp old s ps -> ps <> [].
Proof. by destruct 1. Qed.

Lemma find_empty (s : string) : find "" s = Some 0.
Proof. by destruct s. Qed.

Lemma nonempty_length (old : string) : old <> "" -> 0 < String.length old.
Proof. destruct old; simpl; [done|lia]. Qed.

(** Every text has a leftmost decomposition for a non-empty pattern. *)
Lemma decomp_exists (old s : string) :
  old <> "" -> exists ps, leftmost_decomp old s ps.
Proof.
  intros Hold. remember (String.length s) as n eqn:Hn. revert s Hn.
  induction n as [n IH] using lt_wf_ind; intros s Hn.
  destruct (find old s) as [i|] eqn:Hf; [|by eexists; constructor].
  pose proof Hf as Hf'. apply find_Some in Hf' as [Hl Hs].
  set (r := str_drop (i + String.length old) s) in *.
  assert (String.length r < n).
  { pose proof (f_equal String.length Hs) as HL.
    rewrite !str_length_app in HL. pose proof (nonempty_length old Hold). lia. }
  destruct (IH _ H r eq_refl) as [ps Hps].
  exists (str_take i s :: ps). set (p := str_take i s) in *. clearbody p r.
  subst s i. by constructor.
Qed.

Lemma decomp_length old s ps :
  old <> "" -> leftmost_decomp old s ps -> length ps <= S (String.length s).
Proof.
  intros Hold. pose proof (nonempty_length old Hold).
  induction 1 as [s|p r ps _ _ IH]; simpl; [lia|].
  rewrite !str_length_app. lia.
Qed.

(** Joining the pieces with the pattern gives the text back. *)
Lemma decomp_concat old s ps : leftmost_decomp old s ps -> String.concat old ps = s.
Proof.
  induction 1 as [s|p r ps _ Hd IH]; [done|].
  rewrite concat_cons, IH; [done|]. by eapply decomp_nonempty.
Qed.

(** The decomposition is unique. *)
Lemma decomp_unique old s ps1 ps2 :
  leftmost_decomp old s ps1 -> leftmost_decomp old s ps2 -> ps1 = ps2.
Proof.
  intros H1. revert ps2. induction H1 as [s Hf|p r ps Hf _ IH]; intros ps2 H2.
  - inversion H2; subst; [done|congruence].
  - inversion H2 as [s' Hf'|p' r' ps' Hf' Hd' Heq]; subst; [congruence|].
    rewrite Heq, Hf in Hf'. injection Hf' as Hl.
    apply str_app_inv_length in Heq as [-> Heq]; [|done].
    apply str_app_inv_length in Heq as [_ ->]; [|done].
    by rewrite (IH _ Hd').
Qed.

Lemma replace_loop_decomp old new s ps fuel :
  leftmost_decomp old s ps -> length ps <= fuel ->
  replace_loop fuel s old new = String.concat new ps.
Proof.
  intros Hd. revert fuel.
  induction Hd as [s Hf|p r ps Hf Hd IH]; intros [|fuel] Hfuel; simpl in Hfuel; try lia.
  - simpl. by rewrite Hf.
  - cbn [replace_loop].
    rewrite Hf, str_take_app_length, str_drop_add, !str_drop_app_length.
    rewrite IH by lia. rewrite concat_cons; [done|]. by eapply decomp_nonempty.
Qed.

(** *** [str.replace] meets its specification *)

Lemma str_replace_decomp old new s ps :
  old <> "" -> leftmost_decomp old s ps -> str_replace s old new = String.concat new ps.
Proof.
  intros Hold Hd. unfold str_replace.
  destruct (String.length old =? 0) eqn:E.
  - apply Nat.eqb_eq in E. pose proof (nonempty_length old Hold). lia.
  - apply replace_loop_decomp; [done|]. by apply (decomp_length old).
Qed.

(** The loop needs no more fuel than [str_replace] gives it: any larger
    fuel computes the same text. *)
Lemma replace_loop_fuel old new s fuel :
  old <> "" -> S (String.length s) <= fuel ->
  replace_loop fuel s old new = str_replace s old new.
Proof.
  intros Hold Hf. destruct (decomp_exists old s Hold) as [ps Hd].
  rewrite (str_replace_decomp _ _ _ _ Hold Hd).
  apply replace_loop_decomp; [done|]. pose proof (decomp_length _ _ _ Hold Hd). lia.
Qed.

(** A text that is the pattern itself becomes the replacement. *)
Lemma str_replace_whole old new : old <> "" -> str_replace old old new = new.
Proof.
  intros Hold. assert (leftmost_decomp old ("" +:+ old +:+ "") [""; ""]) as Hd.
  { constructor; [|constructor].
    - by rewrite find_unfold, str_app_nil_l, prefix_app.
    - destruct old; [done|]. by rewrite find_unfold; destruct old. }
  rewrite str_app_nil_l, str_app_nil_r in Hd.
  rewrite (str_replace_decomp old new old [""; ""]) by done. simpl.
  by rewrite str_app_nil_r.
Qed.

Lemma find_None_nonempty old s : find old s = None -> old <> "".
Proof. intros Hf ->. by rewrite find_empty in Hf. Qed.

(** A text without the pattern is returned unchanged. *)
Lemma str_replace_absent old new s : find old s = None -> str_replace s old new = s.
Proof.
  intros Hf. rewrite (str_replace_decomp old new s [s]); [done| |by constructor].
  by eapply find_None_nonempty.
Qed.

(** *** [str.replace] across a character the pattern does not contain

    No occurrence of the pattern can straddle such a character, so the
    replacement works on each side of it independently. This is what
    makes a text-level [str.replace] on a JSON document act inside its
    strings only. *)

Fixpoint char_in (c : Ascii.ascii) (s : string) : bool :=
  match s with
  | EmptyString => false
  | String d s' => bool_decide (c = d) || char_in c s'
  end.

(** Every character of [s] satisfies [P]. *)
Fixpoint str_forall (P : Ascii.ascii -> bool) (s : string) : bool :=
  match s with
  | EmptyString => true
  | String c s' => P c && str_forall P s'
  end.

Lemma str_forall_app P a b : str_forall P (a +:+ b) = str_forall P a && str_forall P b.
Proof. induction a as [|c a IH]; [done|]. rewrite str_app_cons. simpl. by rewrite IH, andb_assoc. Qed.

Lemma prefix_app_barrier tok x c y :
  char_in c tok = false -> String.prefix tok (x +:+ String c y) = true -> String.prefix tok x = true.
Proof.
  revert x. induction tok as [|d tok IH]; intros x Hc Hp; [by destruct x|].
  cbn [char_in] in Hc. apply orb_false_iff in Hc as [Hcd Hc].
  destruct x as [|e x].
  - rewrite str_app_nil_l in Hp. cbn in Hp.
    destruct (Ascii.ascii_dec d c) as [->|]; [by rewrite bool_decide_true in Hcd|done].
  - rewrite str_app_cons in Hp. cbn in Hp |- *. destruct (Ascii.ascii_dec d e); [|done]. by apply IH.
Qed.

Lemma prefix_app_long tok x y :
  String.prefix tok (x +:+ y) = true -> String.length tok <= String.length x -> String.prefix tok x = true.
Proof.
  revert x. induction tok as [|d tok IH]; intros [|e x] Hp Hl; simpl in Hl; try done; [lia|].
  rewrite str_app_cons in Hp. cbn in Hp |- *. destruct (Ascii.ascii_dec d e); [|done].
  apply IH; [done|lia].
Qed.

Lemma prefix_app_mono tok x y : String.prefix tok x = true -> String.prefix tok (x +:+ y) = true.
Proof.
  intros Hp. apply prefix_app_iff in Hp as [r ->]. apply prefix_app_iff.
  exists (r +:+ y). by rewrite str_app_assoc.
Qed.

Lemma prefix_barrier_head tok c y :
  tok <> "" -> char_in c tok = false -> String.prefix tok (String c y) = false.
Proof.
  intros Ht Hc. destruct tok as [|d tok]; [done|]. cbn in Hc |- *.
  destruct (Ascii.ascii_dec d c) as [->|]; [|done].
  by rewrite bool_decide_true in Hc.
Qed.

(** A text without the pattern, then the character: the search goes on
    after the character. *)
Lemma find_barrier_none tok a c y :
  tok <> "" -> char_in c tok = false -> find tok a = None ->
  find tok (a +:+ String c y) = (fun i => String.length a + S i) <$> find tok y.
Proof.
  intros Ht Hc. induction a as [|d a IH]; intros Ha.
  - rewrite str_app_nil_l, find_unfold, prefix_barrier_head by done. by destruct (find tok y).
  - rewrite find_unfold in Ha. rewrite str_app_cons, find_unfold.
    destruct (String.prefix tok (String d a)) eqn:Hp; [done|].
    destruct (String.prefix tok (String d (a +:+ String c y))) eqn:E.
    { rewrite <-str_app_cons in E. apply prefix_app_barrier in E; [congruence|done]. }
    destruct (find tok a) eqn:Ea; [done|]. rewrite IH by done. by destruct (find tok y).
Qed.

(** The first occurrence, when it lies inside [x], is also the first in
    any extension of [x]. *)
Lemma find_app_inside tok x y i :
  find tok x = Some i -> i + String.length tok <= String.length x -> find tok (x +:+ y) = Some i.
Proof.
  revert i. induction x as [|d x IH]; intros i Hf Hl.
  - rewrite find_unfold in Hf. destruct (String.prefix tok "") eqn:Hp; [|done].
    injection Hf as <-. destruct tok; [|done]. by rewrite find_empty.
  - rewrite find_unfold in Hf. rewrite str_app_cons, find_unfold.
    destruct (String.prefix tok (String d x)) eqn:Hp.
    { injection Hf as <-. rewrite <-str_app_cons. by rewrite prefix_app_mono. }
    destruct (find tok x) as [j|] eqn:Ej; [|done]. injection Hf as <-.
    destruct (String.prefix tok (String d (x +:+ y))) eqn:E.
    { rewrite <-str_app_cons in E. apply prefix_app_long in E; [congruence|simpl in *; lia]. }
    rewrite (IH j) by (done || simpl in Hl; lia). done.
Qed.

Lemma decomp_barrier tok c a b psa psb :
  tok <> "" -> char_in c tok = false ->
  leftmost_decomp tok a psa -> leftmost_decomp tok b psb ->
  exists ps, leftmost_decomp tok (a +:+ String c b) ps /\
    forall v, String.concat v ps = String.concat v psa +:+ String c (String.concat v psb).
Proof.
  intros Ht Hc Ha Hb. induction Ha as [a Hfa|p r ps Hf Hd IH].
  - destruct Hb as [b Hfb|p r ps Hf Hd].
    + exists [a +:+ String c b]. split; [|done]. constructor.
      by rewrite find_barrier_none, Hfb.
    + exists ((a +:+ String c p) :: ps). split.
      * replace (a +:+ String c (p +:+ tok +:+ r)) with ((a +:+ String c p) +:+ tok +:+ r)
          by (by rewrite str_app_assoc, str_app_cons).
        constructor; [|done]. rewrite str_app_assoc, (str_app_cons c p).
        rewrite find_barrier_none, Hf by done. simpl. by rewrite str_length_app.
      * intros v. pose proof (decomp_nonempty _ _ _ Hd).
        rewrite !concat_cons by done. change (String.concat v [a]) with a.
        rewrite (concat_cons v p ps) by done. by rewrite !str_app_assoc, str_app_cons.
  - destruct IH as (ps' & Hd' & Hv). exists (p :: ps'). split.
    + rewrite !str_app_assoc. constructor; [|done].
      rewrite <-(str_app_assoc tok), <-str_app_assoc.
      apply find_app_inside; [done|]. rewrite !str_length_app. lia.
    + intros v. rewrite !concat_cons, Hv by (eapply decomp_nonempty; eassumption).
      by rewrite !str_app_assoc.
Qed.

Lemma str_replace_empty tok v : tok <> "" -> str_replace "" tok v = "".
Proof. intros Ht. apply str_replace_absent. rewrite find_unfold. by destruct tok. Qed.

Lemma str_replace_barrier tok v a c b :
  tok <> "" -> char_in c tok = false ->
  str_replace (a +:+ String c b) tok v = str_replace a tok v +:+ String c (str_replace b tok v).
Proof.
  intros Ht Hc. destruct (decomp_exists tok a Ht) as [psa Ha].
  destruct (decomp_exists tok b Ht) as [psb Hb].
  destruct (decomp_barrier tok c a b psa psb Ht Hc Ha Hb) as (ps & Hd & Hv).
  by rewrite !(str_replace_decomp tok v _ _ Ht Hd), (str_replace_decomp tok v _ _ Ht Ha),
    (str_replace_decomp tok v _ _ Ht Hb).
Qed.

(** A piece of text made of characters the pattern does not contain is
    left as it is, and separates what is around it. *)
Lemma str_replace_wall tok v a w b :
  tok <> "" -> str_forall (fun c => negb (char_in c tok)) w = true -> w <> "" ->
  str_replace (a +:+ w +:+ b) tok v = str_replace a tok v +:+ w +:+ str_replace b tok v.
Proof.
  intros Ht Hw Hne. revert a. induction w as [|c w IH]; intros a; [done|].
  cbn [str_forall] in Hw. apply andb_prop in Hw as [Hc Hw]. apply negb_true_iff in Hc.
  rewrite str_app_cons, str_replace_barrier by done. destruct w as [|d w].
  - by rewrite str_app_nil_l, str_app_cons, str_app_nil_l.
  - rewrite <-(str_app_nil_l (String d w +:+ b)), IH, str_replace_empty, !str_app_nil_l by done.
    by rewrite str_app_cons.
Qed.

#[export] Hint Resolve decomp_exists find_None_nonempty : py.

(** ** [str.lower], [sep.join(l)] and the [repr] of a list of strings *)

(** [c.lower()] on an ASCII character. *)
Definition ascii_lower (c : Ascii.ascii) : Ascii.ascii :=
  let n := Ascii.nat_of_ascii c in
  if (65 <=? n) && (n <=? 90) then Ascii.ascii_of_nat (n + 32) else c.

(** [s.lower()]. *)
Fixpoint lower (s : string) : string :=
  match s with
  | EmptyString => EmptyString
  | String c s' => String (ascii_lower c) (lower s')
  end.

(** The one-character string ["\n"]. *)
Definition nl : string := String (Ascii.ascii_of_nat 10) EmptyString.

(** [sep.join(l)]. *)
Definition join (sep : string) (l : list string) : string := String.concat sep l.

(** The text [f'{l}'] gives for a list of strings without quotes in them:
    [['a', 'b']]. *)
Definition repr_list (l : list string) : string :=
  "[" +:+ join ", " ((fun s => "'" +:+ s +:+ "'") <$> l) +:+ "]".

Lemma lower_length (s : string) : String.length (lower s) = String.length s.
Proof. induction s as [|c s IH]; simpl; congruence. Qed.

(** [s[:len(p)] == p] says that [s] starts with [p]. *)
Lemma str_take_prefix (p s : string) :
  str_take (String.length p) s = p <-> exists r, s = p +:+ r.
Proof.
  split.
  - intros H. exists (str_drop (String.length p) s). rewrite <- (str_take_drop (String.length p) s) at 1.
    by rewrite H.
  - intros [r ->]. apply str_take_app_length.
Qed.

(** ** [int(s)] and [Decimal(s)] on the text of an integer *)

Definition digit_value (c : Ascii.ascii) : option Z :=
  let n := Ascii.nat_of_ascii c in
  if (48 <=? n) && (n <=? 57) then Some (Z.of_nat (n - 48)) else None.

Fixpoint digits_value (acc : Z) (s : string) : option Z :=
  match s with
  | EmptyString => Some acc
  | String c s' =>
      match digit_value c with
      | Some d => digits_value (10 * acc + d)%Z s'
      | None => None
      end
  end.

(** An optional sign and at least one digit ([None]: Python raises). *)
Definition parse_int (s : string) : option Z :=
  let unsigned s := match s with EmptyString => None | _ => digits_value 0 s end in
  match s with
  | String c s' =>
      if Ascii.nat_of_ascii c =? 45 then Z.opp <$> unsigned s'
      else if Ascii.nat_of_ascii c =? 43 then unsigned s'
      else unsigned s
  | EmptyString => None
  end.

(** Appending the same suffix is injective. *)
Lemma str_app_suffix_inj (a b x : string) : a +:+ x = b +:+ x -> a = b.
Proof.
  intros H. assert (Hl : String.length a = String.length b).
  { apply (f_equal String.length) in H. rewrite !str_length_app in H. lia. }
  by apply (str_app_inv_length a b x x Hl).
Qed.

(** A text holds what it is built around. *)
Lemma contains_app_mid (a sub b : string) : contains sub (a +:+ sub +:+ b) = true.
Proof.
  destruct (contains sub _) eqn:E; [done|].
  apply contains_false in E. rewrite find_None in E. by destruct (E a b).
Qed.
