(* ===== verification/Json.v ===== *)
(** * JSON values, Python's [json.dumps] and [json.loads]

    The service functions of [mysfitsTableClient.py] answer with
    [json.dumps(d)] of a dict built in the code, and
    [load_initial_values] reads its file with [json.load]. A JSON value
    is [json]; an object keeps its keys in insertion order, as a Python
    dict does. [json_dumps] is [json.dumps] with its default arguments:
    separators [', '] and [': '], [true]/[false]/[null], and
    [ensure_ascii], which escapes every character outside [' '..'~']
    (CPython's [ESCAPE_ASCII]). [json_loads] is CPython's scanner for
    the values the model has: whitespace between tokens, the literals,
    integers (no leading zero), strings with their escapes (a raw control
    character is an error), arrays and objects (a repeated key keeps its
    first place and its last value), and nothing but whitespace after
    the value. Floats and code points above 255 are outside the model:
    the parser answers [None] for them, as for a [JSONDecodeError].

    The round trip is proved in layers: a string literal ([read_escape]),
    an integer ([read_int_pretty]), every value before the text that may
    follow it in a document ([json_reads_back], by nested induction
    [json_ind']), and the whole text, with the fuel bound
    [json_size_length]. *)

From Stdlib Require Import String Ascii ZArith.
From stdpp Require Import base list strings pretty.
From S2P Require Import Spec2Rocq PyStr.

Inductive json :=
| JNull
| JBool (b : bool)
| JInt (z : Z)
| JStr (s : string)
| JArr (l : list json)
| JObj (l : list (string * json)).

(** ** Escaping *)

Definition char (n : nat) : string := String (ascii_of_nat n) EmptyString.

(** The quote and the backslash. *)
Definition dq : string := char 34.
Definition bsl : string := char 92.

Definition hex_digit (n : nat) : Ascii.ascii :=
  if n <? 10 then ascii_of_nat (48 + n) else ascii_of_nat (87 + n).

(** ['\\u{0:04x}'.format(n)] for a character code [n < 256]. *)
Definition u_escape (n : nat) : string :=
  bsl +:+ "u00" +:+ String (hex_digit (n / 16)) (String (hex_digit (n mod 16)) EmptyString).

(** The escape of one character by [json.dumps] ([ensure_ascii=True]). *)
Definition escape_char (c : Ascii.ascii) : string :=
  let n := nat_of_ascii c in
  if n =? 34 then bsl +:+ dq
  else if n =? 92 then bsl +:+ bsl
  else if n =? 10 then bsl +:+ "n"
  else if n =? 13 then bsl +:+ "r"
  else if n =? 9 then bsl +:+ "t"
  else if n =? 8 then bsl +:+ "b"
  else if n =? 12 then bsl +:+ "f"
  else if (32 <=? n) && (n <=? 126) then String c EmptyString
  else u_escape n.

Fixpoint escape (s : string) : string :=
  match s with
  | EmptyString => EmptyString
  | String c s' => escape_char c +:+ escape s'
  end.

(** ** [json.dumps] *)

Definition dump_str (s : string) : string := dq +:+ escape s +:+ dq.

Fixpoint json_dumps (j : json) : string :=
  match j with
  | JNull => "null"
  | JBool true => "true"
  | JBool false => "false"
  | JInt z => pretty z
  | JStr s => dump_str s
  | JArr l => "[" +:+ join ", " (map json_dumps l) +:+ "]"
  | JObj kvs =>
      "{" +:+ join ", " (map (fun kv => dump_str kv.1 +:+ ": " +:+ json_dumps kv.2) kvs) +:+ "}"
  end.

(** ** Decoding a string literal *)

Definition hex_value (c : Ascii.ascii) : option nat :=
  let n := nat_of_ascii c in
  if (48 <=? n) && (n <=? 57) then Some (n - 48)
  else if (97 <=? n) && (n <=? 102) then Some (n - 87)
  else if (65 <=? n) && (n <=? 70) then Some (n - 55)
  else None.

(** The character of a one-letter escape [\x]. *)
Definition simple_unescape (e : Ascii.ascii) : option Ascii.ascii :=
  match nat_of_ascii e with
  | 34 => Some (ascii_of_nat 34)
  | 92 => Some (ascii_of_nat 92)
  | 47 => Some (ascii_of_nat 47)
  | 110 => Some (ascii_of_nat 10)
  | 114 => Some (ascii_of_nat 13)
  | 116 => Some (ascii_of_nat 9)
  | 98 => Some (ascii_of_nat 8)
  | 102 => Some (ascii_of_nat 12)
  | _ => None
  end.

(** The body of a string literal, after its opening quote: the decoded
    string and the text after the closing quote. A raw control character
    is an error ([strict=True], the default); code points above 255 are
    outside the model. Both give [None]. *)
Fixpoint read_str_body (s : string) : option (string * string) :=
  match s with
  | EmptyString => None
  | String c s' =>
      if nat_of_ascii c =? 34 then Some (EmptyString, s')
      else if nat_of_ascii c <? 32 then None
      else if nat_of_ascii c =? 92 then
        match s' with
        | String e s'' =>
            if nat_of_ascii e =? 117 then
              match s'' with
              | String h1 (String h2 (String h3 (String h4 rest))) =>
                  match hex_value h1, hex_value h2, hex_value h3, hex_value h4 with
                  | Some 0, Some 0, Some a, Some b =>
                      '(r, t) ← read_str_body rest; Some (String (ascii_of_nat (16 * a + b)) r, t)
                  | _, _, _, _ => None
                  end
              | _ => None
              end
            else
              match simple_unescape e with
              | Some d => '(r, t) ← read_str_body s''; Some (String d r, t)
              | None => None
              end
        | EmptyString => None
        end
      else '(r, t) ← read_str_body s'; Some (String c r, t)
  end.

(** A string literal: its opening quote, then its body. *)
Definition read_str (s : string) : option (string * string) :=
  match s with
  | String c s' => if nat_of_ascii c =? 34 then read_str_body s' else None
  | EmptyString => None
  end.

(** ** [json.loads] *)

(** The whitespace the scanner skips between tokens. *)
Definition is_ws (c : Ascii.ascii) : bool :=
  let n := nat_of_ascii c in (n =? 32) || (n =? 9) || (n =? 10) || (n =? 13).

Fixpoint skip_ws (s : string) : string :=
  match s with
  | String c s' => if is_ws c then skip_ws s' else s
  | EmptyString => EmptyString
  end.

(** The longest run of digits at the start of the text, and the rest. *)
Fixpoint span_digits (s : string) : string * string :=
  match s with
  | String c s' =>
      if bool_decide (is_Some (digit_value c)) then let '(ds, r) := span_digits s' in (String c ds, r)
      else (EmptyString, s)
  | EmptyString => (EmptyString, EmptyString)
  end.

(** The rest of a number must not continue with a fraction or an
    exponent: such a number is a [float] (outside the model) or an error. *)
Definition int_end (s : string) : bool :=
  match s with
  | String c _ => negb ((nat_of_ascii c =? 46) || (nat_of_ascii c =? 101) || (nat_of_ascii c =? 69))
  | EmptyString => true
  end.

(** The integer syntax of the scanner: an optional minus, then [0] or digits not starting with [0]. *)
Definition read_unsigned (s : string) : option (Z * string) :=
  match s with
  | String c s' =>
      if nat_of_ascii c =? 48 then Some (0%Z, s')
      else let '(ds, r) := span_digits s in
           match ds with
           | EmptyString => None
           | _ => v ← digits_value 0 ds; Some (v, r)
           end
  | EmptyString => None
  end.

Definition read_int (s : string) : option (Z * string) :=
  '(z, r) ← match s with
            | String c s' => if nat_of_ascii c =? 45 then '(v, r) ← read_unsigned s'; Some (Z.opp v, r)
                             else read_unsigned s
            | EmptyString => None
            end;
  if int_end r then Some (z, r) else None.

(** A dict built from its members in order: a repeated key keeps its
    first position and takes the last value. *)
Definition dict_set (kvs : list (string * json)) (k : string) (v : json) : list (string * json) :=
  if bool_decide (k ∈ kvs.*1) then (fun kv => if String.eqb kv.1 k then (k, v) else kv) <$> kvs
  else kvs ++ [(k, v)].

Definition dict_of (members : list (string * json)) : list (string * json) :=
  foldl (fun d kv => dict_set d kv.1 kv.2) [] members.

(** A value, then the text after it. Each call consumes at least one
    character, so [fuel] can be the length of the text. [None] is a
    [JSONDecodeError], or a value outside the model (a float, a code
    point above 255). *)
Fixpoint read_value (fuel : nat) (s : string) : option (json * string) :=
  match fuel with
  | 0 => None
  | S fuel =>
      match skip_ws s with
      | String c s' =>
          let n := nat_of_ascii c in
          if n =? 34 then '(x, r) ← read_str_body s'; Some (JStr x, r)
          else if n =? 91 then
            match skip_ws s' with
            | String d r => if nat_of_ascii d =? 93 then Some (JArr [], r)
                            else '(l, r) ← read_elements fuel s'; Some (JArr l, r)
            | EmptyString => None
            end
          else if n =? 123 then
            match skip_ws s' with
            | String d r => if nat_of_ascii d =? 125 then Some (JObj [], r)
                            else '(l, r) ← read_members fuel s'; Some (JObj (dict_of l), r)
            | EmptyString => None
            end
          else if String.prefix "null" (String c s') then Some (JNull, str_drop 4 (String c s'))
          else if String.prefix "true" (String c s') then Some (JBool true, str_drop 4 (String c s'))
          else if String.prefix "false" (String c s') then Some (JBool false, str_drop 5 (String c s'))
          else '(z, r) ← read_int (String c s'); Some (JInt z, r)
      | EmptyString => None
      end
  end
(** The elements of an array, up to its closing bracket. *)
with read_elements (fuel : nat) (s : string) : option (list json * string) :=
  match fuel with
  | 0 => None
  | S fuel =>
      '(v, r) ← read_value fuel s;
      match skip_ws r with
      | String c r' =>
          if nat_of_ascii c =? 44 then '(vs, r'') ← read_elements fuel r'; Some (v :: vs, r'')
          else if nat_of_ascii c =? 93 then Some ([v], r')
          else None
      | EmptyString => None
      end
  end
(** The members of an object, up to its closing brace. *)
with read_members (fuel : nat) (s : string) : option (list (string * json) * string) :=
  match fuel with
  | 0 => None
  | S fuel =>
      '(k, r) ← read_str (skip_ws s);
      match skip_ws r with
      | String c r' =>
          if nat_of_ascii c =? 58 then
            '(v, r'') ← read_value fuel r';
            match skip_ws r'' with
            | String d r3 =>
                if nat_of_ascii d =? 44 then '(kvs, r4) ← read_members fuel r3; Some ((k, v) :: kvs, r4)
                else if nat_of_ascii d =? 125 then Some ([(k, v)], r3)
                else None
            | EmptyString => None
            end
          else None
      | EmptyString => None
      end
  end.

(** [json.loads(s)]: one value, then only whitespace ("Extra data"
    otherwise). *)
Definition json_loads (s : string) : option json :=
  '(v, r) ← read_value (String.length s) s;
  match skip_ws r with EmptyString => Some v | _ => None end.

(** ** The string encoding round trip *)

(** Decoding the escape of one character gives it back. *)
Lemma read_escape_char c rest :
  read_str_body (escape_char c +:+ rest) =
    '(r, t) ← read_str_body rest; Some (String c r, t).
Proof. destruct c as [[] [] [] [] [] [] [] []]; reflexivity. Qed.

Lemma read_escape s rest :
  read_str_body (escape s +:+ dq +:+ rest) = Some (s, rest).
Proof.
  induction s as [|c s IH]; [reflexivity|].
  simpl. rewrite str_app_assoc, read_escape_char, IH. reflexivity.
Qed.

(** The string encoding of [json.dumps] is decodable: reading a
    string literal from [json.dumps(s)] followed by any text gives back
    [s] and that text. So the escaping is injective and a string field of
    a response cannot spill into the rest of the document. *)
Theorem dump_str_roundtrip s rest : read_str (dump_str s +:+ rest) = Some (s, rest).
Proof. unfold dump_str. rewrite !str_app_assoc. apply read_escape. Qed.

(** ** The integers [json.dumps] writes *)

Fixpoint all_digits (s : string) : bool :=
  match s with
  | String c s' => bool_decide (is_Some (digit_value c)) && all_digits s'
  | EmptyString => true
  end.

(** The text does not continue a number. *)
Definition no_digit_start (s : string) : Prop :=
  match s with String c _ => digit_value c = None | EmptyString => True end.

Lemma digit_value_char d : (d < 10)%N -> digit_value (pretty_N_char d) = Some (Z.of_N d).
Proof.
  intros Hd. assert (d = 0 \/ d = 1 \/ d = 2 \/ d = 3 \/ d = 4 \/ d = 5 \/ d = 6 \/ d = 7 \/ d = 8 \/ d = 9)%N
    as H by lia. repeat destruct H as [->|H]; try reflexivity. subst. reflexivity.
Qed.

Lemma pretty_N_go_app x s : pretty_N_go x s = pretty_N_go x "" +:+ s.
Proof.
  revert s. induction (N.lt_wf_0 x) as [x _ IH]; intros s.
  destruct (decide (x = 0)%N) as [->|Hx]; [done|].
  rewrite (pretty_N_go_step x s), (pretty_N_go_step x "") by lia. set (c := pretty_N_char _).
  assert (x `div` 10 < x)%N as Hlt by (apply N.div_lt; lia).
  rewrite (IH _ Hlt (String c s)), (IH _ Hlt (String c "")). by rewrite str_app_assoc.
Qed.

Lemma all_digits_app a b : all_digits (a +:+ b) = all_digits a && all_digits b.
Proof. induction a as [|c a IH]; [done|]. simpl. by rewrite IH, andb_assoc. Qed.

Lemma pretty_N_go_digits x : all_digits (pretty_N_go x "") = true.
Proof.
  induction (N.lt_wf_0 x) as [x _ IH].
  destruct (decide (x = 0)%N) as [->|Hx]; [done|].
  rewrite (pretty_N_go_step x), pretty_N_go_app, all_digits_app by lia.
  rewrite IH by (apply N.div_lt; lia). simpl. rewrite digit_value_char by (apply N.mod_lt; lia). done.
Qed.

Lemma digits_value_app acc a b :
  digits_value acc (a +:+ b) = v ← digits_value acc a; digits_value v b.
Proof.
  revert acc. induction a as [|c a IH]; intros acc; [done|]. simpl.
  destruct (digit_value c); [apply IH|done].
Qed.

Lemma digits_value_pretty_N_go x : digits_value 0 (pretty_N_go x "") = Some (Z.of_N x).
Proof.
  induction (N.lt_wf_0 x) as [x _ IH].
  destruct (decide (x = 0)%N) as [->|Hx]; [done|].
  rewrite (pretty_N_go_step x), pretty_N_go_app, digits_value_app by lia.
  rewrite IH by (apply N.div_lt; lia). simpl. rewrite digit_value_char by (apply N.mod_lt; lia).
  simpl. f_equal. rewrite (N.div_mod x 10) at 3 by lia. lia.
Qed.

Lemma span_digits_app ds r :
  all_digits ds = true -> no_digit_start r -> span_digits (ds +:+ r) = (ds, r).
Proof.
  intros Hd Hr. induction ds as [|c ds IH].
  - destruct r as [|c r]; [done|]. rewrite str_app_nil_l. cbn [span_digits]. simpl in Hr. by rewrite Hr.
  - cbn [all_digits] in Hd. apply andb_prop in Hd as [Hc Hd].
    rewrite str_app_cons. cbn [span_digits]. rewrite Hc, IH by done. done.
Qed.

Lemma all_digits_head c t : all_digits (String c t) = true -> 48 <= nat_of_ascii c <= 57.
Proof.
  cbn [all_digits]. intros Hd. apply andb_prop in Hd as [Hd _]. apply bool_decide_eq_true in Hd.
  unfold digit_value in Hd. destruct (_ && _) eqn:E; [|by destruct Hd].
  apply andb_prop in E as [E1 E2]. apply Nat.leb_le in E1, E2. lia.
Qed.

(** The digits of a positive number do not start with [0]. *)
Lemma pretty_N_go_head x :
  (0 < x)%N -> exists c t, pretty_N_go x "" = String c t /\ nat_of_ascii c <> 48.
Proof.
  induction (N.lt_wf_0 x) as [x _ IH]. intros Hx.
  rewrite (pretty_N_go_step x), pretty_N_go_app by lia.
  destruct (decide (x `div` 10 = 0)%N) as [H0|H0].
  - rewrite H0. exists (pretty_N_char (x `mod` 10)), "". split; [done|].
    assert (x `mod` 10 <> 0)%N as Hm.
    { intros Hm. pose proof (N.div_mod x 10 ltac:(lia)). lia. }
    assert (x `mod` 10 < 10)%N as Hlt by (apply N.mod_lt; lia). revert Hm Hlt.
    generalize (x `mod` 10)%N. intros d Hm Hlt.
    assert (d = 1 \/ d = 2 \/ d = 3 \/ d = 4 \/ d = 5 \/ d = 6 \/ d = 7 \/ d = 8 \/ d = 9)%N
      as H by lia. repeat destruct H as [->|H]; try (vm_compute; congruence). subst. vm_compute. congruence.
  - destruct (IH (x `div` 10)%N) as (c & t & -> & Hc); [apply N.div_lt; lia|by apply N.neq_0_lt_0|].
    by exists c, (t +:+ String (pretty_N_char (x `mod` 10)) "").
Qed.

Lemma read_unsigned_pretty_N_go x r :
  (0 < x)%N -> no_digit_start r -> read_unsigned (pretty_N_go x "" +:+ r) = Some (Z.of_N x, r).
Proof.
  intros Hx Hr. destruct (pretty_N_go_head x Hx) as (c & t & Ht & Hc). rewrite Ht.
  assert (read_unsigned (String c t +:+ r) =
    if nat_of_ascii c =? 48 then Some (0%Z, t +:+ r)
    else let '(ds, r') := span_digits (String c t +:+ r) in
         match ds with EmptyString => None | _ => v ← digits_value 0 ds; Some (v, r') end) as ->
    by reflexivity.
  destruct (nat_of_ascii c =? 48) eqn:E; [apply Nat.eqb_eq in E; done|].
  rewrite <-Ht, span_digits_app by (done || apply pretty_N_go_digits). rewrite Ht at 1.
  by rewrite digits_value_pretty_N_go.
Qed.

Lemma pretty_Z_pos p : pretty (Zpos p) = pretty_N_go (Npos p) "".
Proof. reflexivity. Qed.

Lemma pretty_Z_neg p : pretty (Zneg p) = "-" +:+ pretty_N_go (Npos p) "".
Proof. reflexivity. Qed.

(** Reading back the integer [json.dumps] writes (Python's [str] of an
    [int]), before a text that does not continue the number. *)
Lemma read_int_pretty z r :
  no_digit_start r -> int_end r = true -> read_int (pretty z +:+ r) = Some (z, r).
Proof.
  intros Hr He. destruct z as [|p|p].
  - unfold read_int. simpl. by rewrite str_app_nil_l, He.
  - rewrite pretty_Z_pos.
    destruct (pretty_N_go_head (Npos p)) as (c & t & Ht & Hc); [lia|].
    assert (nat_of_ascii c <> 45) as Hc'.
    { pose proof (pretty_N_go_digits (Npos p)) as Hd. rewrite Ht in Hd. apply all_digits_head in Hd. lia. }
    unfold read_int. rewrite Ht, str_app_cons. cbv iota beta.
    destruct (nat_of_ascii c =? 45) eqn:E; [by apply Nat.eqb_eq in E|].
    rewrite <-str_app_cons, <-Ht, read_unsigned_pretty_N_go by (done || lia). simpl. by rewrite He.
  - rewrite pretty_Z_neg. unfold read_int. rewrite str_app_assoc. simpl.
    rewrite str_app_nil_l, read_unsigned_pretty_N_go by (done || lia). simpl. by rewrite He.
Qed.

(** ** The document round trip *)

(** Nested induction on [json]. *)
Section json_ind.
Variable P : json -> Prop.
Hypothesis HNull : P JNull.
Hypothesis HBool : forall b, P (JBool b).
Hypothesis HInt : forall z, P (JInt z).
Hypothesis HStr : forall s, P (JStr s).
Hypothesis HArr : forall l, Forall P l -> P (JArr l).
Hypothesis HObj : forall kvs, Forall (fun kv => P kv.2) kvs -> P (JObj kvs).

Fixpoint json_ind' (j : json) : P j :=
  match j with
  | JNull => HNull
  | JBool b => HBool b
  | JInt z => HInt z
  | JStr s => HStr s
  | JArr l => HArr l ((fix go l : Forall P l :=
      match l with [] => Forall_nil_2 _ | x :: l => Forall_cons_2 _ _ _ (json_ind' x) (go l) end) l)
  | JObj kvs => HObj kvs ((fix go kvs : Forall (fun kv => P kv.2) kvs :=
      match kvs with [] => Forall_nil_2 _ | kv :: kvs => Forall_cons_2 _ _ _ (json_ind' kv.2) (go kvs) end) kvs)
  end.
End json_ind.

(** The documents [json.dumps] writes from a dict: every object has
    distinct keys (a dict cannot repeat one). *)
Fixpoint json_wf (j : json) : bool :=
  match j with
  | JArr l => forallb json_wf l
  | JObj kvs => bool_decide (NoDup kvs.*1) && forallb (fun kv => json_wf kv.2) kvs
  | _ => true
  end.

(** The fuel [read_value] needs for a document. *)
Fixpoint json_size (j : json) : nat :=
  match j with
  | JArr l => S (sum_list_with (fun x => S (json_size x)) l)
  | JObj kvs => S (sum_list_with (fun kv => S (json_size kv.2)) kvs)
  | _ => 1
  end.

(** The text that may follow a value inside a document: its end, a
    comma, or a closing bracket or brace. *)
Definition closes (r : string) : Prop :=
  match r with
  | EmptyString => True
  | String c _ => nat_of_ascii c = 44 \/ nat_of_ascii c = 93 \/ nat_of_ascii c = 125
  end.

(** The first character of a value. *)
Definition value_start (n : nat) : Prop :=
  n = 34 \/ n = 45 \/ n = 91 \/ n = 102 \/ n = 110 \/ n = 116 \/ n = 123 \/ (48 <= n <= 57).

Lemma is_ws_false c : ~ (nat_of_ascii c = 32 \/ nat_of_ascii c = 9 \/ nat_of_ascii c = 10 \/ nat_of_ascii c = 13) ->
  is_ws c = false.
Proof. intros H. unfold is_ws. apply Bool.not_true_iff_false. rewrite !orb_true_iff, !Nat.eqb_eq. tauto. Qed.

Lemma skip_ws_start c s : value_start (nat_of_ascii c) \/ nat_of_ascii c = 58 -> skip_ws (String c s) = String c s.
Proof. intros H. cbn [skip_ws]. rewrite is_ws_false; [done|]. unfold value_start in H. lia. Qed.

Lemma read_value_ws fuel c s : is_ws c = true -> read_value fuel (String c s) = read_value fuel s.
Proof. intros H. destruct fuel; [done|]. cbn [read_value skip_ws]. by rewrite H. Qed.

(** A character that is neither a digit nor the start of a fraction or
    an exponent ends a number. *)
Lemma int_end_char c r :
  ~ (48 <= nat_of_ascii c <= 57) -> ~ (nat_of_ascii c = 46 \/ nat_of_ascii c = 101 \/ nat_of_ascii c = 69) ->
  no_digit_start (String c r) /\ int_end (String c r) = true.
Proof.
  intros Hd He. split.
  - simpl. unfold digit_value. destruct ((48 <=? nat_of_ascii c) && (nat_of_ascii c <=? 57)) eqn:E; [|done].
    apply andb_prop in E as [E1 E2]. apply Nat.leb_le in E1, E2. lia.
  - simpl. apply negb_true_iff. apply Bool.not_true_iff_false. rewrite !orb_true_iff, !Nat.eqb_eq. lia.
Qed.

Lemma closes_int r : closes r -> no_digit_start r /\ int_end r = true.
Proof. destruct r as [|c r]; [done|]. simpl. intros H. apply (int_end_char c r); lia. Qed.

(** What may follow a value: what may follow it inside a document, or
    whitespace. *)
Definition follows (r : string) : Prop :=
  closes r \/ match r with String c _ => is_ws c = true | EmptyString => False end.

Lemma follows_int r : follows r -> no_digit_start r /\ int_end r = true.
Proof.
  intros [H|H]; [by apply closes_int|]. destruct r as [|c r]; [done|].
  unfold is_ws in H. rewrite !orb_true_iff, !Nat.eqb_eq in H. apply (int_end_char c r); lia.
Qed.

Lemma skip_ws_closes r : closes r -> skip_ws r = r.
Proof. destruct r as [|c r]; [done|]. simpl. intros H. rewrite is_ws_false; [done|lia]. Qed.

Lemma pretty_head (z : Z) :
  exists c t, pretty z = String c t /\ (nat_of_ascii c = 45 \/ 48 <= nat_of_ascii c <= 57).
Proof.
  destruct z as [|p|p].
  - exists "0"%char, "". split; [reflexivity|]. vm_compute. lia.
  - rewrite pretty_Z_pos. destruct (pretty_N_go_head (Npos p)) as (c & t & Ht & _); [lia|].
    exists c, t. split; [done|]. right. apply (all_digits_head c t). rewrite <-Ht. apply pretty_N_go_digits.
  - rewrite pretty_Z_neg, str_app_cons, str_app_nil_l. eexists _, _. split; [done|]. by left.
Qed.

Lemma dumps_head j : exists c t, json_dumps j = String c t /\ value_start (nat_of_ascii c).
Proof.
  unfold value_start. destruct j as [|[]|z|s|l|kvs]; cbn [json_dumps].
  1-3: eexists _, _; split; [reflexivity|vm_compute; lia].
  - destruct (pretty_head z) as (c & t & -> & Hc). exists c, t. split; [done|lia].
  - unfold dump_str, dq, char. rewrite str_app_cons. eexists _, _. split; [reflexivity|vm_compute; lia].
  - rewrite str_app_cons. eexists _, _. split; [reflexivity|vm_compute; lia].
  - rewrite str_app_cons. eexists _, _. split; [reflexivity|vm_compute; lia].
Qed.

(** [String.prefix w] fails on a text whose first character differs
    from the word's. *)
Ltac prefix_fails H :=
  cbn [String.prefix]; destruct (Ascii.ascii_dec _ _) as [<-|_]; [vm_compute in H; lia|].

Lemma read_value_int fuel (z : Z) r : follows r -> read_value (S fuel) (pretty z +:+ r) = Some (JInt z, r).
Proof.
  intros Hr. destruct (pretty_head z) as (c & t & Ht & Hc).
  rewrite Ht, str_app_cons. cbn [read_value]. rewrite skip_ws_start by (unfold value_start; lia).
  rewrite (proj2 (Nat.eqb_neq _ 34)), (proj2 (Nat.eqb_neq _ 91)), (proj2 (Nat.eqb_neq _ 123)) by lia.
  do 3 prefix_fails Hc. apply follows_int in Hr as [Hr He].
  rewrite <-str_app_cons, <-Ht, read_int_pretty by done. done.
Qed.

Lemma read_value_str fuel s r : read_value (S fuel) (dump_str s +:+ r) = Some (JStr s, r).
Proof.
  unfold dump_str, dq, char. rewrite !str_app_assoc, str_app_cons, str_app_nil_l. cbn [read_value].
  rewrite skip_ws_start by (vm_compute; lia). cbn zeta. rewrite <-(str_app_assoc (escape s)).
  change (nat_of_ascii (ascii_of_nat 34) =? 34) with true. cbv iota beta.
  change (String (ascii_of_nat 34) "") with dq. by rewrite str_app_assoc, read_escape.
Qed.

Lemma read_elements_ws fuel c s : is_ws c = true -> read_elements fuel (String c s) = read_elements fuel s.
Proof. intros H. destruct fuel; [done|]. cbn [read_elements]. by rewrite read_value_ws. Qed.

Lemma read_members_ws fuel c s : is_ws c = true -> read_members fuel (String c s) = read_members fuel s.
Proof. intros H. destruct fuel; [done|]. cbn [read_members skip_ws]. by rewrite H. Qed.

Lemma join_map_cons {A} sep (f : A -> string) x l :
  join sep (map f (x :: l)) = f x +:+ match l with [] => "" | _ => sep +:+ join sep (map f l) end.
Proof. destruct l; [by rewrite str_app_nil_r|done]. Qed.

Lemma closes_comma r : closes (", " +:+ r).
Proof. vm_compute. auto. Qed.

Lemma closes_bracket r : closes ("]" +:+ r).
Proof. vm_compute. auto. Qed.

Lemma closes_brace r : closes ("}" +:+ r).
Proof. vm_compute. auto. Qed.

Lemma follows_comma r : follows (", " +:+ r).
Proof. left. apply closes_comma. Qed.

Lemma follows_bracket r : follows ("]" +:+ r).
Proof. left. apply closes_bracket. Qed.

Lemma follows_brace r : follows ("}" +:+ r).
Proof. left. apply closes_brace. Qed.

#[local] Hint Resolve closes_comma closes_bracket closes_brace follows_comma follows_bracket follows_brace : core.

(** A value is read back from its [json.dumps] text, before any text
    that may follow it in a document. *)
Definition reads_back (j : json) : Prop :=
  forall fuel r, json_size j <= fuel -> follows r -> read_value fuel (json_dumps j +:+ r) = Some (j, r).

(** The punctuation [json.dumps] writes, as characters. *)
Lemma str_punct_app r :
  (", " +:+ r = String "," (String " " r)) /\ (": " +:+ r = String ":" (String " " r)) /\
  ("]" +:+ r = String "]" r) /\ ("}" +:+ r = String "}" r).
Proof. done. Qed.

Lemma read_elements_dumps l fuel r :
  l <> [] -> Forall reads_back l -> sum_list_with (fun x => S (json_size x)) l <= fuel ->
  read_elements fuel (join ", " (map json_dumps l) +:+ "]" +:+ r) = Some (l, r).
Proof.
  intros Hl HF. revert fuel Hl. induction HF as [|x l Hx HF IH]; intros fuel Hl Hs; [done|].
  destruct fuel as [|fuel]; [simpl in Hs; lia|].
  destruct (str_punct_app r) as (_ & _ & Hb & _).
  rewrite join_map_cons, str_app_assoc. cbn [read_elements]. destruct l as [|y l].
  - rewrite str_app_nil_l, Hx by (done || simpl in Hs; lia). cbn [mbind option_bind].
    rewrite skip_ws_closes, Hb by done. done.
  - rewrite !str_app_assoc, Hx by (done || simpl in Hs; lia). cbn [mbind option_bind].
    rewrite skip_ws_closes by done. rewrite (proj1 (str_punct_app _)).
    change (nat_of_ascii "," =? 44) with true. cbv iota beta.
    rewrite read_elements_ws by done. rewrite <-!str_app_assoc, (str_app_assoc _ "]").
    rewrite IH; [done..|simpl in *; lia].
Qed.

Lemma skip_ws_dump_str k r : skip_ws (dump_str k +:+ r) = dump_str k +:+ r.
Proof.
  unfold dump_str, dq, char. rewrite !str_app_assoc, str_app_cons.
  apply skip_ws_start. vm_compute. lia.
Qed.

(** The text of one member of an object. *)
Definition dump_member (kv : string * json) : string := dump_str kv.1 +:+ ": " +:+ json_dumps kv.2.

Lemma read_members_dumps kvs fuel r :
  kvs <> [] -> Forall (fun kv => reads_back kv.2) kvs ->
  sum_list_with (fun kv => S (json_size kv.2)) kvs <= fuel ->
  read_members fuel (join ", " (map dump_member kvs) +:+ "}" +:+ r) = Some (kvs, r).
Proof.
  intros Hl HF. revert fuel Hl. induction HF as [|[k v] l Hv HF IH]; intros fuel Hl Hs; [done|].
  destruct fuel as [|fuel]; [simpl in Hs; lia|].
  destruct (str_punct_app r) as (_ & _ & _ & Hb).
  rewrite join_map_cons. unfold dump_member at 1. cbn [read_members fst snd].
  rewrite !str_app_assoc, skip_ws_dump_str, dump_str_roundtrip. cbn [mbind option_bind].
  rewrite (proj1 (proj2 (str_punct_app _))), skip_ws_start by (vm_compute; lia).
  change (nat_of_ascii ":" =? 58) with true. cbv iota beta.
  rewrite read_value_ws by done. destruct l as [|kv l].
  - rewrite str_app_nil_l, Hv by (done || simpl in *; lia). cbn [mbind option_bind].
    rewrite skip_ws_closes, Hb by done. done.
  - rewrite !str_app_assoc, Hv by (done || simpl in *; lia). cbn [mbind option_bind].
    rewrite skip_ws_closes by done. rewrite (proj1 (str_punct_app _)).
    change (nat_of_ascii "," =? 44) with true. cbv iota beta.
    rewrite read_members_ws by done. rewrite <-!str_app_assoc, (str_app_assoc _ "}").
    rewrite IH; [done..|simpl in *; lia].
Qed.

Lemma Forall_forallb {A} (P : A -> bool) (Q : A -> Prop) l :
  Forall (fun x => P x = true -> Q x) l -> forallb P l = true -> Forall Q l.
Proof. induction 1; simpl; [done|]. intros [? ?]%andb_prop. constructor; auto. Qed.

(** A non-empty list of values, or of members, opens with the first
    character of a value. *)
Lemma join_head {A} (f : A -> string) x l Y :
  (exists c t, f x = String c t /\ value_start (nat_of_ascii c)) ->
  exists c t, join ", " (map f (x :: l)) +:+ Y = String c t /\ value_start (nat_of_ascii c).
Proof.
  intros (c & t & Hct & Hc). rewrite join_map_cons, str_app_assoc, Hct, str_app_cons. eexists c, _. split; [reflexivity|done].
Qed.

Lemma dump_member_head kv : exists c t, dump_member kv = String c t /\ value_start (nat_of_ascii c).
Proof.
  unfold dump_member, dump_str, dq, char. rewrite !str_app_assoc, str_app_cons.
  eexists _, _. split; [reflexivity|vm_compute; lia].
Qed.

(** An object without repeated keys is its own dict. *)
Lemma dict_set_fresh d k v : k ∉ d.*1 -> dict_set d k v = d ++ [(k, v)].
Proof. intros H. unfold dict_set. by rewrite bool_decide_false. Qed.

Lemma foldl_dict_set d l :
  NoDup (d.*1 ++ l.*1) -> foldl (fun d kv => dict_set d kv.1 kv.2) d l = d ++ l.
Proof.
  revert d. induction l as [|[k v] l IH]; intros d H; simpl; [by rewrite app_nil_r|].
  rewrite dict_set_fresh, IH, <-app_assoc; [done| |].
  - by rewrite fmap_app, <-app_assoc.
  - apply NoDup_app in H as (_ & Hd & _). intros Hk. by apply (Hd k Hk); left.
Qed.

Lemma dict_of_nodup l : NoDup l.*1 -> dict_of l = l.
Proof. intros H. apply foldl_dict_set. done. Qed.

(** Every value [json.dumps] writes from a dict is read back. *)
Lemma json_reads_back j : json_wf j = true -> reads_back j.
Proof.
  induction j as [| b | z | s | l IH | kvs IH] using json_ind'; intros Hwf fuel r Hs Hr;
    destruct fuel as [|fuel]; try (simpl in Hs; lia).
  - by destruct r.
  - by destruct b, r.
  - by apply read_value_int.
  - apply read_value_str.
  - cbn [json_wf] in Hwf. apply (Forall_forallb _ _ _ IH) in Hwf. clear IH.
    destruct l as [|x l]; [reflexivity|]. cbn [json_dumps]. rewrite !str_app_assoc.
    change ("[" +:+ ?S) with (String "[" S). cbn [read_value].
    rewrite skip_ws_start by (vm_compute; lia).
    change (nat_of_ascii "[" =? 34) with false. change (nat_of_ascii "[" =? 91) with true. cbv iota beta zeta.
    remember (join _ _ +:+ _) as S0 eqn:HS.
    destruct (join_head json_dumps x l ("]" +:+ r)) as (c & t & Hct & Hc); [apply dumps_head|].
    rewrite <-HS in Hct. rewrite Hct, skip_ws_start by (left; done). cbv iota beta.
    rewrite (proj2 (Nat.eqb_neq _ 93)) by (unfold value_start in Hc; lia).
    rewrite <-Hct, HS, read_elements_dumps by (done || simpl in *; lia). done.
  - cbn [json_wf] in Hwf. apply andb_prop in Hwf as [Hnd Hwf]. apply bool_decide_eq_true in Hnd.
    apply (Forall_forallb _ _ _ IH) in Hwf. clear IH.
    destruct kvs as [|kv kvs]; [reflexivity|]. cbn [json_dumps]. rewrite !str_app_assoc.
    change ("{" +:+ ?S) with (String "{" S). cbn [read_value].
    rewrite skip_ws_start by (vm_compute; lia).
    change (nat_of_ascii "{" =? 34) with false. change (nat_of_ascii "{" =? 91) with false.
    change (nat_of_ascii "{" =? 123) with true. cbv iota beta zeta.
    change (map _ (kv :: kvs)) with (map dump_member (kv :: kvs)).
    remember (join _ _ +:+ _) as S0 eqn:HS.
    destruct (join_head dump_member kv kvs ("}" +:+ r)) as (c & t & Hct & Hc); [apply dump_member_head|].
    rewrite <-HS in Hct. rewrite Hct, skip_ws_start by (left; done). cbv iota beta.
    rewrite (proj2 (Nat.eqb_neq _ 125)) by (unfold value_start in Hc; lia).
    rewrite <-Hct, HS, read_members_dumps by (done || simpl in *; lia). simpl.
    by rewrite dict_of_nodup.
Qed.

(** The fuel [json_loads] gives, the length of the text, is enough. *)
Lemma join_length_bound {A} (f : A -> string) (g : A -> nat) l :
  l <> [] -> Forall (fun x => g x <= String.length (f x)) l ->
  sum_list_with (fun x => S (g x)) l <= S (String.length (join ", " (map f l))).
Proof.
  intros Hl HF. revert Hl. induction HF as [|x l Hx HF IH]; intros Hl; [done|].
  rewrite join_map_cons, str_length_app. destruct l as [|y l]; simpl in *; [lia|].
  rewrite str_length_app. simpl in *. specialize (IH ltac:(done)). lia.
Qed.

Lemma json_size_length j : json_size j <= String.length (json_dumps j).
Proof.
  induction j as [| b | z | s | l IH | kvs IH] using json_ind'; cbn [json_size json_dumps].
  - simpl. lia.
  - destruct b; simpl; lia.
  - destruct (pretty_head z) as (c & t & -> & _). simpl. lia.
  - unfold dump_str. rewrite str_length_app. simpl. lia.
  - destruct l as [|x l]; [simpl; lia|]. rewrite str_length_app, str_length_app.
    pose proof (join_length_bound json_dumps json_size (x :: l) ltac:(done) IH). simpl in *. lia.
  - destruct kvs as [|kv kvs]; [simpl; lia|]. rewrite str_length_app, str_length_app.
    change (map _ (kv :: kvs)) with (map dump_member (kv :: kvs)).
    assert (Forall (fun kv => json_size kv.2 <= String.length (dump_member kv)) (kv :: kvs)) as H.
    { eapply Forall_impl; [exact IH|]. intros [k v] Hv. unfold dump_member.
      rewrite !str_length_app. simpl in *. lia. }
    apply join_length_bound in H; [|done]. simpl in *. lia.
Qed.

Lemma skip_ws_all ws : str_forall is_ws ws = true -> skip_ws ws = "".
Proof.
  induction ws as [|c ws IH]; [done|]. cbn [str_forall]. intros [Hc Hw]%andb_prop.
  cbn [skip_ws]. by rewrite Hc, IH.
Qed.

Lemma follows_ws ws : str_forall is_ws ws = true -> follows ws.
Proof. destruct ws as [|c ws]; [by left|]. cbn [str_forall]. intros [Hc _]%andb_prop. by right. Qed.

(** The parser inverts the printer: every document [json_dumps] writes
    from values the model covers (objects with distinct keys, as a dict
    has; integers; strings of code points up to 255), followed by any
    whitespace (the newline that ends a file), is parsed back to the same
    value. The clients below use it to read back the templates and
    responses the model writes. *)
Theorem json_roundtrip j ws :
  json_wf j = true -> str_forall is_ws ws = true -> json_loads (json_dumps j +:+ ws) = Some j.
Proof.
  intros Hwf Hws. unfold json_loads.
  rewrite (json_reads_back j Hwf); [cbn [mbind option_bind]; by rewrite skip_ws_all| |by apply follows_ws].
  rewrite str_length_app. pose proof (json_size_length j). lia.
Qed.

(** The round trip in the form the clients of the parser use. *)
Lemma json_loads_dumps j : json_wf j = true -> json_loads (json_dumps j) = Some j.
Proof.
  intros Hwf. unfold json_loads. rewrite <-(str_app_nil_r (json_dumps j)) at 2.
  rewrite (json_reads_back j Hwf); [done|apply json_size_length|by left].
Qed.

(** [int(str(z))] and [Decimal(str(z))] give [z] back. *)
Lemma parse_int_pretty (z : Z) : parse_int (pretty z) = Some z.
Proof.
  destruct z as [|p|p]; [reflexivity| |].
  - rewrite pretty_Z_pos. destruct (pretty_N_go_head (Npos p)) as (c & t & Ht & _); [lia|].
    pose proof (pretty_N_go_digits (Npos p)) as Hd. rewrite Ht in Hd. apply all_digits_head in Hd.
    unfold parse_int. rewrite Ht, (proj2 (Nat.eqb_neq _ 45)), (proj2 (Nat.eqb_neq _ 43)) by lia.
    rewrite <-Ht. apply digits_value_pretty_N_go.
  - rewrite pretty_Z_neg. destruct (pretty_N_go_head (Npos p)) as (c & t & Ht & _); [lia|].
    unfold parse_int. rewrite str_app_cons, str_app_nil_l. cbn iota beta zeta.
    change (nat_of_ascii "-" =? 45) with true. cbv iota beta.
    rewrite Ht. cbv iota. rewrite <-Ht, digits_value_pretty_N_go. done.
Qed.

(** ** Replacing a placeholder in the text of a document

    [apigateway_stack.py] fills its Swagger template with [str.replace]
    on the text, then parses it. When the placeholders are words of
    capital letters and [_] and the values need no escaping, replacing
    in the text is replacing in the strings of the document: no
    placeholder can overlap the syntax [json.dumps] writes or an escape
    sequence, whose characters are all of another kind. *)

(** The characters of a placeholder such as [REPLACE_ME_REGION]. *)
Definition token_char (c : Ascii.ascii) : bool :=
  let n := nat_of_ascii c in ((65 <=? n) && (n <=? 90)) || (n =? 95).

Definition placeholder (tok : string) : bool :=
  negb (String.eqb tok "") && str_forall token_char tok.

(** The characters [json.dumps] writes as they are. *)
Definition plain_char (c : Ascii.ascii) : bool :=
  let n := nat_of_ascii c in (32 <=? n) && (n <=? 126) && negb (n =? 34) && negb (n =? 92).

(** Text with no placeholder character. *)
Definition syntax (w : string) : bool := str_forall (fun c => negb (token_char c)) w.

(** [f] applied to every string of a document, keys included. *)
Fixpoint json_map_str (f : string -> string) (j : json) : json :=
  match j with
  | JStr s => JStr (f s)
  | JArr l => JArr (map (json_map_str f) l)
  | JObj kvs => JObj (map (fun kv => (f kv.1, json_map_str f kv.2)) kvs)
  | _ => j
  end.

Lemma placeholder_nonempty tok : placeholder tok = true -> tok <> "".
Proof. unfold placeholder. intros H ->. done. Qed.

Lemma char_in_placeholder tok c :
  placeholder tok = true -> token_char c = false -> char_in c tok = false.
Proof.
  unfold placeholder. intros [_ H]%andb_prop Hc. induction tok as [|d tok IH]; [done|].
  cbn [str_forall] in H. apply andb_prop in H as [Hd H]. cbn [char_in].
  rewrite IH by done. destruct (decide (c = d)) as [->|]; [congruence|]. by rewrite bool_decide_false.
Qed.

Lemma syntax_wall tok w :
  placeholder tok = true -> syntax w = true -> str_forall (fun c => negb (char_in c tok)) w = true.
Proof.
  intros Ht. induction w as [|c w IH]; [done|]. cbn [syntax str_forall].
  intros [Hc Hw]%andb_prop. apply negb_true_iff in Hc. by rewrite char_in_placeholder, IH.
Qed.

(** [str_replace_wall] for the syntax pieces of a document. *)
Lemma replace_syntax tok v a w b :
  placeholder tok = true -> syntax w = true -> w <> "" ->
  str_replace (a +:+ w +:+ b) tok v = str_replace a tok v +:+ w +:+ str_replace b tok v.
Proof.
  intros Ht Hw Hne. apply str_replace_wall; [by apply placeholder_nonempty|by apply syntax_wall|done].
Qed.

Lemma replace_syntax_l tok v w b :
  placeholder tok = true -> syntax w = true -> w <> "" ->
  str_replace (w +:+ b) tok v = w +:+ str_replace b tok v.
Proof.
  intros Ht Hw Hne. rewrite <-(str_app_nil_l (w +:+ b)), replace_syntax, str_replace_empty by
    (done || by apply placeholder_nonempty). by rewrite str_app_nil_l.
Qed.

Lemma replace_syntax_only tok v w :
  placeholder tok = true -> syntax w = true -> str_replace w tok v = w.
Proof.
  intros Ht Hw. destruct (decide (w = "")) as [->|Hne]; [by apply str_replace_empty, placeholder_nonempty|].
  rewrite <-(str_app_nil_r w), replace_syntax_l, str_replace_empty by
    (done || by apply placeholder_nonempty). done.
Qed.

Lemma escape_app a b : escape (a +:+ b) = escape a +:+ escape b.
Proof. induction a as [|c a IH]; [done|]. rewrite str_app_cons. simpl. by rewrite IH, str_app_assoc. Qed.

Lemma escape_plain_char c : plain_char c = true -> escape_char c = String c "".
Proof.
  destruct c as [[] [] [] [] [] [] [] []]; vm_compute; first [intros _; reflexivity | intros H; discriminate H].
Qed.

Lemma escape_plain s : str_forall plain_char s = true -> escape s = s.
Proof.
  induction s as [|c s IH]; [done|]. cbn [str_forall]. intros [Hc Hs]%andb_prop.
  simpl. by rewrite escape_plain_char, IH.
Qed.

(** The escape of a character that is not a placeholder character is
    made of such characters. *)
Lemma escape_char_syntax c : token_char c = false -> syntax (escape_char c) = true /\ escape_char c <> "".
Proof.
  destruct c as [[] [] [] [] [] [] [] []]; vm_compute; first [intros _; split; [reflexivity|discriminate] | intros H; discriminate H].
Qed.

Lemma token_plain c : token_char c = true -> plain_char c = true.
Proof.
  unfold token_char, plain_char. intros H. apply orb_true_iff in H.
  rewrite !andb_true_iff, !negb_true_iff, !Nat.leb_le, !Nat.eqb_neq.
  destruct H as [[H1 H2]%andb_true_iff|H%Nat.eqb_eq]; [apply Nat.leb_le in H1, H2|]; lia.
Qed.

Lemma str_forall_concat P sep ps :
  str_forall P sep = true -> Forall (fun p => str_forall P p = true) ps ->
  str_forall P (String.concat sep ps) = true.
Proof.
  intros Hs HF. induction HF as [|p ps Hp HF IH]; [done|].
  destruct ps as [|q ps]; [done|]. rewrite concat_cons by done.
  by rewrite !str_forall_app, Hp, Hs, IH.
Qed.

Lemma str_forall_pieces P sep ps :
  str_forall P (String.concat sep ps) = true -> Forall (fun p => str_forall P p = true) ps.
Proof.
  induction ps as [|p ps IH]; [constructor|]. destruct ps as [|q ps]; [by constructor|].
  rewrite concat_cons, !str_forall_app by done. intros [Hp [_ Hr]%andb_prop]%andb_prop. constructor; auto.
Qed.

Lemma replace_plain tok v x :
  tok <> "" -> str_forall plain_char x = true -> str_forall plain_char v = true ->
  str_forall plain_char (str_replace x tok v) = true.
Proof.
  intros Ht Hx Hv. destruct (decomp_exists tok x Ht) as [ps Hd].
  rewrite (str_replace_decomp tok v x ps Ht Hd). apply str_forall_concat; [done|].
  apply (str_forall_pieces _ tok). by rewrite (decomp_concat tok x ps Hd).
Qed.

Lemma str_app_snoc a c b : a +:+ String c b = (a +:+ String c "") +:+ b.
Proof. by rewrite str_app_assoc, str_app_cons, str_app_nil_l. Qed.

Lemma replace_escape_pre tok v pre s :
  placeholder tok = true -> str_forall plain_char v = true -> str_forall plain_char pre = true ->
  str_replace (pre +:+ escape s) tok v = escape (str_replace (pre +:+ s) tok v).
Proof.
  intros Ht Hv. pose proof (placeholder_nonempty tok Ht) as Hne.
  revert pre. induction s as [|c s IH]; intros pre Hpre.
  - rewrite !str_app_nil_r. symmetry. by apply escape_plain, replace_plain.
  - destruct (token_char c) eqn:Hc.
    + assert (escape (String c s) = String c (escape s)) as ->.
      { simpl. by rewrite escape_plain_char by (by apply token_plain). }
      rewrite (str_app_snoc pre c (escape s)), (str_app_snoc pre c s).
      apply IH. rewrite str_forall_app, Hpre. simpl. by rewrite token_plain.
    + destruct (escape_char_syntax c Hc) as [Hw Hwne]. simpl.
      rewrite replace_syntax by done. rewrite str_replace_barrier by (done || by apply char_in_placeholder).
      rewrite escape_app, (escape_plain (str_replace pre tok v)) by (by apply replace_plain). simpl.
      rewrite <-(str_app_nil_l (escape s)), IH, !str_app_nil_l by done. done.
Qed.

(** Replacing in the escaped text is escaping the replaced text. *)
Lemma replace_escape tok v s :
  placeholder tok = true -> str_forall plain_char v = true ->
  str_replace (escape s) tok v = escape (str_replace s tok v).
Proof.
  intros Ht Hv. rewrite <-(str_app_nil_l (escape s)), <-(str_app_nil_l s) at 1.
  by apply replace_escape_pre.
Qed.

Lemma replace_syntax_r tok v a w :
  placeholder tok = true -> syntax w = true -> w <> "" ->
  str_replace (a +:+ w) tok v = str_replace a tok v +:+ w.
Proof.
  intros Ht Hw Hne. rewrite <-(str_app_nil_r w) at 1.
  rewrite replace_syntax, str_replace_empty, str_app_nil_r by (done || by apply placeholder_nonempty).
  done.
Qed.

Lemma all_digits_syntax s : all_digits s = true -> syntax s = true.
Proof.
  induction s as [|c s IH]; [done|]. intros Hd. pose proof (all_digits_head c s Hd) as Hc.
  cbn [all_digits] in Hd. apply andb_prop in Hd as [_ Hd]. unfold syntax in *. cbn [str_forall].
  rewrite IH by done. unfold token_char. apply andb_true_intro. split; [|done].
  apply negb_true_iff, orb_false_iff. split; [apply andb_false_iff; left|]; apply Nat.leb_gt || apply Nat.eqb_neq; lia.
Qed.

Lemma pretty_syntax (z : Z) : syntax (pretty z) = true.
Proof.
  destruct z as [|p|p]; [reflexivity| |].
  - rewrite pretty_Z_pos. apply all_digits_syntax, pretty_N_go_digits.
  - rewrite pretty_Z_neg. unfold syntax. rewrite str_forall_app. apply andb_true_intro.
    split; [reflexivity|]. apply all_digits_syntax, pretty_N_go_digits.
Qed.

Lemma replace_join {A} tok v (g : A -> string) l :
  placeholder tok = true ->
  str_replace (join ", " (map g l)) tok v = join ", " (map (fun x => str_replace (g x) tok v) l).
Proof.
  intros Ht. induction l as [|x l IH]; [by apply str_replace_empty, placeholder_nonempty|].
  rewrite !join_map_cons. destruct l as [|y l]; [by rewrite !str_app_nil_r|].
  by rewrite replace_syntax, IH.
Qed.

Lemma replace_dump_str tok v k :
  placeholder tok = true -> str_forall plain_char v = true ->
  str_replace (dump_str k) tok v = dump_str (str_replace k tok v).
Proof.
  intros Ht Hv. unfold dump_str.
  by rewrite (replace_syntax_l tok v dq), (replace_syntax_r tok v _ dq), replace_escape.
Qed.

Lemma replace_member tok v k x :
  placeholder tok = true -> str_forall plain_char v = true ->
  str_replace (dump_str k +:+ ": " +:+ x) tok v = dump_str (str_replace k tok v) +:+ ": " +:+ str_replace x tok v.
Proof.
  intros Ht Hv. by rewrite (replace_syntax tok v _ ": "), replace_dump_str.
Qed.

(** [str.replace] on the text [json.dumps] writes replaces inside the
    strings of the document, keys included. *)
Lemma replace_dumps tok v j :
  placeholder tok = true -> str_forall plain_char v = true ->
  str_replace (json_dumps j) tok v = json_dumps (json_map_str (fun s => str_replace s tok v) j).
Proof.
  intros Ht Hv. induction j as [| b | z | s | l IH | kvs IH] using json_ind'; cbn [json_dumps json_map_str].
  - by apply replace_syntax_only.
  - destruct b; by apply replace_syntax_only.
  - apply replace_syntax_only; [done|apply pretty_syntax].
  - by apply replace_dump_str.
  - rewrite (replace_syntax_l tok v "["), (replace_syntax_r tok v _ "]"), replace_join by done.
    rewrite map_map. do 3 f_equal. by apply map_ext_Forall.
  - rewrite (replace_syntax_l tok v "{"), (replace_syntax_r tok v _ "}"), replace_join by done.
    rewrite map_map. do 3 f_equal. apply map_ext_Forall.
    eapply Forall_impl; [exact IH|]. intros [k x] Hx. simpl in *. by rewrite replace_member, Hx.
Qed.

Lemma json_map_str_id j : json_map_str (fun s => s) j = j.
Proof.
  induction j as [| b | z | s | l IH | kvs IH] using json_ind'; cbn [json_map_str]; try done.
  - f_equal. rewrite <-(map_id l) at 2. by apply map_ext_Forall.
  - f_equal. rewrite <-(map_id kvs) at 2. apply map_ext_Forall.
    eapply Forall_impl; [exact IH|]. intros [k x] Hx. simpl in *. by rewrite Hx.
Qed.

Lemma json_map_str_compose f g j : json_map_str g (json_map_str f j) = json_map_str (fun s => g (f s)) j.
Proof.
  induction j as [| b | z | s | l IH | kvs IH] using json_ind'; cbn [json_map_str]; try done.
  - rewrite map_map. f_equal. by apply map_ext_Forall.
  - rewrite map_map. f_equal. apply map_ext_Forall. eapply Forall_impl; [exact IH|].
    intros [k x] Hx. simpl in *. by rewrite Hx.
Qed.
