(* ===== verification/PyDecimal.v ===== *)
(** * Python's [decimal.Decimal] and DynamoDB's numbers

    [load_initial_values] turns the number texts of populate-dynamodb.json
    into Python decimals ([Decimal(...)], mysfitsTableClient.py:44, 49) and
    hands them to boto3, which sends them to DynamoDB through its decimal
    context; the other functions read numbers back as DynamoDB's text
    ([item['Age']['N']]) and DynamoDB adds to them ([SET Likes = Likes + :n]).
    This file models, from the Python, boto3 and DynamoDB documentation:

    - [parse_decimal]: the string syntax [Decimal] accepts: surrounding
      whitespace, underscores (the C implementation drops them all), a
      sign, digits with an optional fraction, an optional exponent, and
      [Infinity], [Inf], [NaN], [sNaN] in any case; a Python decimal is
      [Finite coef exp] (its value is [coef * 10^exp], the trailing zeros
      of the text kept), an infinity or a NaN;
    - [dynamodb_context]: the signal boto3's context (precision 38,
      [Emax] 126, [Emin] -128, traps [Clamped], [Overflow], [Inexact],
      [Rounded], [Underflow]) raises on a finite decimal, by the
      priority of the [decimal] module's signals;
    - [number]: a number as DynamoDB stores it, normalized
      ([normalize]: no trailing zero in the coefficient); [num_ok] its
      range (38 significant digits, magnitude in [1E-130, 1E+126));
      [num_add] exact addition; [num_text] the text DynamoDB answers, in
      plain decimal notation;
    - [serialize_number]: boto3's serialization of a decimal, [None] for
      the text ['-Infinity'] or ['-NaN'], which DynamoDB refuses.

    Not modelled: Unicode digits and spaces beyond Latin-1 (the strings
    of the model are Latin-1), the payload length of a NaN, and the
    combination of a coefficient longer than 38 digits with an exponent
    below the subnormal range (one signal is raised for both). *)

From Stdlib Require Import String Ascii ZArith.
From stdpp Require Import base list strings pretty.
From S2P Require Import Spec2Rocq PyStr Json.

(** ** [Decimal(s)] on a string *)

Inductive pydec :=
| Finite (coef exp : Z)
| Infinity (neg : bool)
| NaN (neg : bool).

(** The characters [str.strip()] removes (Latin-1). *)
Definition py_space (c : Ascii.ascii) : bool :=
  let n := Ascii.nat_of_ascii c in
  ((9 <=? n) && (n <=? 13)) || ((28 <=? n) && (n <=? 32)) || (n =? 133) || (n =? 160).

Fixpoint lstrip (s : string) : string :=
  match s with
  | String c s' => if py_space c then lstrip s' else s
  | EmptyString => EmptyString
  end.

Fixpoint rstrip (s : string) : string :=
  match s with
  | String c s' =>
      match rstrip s' with
      | EmptyString => if py_space c then EmptyString else String c EmptyString
      | r => String c r
      end
  | EmptyString => EmptyString
  end.

Fixpoint drop_underscores (s : string) : string :=
  match s with
  | String c s' => if Ascii.nat_of_ascii c =? 95 then drop_underscores s' else String c (drop_underscores s')
  | EmptyString => EmptyString
  end.

(** An optional sign: [true] for [-]. *)
Definition read_sign (s : string) : bool * string :=
  match s with
  | String c s' =>
      if Ascii.nat_of_ascii c =? 45 then (true, s')
      else if Ascii.nat_of_ascii c =? 43 then (false, s')
      else (false, s)
  | EmptyString => (false, EmptyString)
  end.

Definition signed (neg : bool) (z : Z) : Z := if neg then (- z)%Z else z.

(** [e] or [E], an optional sign and at least one digit; nothing for no
    exponent. *)
Definition read_exponent (s : string) : option Z :=
  match s with
  | EmptyString => Some 0%Z
  | String c s' =>
      if (Ascii.nat_of_ascii c =? 101) || (Ascii.nat_of_ascii c =? 69) then
        let '(neg, ds) := read_sign s' in
        match ds with
        | EmptyString => None
        | _ => if all_digits ds then signed neg <$> digits_value 0 ds else None
        end
      else None
  end.

(** [digits '.' [digits] | ['.'] digits] with an optional exponent. *)
Definition parse_finite (s : string) : option (Z * Z) :=
  let '(ip, r) := span_digits s in
  let '(fp, r) :=
    match r with
    | String c r' => if Ascii.nat_of_ascii c =? 46 then span_digits r' else (EmptyString, r)
    | EmptyString => (EmptyString, r)
    end in
  if (String.length ip + String.length fp =? 0)%nat then None
  else
    e ← read_exponent r;
    c ← digits_value 0 (ip +:+ fp);
    Some (c, (e - Z.of_nat (String.length fp))%Z).

(** [Infinity], [Inf], [NaN] and [sNaN] with a payload of digits, in any
    case. *)
Definition parse_special (neg : bool) (s : string) : option pydec :=
  let l := lower s in
  if String.eqb l "inf" || String.eqb l "infinity" then Some (Infinity neg)
  else if (String.prefix "nan" l && all_digits (str_drop 3 l))
          || (String.prefix "snan" l && all_digits (str_drop 4 l)) then Some (NaN neg)
  else None.

(** [Decimal(s)]; [None]: [decimal.InvalidOperation]. *)
Definition parse_decimal (s : string) : option pydec :=
  let '(neg, u) := read_sign (drop_underscores (rstrip (lstrip s))) in
  match parse_finite u with
  | Some (c, e) => Some (Finite (signed neg c) e)
  | None => parse_special neg u
  end.

(** ** boto3's decimal context *)

Definition prec : Z := 38.
Definition emax : Z := 126.
Definition emin : Z := -128.
Definition etiny : Z := emin - prec + 1.

(** The number of digits of a positive integer. *)
Fixpoint digits_aux (fuel : nat) (n : Z) : Z :=
  match fuel with
  | O => 1
  | S f => if (n <? 10)%Z then 1 else 1 + digits_aux f (n / 10)
  end.

Definition ndigits (c : Z) : Z := digits_aux (Pos.size_nat (Z.to_pos (Z.abs c))) (Z.abs c).

(** The trapped signal [DYNAMODB_CONTEXT.create_decimal] raises on
    [coef * 10^exp], if any: a zero whose exponent is out of range is
    clamped; an adjusted exponent above [Emax] overflows; more than 38
    digits are rounded (inexactly when a dropped digit is not zero); an
    exponent below [Etiny] is rounded, with underflow when it loses a
    digit. *)
Definition dynamodb_context (c e : Z) : option string :=
  if (c =? 0)%Z then (if (emax <? e)%Z || (e <? etiny)%Z then Some "Clamped" else None)
  else if (10 ^ (emax + 1 - e) <=? Z.abs c)%Z then Some "Overflow"
  else if (10 ^ prec <=? Z.abs c)%Z then
    (if (Z.rem c (10 ^ (ndigits c - prec)) =? 0)%Z then Some "Rounded" else Some "Inexact")
  else if (e <? etiny)%Z then
    (if (Z.rem c (10 ^ (etiny - e)) =? 0)%Z then Some "Rounded" else Some "Underflow")
  else None.

(** ** DynamoDB's numbers *)

(** [num_coef * 10^num_exp], without trailing zero in the coefficient. *)
Record number := Num { num_coef : Z; num_exp : Z }.

#[export] Instance number_eq_dec : EqDecision number.
Proof. solve_decision. Defined.

Fixpoint strip_zeros (fuel : nat) (c e : Z) : number :=
  match fuel with
  | O => Num c e
  | S f =>
      if (c =? 0)%Z then Num 0 0
      else if (Z.rem c 10 =? 0)%Z then strip_zeros f (Z.quot c 10) (e + 1)
      else Num c e
  end.

(** Each stripped zero halves the coefficient at least: its bit size is
    enough fuel. *)
Definition normalize (c e : Z) : number := strip_zeros (Pos.size_nat (Z.to_pos (Z.abs c))) c e.

(** The value of an integral number. *)
Definition num_int (n : number) : Z := (num_coef n * 10 ^ num_exp n)%Z.

(** DynamoDB's range: 38 significant digits, magnitude below [1E+126]
    and at least [1E-130]. *)
Definition num_ok (n : number) : bool :=
  let c := Z.abs (num_coef n) in
  let e := num_exp n in
  (c =? 0)%Z ||
  ((c <? 10 ^ prec)%Z && (c <? 10 ^ (126 - e))%Z && ((-130 <=? e)%Z || (10 ^ (-130 - e) <=? c)%Z)).

(** Exact addition, as [SET a = b + :n] computes it. *)
Definition num_add (a b : number) : number :=
  let e := Z.min (num_exp a) (num_exp b) in
  normalize (num_coef a * 10 ^ (num_exp a - e) + num_coef b * 10 ^ (num_exp b - e)) e.

Fixpoint zeros (n : nat) : string :=
  match n with O => EmptyString | S n => String (Ascii.ascii_of_nat 48) (zeros n) end.

(** [n] digits, with leading zeros. *)
Definition pad (n : nat) (s : string) : string := zeros (n - String.length s) +:+ s.

(** The text of a number in DynamoDB's answers: plain decimal notation. *)
Definition num_text (n : number) : string :=
  let c := num_coef n in
  let e := num_exp n in
  if (0 <=? e)%Z then pretty (c * 10 ^ e)%Z
  else
    let q := (10 ^ (- e))%Z in
    let a := Z.abs c in
    (if (c <? 0)%Z then "-" else "") +:+ pretty (a / q)%Z +:+ "." +:+
      pad (Z.to_nat (- e)) (pretty (a mod q)%Z).

(** boto3's [_serialize_n] and DynamoDB's reading of the text: the
    number stored, a trapped signal, or [None] for a text DynamoDB
    refuses. *)
Definition serialize_number (v : pydec) : outcome (option number) :=
  match v with
  | Infinity false | NaN false => Raise (TypeError "Infinity and NaN not supported")
  | Infinity true | NaN true => Ok None
  | Finite c e =>
      match dynamodb_context c e with
      | Some sig => Raise (DecimalSignal sig)
      | None => Ok (Some (normalize c e))
      end
  end.

(** ** The integers [str(z)] writes *)

Lemma digit_char c t :
  all_digits (String c t) = true ->
  py_space c = false /\ Ascii.nat_of_ascii c <> 45 /\ Ascii.nat_of_ascii c <> 43 /\
  Ascii.nat_of_ascii c <> 95.
Proof.
  intros Hd. apply all_digits_head in Hd. unfold py_space. split; [|lia].
  apply not_true_is_false. rewrite !orb_true_iff, !andb_true_iff, !Nat.leb_le, !Nat.eqb_eq. lia.
Qed.

Lemma all_digits_clean s : all_digits s = true -> rstrip s = s /\ drop_underscores s = s.
Proof.
  induction s as [|c s IH]; [done|]. intros Hd. pose proof (digit_char c s Hd) as (Hs & _ & _ & Hu).
  cbn [all_digits] in Hd. apply andb_prop in Hd as [_ Hd]. destruct (IH Hd) as [Hr Hdu].
  cbn [rstrip drop_underscores]. rewrite Hr, Hdu, (proj2 (Nat.eqb_neq _ 95) Hu), Hs.
  by destruct s.
Qed.

Lemma rstrip_cons c s : rstrip s = s -> s <> EmptyString -> rstrip (String c s) = String c s.
Proof. intros Hr Hne. cbn [rstrip]. rewrite Hr. by destruct s. Qed.

(** The digits [str] writes for a positive integer are read back by
    [Decimal] as that integer with exponent 0. *)
Lemma parse_finite_digits p :
  parse_finite (pretty_N_go (Npos p) "") = Some (Zpos p, 0%Z).
Proof.
  pose proof (pretty_N_go_digits (Npos p)) as Hd.
  destruct (pretty_N_go_head (Npos p)) as (c & t & Ht & _); [lia|].
  unfold parse_finite. rewrite <-(str_app_nil_r (pretty_N_go _ _)), span_digits_app by done.
  rewrite Ht. cbn [String.length]. rewrite <-Ht, str_app_nil_r, digits_value_pretty_N_go. done.
Qed.

(** [Decimal(str(z))] is [z] with exponent 0. *)
Lemma parse_decimal_pretty z : parse_decimal (pretty z) = Some (Finite z 0).
Proof.
  destruct z as [|p|p]; [reflexivity| |].
  - rewrite pretty_Z_pos. pose proof (pretty_N_go_digits (Npos p)) as Hd.
    destruct (all_digits_clean _ Hd) as [Hr Hu].
    destruct (pretty_N_go_head (Npos p)) as (c & t & Ht & _); [lia|].
    pose proof Hd as Hd'. rewrite Ht in Hd'. destruct (digit_char c t Hd') as (Hs & Hm & Hp & _).
    unfold parse_decimal. rewrite Ht. cbn [lstrip]. rewrite Hs, <-Ht, Hr, Hu, Ht. cbn [read_sign].
    rewrite (proj2 (Nat.eqb_neq _ 45) Hm), (proj2 (Nat.eqb_neq _ 43) Hp), <-Ht, parse_finite_digits.
    done.
  - rewrite pretty_Z_neg. pose proof (pretty_N_go_digits (Npos p)) as Hd.
    destruct (all_digits_clean _ Hd) as [Hr Hu].
    destruct (pretty_N_go_head (Npos p)) as (c & t & Ht & _); [lia|].
    unfold parse_decimal. rewrite str_app_cons, str_app_nil_l. cbn [lstrip].
    change (py_space "-"%char) with false. cbv iota.
    rewrite rstrip_cons by (done || by rewrite Ht). cbn [drop_underscores].
    change (Ascii.nat_of_ascii "-"%char =? 95) with false. cbv iota. rewrite Hu. cbn [read_sign].
    change (Ascii.nat_of_ascii "-"%char =? 45) with true. cbv iota. by rewrite parse_finite_digits.
Qed.

(** ** Integral numbers *)

(** Normalizing keeps the value, and an integral number integral. *)
Lemma strip_zeros_int fuel c e :
  (0 <= e)%Z -> (0 <= num_exp (strip_zeros fuel c e))%Z /\ num_int (strip_zeros fuel c e) = (c * 10 ^ e)%Z.
Proof.
  revert c e. induction fuel as [|f IH]; intros c e He; [done|]. cbn [strip_zeros].
  destruct (Z.eqb_spec c 0) as [->|Hc]; [unfold num_int; simpl; lia|].
  destruct (Z.eqb_spec (Z.rem c 10) 0) as [Hr|Hr]; [|done].
  destruct (IH (Z.quot c 10) (e + 1)%Z) as [H1 H2]; [lia|]. split; [done|].
  rewrite H2, Z.pow_add_r by lia. change (10 ^ 1)%Z with 10%Z.
  rewrite (Z.quot_rem' c 10) at 2. rewrite Hr. ring.
Qed.

Lemma normalize_int c e :
  (0 <= e)%Z -> (0 <= num_exp (normalize c e))%Z /\ num_int (normalize c e) = (c * 10 ^ e)%Z.
Proof. apply strip_zeros_int. Qed.

Lemma normalize_int_0 z : (0 <= num_exp (normalize z 0))%Z /\ num_int (normalize z 0) = z.
Proof. rewrite <-(Z.mul_1_r z) at 3. by apply normalize_int. Qed.

(** The text of an integral number is [str] of its value, so [int()]
    reads it back. *)
Lemma num_text_int n : (0 <= num_exp n)%Z -> num_text n = pretty (num_int n).
Proof. intros He. unfold num_text, num_int. by rewrite (proj2 (Z.leb_le _ _) He). Qed.

Lemma parse_int_num_text n : (0 <= num_exp n)%Z -> parse_int (num_text n) = Some (num_int n).
Proof. intros He. by rewrite num_text_int, parse_int_pretty. Qed.

(** [SET Likes = Likes + 1] on an integral number adds one. *)
Lemma num_add_one n : (0 <= num_exp n)%Z -> num_add n (Num 1 0) = normalize (num_int n + 1) 0.
Proof.
  intros He. unfold num_add, num_int. cbn [num_exp num_coef]. rewrite Z.min_r by done.
  rewrite !Z.sub_0_r. f_equal; ring.
Qed.

(** An integer of at most 38 digits passes boto3's context. *)
Lemma serialize_small z :
  (Z.abs z < 10 ^ prec)%Z -> serialize_number (Finite z 0) = Ok (Some (normalize z 0)).
Proof.
  intros Hz. unfold serialize_number, dynamodb_context.
  assert (10 ^ prec <= 10 ^ (emax + 1 - 0))%Z by (apply Z.pow_le_mono_r; unfold prec, emax; lia).
  destruct (Z.eqb_spec z 0) as [->|Hz0]; [reflexivity|].
  rewrite (proj2 (Z.leb_gt _ _)), (proj2 (Z.leb_gt _ _)), (proj2 (Z.ltb_ge _ _)) by (lia || (unfold etiny, emin, prec; lia)).
  reflexivity.
Qed.

(** ... and is in DynamoDB's range. *)
Lemma num_ok_small z : (Z.abs z < 10 ^ prec)%Z -> num_ok (normalize z 0) = true.
Proof.
  intros Hz. destruct (normalize_int_0 z) as [He Hv]. unfold num_int in Hv.
  destruct (normalize z 0) as [c e]. cbn [num_coef num_exp] in *. unfold num_ok, prec in *. cbn [num_coef num_exp].
  destruct (Z.eqb_spec (Z.abs c) 0) as [|Hc]; [done|]. simpl.
  assert (1 <= 10 ^ e)%Z by (change 1%Z with (10 ^ 0)%Z; apply Z.pow_le_mono_r; lia).
  assert (Habs : (Z.abs z = Z.abs c * 10 ^ e)%Z) by (rewrite <-Hv, Z.abs_mul, (Z.abs_eq (10 ^ e)); lia).
  assert (10 ^ 38 <= 10 ^ 126)%Z by (apply Z.pow_le_mono_r; lia).
  destruct (Z.ltb_spec (Z.abs c) (10 ^ 38)); [|nia].
  destruct (Z.ltb_spec (Z.abs c) (10 ^ (126 - e))) as [|Hge]; [|exfalso].
  - destruct (Z.leb_spec (-130) e); [done|lia].
  - destruct (Z.le_gt_cases e 126) as [Hle|Hgt].
    + assert (10 ^ (126 - e) * 10 ^ e = 10 ^ 126)%Z as Hp by (rewrite <-Z.pow_add_r by lia; f_equal; lia). nia.
    + assert (10 ^ 126 <= 10 ^ e)%Z by (apply Z.pow_le_mono_r; lia). nia.
Qed.
