(* ===== verification/Cloud.v ===== *)
(** * The AWS account the scripts query and tear down

    The scripts talk to AWS through boto3; AWS itself is not code of the
    repository, so this file is the environment model: the resources the
    scripts list and delete, per region, and the pure part of the API
    semantics the scripts rely on (page sizes, filters, sort order), as the
    AWS API references document them:
    - API Gateway [GetRestApis] returns one page of at most 25 APIs (the
      default [limit]), in the account's enumeration order;
    - Cognito [ListUserPools] / [ListUserPoolClients] return at most
      [MaxResults] items;
    - SageMaker [ListEndpoints] / [ListEndpointConfigs] / [ListModels]
      filter by [NameContains] (and [StatusEquals]), sort by creation time,
      and return at most 10 items (the default [MaxResults]);
    - CloudWatch Logs [DescribeLogGroups] returns at most 50 groups;
    - S3 [GetBucketLocation] returns [LocationConstraint] [None] for
      us-east-1.
    The page functions are written here once and used by [World.v]. *)

From Stdlib Require Import String ZArith.
From stdpp Require Import base list gmap strings sorting.
From S2P Require Import Spec2Rocq PyStr.

(** ** Resources *)

Record RestApi := mkRestApi { rest_api_name : string; rest_api_id : string }.
Record UserPoolClient := mkClient { client_name : string; client_id : string }.
Record UserPool := mkPool {
  pool_name : string;
  pool_id : string;
  pool_clients : list UserPoolClient
}.
Record Endpoint := mkEndpoint {
  ep_name : string;
  ep_status : string;   (** ["InService"], ["Creating"], ["Failed"], ... *)
  ep_created : Z        (** creation time *)
}.
(** Endpoint configurations and models: a name and a creation time. *)
Record Named := mkNamed { nm_name : string; nm_created : Z }.
Record NatGateway := mkNat { nat_id : string; nat_state : string }.

(** The resources of one region. *)
Record Region := mkRegion {
  rg_rest_apis : list RestApi;
  rg_user_pools : list UserPool;
  rg_endpoints : list Endpoint;
  rg_endpoint_configs : list Named;
  rg_models : list Named;
  rg_log_groups : list string;
  rg_tables : list string;
  rg_repositories : list string;
  rg_nat_gateways : list NatGateway
}.

#[export] Instance RestApi_eq_dec : EqDecision RestApi.
Proof. solve_decision. Defined.
#[export] Instance UserPoolClient_eq_dec : EqDecision UserPoolClient.
Proof. solve_decision. Defined.
#[export] Instance UserPool_eq_dec : EqDecision UserPool.
Proof. solve_decision. Defined.
#[export] Instance Endpoint_eq_dec : EqDecision Endpoint.
Proof. solve_decision. Defined.
#[export] Instance Named_eq_dec : EqDecision Named.
Proof. solve_decision. Defined.
#[export] Instance NatGateway_eq_dec : EqDecision NatGateway.
Proof. solve_decision. Defined.

Definition empty_region : Region := mkRegion [] [] [] [] [] [] [] [] [].

(** S3 buckets live in one global namespace; [bucket_location] is what
    [GetBucketLocation] answers ([None] for us-east-1). *)
Record Bucket := mkBucket {
  bucket_name : string;
  bucket_location : option string;
  bucket_objects : list string
}.

#[export] Instance Bucket_eq_dec : EqDecision Bucket.
Proof. solve_decision. Defined.

(** The account: its regions, its buckets, and the API operations the
    caller's credentials are not allowed to call (such a call fails with
    [AccessDeniedException]). *)
Record Cloud := mkCloud {
  regions : gmap string Region;
  buckets : list Bucket;
  denied : list string;
  ecr_images : gmap (string * string) (list string);   (** (region, repository) -> image ids *)
  ecs_deployments : gmap (string * string * string) nat
    (** (region, cluster, service) -> deployments started *)
}.

Definition region_of (c : Cloud) (r : string) : Region :=
  default empty_region (regions c !! r).

Definition set_region (r : string) (rg : Region) (c : Cloud) : Cloud :=
  mkCloud (<[r := rg]> (regions c)) (buckets c) (denied c) (ecr_images c) (ecs_deployments c).

Definition set_buckets (bs : list Bucket) (c : Cloud) : Cloud :=
  mkCloud (regions c) bs (denied c) (ecr_images c) (ecs_deployments c).

(** Replacing one kind of resource of a region. *)
Definition set_rg_log_groups (l : list string) (rg : Region) : Region :=
  mkRegion (rg_rest_apis rg) (rg_user_pools rg) (rg_endpoints rg) (rg_endpoint_configs rg)
    (rg_models rg) l (rg_tables rg) (rg_repositories rg) (rg_nat_gateways rg).
Definition set_rg_tables (l : list string) (rg : Region) : Region :=
  mkRegion (rg_rest_apis rg) (rg_user_pools rg) (rg_endpoints rg) (rg_endpoint_configs rg)
    (rg_models rg) (rg_log_groups rg) l (rg_repositories rg) (rg_nat_gateways rg).
Definition set_rg_repositories (l : list string) (rg : Region) : Region :=
  mkRegion (rg_rest_apis rg) (rg_user_pools rg) (rg_endpoints rg) (rg_endpoint_configs rg)
    (rg_models rg) (rg_log_groups rg) (rg_tables rg) l (rg_nat_gateways rg).
Definition set_rg_user_pools (l : list UserPool) (rg : Region) : Region :=
  mkRegion (rg_rest_apis rg) l (rg_endpoints rg) (rg_endpoint_configs rg)
    (rg_models rg) (rg_log_groups rg) (rg_tables rg) (rg_repositories rg) (rg_nat_gateways rg).
Definition set_rg_endpoints (l : list Endpoint) (rg : Region) : Region :=
  mkRegion (rg_rest_apis rg) (rg_user_pools rg) l (rg_endpoint_configs rg)
    (rg_models rg) (rg_log_groups rg) (rg_tables rg) (rg_repositories rg) (rg_nat_gateways rg).
Definition set_rg_endpoint_configs (l : list Named) (rg : Region) : Region :=
  mkRegion (rg_rest_apis rg) (rg_user_pools rg) (rg_endpoints rg) l
    (rg_models rg) (rg_log_groups rg) (rg_tables rg) (rg_repositories rg) (rg_nat_gateways rg).
Definition set_rg_models (l : list Named) (rg : Region) : Region :=
  mkRegion (rg_rest_apis rg) (rg_user_pools rg) (rg_endpoints rg) (rg_endpoint_configs rg)
    l (rg_log_groups rg) (rg_tables rg) (rg_repositories rg) (rg_nat_gateways rg).

(** ** Well-formed accounts

    AWS names are unique where the scripts address resources by name: a
    log group, table or repository name, an endpoint, endpoint
    configuration or model name, a user pool id within a region, and a
    bucket name in the whole account. *)
Definition region_wf (rg : Region) : Prop :=
  NoDup (rg_log_groups rg) /\ NoDup (rg_tables rg) /\ NoDup (rg_repositories rg) /\
  NoDup (pool_id <$> rg_user_pools rg) /\ NoDup (ep_name <$> rg_endpoints rg) /\
  NoDup (nm_name <$> rg_endpoint_configs rg) /\ NoDup (nm_name <$> rg_models rg).

#[export] Instance region_wf_dec rg : Decision (region_wf rg).
Proof. unfold region_wf. apply _. Defined.

Definition cloud_wf (c : Cloud) : Prop :=
  map_Forall (fun _ => region_wf) (regions c) /\ NoDup (bucket_name <$> buckets c).

#[export] Instance cloud_wf_dec c : Decision (cloud_wf c).
Proof. unfold cloud_wf. apply _. Defined.

(** ** Pages of the list operations *)

Definition rest_apis_limit : nat := 25.
Definition sagemaker_max_results : nat := 10.
Definition log_groups_limit : nat := 50.

(** [GetRestApis] (default limit). *)
Definition rest_apis_page (rg : Region) : list RestApi :=
  take rest_apis_limit (rg_rest_apis rg).

(** [ListUserPools(MaxResults=n)]. *)
Definition user_pools_page (rg : Region) (n : nat) : list UserPool :=
  take n (rg_user_pools rg).

(** [ListEndpoints(SortBy='CreationTime', SortOrder='Descending',
    NameContains=p, StatusEquals=st)]. *)
Definition newest_first (e1 e2 : Endpoint) : Prop := (ep_created e2 <= ep_created e1)%Z.

#[export] Instance newest_first_dec : RelDecision newest_first.
Proof. intros a b. unfold newest_first. apply _. Defined.

Definition endpoints_page (rg : Region) (name_contains status : string) : list Endpoint :=
  take sagemaker_max_results
    (merge_sort newest_first
       (filter (fun e => contains name_contains (ep_name e) = true /\ ep_status e = status)
          (rg_endpoints rg))).

(** [ListEndpointConfigs] / [ListModels] with [NameContains=p], newest first. *)
Definition named_newest_first (a b : Named) : Prop := (nm_created b <= nm_created a)%Z.

#[export] Instance named_newest_first_dec : RelDecision named_newest_first.
Proof. intros a b. unfold named_newest_first. apply _. Defined.

Definition named_page (l : list Named) (name_contains : string) : list Named :=
  take sagemaker_max_results
    (merge_sort named_newest_first
       (filter (fun n => contains name_contains (nm_name n) = true) l)).

(** [DescribeLogGroups] (default limit). *)
Definition log_groups_page (rg : Region) : list string :=
  take log_groups_limit (rg_log_groups rg).

(** ** Facts about pages *)

Lemma take_length_bound {A} (n : nat) (l : list A) : length (take n l) <= n.
Proof. rewrite length_take. lia. Qed.

(** A prefix of a sorted list is sorted. *)
Lemma Sorted_take {A} (R : relation A) (n : nat) (l : list A) :
  Sorted R l -> Sorted R (take n l).
Proof.
  revert l. induction n as [|n IH]; intros [|x l] Hs; simpl; try constructor.
  - apply Sorted_inv in Hs as [Hs Hhd]. by apply IH.
  - apply Sorted_inv in Hs as [_ Hhd]. destruct l as [|y l], n; simpl; constructor.
    by inversion Hhd.
Qed.

Lemma rest_apis_page_length rg : length (rest_apis_page rg) <= rest_apis_limit.
Proof. apply take_length_bound. Qed.

Lemma user_pools_page_length rg n : length (user_pools_page rg n) <= n.
Proof. apply take_length_bound. Qed.

Lemma endpoints_page_length rg p st : length (endpoints_page rg p st) <= sagemaker_max_results.
Proof. apply take_length_bound. Qed.

(** Every endpoint listed matches the filter and is in the region. *)
Lemma endpoints_page_elem rg p st e :
  e ∈ endpoints_page rg p st ->
  e ∈ rg_endpoints rg /\ contains p (ep_name e) = true /\ ep_status e = st.
Proof.
  unfold endpoints_page. intros He. apply elem_of_take in He as [i [Hi _]].
  apply list_elem_of_lookup_2 in Hi.
  rewrite (merge_sort_Permutation _ _) in Hi. apply list_elem_of_filter in Hi.
  naive_solver.
Qed.

#[export] Instance newest_first_total : Total newest_first.
Proof. intros a b. unfold newest_first. lia. Qed.

(** The listed endpoints are newest first. *)
Lemma endpoints_page_sorted rg p st : Sorted newest_first (endpoints_page rg p st).
Proof.
  unfold endpoints_page. apply Sorted_take. apply Sorted_merge_sort. apply _.
Qed.

#[export] Instance newest_first_trans : Transitive newest_first.
Proof. intros a b c. unfold newest_first. lia. Qed.

(** An endpoint that matches the filter and is strictly newer than every
    other endpoint of the region heads the page. *)
Lemma endpoints_page_head rg p st e :
  e ∈ rg_endpoints rg -> contains p (ep_name e) = true -> ep_status e = st ->
  (forall e', e' ∈ rg_endpoints rg -> e' <> e -> (ep_created e' < ep_created e)%Z) ->
  head (endpoints_page rg p st) = Some e.
Proof.
  intros He Hp Hst Hnew. unfold endpoints_page, sagemaker_max_results.
  set (l := filter _ (rg_endpoints rg)).
  assert (e ∈ l) as Hel by (apply list_elem_of_filter; naive_solver).
  pose proof (StronglySorted_merge_sort newest_first l) as Hs.
  pose proof (merge_sort_Permutation newest_first l) as Hperm.
  destruct (merge_sort newest_first l) as [|h t] eqn:Ems.
  { apply Permutation_nil_l in Hperm. rewrite <- Hperm in Hel. set_solver. }
  simpl. f_equal. destruct (decide (h = e)) as [->|Hne]; [done|].
  assert (h ∈ l) as Hh by (rewrite <- Hperm; set_solver).
  apply list_elem_of_filter in Hh as [_ Hh]. specialize (Hnew h Hh Hne).
  assert (e ∈ t) as Het by (rewrite <- Hperm in Hel; set_solver).
  apply StronglySorted_inv in Hs as [_ Hall]. rewrite Forall_forall in Hall.
  apply Hall in Het. unfold newest_first in Het. lia.
Qed.

(** Endpoint names are distinct on a page when they are in the region. *)
Lemma endpoints_page_NoDup rg p st :
  NoDup (ep_name <$> rg_endpoints rg) -> NoDup (ep_name <$> endpoints_page rg p st).
Proof.
  intros Hnd. unfold endpoints_page. eapply sublist_NoDup; [|apply fmap_sublist, sublist_take].
  rewrite (merge_sort_Permutation _ _). eapply sublist_NoDup; [exact Hnd|].
  apply fmap_sublist, sublist_filter.
Qed.
