(* ===== verification/World.v ===== *)
(** * The world a script runs in, and the boto3 calls

    [World] is the state threaded through a script: the files of the
    working directory, the lines printed on stdout, the process
    environment, and the AWS account. This file gives the primitive
    statements on it ([print], [os.environ], [open(...).read()],
    [open(..., 'w').write], creating a boto3 client) and the boto3 calls
    the scripts make. The read-only calls consumed by the provider query
    layer of [prepare_files.py] form the interface [ProviderApi]: the
    lookups are proved against its laws [ProviderApiLaws], which the AWS
    model [aws_provider] discharges. *)

From Stdlib Require Import String ZArith.
From stdpp Require Import base list gmap strings sorting.
From S2P Require Import Spec2Rocq PyStr Cloud.

Record World := mkWorld {
  fs : gmap string string;       (** path -> contents *)
  unwritable : gset string;      (** paths [open(path, 'w')] refuses *)
  out : list string;             (** lines printed, oldest first *)
  environ : gmap string string;  (** [os.environ] *)
  cloud : Cloud
}.

Abbreviation script := (pyM World).

(** ** Primitive statements *)

Definition set_fs (f : gmap string string) (w : World) : World :=
  mkWorld f (unwritable w) (out w) (environ w) (cloud w).
Definition set_out (o : list string) (w : World) : World :=
  mkWorld (fs w) (unwritable w) o (environ w) (cloud w).
Definition set_cloud (c : Cloud) (w : World) : World :=
  mkWorld (fs w) (unwritable w) (out w) (environ w) c.

(** [print(msg)]. *)
Definition print (msg : string) : script unit :=
  modify (fun w => set_out (out w ++ [msg]) w).

(** [os.environ.get(key, None)]. *)
Definition environ_get (key : string) : script (option string) :=
  gets (fun w : World => environ w !! key).

(** [os.environ[key]]. *)
Definition environ_item (key : string) : script string :=
  v ← environ_get key;
  match v with Some v => mret v | None => raise (KeyError key) end.

(** [open(path, 'r').read()]. *)
Definition read_file (path : string) : script string :=
  c ← gets (fun w : World => fs w !! path);
  match c with Some c => mret c | None => raise (FileNotFoundError path) end.

(** [open(path, 'w').write(contents)]. *)
Definition write_file (path contents : string) : script unit :=
  bad ← gets (fun w : World => bool_decide (path ∈ unwritable w));
  if (bad : bool) then raise (OSError path)
  else modify (fun w => set_fs (<[path := contents]> (fs w)) w).

(** [boto3.client(service, region_name=r)]: a client is bound to a region;
    with no [region_name] it takes [AWS_DEFAULT_REGION] from the
    environment, and creating it fails with [NoRegionError] when that is
    not set. The result is the region of the client. *)
Definition client (region_name : option string) : script string :=
  match region_name with
  | Some r => mret r
  | None =>
      r ← environ_get "AWS_DEFAULT_REGION";
      match r with Some r => mret r | None => raise NoRegionError end
  end.

(** The authorization check every AWS call goes through. *)
Definition aws_call (op : string) : script unit :=
  d ← gets (fun w : World => bool_decide (op ∈ denied (cloud w)));
  if (d : bool) then raise (ClientError "AccessDeniedException") else mret tt.

Definition region_in (w : World) (r : string) : Region := region_of (cloud w) r.

(** ** The read-only calls of the provider query layer *)

Class ProviderApi := {
  (** [apigateway.get_rest_apis()] *)
  get_rest_apis : string -> script (list RestApi);
  (** [cognito_idp.list_user_pools(MaxResults=n)] *)
  list_user_pools : string -> nat -> script (list UserPool);
  (** [cognito_idp.list_user_pool_clients(UserPoolId=id, MaxResults=n)] *)
  list_user_pool_clients : string -> option string -> nat -> script (list UserPoolClient);
  (** [sagemaker.list_endpoints(SortBy='CreationTime', SortOrder='Descending',
      NameContains=p, StatusEquals=st)] *)
  list_endpoints : string -> string -> string -> script (list Endpoint)
}.

(** What the lookups rely on: the calls change nothing, return pages of
    the documented size, the endpoint listing honours its filter and order,
    and a client listing with [UserPoolId=None] is refused by botocore's
    parameter validation before any call. *)
Class ProviderApiLaws `{ProviderApi} := {
  get_rest_apis_ro r : preserves id (get_rest_apis r);
  list_user_pools_ro r n : preserves id (list_user_pools r n);
  list_user_pool_clients_ro r p n : preserves id (list_user_pool_clients r p n);
  list_endpoints_ro r p st : preserves id (list_endpoints r p st);
  list_user_pools_bound r n w l :
    fst (run (list_user_pools r n) w) = Ok l -> length l <= n;
  list_endpoints_filter r p st w l :
    fst (run (list_endpoints r p st) w) = Ok l ->
    Forall (fun e => contains p (ep_name e) = true /\ ep_status e = st) l;
  list_endpoints_sorted r p st w l :
    fst (run (list_endpoints r p st) w) = Ok l -> Sorted newest_first l;
  list_user_pool_clients_None r n w :
    run (list_user_pool_clients r None n) w = (Raise (ParamValidationError "UserPoolId"), w)
}.

(** ** The AWS model of these calls *)

Definition find_pool (pools : list UserPool) (id : string) : option UserPool :=
  snd <$> list_find (fun p => pool_id p = id) pools.

Definition aws_get_rest_apis (region : string) : script (list RestApi) :=
  aws_call "apigateway:GetRestApis";;
  gets (fun w : World => rest_apis_page (region_in w region)).

Definition aws_list_user_pools (region : string) (n : nat) : script (list UserPool) :=
  aws_call "cognito-idp:ListUserPools";;
  gets (fun w : World => user_pools_page (region_in w region) n).

Definition aws_list_user_pool_clients (region : string) (pool : option string) (n : nat)
    : script (list UserPoolClient) :=
  match pool with
  | None => raise (ParamValidationError "UserPoolId")
  | Some id =>
      aws_call "cognito-idp:ListUserPoolClients";;
      p ← gets (fun w : World => find_pool (rg_user_pools (region_in w region)) id);
      match p with
      | Some p => mret (take n (pool_clients p))
      | None => raise (ClientError "ResourceNotFoundException")
      end
  end.

Definition aws_list_endpoints (region p st : string) : script (list Endpoint) :=
  aws_call "sagemaker:ListEndpoints";;
  gets (fun w : World => endpoints_page (region_in w region) p st).

#[export] Instance aws_provider : ProviderApi := {
  get_rest_apis := aws_get_rest_apis;
  list_user_pools := aws_list_user_pools;
  list_user_pool_clients := aws_list_user_pool_clients;
  list_endpoints := aws_list_endpoints
}.

(** ** The AWS model meets the interface *)

Lemma run_aws_call op w :
  run (aws_call op) w =
    (if bool_decide (op ∈ denied (cloud w))
     then Raise (ClientError "AccessDeniedException") else Ok tt, w).
Proof. unfold aws_call. py_run. by case_bool_decide. Qed.

Lemma aws_call_ro op : preserves id (aws_call op).
Proof. intros w. rewrite run_aws_call. by case_bool_decide. Qed.

#[export] Hint Resolve aws_call_ro : py.

(** A call guarded by [aws_call] that then reads the world returns what
    it reads, unless the operation is denied. *)
Lemma run_aws_read {A} op (f : World -> A) w l :
  fst (run (aws_call op;; gets f) w) = Ok l -> l = f w.
Proof.
  rewrite run_bind, run_aws_call. case_bool_decide; simpl; congruence.
Qed.

#[export] Instance aws_provider_laws : ProviderApiLaws.
Proof.
  split; cbn [get_rest_apis list_user_pools list_user_pool_clients list_endpoints aws_provider].
  - intros r. unfold aws_get_rest_apis. auto with py.
  - intros r n. unfold aws_list_user_pools. auto with py.
  - intros r [id|] n; unfold aws_list_user_pool_clients; [|auto with py].
    apply preserves_bind; [auto with py|]. intros _.
    apply preserves_bind; [auto with py|]. intros [p|]; auto with py.
  - intros r p st. unfold aws_list_endpoints. auto with py.
  - intros r n w l Hl. apply run_aws_read in Hl as ->. apply user_pools_page_length.
  - intros r p st w l Hl. apply run_aws_read in Hl as ->.
    apply Forall_forall. intros e He.
    apply endpoints_page_elem in He as (_ & ? & ?). done.
  - intros r p st w l Hl. apply run_aws_read in Hl as ->. apply endpoints_page_sorted.
  - done.
Qed.

(** ** Equations of the primitive statements *)

Lemma run_read_file p w :
  run (read_file p) w =
    match fs w !! p with
    | Some c => (Ok c, w)
    | None => (Raise (FileNotFoundError p), w)
    end.
Proof. unfold read_file. py_run. by destruct (fs w !! p). Qed.

Lemma run_write_file p c w :
  run (write_file p c) w =
    if bool_decide (p ∈ unwritable w) then (Raise (OSError p), w)
    else (Ok tt, set_fs (<[p := c]> (fs w)) w).
Proof. unfold write_file. py_run. by case_bool_decide. Qed.

Lemma run_print msg w : run (print msg) w = (Ok tt, set_out (out w ++ [msg]) w).
Proof. reflexivity. Qed.

Lemma run_environ_get k w : run (environ_get k) w = (Ok (environ w !! k), w).
Proof. reflexivity. Qed.

Lemma print_fs msg : preserves fs (print msg).
Proof. done. Qed.

Lemma read_file_ro p : preserves id (read_file p).
Proof. intros w. rewrite run_read_file. by destruct (fs w !! p). Qed.

Lemma environ_get_ro k : preserves id (environ_get k).
Proof. done. Qed.

Lemma client_ro r : preserves id (client r).
Proof.
  destruct r as [r|]; simpl; [done|].
  apply preserves_bind; [apply environ_get_ro|]. intros [?|]; done.
Qed.

(** What changes nothing changes no part of the world. *)
Lemma preserves_id {T A} (proj : World -> T) (m : script A) :
  preserves id m -> preserves proj m.
Proof. intros H w. specialize (H w). cbv [id] in H. by rewrite H. Qed.

#[export] Hint Resolve print_fs read_file_ro environ_get_ro client_ro : py.
#[export] Hint Resolve preserves_id | 10 : py.
#[export] Hint Rewrite run_read_file run_write_file run_print run_environ_get : py_rw.

(** ** What a statement may print and which files it may write *)

(** [prints_only P m]: [m] appends to stdout only lines satisfying [P]. *)
Definition prints_only {A} (P : string -> Prop) (m : script A) : Prop :=
  forall w, exists new, out (snd (run m w)) = out w ++ new /\ Forall P new.

(** [writes_only S m]: [m] changes no file outside [S]. *)
Definition writes_only {A} (S : gset string) (m : script A) : Prop :=
  forall w p, p ∉ S -> fs (snd (run m w)) !! p = fs w !! p.

Section prints.
Context (P : string -> Prop).

Lemma prints_only_preserves {A} (m : script A) : preserves out m -> prints_only P m.
Proof. intros H w. exists []. rewrite app_nil_r. split; [apply H|constructor]. Qed.

Lemma prints_only_print msg : P msg -> prints_only P (print msg).
Proof. intros H w. exists [msg]. by split; [|constructor]. Qed.

Lemma prints_only_bind {A B} (m : script A) (f : A -> script B) :
  prints_only P m -> (forall a, prints_only P (f a)) -> prints_only P (m ≫= f).
Proof.
  intros Hm Hf w. rewrite run_bind. destruct (Hm w) as (n1 & E1 & F1).
  destruct (run m w) as [[a|e] w'] eqn:E; simpl in *.
  - destruct (Hf a w') as (n2 & E2 & F2). exists (n1 ++ n2).
    rewrite E2, E1, app_assoc. split; [done|]. by apply Forall_app.
  - by exists n1.
Qed.

Lemma prints_only_if {A} (b : bool) (m1 m2 : script A) :
  prints_only P m1 -> prints_only P m2 -> prints_only P (if b then m1 else m2).
Proof. by destruct b. Qed.

(** [print(msg); raise e] ends the statement: what follows never runs. *)
Lemma prints_only_print_raise {A B} msg e (f : A -> script B) :
  P msg -> prints_only P ((print msg;; raise e) ≫= f).
Proof. intros H w. exists [msg]. by split; [|constructor]. Qed.
End prints.

Section writes.
Context (S : gset string).

Lemma writes_only_preserves {A} (m : script A) : preserves fs m -> writes_only S m.
Proof. intros H w p _. by rewrite H. Qed.

Lemma writes_only_write p c : p ∈ S -> writes_only S (write_file p c).
Proof.
  intros Hp w q Hq. rewrite run_write_file. case_bool_decide; [done|].
  simpl. rewrite lookup_insert_ne; [done|]. set_solver.
Qed.

Lemma writes_only_bind {A B} (m : script A) (f : A -> script B) :
  writes_only S m -> (forall a, writes_only S (f a)) -> writes_only S (m ≫= f).
Proof.
  intros Hm Hf w p Hp. rewrite run_bind. specialize (Hm w p Hp).
  destruct (run m w) as [[a|e] w'] eqn:E; simpl in *; [|done].
  by rewrite Hf.
Qed.

Lemma writes_only_if {A} (b : bool) (m1 m2 : script A) :
  writes_only S m1 -> writes_only S m2 -> writes_only S (if b then m1 else m2).
Proof. by destruct b. Qed.
End writes.

Lemma write_file_out p c : preserves out (write_file p c).
Proof. intros w. rewrite run_write_file. by case_bool_decide. Qed.

Lemma print_out_free {A} (m : script A) : preserves id m -> preserves out m.
Proof. apply preserves_id. Qed.

#[export] Hint Resolve write_file_out prints_only_preserves prints_only_print prints_only_bind
  prints_only_if writes_only_preserves writes_only_write writes_only_bind writes_only_if : py.
