(* ===== verification/AwsOps.v ===== *)
(** * The boto3 calls of the cleanup script

    The calls [clean_utils.py] makes to delete resources, and the list
    calls it makes besides those of [World.v], as statements on the world:
    each goes through the authorization check [aws_call], reads or changes
    one region of the account (or the account's buckets), and fails with
    the [ClientError] code the service returns for a missing resource. The
    deletions of a named regional resource are one generic statement,
    [delete_resource], whose equation and frame are proved once. Every
    call keeps the account well formed ([cloud_wf]). *)

From Stdlib Require Import String ZArith.
From stdpp Require Import base list gmap strings sorting.
From S2P Require Import Spec2Rocq PyStr Cloud World.

(** ** Changing the account *)

Definition update_cloud (f : Cloud -> Cloud) : script unit :=
  modify (fun w => set_cloud (f (cloud w)) w).

Definition update_region (r : string) (f : Region -> Region) : script unit :=
  update_cloud (fun c => set_region r (f (region_of c r)) c).

(** The deletion of a regional resource: the call is refused without
    permission, fails with [code] when the resource is missing, and
    otherwise removes it. *)
Definition delete_resource (op code r : string) (present : Region -> bool)
    (remove : Region -> Region) : script unit :=
  aws_call op;;
  p ← gets (fun w : World => present (region_in w r));
  if (p : bool) then update_region r remove else raise (ClientError code).

(** ** CloudWatch Logs *)

Definition describe_log_groups (r : string) : script (list string) :=
  aws_call "logs:DescribeLogGroups";;
  gets (fun w : World => log_groups_page (region_in w r)).

Definition remove_log_group (name : string) (rg : Region) : Region :=
  set_rg_log_groups (filter (fun g => g <> name) (rg_log_groups rg)) rg.

Definition delete_log_group (r name : string) : script unit :=
  delete_resource "logs:DeleteLogGroup" "ResourceNotFoundException" r
    (fun rg => bool_decide (name ∈ rg_log_groups rg)) (remove_log_group name).

(** ** DynamoDB, Cognito, ECR *)

Definition remove_table (name : string) (rg : Region) : Region :=
  set_rg_tables (filter (fun t => t <> name) (rg_tables rg)) rg.

Definition delete_table (r name : string) : script unit :=
  delete_resource "dynamodb:DeleteTable" "ResourceNotFoundException" r
    (fun rg => bool_decide (name ∈ rg_tables rg)) (remove_table name).

Definition remove_user_pool (id : string) (rg : Region) : Region :=
  set_rg_user_pools (filter (fun p => pool_id p <> id) (rg_user_pools rg)) rg.

Definition delete_user_pool (r id : string) : script unit :=
  delete_resource "cognito-idp:DeleteUserPool" "ResourceNotFoundException" r
    (fun rg => bool_decide (id ∈ pool_id <$> rg_user_pools rg)) (remove_user_pool id).

Definition remove_repository (name : string) (rg : Region) : Region :=
  set_rg_repositories (filter (fun n => n <> name) (rg_repositories rg)) rg.

(** [delete_repository(repositoryName=name, force=True)]: [force] deletes
    the images with the repository. *)
Definition delete_repository (r name : string) : script unit :=
  delete_resource "ecr:DeleteRepository" "RepositoryNotFoundException" r
    (fun rg => bool_decide (name ∈ rg_repositories rg)) (remove_repository name).

(** ** EC2 *)

(** The states the script's filter lists. *)
Definition nat_states : list string := ["pending"; "failed"; "available"; "deleting"; "deleted"].

(** [describe_nat_gateways(Filters=[{'Name': 'state', 'Values': nat_states}])]. *)
Definition describe_nat_gateways (r : string) : script (list NatGateway) :=
  aws_call "ec2:DescribeNatGateways";;
  gets (fun w : World =>
    filter (fun g => nat_state g ∈ nat_states) (rg_nat_gateways (region_in w r))).

(** ** SageMaker *)

Definition list_endpoint_configs (r p : string) : script (list Named) :=
  aws_call "sagemaker:ListEndpointConfigs";;
  gets (fun w : World => named_page (rg_endpoint_configs (region_in w r)) p).

Definition list_models (r p : string) : script (list Named) :=
  aws_call "sagemaker:ListModels";;
  gets (fun w : World => named_page (rg_models (region_in w r)) p).

Definition remove_endpoint (name : string) (rg : Region) : Region :=
  set_rg_endpoints (filter (fun e => ep_name e <> name) (rg_endpoints rg)) rg.

(** SageMaker answers a missing name with [ValidationException]. *)
Definition delete_endpoint (r name : string) : script unit :=
  delete_resource "sagemaker:DeleteEndpoint" "ValidationException" r
    (fun rg => bool_decide (name ∈ ep_name <$> rg_endpoints rg)) (remove_endpoint name).

Definition remove_endpoint_config (name : string) (rg : Region) : Region :=
  set_rg_endpoint_configs (filter (fun n => nm_name n <> name) (rg_endpoint_configs rg)) rg.

Definition delete_endpoint_config (r name : string) : script unit :=
  delete_resource "sagemaker:DeleteEndpointConfig" "ValidationException" r
    (fun rg => bool_decide (name ∈ nm_name <$> rg_endpoint_configs rg))
    (remove_endpoint_config name).

Definition remove_model (name : string) (rg : Region) : Region :=
  set_rg_models (filter (fun n => nm_name n <> name) (rg_models rg)) rg.

Definition delete_model (r name : string) : script unit :=
  delete_resource "sagemaker:DeleteModel" "ValidationException" r
    (fun rg => bool_decide (name ∈ nm_name <$> rg_models rg)) (remove_model name).

(** ** S3 *)

(** The bucket of that name (names are unique in a well-formed account). *)
Definition find_bucket (name : string) (bs : list Bucket) : option Bucket :=
  head (filter (fun b => bucket_name b = name) bs).

Definition list_buckets : script (list string) :=
  aws_call "s3:ListBuckets";;
  gets (fun w : World => bucket_name <$> buckets (cloud w)).

(** [get_bucket_location(Bucket=name)['LocationConstraint']]. *)
Definition get_bucket_location (name : string) : script (option string) :=
  aws_call "s3:GetBucketLocation";;
  b ← gets (fun w : World => find_bucket name (buckets (cloud w)));
  match b with
  | Some b => mret (bucket_location b)
  | None => raise (ClientError "NoSuchBucket")
  end.

Definition empty_bucket (name : string) (bs : list Bucket) : list Bucket :=
  (fun b => if decide (bucket_name b = name)
            then mkBucket (bucket_name b) (bucket_location b) [] else b) <$> bs.

(** [s3.Bucket(name).objects.delete()]: lists the objects and deletes
    them in batches. *)
Definition delete_objects (name : string) : script unit :=
  aws_call "s3:DeleteObject";;
  b ← gets (fun w : World => find_bucket name (buckets (cloud w)));
  match b with
  | Some _ => update_cloud (fun c => set_buckets (empty_bucket name (buckets c)) c)
  | None => raise (ClientError "NoSuchBucket")
  end.

(** [delete_bucket(Bucket=name)]: only an empty bucket can be deleted. *)
Definition delete_bucket (name : string) : script unit :=
  aws_call "s3:DeleteBucket";;
  b ← gets (fun w : World => find_bucket name (buckets (cloud w)));
  match b with
  | Some b =>
      if bool_decide (bucket_objects b = []) then
        update_cloud (fun c => set_buckets (filter (fun b => bucket_name b <> name) (buckets c)) c)
      else raise (ClientError "BucketNotEmpty")
  | None => raise (ClientError "NoSuchBucket")
  end.

(** ** Equations *)

Lemma region_of_set_region c r r' rg :
  region_of (set_region r rg c) r' = if decide (r = r') then rg else region_of c r'.
Proof. unfold region_of, set_region. simpl. rewrite lookup_insert. by case_decide. Qed.

Lemma run_update_region r f w :
  run (update_region r f) w =
    (Ok tt, set_cloud (set_region r (f (region_in w r)) (cloud w)) w).
Proof. reflexivity. Qed.

Lemma run_delete_resource op code r present remove w :
  run (delete_resource op code r present remove) w =
    if bool_decide (op ∈ denied (cloud w)) then (Raise (ClientError "AccessDeniedException"), w)
    else if present (region_in w r) then
      (Ok tt, set_cloud (set_region r (remove (region_in w r)) (cloud w)) w)
    else (Raise (ClientError code), w).
Proof.
  unfold delete_resource. rewrite run_bind, run_aws_call.
  case_bool_decide; [done|]. py_run. by destruct (present _).
Qed.

(** A deletion changes nothing but the account. *)
Lemma update_cloud_fs f : preserves fs (update_cloud f).
Proof. done. Qed.

Lemma update_cloud_out f : preserves out (update_cloud f).
Proof. done. Qed.

Lemma delete_resource_fs op code r present remove :
  preserves fs (delete_resource op code r present remove).
Proof. intros w. rewrite run_delete_resource. by repeat case_match. Qed.

Lemma delete_resource_out op code r present remove :
  preserves out (delete_resource op code r present remove).
Proof. intros w. rewrite run_delete_resource. by repeat case_match. Qed.

(** ** Deletions keep the account well formed *)

Definition world_wf (w : World) : Prop := cloud_wf (cloud w).

Lemma NoDup_fmap_filter {A B} (f : A -> B) (P : A -> Prop) `{forall x, Decision (P x)} l :
  NoDup (f <$> l) -> NoDup (f <$> filter P l).
Proof. intros Hl. eapply sublist_NoDup; [exact Hl|]. apply fmap_sublist, sublist_filter. Qed.

#[export] Hint Resolve NoDup_fmap_filter NoDup_filter : py.

Lemma empty_region_wf : region_wf empty_region.
Proof. repeat split; constructor. Qed.

Lemma region_of_wf c r : cloud_wf c -> region_wf (region_of c r).
Proof.
  intros [Hc _]. unfold region_of. destruct (regions c !! r) eqn:E; simpl.
  - by apply (Hc r).
  - apply empty_region_wf.
Qed.

Lemma set_region_wf c r rg : cloud_wf c -> region_wf rg -> cloud_wf (set_region r rg c).
Proof.
  intros [Hc Hb] Hrg. split; [|done]. by apply map_Forall_insert_2.
Qed.

Lemma update_region_wf r f :
  (forall rg, region_wf rg -> region_wf (f rg)) -> keeps world_wf (update_region r f).
Proof.
  intros Hf w Hw. apply set_region_wf; [done|]. apply Hf, region_of_wf, Hw.
Qed.

Lemma delete_resource_wf op code r present remove :
  (forall rg, region_wf rg -> region_wf (remove rg)) ->
  keeps world_wf (delete_resource op code r present remove).
Proof.
  intros Hf w Hw. rewrite run_delete_resource.
  repeat case_match; simpl; try done. by apply update_region_wf.
Qed.

(** Each removal keeps a region well formed. *)
Ltac region_wf_solve :=
  intros rg (?&?&?&?&?&?&?); unfold region_wf; simpl; repeat split; auto with py.

Lemma delete_log_group_wf r n : keeps world_wf (delete_log_group r n).
Proof. apply delete_resource_wf. region_wf_solve. Qed.
Lemma delete_table_wf r n : keeps world_wf (delete_table r n).
Proof. apply delete_resource_wf. region_wf_solve. Qed.
Lemma delete_user_pool_wf r n : keeps world_wf (delete_user_pool r n).
Proof. apply delete_resource_wf. region_wf_solve. Qed.
Lemma delete_repository_wf r n : keeps world_wf (delete_repository r n).
Proof. apply delete_resource_wf. region_wf_solve. Qed.
Lemma delete_endpoint_wf r n : keeps world_wf (delete_endpoint r n).
Proof. apply delete_resource_wf. region_wf_solve. Qed.
Lemma delete_endpoint_config_wf r n : keeps world_wf (delete_endpoint_config r n).
Proof. apply delete_resource_wf. region_wf_solve. Qed.
Lemma delete_model_wf r n : keeps world_wf (delete_model r n).
Proof. apply delete_resource_wf. region_wf_solve. Qed.

(** The list calls change nothing. *)
Lemma list_buckets_ro : preserves id list_buckets.
Proof. unfold list_buckets. auto with py. Qed.
Lemma get_bucket_location_ro n : preserves id (get_bucket_location n).
Proof. unfold get_bucket_location. apply preserves_bind; [auto with py|]. intros _.
  apply preserves_bind; [auto with py|]. intros []; auto with py. Qed.
Lemma describe_log_groups_ro r : preserves id (describe_log_groups r).
Proof. unfold describe_log_groups. auto with py. Qed.
Lemma describe_nat_gateways_ro r : preserves id (describe_nat_gateways r).
Proof. unfold describe_nat_gateways. auto with py. Qed.
Lemma list_endpoint_configs_ro r p : preserves id (list_endpoint_configs r p).
Proof. unfold list_endpoint_configs. auto with py. Qed.
Lemma list_models_ro r p : preserves id (list_models r p).
Proof. unfold list_models. auto with py. Qed.

#[export] Hint Resolve list_buckets_ro get_bucket_location_ro describe_log_groups_ro
  describe_nat_gateways_ro list_endpoint_configs_ro list_models_ro : py.

Lemma print_cloud msg : preserves cloud (print msg).
Proof. done. Qed.

Lemma preserves_cloud_wf {A} (m : script A) : preserves cloud m -> keeps world_wf m.
Proof. intros Hm w Hw. unfold world_wf. by rewrite Hm. Qed.

Lemma print_wf msg : keeps world_wf (print msg).
Proof. apply preserves_cloud_wf, print_cloud. Qed.

Lemma empty_bucket_names n bs : bucket_name <$> empty_bucket n bs = bucket_name <$> bs.
Proof. unfold empty_bucket. rewrite <- list_fmap_compose. apply list_fmap_ext. intros _ b _. simpl. by case_decide. Qed.

Lemma update_buckets_wf (f : list Bucket -> list Bucket) :
  (forall bs, NoDup (bucket_name <$> bs) -> NoDup (bucket_name <$> f bs)) ->
  keeps world_wf (update_cloud (fun c => set_buckets (f (buckets c)) c)).
Proof. intros Hf w [Hr Hb]. split; [done|]. by apply Hf. Qed.

Lemma delete_objects_wf n : keeps world_wf (delete_objects n).
Proof.
  unfold delete_objects. apply keeps_bind; [auto with py|]. intros _.
  apply keeps_bind; [auto with py|]. intros [b|]; [|auto with py].
  apply update_buckets_wf. intros bs. by rewrite empty_bucket_names.
Qed.

Lemma delete_bucket_wf n : keeps world_wf (delete_bucket n).
Proof.
  unfold delete_bucket. apply keeps_bind; [auto with py|]. intros _.
  apply keeps_bind; [auto with py|]. intros [b|]; [|auto with py].
  apply keeps_if; [|auto with py]. apply update_buckets_wf. auto with py.
Qed.

#[export] Hint Resolve print_wf delete_log_group_wf delete_table_wf delete_user_pool_wf
  delete_repository_wf delete_endpoint_wf delete_endpoint_config_wf delete_model_wf
  delete_objects_wf delete_bucket_wf : py.

(** ** Reading the account after a change *)

Lemma region_in_set_region w r r' rg :
  region_in (set_cloud (set_region r rg (cloud w)) w) r' =
    if decide (r = r') then rg else region_in w r'.
Proof. apply region_of_set_region. Qed.

Lemma run_delete_log_group r name w :
  "logs:DeleteLogGroup" ∉ denied (cloud w) ->
  run (delete_log_group r name) w =
    if bool_decide (name ∈ rg_log_groups (region_in w r))
    then (Ok tt, set_cloud (set_region r (remove_log_group name (region_in w r)) (cloud w)) w)
    else (Raise (ClientError "ResourceNotFoundException"), w).
Proof. intros Hd. unfold delete_log_group. rewrite run_delete_resource. by case_bool_decide. Qed.

Lemma run_describe_log_groups r w :
  "logs:DescribeLogGroups" ∉ denied (cloud w) ->
  run (describe_log_groups r) w = (Ok (log_groups_page (region_in w r)), w).
Proof.
  intros Hd. unfold describe_log_groups. rewrite run_bind, run_aws_call.
  by case_bool_decide.
Qed.

(** ** S3 calls, when allowed *)

Lemma run_aws_allowed {A} op (m : script A) w :
  op ∉ denied (cloud w) -> run (aws_call op;; m) w = run m w.
Proof. intros Hd. rewrite run_bind, run_aws_call. by case_bool_decide. Qed.

Definition s3_ops : list string :=
  ["s3:ListBuckets"; "s3:GetBucketLocation"; "s3:DeleteObject"; "s3:DeleteBucket"].

Definition s3_allowed (w : World) : Prop := Forall (fun op => op ∉ denied (cloud w)) s3_ops.

Lemma s3_allowed_op op w : s3_allowed w -> op ∈ s3_ops -> op ∉ denied (cloud w).
Proof. intros Hd Hop. by eapply Forall_forall in Hd. Qed.

Ltac s3_op := apply s3_allowed_op; [done|unfold s3_ops; repeat constructor].

Lemma run_list_buckets w :
  s3_allowed w -> run list_buckets w = (Ok (bucket_name <$> buckets (cloud w)), w).
Proof. intros Hd. unfold list_buckets. rewrite run_aws_allowed; [done|s3_op]. Qed.

Lemma run_get_bucket_location n b w :
  s3_allowed w -> find_bucket n (buckets (cloud w)) = Some b ->
  run (get_bucket_location n) w = (Ok (bucket_location b), w).
Proof.
  intros Hd Hb. unfold get_bucket_location. rewrite run_aws_allowed by s3_op.
  rewrite run_bind, run_gets, Hb. done.
Qed.

(** The buckets other than [x] in a list. *)
Definition others (x : string) (l : list Bucket) : Prop := Forall (fun b => bucket_name b <> x) l.

Lemma others_filter x l : others x l -> filter (fun b => bucket_name b = x) l = [].
Proof. intros H. by apply filter_nil_Forall. Qed.

Lemma find_bucket_mid x l1 b l2 :
  bucket_name b = x -> others x l1 -> find_bucket x (l1 ++ b :: l2) = Some b.
Proof. intros Hb H1. unfold find_bucket. by rewrite filter_app, others_filter, filter_cons_True. Qed.

Lemma map_others {A} (f : Bucket -> A) (g : Bucket -> A) x l :
  others x l -> (forall b, bucket_name b <> x -> f b = g b) -> f <$> l = g <$> l.
Proof. intros H Hfg. apply list_fmap_ext. intros i b Hb. apply Hfg. by eapply Forall_lookup in H. Qed.

Lemma empty_bucket_mid l1 b l2 :
  others (bucket_name b) l1 -> others (bucket_name b) l2 ->
  empty_bucket (bucket_name b) (l1 ++ b :: l2) =
    l1 ++ mkBucket (bucket_name b) (bucket_location b) [] :: l2.
Proof.
  intros H1 H2. unfold empty_bucket. rewrite fmap_app, fmap_cons, decide_True by done.
  rewrite (map_others _ id (bucket_name b) l1), (map_others _ id (bucket_name b) l2), !list_fmap_id;
    try done;
    intros c Hc; by rewrite decide_False.
Qed.

Lemma filter_others_mid x l1 b l2 :
  others x l1 -> others x l2 -> bucket_name b = x ->
  filter (fun c => bucket_name c <> x) (l1 ++ b :: l2) = l1 ++ l2.
Proof.
  intros H1 H2 Hb. rewrite filter_app, filter_cons_False by naive_solver.
  rewrite !filter_all; [done| |]; intros c Hc; [eapply Forall_forall in H2 | eapply Forall_forall in H1]; eauto.
Qed.

(** Emptying then deleting a bucket whose name no other bucket has
    removes it and nothing else. *)
Lemma run_delete_objects_bucket {A} l1 b l2 msg (k : script A) w :
  s3_allowed w -> buckets (cloud w) = l1 ++ b :: l2 ->
  others (bucket_name b) l1 -> others (bucket_name b) l2 ->
  exists w', run (delete_objects (bucket_name b);; print msg;; delete_bucket (bucket_name b);; k) w =
             run k w' /\ buckets (cloud w') = l1 ++ l2 /\ denied (cloud w') = denied (cloud w).
Proof.
  intros Hd Hbs H1 H2. unfold delete_objects. rewrite run_bind, run_aws_allowed by s3_op.
  rewrite run_bind, run_gets, Hbs, find_bucket_mid by done. cbn [run update_cloud modify].
  rewrite run_bind, run_print. unfold delete_bucket. rewrite run_bind, run_aws_allowed by s3_op.
  rewrite run_bind, run_gets. simpl. rewrite Hbs, empty_bucket_mid by done.
  rewrite (find_bucket_mid _ l1 (mkBucket _ _ _)) by done. simpl.
  rewrite ?bool_decide_true by done. rewrite ?run_bind. simpl.
  eexists. split; [done|]. split; [|done]. simpl.
  by apply filter_others_mid.
Qed.

Lemma others_NoDup l1 c l2 :
  NoDup (bucket_name <$> l1 ++ c :: l2) ->
  others (bucket_name c) l1 /\ others (bucket_name c) l2.
Proof.
  rewrite fmap_app, fmap_cons, NoDup_app, NoDup_cons. intros (_ & Hdisj & Hc & _).
  split; apply Forall_forall; intros b Hb Heq.
  - apply (Hdisj (bucket_name b)); [by apply list_elem_of_fmap_2|]. rewrite Heq. left.
  - apply Hc. rewrite <- Heq. by apply list_elem_of_fmap_2.
Qed.

Lemma others_filter_sub x (P : Bucket -> Prop) `{forall b, Decision (P b)} l :
  others x l -> others x (filter P l).
Proof.
  intros Hl. apply Forall_forall. intros b Hb.
  apply list_elem_of_filter in Hb as [_ Hb]. by eapply Forall_forall in Hl.
Qed.

Lemma s3_allowed_denied w w' : denied (cloud w') = denied (cloud w) -> s3_allowed w -> s3_allowed w'.
Proof. unfold s3_allowed. intros ->. done. Qed.

(** ** Deletions, when allowed *)

Lemma run_delete_allowed op code r present remove w :
  op ∉ denied (cloud w) ->
  run (delete_resource op code r present remove) w =
    if present (region_in w r)
    then (Ok tt, set_cloud (set_region r (remove (region_in w r)) (cloud w)) w)
    else (Raise (ClientError code), w).
Proof. intros Hd. by rewrite run_delete_resource, bool_decide_false. Qed.

(** A deletion that does not change the part [proj] of a region leaves
    that part of every region as it is. *)
Lemma delete_resource_region_frame {T} (proj : Region -> T) op code r present remove r' :
  (forall rg, proj (remove rg) = proj rg) ->
  preserves (fun w => proj (region_in w r')) (delete_resource op code r present remove).
Proof.
  intros Hr w. rewrite run_delete_resource. case_bool_decide; [done|].
  destruct (present _); [|done]. simpl. rewrite region_in_set_region.
  case_decide; subst; [apply Hr|done].
Qed.

#[export] Instance world_wf_dec w : Decision (world_wf w).
Proof. unfold world_wf. apply _. Defined.

#[export] Instance s3_allowed_dec w : Decision (s3_allowed w).
Proof. unfold s3_allowed. apply _. Defined.
