(* ===== verification/Substitute.v ===== *)
(** * The template substitution engine

    [replace_string_in_file] (src/webgen/utils/prepare_files.py:60-72)
    reads a file, replaces, for each [(token, value)] of [str_list] in
    order, every occurrence of [token] by [value] (or by ["NOT_FOUND"] when
    [value] is falsy), and writes the result to the target file. The
    same replace chain without the sentinel fills the API Gateway's
    Swagger template in [generate_swagger_spec_json]
    (src/webgen/webgen/apigateway_stack.py:8-18), whose text is then
    parsed by [json.loads]. *)

From Stdlib Require Import String ZArith.
From stdpp Require Import base list gmap strings.
From S2P Require Import Spec2Rocq PyStr Json Cloud World.

(** A pair of [str_list]: a placeholder token and the value found for it
    ([None] when the lookup found nothing). *)
Definition binding : Type := string * option string.

Definition sentinel : string := "NOT_FOUND".

(** One iteration of the loop of lines 64-68:
    [if string_couple[1]: replace(string_couple[0], string_couple[1])
     else: replace(string_couple[0], 'NOT_FOUND')]. *)
Definition apply_binding (replace_string : string) (string_couple : binding) : string :=
  let '(token, value) := string_couple in
  match value with
  | Some v => if truthy v then str_replace replace_string token v
              else str_replace replace_string token sentinel
  | None => str_replace replace_string token sentinel
  end.

(** The loop over [str_list]. *)
Definition substitute (str_list : list binding) (text : string) : string :=
  foldl apply_binding text str_list.

Definition replace_string_in_file (str_list : list binding) (source_file target_file : string)
    : script unit :=
  replace_string ← read_file source_file;
  write_file target_file (substitute str_list replace_string).

(** The chain of [file_source.replace(...)] calls of
    [generate_swagger_spec_json], which passes every value as it is. *)
Definition replace_chain (pairs : list (string * string)) (text : string) : string :=
  foldl (fun t '(token, value) => str_replace t token value) text pairs.

Definition swagger_template : string := "utils/templates/api-swagger.json".

(** The five [replace] calls of [generate_swagger_spec_json], in order. *)
Definition swagger_replacements (account region dns_name user_pool_id vpc_link_id : string)
    : list (string * string) :=
  [("REPLACE_ME_REGION", region);
   ("REPLACE_ME_ACCOUNT_ID", account);
   ("REPLACE_ME_COGNITO_USER_POOL_ID", user_pool_id);
   ("REPLACE_ME_VPC_LINK_ID", vpc_link_id);
   ("REPLACE_ME_NLB_DNS", dns_name)].

(** [generate_swagger_spec_json(account, region, dns_name, user_pool_id,
    vpc_link)]: the template's text with the placeholders replaced,
    parsed by [json.loads] ([json.JSONDecodeError], a [ValueError], when
    the text is not JSON). *)
Definition generate_swagger_spec_json (account region dns_name user_pool_id vpc_link_id : string)
    : script json :=
  file_source ← read_file swagger_template;
  let replace_string :=
    replace_chain (swagger_replacements account region dns_name user_pool_id vpc_link_id) file_source in
  match json_loads replace_string with
  | Some spec_json => mret spec_json
  | None => raise (ValueError "JSONDecodeError")
  end.

(** ** The engine on files *)

Lemma set_fs_twice f1 f2 w : set_fs f2 (set_fs f1 w) = set_fs f2 w.
Proof. done. Qed.

Lemma fs_set_fs f w : fs (set_fs f w) = f.
Proof. done. Qed.

Lemma unwritable_set_fs f w : unwritable (set_fs f w) = unwritable w.
Proof. done. Qed.

#[export] Hint Rewrite set_fs_twice fs_set_fs unwritable_set_fs : py_rw.

(** C2: On a readable source and a writable target, [replace_string_in_file]
    writes the substituted source text to the target, and changes nothing
    else: no other file, no output, no cloud resource. *)
Theorem replace_string_in_file_ok (str_list : list binding) (src tgt : string)
    (w : World) (text : string) :
  fs w !! src = Some text -> tgt ∉ unwritable w ->
  run (replace_string_in_file str_list src tgt) w =
    (Ok tt, set_fs (<[tgt := substitute str_list text]> (fs w)) w).
Proof.
  intros Hsrc Htgt. unfold replace_string_in_file. py_run.
  rewrite Hsrc. py_run. by rewrite bool_decide_eq_false_2.
Qed.

(** C12: A source that cannot be read raises [FileNotFoundError] before
    anything is written; an unwritable target raises [OSError] after the
    source was read; in both cases the world is unchanged. *)
Theorem replace_string_in_file_errors (str_list : list binding) (src tgt : string) (w : World) :
  (fs w !! src = None ->
   run (replace_string_in_file str_list src tgt) w = (Raise (FileNotFoundError src), w)) /\
  (is_Some (fs w !! src) -> tgt ∈ unwritable w ->
   run (replace_string_in_file str_list src tgt) w = (Raise (OSError tgt), w)).
Proof.
  unfold replace_string_in_file. split.
  - intros Hsrc. py_run. by rewrite Hsrc.
  - intros [text Hsrc] Htgt. py_run. rewrite Hsrc. py_run.
    by rewrite bool_decide_eq_true_2.
Qed.

(** The engine on any world: what [replace_string_in_file] does on each
    of its three paths. *)
Lemma run_replace_string_in_file (str_list : list binding) (src tgt : string) (w : World) :
  run (replace_string_in_file str_list src tgt) w =
    match fs w !! src with
    | None => (Raise (FileNotFoundError src), w)
    | Some text =>
        if bool_decide (tgt ∈ unwritable w) then (Raise (OSError tgt), w)
        else (Ok tt, set_fs (<[tgt := substitute str_list text]> (fs w)) w)
    end.
Proof.
  unfold replace_string_in_file. py_run.
  destruct (fs w !! src); py_run; [|done]. by case_bool_decide.
Qed.

(** ** The substitution *)

(** C3: One binding replaces the pieces' separators: the text is cut at
    the leftmost non-overlapping occurrences of the token, and the pieces
    are joined again with the value when the value is a non-empty string,
    and with ["NOT_FOUND"] when the lookup found nothing. The text between
    occurrences is left unchanged. *)
Theorem apply_binding_spec (text token : string) (value : option string) (ps : list string) :
  token <> "" -> leftmost_decomp token text ps ->
  apply_binding text (token, value) =
    String.concat (match value with Some v => if truthy v then v else sentinel
                                  | None => sentinel end) ps.
Proof.
  intros Htok Hd. unfold apply_binding.
  destruct value as [v|]; [destruct (truthy v)|]; by apply str_replace_decomp.
Qed.

(** A text in which no token occurs is left as it is: running the
    substitution on a file whose placeholders were already replaced
    finds nothing to do. *)
Theorem substitute_no_tokens (str_list : list binding) (text : string) :
  Forall (fun b => find b.1 text = None) str_list -> substitute str_list text = text.
Proof.
  unfold substitute. induction 1 as [|[token v] bs Hf _ IH]; [done|].
  cbn [foldl]. assert (apply_binding text (token, v) = text) as ->; [|done].
  simpl in Hf. unfold apply_binding.
  destruct v as [v|]; [destruct (truthy v)|]; by apply str_replace_absent.
Qed.

(** Running the engine twice in place on a file whose tokens the first
    run replaced by values free of tokens: the second run rewrites the file
    with the same text, so the world after it is the world after the first
    run. *)
Theorem replace_in_place_twice (str_list : list binding) (path : string) (w : World) (text : string) :
  fs w !! path = Some text -> path ∉ unwritable w ->
  Forall (fun b => find b.1 (substitute str_list text) = None) str_list ->
  let w1 := snd (run (replace_string_in_file str_list path path) w) in
  run (replace_string_in_file str_list path path) w1 = (Ok tt, w1).
Proof.
  intros Hp Hw Hnone w1. subst w1.
  rewrite (run_replace_string_in_file str_list path path w), Hp, bool_decide_eq_false_2 by done. simpl.
  rewrite run_replace_string_in_file. autorewrite with py_rw.
  rewrite lookup_insert_eq, bool_decide_eq_false_2 by done.
  rewrite substitute_no_tokens by done. by rewrite insert_insert_eq.
Qed.

(** C10: The bindings are applied one after the other, each to the whole
    output of the previous one, so the text a substitution inserts is
    scanned again by the bindings that follow: for any two tokens and
    non-empty values, substituting into the first token yields the first
    value with every leftmost occurrence of the second token in it replaced
    by the second value. *)
Theorem substitute_rescans_inserted_text (t1 t2 v1 v2 : string) (qs : list string) :
  t1 <> "" -> t2 <> "" -> truthy v1 = true -> truthy v2 = true ->
  leftmost_decomp t2 v1 qs ->
  substitute [(t1, Some v1); (t2, Some v2)] t1 = String.concat v2 qs.
Proof.
  intros H1 H2 Hv1 Hv2 Hd. unfold substitute. cbn [foldl apply_binding].
  rewrite Hv1, Hv2, str_replace_whole by done. by apply str_replace_decomp.
Qed.

Lemma substitute_rescans_inserted_text_witness :
  substitute [("REPLACE_ME_A", Some "<REPLACE_ME_B>"); ("REPLACE_ME_B", Some "b")]
    "REPLACE_ME_A" = "<b>".
Proof.
  change "<b>" with (String.concat "b" ["<"; ">"]).
  apply (substitute_rescans_inserted_text _ _ _ _ ["<"; ">"]); try done.
  change "<REPLACE_ME_B>" with ("<" +:+ "REPLACE_ME_B" +:+ ">").
  apply ld_cons; [reflexivity|]. apply ld_last. reflexivity.
Defined.

(** A value that is the empty string is falsy: its token is replaced by
    ["NOT_FOUND"], exactly as for a value that was not found. *)
Theorem empty_value_is_sentinel (text token : string) :
  apply_binding text (token, Some "") = apply_binding text (token, None).
Proof. reflexivity. Qed.

(** The scenario of the specification: a found region and a missing
    user pool id. *)
Theorem substitute_scenario :
  substitute [("REPLACE_ME_REGION", Some "us-east-1"); ("REPLACE_ME_USER_POOL_ID", None)]
    "url=REPLACE_ME_REGION;id=REPLACE_ME_USER_POOL_ID" = "url=us-east-1;id=NOT_FOUND".
Proof. reflexivity. Qed.

(** C13: With values that are all non-empty strings, the substitution
    engine of [prepare_files.py] computes the same text as the chain of
    [str.replace] calls of [generate_swagger_spec_json] in
    apigateway_stack.py: the two ways the repository fills templates
    agree. *)
Theorem substitute_replace_chain (pairs : list (string * string)) (text : string) :
  Forall (fun p => p.2 <> "") pairs ->
  substitute ((fun p => (p.1, Some p.2)) <$> pairs) text = replace_chain pairs text.
Proof.
  unfold substitute, replace_chain. intros Hp. revert text.
  induction Hp as [|[token v] ps Hv _ IH]; intros text; [done|].
  cbn [fmap list_fmap foldl]. rewrite <- IH. f_equal. simpl in *.
  destruct (truthy v) eqn:Ht; [done|]. by apply truthy_string_false in Ht.
Qed.

(** ** The Swagger document *)

Lemma replace_chain_cons tok v pairs text :
  replace_chain ((tok, v) :: pairs) text = replace_chain pairs (str_replace text tok v).
Proof. done. Qed.

(** Filling the text of a template written as JSON fills the strings of
    its document, when the placeholders are words of capital letters and
    [_] and the values need no escaping. *)
Lemma replace_chain_dumps pairs j :
  Forall (fun p => placeholder p.1 = true /\ str_forall plain_char p.2 = true) pairs ->
  replace_chain pairs (json_dumps j) = json_dumps (json_map_str (replace_chain pairs) j).
Proof.
  intros Hp. revert j. induction Hp as [|[tok v] pairs [Ht Hv] _ IH]; intros j.
  - change (replace_chain []) with (fun s : string => s). by rewrite json_map_str_id.
  - by rewrite replace_chain_cons, replace_dumps, IH, json_map_str_compose.
Qed.

Lemma swagger_replacements_ok account region dns_name user_pool_id vpc_link_id :
  Forall (fun v => str_forall plain_char v = true) [account; region; dns_name; user_pool_id; vpc_link_id] ->
  Forall (fun p => placeholder p.1 = true /\ str_forall plain_char p.2 = true)
    (swagger_replacements account region dns_name user_pool_id vpc_link_id).
Proof.
  rewrite !Forall_cons. intros (Ha & Hr & Hd & Hu & Hl & _).
  repeat constructor; done.
Qed.

(** C36: On a template file whose text is what [json.dumps] writes
    (with its default arguments: separators [", "] and [": "], non-ASCII
    characters escaped) and values that need no escaping (printable
    ASCII without quote or backslash, as regions, account ids, pool and
    link ids and DNS names are), [generate_swagger_spec_json] returns the
    template's document with the five values substituted in its strings,
    keys included: the text-level [str.replace] chain never touches the
    JSON syntax and the result parses. *)
Theorem generate_swagger_spec_json_spec account region dns_name pool_id link_id tmpl w :
  fs w !! swagger_template = Some (json_dumps tmpl) ->
  Forall (fun v => str_forall plain_char v = true) [account; region; dns_name; pool_id; link_id] ->
  json_wf (json_map_str (replace_chain (swagger_replacements account region dns_name pool_id link_id)) tmpl)
    = true ->
  run (generate_swagger_spec_json account region dns_name pool_id link_id) w =
    (Ok (json_map_str (replace_chain (swagger_replacements account region dns_name pool_id link_id)) tmpl), w).
Proof.
  intros Hf Hv Hwf. unfold generate_swagger_spec_json. rewrite run_bind, run_read_file, Hf.
  by rewrite replace_chain_dumps, json_loads_dumps by (done || by apply swagger_replacements_ok).
Qed.

(** ** Frames of the engine *)

Lemma replace_string_in_file_out str_list src tgt :
  preserves out (replace_string_in_file str_list src tgt).
Proof.
  unfold replace_string_in_file. apply preserves_bind; [auto with py|].
  intros a. apply write_file_out.
Qed.

Lemma replace_string_in_file_writes str_list src tgt (S : gset string) :
  tgt ∈ S -> writes_only S (replace_string_in_file str_list src tgt).
Proof.
  intros Ht. unfold replace_string_in_file. apply writes_only_bind.
  - apply writes_only_preserves, preserves_id, read_file_ro.
  - intros a. by apply writes_only_write.
Qed.

#[export] Hint Resolve replace_string_in_file_out replace_string_in_file_writes : py.

(** ** Witnesses *)

(** A working directory with one template. *)
Definition demo_world : World :=
  mkWorld {["web/index.html" := "<p>REPLACE_ME_REGION</p>"]} {["readonly.html"]} []
    {["AWS_DEFAULT_REGION" := "eu-west-1"]} (mkCloud ∅ [] [] ∅ ∅).

Lemma replace_string_in_file_ok_witness :
  run (replace_string_in_file [("REPLACE_ME_REGION", Some "eu-west-1")] "web/index.html" "web/index.html")
      demo_world =
    (Ok tt, set_fs (<["web/index.html" := substitute [("REPLACE_ME_REGION", Some "eu-west-1")]
                                           "<p>REPLACE_ME_REGION</p>"]> (fs demo_world)) demo_world).
Proof. apply replace_string_in_file_ok; concrete. Defined.

Lemma replace_string_in_file_errors_witness :
  run (replace_string_in_file [] "web/missing.html" "web/index.html") demo_world =
    (Raise (FileNotFoundError "web/missing.html"), demo_world) /\
  run (replace_string_in_file [] "web/index.html" "readonly.html") demo_world =
    (Raise (OSError "readonly.html"), demo_world).
Proof.
  split; apply replace_string_in_file_errors; [concrete|eexists; concrete|concrete].
Defined.

Lemma apply_binding_spec_witness :
  leftmost_decomp "REPLACE_ME_REGION" "a REPLACE_ME_REGION b" ["a "; " b"] /\
  apply_binding "a REPLACE_ME_REGION b" ("REPLACE_ME_REGION", None) =
    String.concat sentinel ["a "; " b"].
Proof.
  assert (leftmost_decomp "REPLACE_ME_REGION" "a REPLACE_ME_REGION b" ["a "; " b"]) as Hd.
  { change "a REPLACE_ME_REGION b" with ("a " +:+ "REPLACE_ME_REGION" +:+ " b").
    apply ld_cons; [concrete|]. apply ld_last. concrete. }
  split; [exact Hd|]. apply apply_binding_spec; [discriminate|exact Hd].
Defined.

Lemma replace_in_place_twice_witness :
  let str_list := [("REPLACE_ME_REGION", Some "eu-west-1")] in
  let w1 := snd (run (replace_string_in_file str_list "web/index.html" "web/index.html") demo_world) in
  run (replace_string_in_file str_list "web/index.html" "web/index.html") w1 = (Ok tt, w1).
Proof. apply (replace_in_place_twice _ _ _ "<p>REPLACE_ME_REGION</p>"); concrete. Defined.

Lemma substitute_replace_chain_witness :
  substitute [("REPLACE_ME_REGION", Some "eu-west-1"); ("REPLACE_ME_ACCOUNT_ID", Some "123456789012")]
    "arn:aws:execute-api:REPLACE_ME_REGION:REPLACE_ME_ACCOUNT_ID:*" =
  replace_chain [("REPLACE_ME_REGION", "eu-west-1"); ("REPLACE_ME_ACCOUNT_ID", "123456789012")]
    "arn:aws:execute-api:REPLACE_ME_REGION:REPLACE_ME_ACCOUNT_ID:*".
Proof.
  apply (substitute_replace_chain [("REPLACE_ME_REGION", "eu-west-1");
                                   ("REPLACE_ME_ACCOUNT_ID", "123456789012")]).
  repeat constructor; simpl; discriminate.
Defined.

(** A Swagger template with every placeholder, in [json.dumps]'s layout. *)
Definition demo_swagger : json :=
  JObj [("swagger", JStr "2.0"); ("info", JObj [("title", JStr "MysfitsApi")]);
        ("securityDefinitions", JObj [("MysfitsUserPoolAuthorizer", JObj [
           ("x-amazon-apigateway-authorizer", JObj [("providerARNs", JArr [
              JStr "arn:aws:cognito-idp:REPLACE_ME_REGION:REPLACE_ME_ACCOUNT_ID:userpool/REPLACE_ME_COGNITO_USER_POOL_ID"])])])]);
        ("paths", JObj [("/mysfits", JObj [("get", JObj [("x-amazon-apigateway-integration", JObj [
           ("connectionId", JStr "REPLACE_ME_VPC_LINK_ID"); ("uri", JStr "http://REPLACE_ME_NLB_DNS/mysfits");
           ("httpMethod", JStr "GET"); ("type", JStr "HTTP_PROXY")])])])])].

Definition demo_swagger_world : World := set_fs {[swagger_template := json_dumps demo_swagger]} demo_world.

Lemma generate_swagger_spec_json_spec_witness :
  run (generate_swagger_spec_json "123456789012" "eu-west-1" "nlb-1.elb.eu-west-1.amazonaws.com"
         "eu-west-1_AbC" "vl0abc") demo_swagger_world =
    (Ok (json_map_str (replace_chain (swagger_replacements "123456789012" "eu-west-1"
           "nlb-1.elb.eu-west-1.amazonaws.com" "eu-west-1_AbC" "vl0abc")) demo_swagger), demo_swagger_world).
Proof. apply generate_swagger_spec_json_spec; [reflexivity|repeat constructor|vm_compute; reflexivity]. Defined.
