(* ===== verification/Lookup.v ===== *)
(** * The provider query layer of [prepare_files.py]

    The four lookups of src/webgen/utils/prepare_files.py:
    [get_execute_api_endpoint] (lines 12-27), [get_user_pool_id]
    (30-42), [get_user_pool_client_id] (45-57) and
    [get_sagemaker_endpoint_name] (157-174). They are defined over any
    implementation of the interface [ProviderApi] and their theorems use
    only its laws [ProviderApiLaws]; [World.aws_provider] is the instance
    the scripts run with. The loops of the first three
    ([x = None; for item in items: if ...: x = item[...]]) keep the last
    match; [last_match_spec] says so. *)

From Stdlib Require Import String ZArith.
From stdpp Require Import base list gmap strings sorting.
From S2P Require Import Spec2Rocq PyStr Cloud World.

(** ** The search loop *)

(** [x = None; for item in items: if matches(item): x = field(item)]. *)
Definition last_match {A B} (matches : A -> bool) (field : A -> B) (items : list A) : option B :=
  foldl (fun x item => if matches item then Some (field item) else x) None items.

(** The loop returns the field of the last matching item. *)
Lemma last_match_spec {A B} (matches : A -> bool) (field : A -> B) (items : list A) :
  last_match matches field items = field <$> last (filter (fun x => matches x = true) items).
Proof.
  unfold last_match.
  assert (forall acc, foldl (fun x item => if matches item then Some (field item) else x) acc items =
            match last (filter (fun x => matches x = true) items) with
            | Some y => Some (field y) | None => acc end) as ->; [|done].
  induction items as [|x l IH]; intros acc; [done|]. simpl. rewrite IH.
  rewrite filter_cons. destruct (matches x) eqn:Hx; simpl; [|done].
  rewrite last_cons. by destruct (last (filter _ l)).
Qed.

Lemma last_match_None {A B} (matches : A -> bool) (field : A -> B) (items : list A) :
  last_match matches field items = None <-> Forall (fun x => matches x = false) items.
Proof.
  rewrite last_match_spec, fmap_None, last_None, filter_nil_Forall.
  apply Forall_iff. intros x. destruct (matches x); naive_solver.
Qed.

(** The URL of the [prod] stage of a REST API. *)
Definition execute_api_url (api_id region : string) : string :=
  "https://" +:+ api_id +:+ ".execute-api." +:+ region +:+ ".amazonaws.com/prod".

(** The body of the [try] of [get_execute_api_endpoint] after the call:
    the search loop over [response['items']] and the [if api_id:] test
    (prepare_files.py:17-25). *)
Definition api_endpoint_of (api_name region : string) (response : list RestApi) : option string :=
  let api_id := last_match (fun api => String.eqb (rest_api_name api) api_name)
                  rest_api_id response in
  match api_id with
  | Some i => if truthy i then Some (execute_api_url i region) else None
  | None => None
  end.

Section lookups.
Context `{ProviderApi}.

(** [get_execute_api_endpoint(api_name, region)]. The [try: ... except
    ClientError as e: raise e] re-raises, as [try_except ... raise]. *)
Definition get_execute_api_endpoint (api_name region : string) : script (option string) :=
  r ← client (Some region);
  try_except
    (response ← get_rest_apis r;
     mret (api_endpoint_of api_name region response))
    raise.

(** [get_user_pool_id(user_pool_name, region)]: the client is created
    with no region, so it lists the pools of [AWS_DEFAULT_REGION];
    [region] is not used. *)
Definition get_user_pool_id (user_pool_name region : string) : script (option string) :=
  r ← client None;
  try_except
    (response ← list_user_pools r 10;
     mret (last_match (fun p => String.eqb (pool_name p) user_pool_name) pool_id response))
    raise.

(** [get_user_pool_client_id(user_pool_client_name, user_pool_id, region)]. *)
Definition get_user_pool_client_id (user_pool_client_name : string)
    (user_pool_id : option string) (region : string) : script (option string) :=
  r ← client None;
  try_except
    (response ← list_user_pool_clients r user_pool_id 10;
     mret (last_match (fun c => String.eqb (client_name c) user_pool_client_name)
             client_id response))
    raise.

(** [get_sagemaker_endpoint_name(prefix, region)]: the first, newest, of
    the listed endpoints. *)
Definition get_sagemaker_endpoint_name (prefix region : string) : script (option string) :=
  r ← client (Some region);
  try_except
    (response ← list_endpoints r prefix "InService";
     mret (if truthy response then ep_name <$> head response else None))
    raise.
End lookups.

(** ** Running the lookups *)

(** The region a client is bound to, if it can be created. *)
Definition client_region (region_name : option string) (w : World) : option string :=
  match region_name with
  | Some r => Some r
  | None => environ w !! "AWS_DEFAULT_REGION"
  end.

Lemma run_client region_name w :
  run (client region_name) w =
    (match client_region region_name w with Some r => Ok r | None => Raise NoRegionError end, w).
Proof.
  destruct region_name as [r|]; [done|]. unfold client, client_region.
  rewrite run_bind, run_environ_get. by destruct (environ w !! "AWS_DEFAULT_REGION").
Qed.

(** The common shape of the four lookups: create a client, make one
    read-only call, compute the answer from the response. Nothing changes;
    a failure of the call or of the client creation is the outcome. *)
Lemma run_query {A B} (region_name : option string) (call : string -> script A)
    (answer : A -> B) (w : World) :
  (forall r, preserves id (call r)) ->
  run (r ← client region_name; try_except (response ← call r; mret (answer response)) raise) w =
    (match client_region region_name w with
     | None => Raise NoRegionError
     | Some r => match fst (run (call r) w) with
                 | Ok x => Ok (answer x)
                 | Raise e => Raise e
                 end
     end, w).
Proof.
  intros Hro. rewrite run_bind, run_client.
  destruct (client_region region_name w) as [r|]; [|done].
  rewrite try_except_reraise, run_bind. specialize (Hro r w). cbv [id] in Hro.
  destruct (run (call r) w) as [[x|e] w'] eqn:E; simpl in *; by subst.
Qed.

Section lookup_theorems.
Context `{ProviderApiLaws}.

(** The lookup changes nothing and answers from the listing. *)
Lemma run_get_execute_api_endpoint_response (api_name region : string) (w : World) :
  run (get_execute_api_endpoint api_name region) w =
    (match fst (run (get_rest_apis region) w) with
     | Raise e => Raise e
     | Ok items => Ok (api_endpoint_of api_name region items)
     end, w).
Proof.
  unfold get_execute_api_endpoint.
  rewrite (run_query (Some region) get_rest_apis (api_endpoint_of api_name region));
    [|apply get_rest_apis_ro].
  simpl. by destruct (fst (run (get_rest_apis region) w)).
Qed.

(** C14: [get_execute_api_endpoint] changes nothing; when the listing
    fails its error is raised again; otherwise it answers the [prod] URL
    of the last listed API with that name, or [None] when there is none
    (or its id is empty): not finding the API is not an error. *)
Theorem run_get_execute_api_endpoint (api_name region : string) (w : World) :
  run (get_execute_api_endpoint api_name region) w =
    (match fst (run (get_rest_apis region) w) with
     | Raise e => Raise e
     | Ok items =>
         Ok (match rest_api_id <$> last (filter (fun a => rest_api_name a = api_name) items) with
             | Some i => if truthy i then Some (execute_api_url i region) else None
             | None => None
             end)
     end, w).
Proof.
  rewrite run_get_execute_api_endpoint_response.
  destruct (fst (run (get_rest_apis region) w)) as [items|e]; [|done].
  unfold api_endpoint_of. rewrite last_match_spec.
  rewrite (list_filter_iff _ (fun a => rest_api_name a = api_name)); [done|].
  intros a. apply String.eqb_eq.
Qed.
Lemma run_get_user_pool_id (user_pool_name region : string) (w : World) :
  run (get_user_pool_id user_pool_name region) w =
    (match client_region None w with
     | None => Raise NoRegionError
     | Some r => match fst (run (list_user_pools r 10) w) with
                 | Ok pools => Ok (last_match (fun p => String.eqb (pool_name p) user_pool_name)
                                     pool_id pools)
                 | Raise e => Raise e
                 end
     end, w).
Proof. unfold get_user_pool_id. rewrite run_query; [done|]. intros r. apply list_user_pools_ro. Qed.

(** When no user pool id was found, [get_user_pool_client_id] does
    not answer [None]: botocore refuses [UserPoolId=None] with a
    [ParamValidationError], which is not a [ClientError] and escapes. *)
Theorem get_user_pool_client_id_None (name region : string) (w : World) (r : string) :
  client_region None w = Some r ->
  run (get_user_pool_client_id name None region) w =
    (Raise (ParamValidationError "UserPoolId"), w).
Proof.
  intros Hr. unfold get_user_pool_client_id. rewrite run_query.
  - by rewrite Hr, list_user_pool_clients_None.
  - intros r'. apply list_user_pool_clients_ro.
Qed.

(** C16: The endpoint [get_sagemaker_endpoint_name] answers is one of
    the listed endpoints; its name contains the prefix, it is
    [InService], and no listed endpoint is newer. *)
Theorem get_sagemaker_endpoint_name_newest (prefix region : string) (w : World) (n : string) :
  fst (run (get_sagemaker_endpoint_name prefix region) w) = Ok (Some n) ->
  exists (l : list Endpoint) (e : Endpoint),
    fst (run (list_endpoints region prefix "InService") w) = Ok l /\
    e ∈ l /\ ep_name e = n /\ contains prefix n = true /\ ep_status e = "InService" /\
    (forall e', e' ∈ l -> Z.le (ep_created e') (ep_created e)).
Proof.
  unfold get_sagemaker_endpoint_name. rewrite run_query; [|intros; apply list_endpoints_ro].
  simpl. destruct (fst (run (list_endpoints region prefix "InService") w)) as [l|e] eqn:E;
    [|done].
  intros Hn. injection Hn as Hn. destruct l as [|e l]; [done|]. simpl in Hn.
  injection Hn as <-. exists (e :: l), e.
  pose proof (list_endpoints_filter _ _ _ _ _ E) as Hf.
  pose proof (list_endpoints_sorted _ _ _ _ _ E) as Hs.
  apply Forall_cons in Hf as [[Hc Hst] _].
  split_and!; [done|set_solver|done|done|done|].
  intros e' He'. apply elem_of_cons in He' as [->|He']; [lia|].
  apply Sorted_StronglySorted in Hs; [|intros ???; unfold newest_first; lia].
  apply StronglySorted_inv in Hs as [_ Hall]. rewrite Forall_forall in Hall.
  apply Hall in He'. unfold newest_first in He'. lia.
Qed.
(** The lookups change nothing. *)
Lemma get_execute_api_endpoint_ro api_name region :
  preserves id (get_execute_api_endpoint api_name region).
Proof. intros w. by rewrite run_get_execute_api_endpoint_response. Qed.

Lemma get_user_pool_id_ro name region : preserves id (get_user_pool_id name region).
Proof. intros w. by rewrite run_get_user_pool_id. Qed.

Lemma get_user_pool_client_id_ro name p region :
  preserves id (get_user_pool_client_id name p region).
Proof.
  intros w. unfold get_user_pool_client_id. rewrite run_query; [done|].
  intros r. apply list_user_pool_clients_ro.
Qed.

Lemma get_sagemaker_endpoint_name_ro prefix region :
  preserves id (get_sagemaker_endpoint_name prefix region).
Proof.
  intros w. unfold get_sagemaker_endpoint_name. rewrite run_query; [done|].
  intros r. apply list_endpoints_ro.
Qed.

(** Among several APIs of the same name, the last one listed wins,
    whatever the APIs listed before it. *)
Theorem get_execute_api_endpoint_last_wins (api_name region : string) (w : World)
    (l1 l2 : list RestApi) (x : RestApi) :
  fst (run (get_rest_apis region) w) = Ok (l1 ++ x :: l2) ->
  rest_api_name x = api_name -> rest_api_id x <> "" ->
  Forall (fun a => rest_api_name a <> api_name) l2 ->
  run (get_execute_api_endpoint api_name region) w =
    (Ok (Some (execute_api_url (rest_api_id x) region)), w).
Proof.
  intros Hl Hx Hid Hl2. rewrite run_get_execute_api_endpoint_response, Hl.
  unfold api_endpoint_of. rewrite last_match_spec.
  rewrite (list_filter_iff _ (fun a => rest_api_name a = api_name)) by (intros; apply String.eqb_eq).
  rewrite filter_app, filter_cons, decide_True by done.
  rewrite (proj2 (filter_nil_Forall _ l2) Hl2), last_app_cons, last_singleton. simpl.
  destruct (truthy (rest_api_id x)) eqn:Ht; [done|].
  by apply truthy_string_false in Ht.
Qed.
End lookup_theorems.

#[export] Hint Resolve get_execute_api_endpoint_ro get_user_pool_id_ro
  get_user_pool_client_id_ro get_sagemaker_endpoint_name_ro : py.

(** ** The lookups on the AWS model *)

(** C17: [get_rest_apis] is called without pagination: an API that is not
    among the first 25 the account lists is not found, and the lookup
    answers [None] although the API exists. *)
Theorem get_execute_api_endpoint_first_page (api_name region : string) (w : World) :
  "apigateway:GetRestApis" ∉ denied (cloud w) ->
  Forall (fun a => rest_api_name a <> api_name) (take 25 (rg_rest_apis (region_in w region))) ->
  run (get_execute_api_endpoint api_name region) w = (Ok None, w).
Proof.
  intros Hd Hp. rewrite run_get_execute_api_endpoint_response.
  cbn [get_rest_apis aws_provider]. unfold aws_get_rest_apis.
  rewrite run_bind, run_aws_call, bool_decide_eq_false_2 by done. simpl.
  unfold api_endpoint_of. rewrite last_match_spec.
  rewrite (list_filter_iff _ (fun a => rest_api_name a = api_name)) by (intros; apply String.eqb_eq).
  unfold rest_apis_page, rest_apis_limit. by rewrite (proj2 (filter_nil_Forall _ _) Hp).
Qed.

(** ** Witnesses *)

(** A deployed account in eu-west-1: the APIs of the stacks but the
    recommendations one, the Cognito pool and its client, and three
    SageMaker endpoints. *)
Definition demo_region : Region :=
  mkRegion
    [mkRestApi "MysfitsApi" "m1abc"; mkRestApi "ClickProcessingApi" "c2def";
     mkRestApi "QuestionsAPI" "q3ghi"]
    [mkPool "MysfitsUserPool" "eu-west-1_Pool" [mkClient "MysfitsUserPoolClient" "client42"]]
    [mkEndpoint "mysfits-knn-ml-m4-xlarge-1600000000-5" "InService" 1600000000;
     mkEndpoint "mysfits-knn-ml-m4-xlarge-1700000000-1" "InService" 1700000000;
     mkEndpoint "mysfits-knn-ml-m4-xlarge-1800000000-2" "Failed" 1800000000]
    [] [] [] [] [] [].

Definition demo_env : gmap string string := {["AWS_DEFAULT_REGION" := "eu-west-1"]}.

Definition demo_lookup_world : World :=
  mkWorld ∅ ∅ [] demo_env (mkCloud {["eu-west-1" := demo_region]} [] [] ∅ ∅).

Lemma run_get_execute_api_endpoint_witness :
  run (get_execute_api_endpoint "MysfitsApi" "eu-west-1") demo_lookup_world =
    (Ok (Some (execute_api_url "m1abc" "eu-west-1")), demo_lookup_world).
Proof. rewrite run_get_execute_api_endpoint. concrete. Defined.

Lemma get_execute_api_endpoint_last_wins_witness :
  let w := mkWorld ∅ ∅ [] demo_env
             (mkCloud {["eu-west-1" := mkRegion
                          [mkRestApi "MysfitsApi" "old"; mkRestApi "MysfitsApi" "new"]
                          [] [] [] [] [] [] [] []]} [] [] ∅ ∅) in
  run (get_execute_api_endpoint "MysfitsApi" "eu-west-1") w =
    (Ok (Some (execute_api_url "new" "eu-west-1")), w).
Proof.
  apply (get_execute_api_endpoint_last_wins "MysfitsApi" "eu-west-1" _
           [mkRestApi "MysfitsApi" "old"] [] (mkRestApi "MysfitsApi" "new")); concrete.
Defined.

Lemma get_sagemaker_endpoint_name_newest_witness :
  exists (l : list Endpoint) (e : Endpoint),
    fst (run (list_endpoints "eu-west-1" "knn-" "InService") demo_lookup_world) = Ok l /\
    e ∈ l /\ ep_name e = "mysfits-knn-ml-m4-xlarge-1700000000-1" /\
    contains "knn-" "mysfits-knn-ml-m4-xlarge-1700000000-1" = true /\
    ep_status e = "InService" /\
    (forall e', e' ∈ l -> Z.le (ep_created e') (ep_created e)).
Proof. apply get_sagemaker_endpoint_name_newest. concrete. Defined.

Lemma get_user_pool_client_id_None_witness :
  run (get_user_pool_client_id "MysfitsUserPoolClient" None "eu-west-1") demo_lookup_world =
    (Raise (ParamValidationError "UserPoolId"), demo_lookup_world).
Proof. apply (get_user_pool_client_id_None _ _ _ "eu-west-1"). concrete. Defined.

Lemma get_execute_api_endpoint_first_page_witness :
  let w := mkWorld ∅ ∅ [] demo_env
             (mkCloud {["eu-west-1" := mkRegion
                          (replicate 25 (mkRestApi "Other" "o") ++ [mkRestApi "MysfitsApi" "m1abc"])
                          [] [] [] [] [] [] [] []]} [] [] ∅ ∅) in
  run (get_execute_api_endpoint "MysfitsApi" "eu-west-1") w = (Ok None, w).
Proof. apply get_execute_api_endpoint_first_page; concrete. Defined.
