(* ===== verification/PrepareFiles.v ===== *)
(** * The orchestration script [prepare_files.py]

    The four update modes of src/webgen/utils/prepare_files.py and the
    dispatch of its [__main__] block (lines 190-202): each mode makes its
    lookups ([Lookup.v]) and rewrites its files in place with the
    substitution engine ([Substitute.v]). Defined, like the lookups, over
    any [ProviderApi]; the theorems use [ProviderApiLaws] only. *)

From Stdlib Require Import String ZArith.
From stdpp Require Import base list gmap strings.
From S2P Require Import Spec2Rocq PyStr Cloud World Substitute Lookup.

Definition index_html : string := "web/index.html".
Definition register_html : string := "web/register.html".
Definition confirm_html : string := "web/confirm.html".
Definition kinesis_file : string := "webgen/kinesis_firehose_stack.py".
Definition xray_file : string := "webgen/xray_stack.py".
Definition recommendations_file : string := "lambda_recommendations/service/recommendations.py".

(** The [str_list] of index.html (lines 109-117). *)
Definition index_str_list (api_endpoint click_processing_api_endpoint questions_api_endpoint
    recommendations_api_endpoint : option string) (region : string)
    (user_pool_id user_pool_client_id : option string) : list binding :=
  [("REPLACE_ME_mysfitsApiEndpoint", api_endpoint);
   ("REPLACE_ME_streamingApiEndpoint", click_processing_api_endpoint);
   ("REPLACE_ME_questionsApiEndpoint", questions_api_endpoint);
   ("REPLACE_ME_recommendationsApiEndpoint", recommendations_api_endpoint);
   ("REPLACE_ME_REGION", Some region);
   ("REPLACE_ME_USER_POOL_ID", user_pool_id);
   ("REPLACE_ME_USER_POOL_CLIENT_ID", user_pool_client_id)].

(** The [str_list] of register.html and confirm.html (lines 121-124, 128-131). *)
Definition cognito_str_list (user_pool_id user_pool_client_id : option string) : list binding :=
  [("REPLACE_ME_USER_POOL_ID", user_pool_id);
   ("REPLACE_ME_USER_POOL_CLIENT_ID", user_pool_client_id)].

Section prepare_files.
Context `{ProviderApi}.

(** [prepare_web_files(region)] (lines 75-132). The checks after the
    three later endpoint lookups test [api_endpoint], the MysfitsApi
    endpoint, as the code does. *)
Definition prepare_web_files (region : string) : script unit :=
  api_endpoint ← get_execute_api_endpoint "MysfitsApi" region;
  (if negb (truthy api_endpoint)
   then (print "Found no API MysfitsApi";; raise (SystemExit 1))
   else mret tt);;
  click_processing_api_endpoint ← get_execute_api_endpoint "ClickProcessingApi" region;
  (if negb (truthy api_endpoint) then print "Found no API ClickProcessingApi" else mret tt);;
  questions_api_endpoint ← get_execute_api_endpoint "QuestionsAPI" region;
  (if negb (truthy api_endpoint) then print "Found no API QuestionsAPI" else mret tt);;
  recommendations_api_endpoint ← get_execute_api_endpoint "RecommendationsAPI" region;
  (if negb (truthy api_endpoint) then print "Found no API RecommendationsAPI" else mret tt);;
  user_pool_id ← get_user_pool_id "MysfitsUserPool" region;
  (if negb (truthy user_pool_id) then print "Found no user pool MysfitsUserPool" else mret tt);;
  user_pool_client_id ← get_user_pool_client_id "MysfitsUserPoolClient" user_pool_id region;
  (if negb (truthy user_pool_client_id)
   then print "Found no user pool client MysfitsUserPoolClient" else mret tt);;
  replace_string_in_file
    (index_str_list api_endpoint click_processing_api_endpoint questions_api_endpoint
       recommendations_api_endpoint region user_pool_id user_pool_client_id)
    index_html index_html;;
  replace_string_in_file (cognito_str_list user_pool_id user_pool_client_id)
    register_html register_html;;
  replace_string_in_file (cognito_str_list user_pool_id user_pool_client_id)
    confirm_html confirm_html.

(** [prepare_kinesis_file(region)] (lines 135-145). *)
Definition prepare_kinesis_file (region : string) : script unit :=
  api_endpoint ← get_execute_api_endpoint "MysfitsApi" region;
  (if negb (truthy api_endpoint) then print "Found no API MysfitsApi" else mret tt);;
  replace_string_in_file [("REPLACE_ME_API_URL", api_endpoint)] kinesis_file kinesis_file.

(** [prepare_xray_file(region)] (lines 148-154); [receiver_email] is the
    module global of line 9. *)
Definition prepare_xray_file (receiver_email : option string) (region : string) : script unit :=
  replace_string_in_file [("REPLACE_ME_RECEIVER_EMAIL", receiver_email)] xray_file xray_file.

(** [prepare_recommendations_file(region)] (lines 177-187). *)
Definition prepare_recommendations_file (region : string) : script unit :=
  sagemaker_endpoint_name ← get_sagemaker_endpoint_name "knn-" region;
  (if negb (truthy sagemaker_endpoint_name)
   then print "Found no endpoint for lambda recommendations.py" else mret tt);;
  replace_string_in_file [("REPLACE_ME_SAGEMAKER_ENDPOINT_NAME", sagemaker_endpoint_name)]
    recommendations_file recommendations_file.

(** The script run as [python prepare_files.py <update_type>]: the
    module global [receiver_email] (line 9) is read at import, then the
    [__main__] block (lines 190-202). [argv] is [sys.argv]. *)
Definition main (argv : list string) : script unit :=
  receiver_email ← environ_get "RECEIVER_EMAIL";
  api_region ← environ_item "AWS_DEFAULT_REGION";
  update_type ← (match argv !! 1 with Some a => mret a | None => raise IndexError end);
  if String.eqb update_type "replace_web_endpoints_and_cognito_ids"
  then prepare_web_files api_region
  else if String.eqb update_type "replace_clickprocessingapi_endpoint"
  then prepare_kinesis_file api_region
  else if String.eqb update_type "replace_email"
  then prepare_xray_file receiver_email api_region
  else if String.eqb update_type "replace_recommendationsapi_endpoint"
  then prepare_recommendations_file api_region
  else mret tt.
End prepare_files.

(** ** The command line *)

(** The files each mode rewrites (the table of the specification). *)
Definition mode_files (update_type : string) : gset string :=
  if String.eqb update_type "replace_web_endpoints_and_cognito_ids"
  then {[index_html; register_html; confirm_html]}
  else if String.eqb update_type "replace_clickprocessingapi_endpoint" then {[kinesis_file]}
  else if String.eqb update_type "replace_email" then {[xray_file]}
  else if String.eqb update_type "replace_recommendationsapi_endpoint"
  then {[recommendations_file]}
  else ∅.

(** Steps over the environment reads and the [sys.argv] lookup of [main]. *)
Ltac main_preamble Hr Ha :=
  unfold main, environ_item; py_run; rewrite ?Hr, ?Ha; py_run; eqb_lits.

(** Decompose a [prints_only] / [writes_only] goal along the statements. *)
Ltac frame_solve :=
  repeat (intros; cbv beta; first
    [ apply prints_only_preserves; solve [auto with py]
    | apply writes_only_preserves; solve [auto with py]
    | apply replace_string_in_file_writes; set_solver
    | apply prints_only_bind | apply writes_only_bind
    | apply prints_only_if | apply writes_only_if
    | apply prints_only_print; set_solver ]).

Section prepare_theorems.
Context `{ProviderApiLaws}.

(** C1: In the web mode, when the API [MysfitsApi] is not found, the
    script prints the diagnostic and exits with status 1 before any file
    is touched: the world is the one it started from, with one more line
    on stdout. *)
Theorem main_web_no_api (argv : list string) (w : World) (r : string) :
  argv !! 1 = Some "replace_web_endpoints_and_cognito_ids" ->
  environ w !! "AWS_DEFAULT_REGION" = Some r ->
  fst (run (get_execute_api_endpoint "MysfitsApi" r) w) = Ok None ->
  run (main argv) w = (Raise (SystemExit 1), set_out (out w ++ ["Found no API MysfitsApi"]) w) /\
  exit_status (fst (run (main argv) w)) = 1%Z.
Proof.
  intros Ha Hr Hl.
  assert (run (main argv) w =
            (Raise (SystemExit 1), set_out (out w ++ ["Found no API MysfitsApi"]) w)) as E.
  { main_preamble Hr Ha. unfold prepare_web_files. ro_step Hl. by py_run. }
  by rewrite E.
Qed.

(** In the e-mail mode with [RECEIVER_EMAIL] unset, the script
    replaces the e-mail placeholder of webgen/xray_stack.py by
    ["NOT_FOUND"], changes nothing else, and exits with status 0. *)
Theorem main_email_unset (argv : list string) (w : World) (r text : string) :
  argv !! 1 = Some "replace_email" ->
  environ w !! "AWS_DEFAULT_REGION" = Some r ->
  environ w !! "RECEIVER_EMAIL" = None ->
  fs w !! xray_file = Some text -> xray_file ∉ unwritable w ->
  run (main argv) w =
    (Ok tt, set_fs (<[xray_file := str_replace text "REPLACE_ME_RECEIVER_EMAIL" "NOT_FOUND"]>
                      (fs w)) w).
Proof.
  intros Ha Hr He Hf Hw. main_preamble Hr Ha. rewrite He.
  unfold prepare_xray_file. rewrite run_replace_string_in_file, Hf. by rewrite bool_decide_eq_false_2.
Qed.

(** An update type that is none of the four modes does nothing: the
    script completes normally (status 0) and the world is unchanged. *)
Theorem main_unknown_mode (argv : list string) (w : World) (r mode : string) :
  argv !! 1 = Some mode ->
  environ w !! "AWS_DEFAULT_REGION" = Some r ->
  mode ∉ ["replace_web_endpoints_and_cognito_ids"; "replace_clickprocessingapi_endpoint";
          "replace_email"; "replace_recommendationsapi_endpoint"] ->
  run (main argv) w = (Ok tt, w).
Proof.
  intros Ha Hr Hm. unfold main, environ_item. py_run. rewrite Hr, Ha. py_run.
  rewrite !not_elem_of_cons in Hm. destruct Hm as (H1 & H2 & H3 & H4 & _).
  repeat (rewrite (proj2 (String.eqb_neq _ _)) by done). done.
Qed.
(** C18: Whatever the lookups answer, the web mode prints only the
    diagnostics for MysfitsApi, the user pool and the user pool client.
    The three checks after the ClickProcessingApi, QuestionsAPI and
    RecommendationsAPI lookups test the MysfitsApi endpoint, which is
    known to be found at that point: their diagnostics are never
    printed, even when those APIs are missing. *)
Theorem prepare_web_files_prints (region : string) :
  prints_only (fun msg => msg ∈ ["Found no API MysfitsApi"; "Found no user pool MysfitsUserPool";
                                 "Found no user pool client MysfitsUserPoolClient"])
    (prepare_web_files region).
Proof.
  unfold prepare_web_files. apply prints_only_bind; [auto with py|].
  intros api_endpoint. destruct (truthy api_endpoint); cbn [negb].
  - frame_solve.
  - apply prints_only_print_raise. set_solver.
Qed.

Lemma prepare_web_files_writes region :
  writes_only {[index_html; register_html; confirm_html]} (prepare_web_files region).
Proof. unfold prepare_web_files. frame_solve. Qed.

Lemma prepare_kinesis_file_writes region :
  writes_only {[kinesis_file]} (prepare_kinesis_file region).
Proof. unfold prepare_kinesis_file. frame_solve. Qed.

Lemma prepare_xray_file_writes email region :
  writes_only {[xray_file]} (prepare_xray_file email region).
Proof. unfold prepare_xray_file. frame_solve. Qed.

Lemma prepare_recommendations_file_writes region :
  writes_only {[recommendations_file]} (prepare_recommendations_file region).
Proof. unfold prepare_recommendations_file. frame_solve. Qed.

(** C19: Each update mode writes only the files of its row of the
    specification's table, and an unknown mode writes none. *)
Theorem main_writes_only (argv : list string) (mode : string) :
  argv !! 1 = Some mode -> writes_only (mode_files mode) (main argv).
Proof.
  intros Ha w p Hp. unfold main, environ_item. py_run. rewrite Ha.
  destruct (environ w !! "AWS_DEFAULT_REGION") as [region|]; py_run; [|done].
  unfold mode_files in Hp.
  destruct (String.eqb mode _); [by apply prepare_web_files_writes|].
  destruct (String.eqb mode _); [by apply prepare_kinesis_file_writes|].
  destruct (String.eqb mode _); [by apply prepare_xray_file_writes|].
  destruct (String.eqb mode _); [by apply prepare_recommendations_file_writes|done].
Qed.

(** C20: In the web mode, a missing user pool is not soft-degraded:
    [get_user_pool_client_id] is called with [UserPoolId=None], botocore
    raises [ParamValidationError], and the script stops with a traceback
    (status 1) before writing any file. *)
Theorem web_missing_pool_crashes (region dr a1 : string) (c q rc : option string) (w : World) :
  environ w !! "AWS_DEFAULT_REGION" = Some dr ->
  fst (run (get_execute_api_endpoint "MysfitsApi" region) w) = Ok (Some a1) -> a1 <> "" ->
  fst (run (get_execute_api_endpoint "ClickProcessingApi" region) w) = Ok c ->
  fst (run (get_execute_api_endpoint "QuestionsAPI" region) w) = Ok q ->
  fst (run (get_execute_api_endpoint "RecommendationsAPI" region) w) = Ok rc ->
  fst (run (get_user_pool_id "MysfitsUserPool" region) w) = Ok None ->
  run (prepare_web_files region) w =
    (Raise (ParamValidationError "UserPoolId"),
     set_out (out w ++ ["Found no user pool MysfitsUserPool"]) w).
Proof.
  intros Hr Ha Ha1 Hc Hq Hrc Hp. unfold prepare_web_files. ro_step Ha.
  assert (truthy (Some a1) = true) as ->.
  { destruct (truthy (Some a1)) eqn:E; [done|]. by apply truthy_option_false in E as [|[=]]. }
  py_run. ro_eval Hc. py_run. ro_eval Hq. py_run. ro_eval Hrc. py_run. ro_eval Hp. py_run.
  unfold get_user_pool_client_id. rewrite run_query; [|intros; apply list_user_pool_clients_ro].
  simpl. rewrite Hr. by rewrite list_user_pool_clients_None.
Qed.
End prepare_theorems.

(** ** Witnesses *)

(** The working directory of the repository before the first run: each
    template holds its placeholders (the lines of the sources that carry
    them). *)
Definition demo_files : gmap string string :=
  {[index_html := "var mysfitsApiEndpoint = 'REPLACE_ME_mysfitsApiEndpoint';";
    register_html := "var poolId = 'REPLACE_ME_USER_POOL_ID';";
    confirm_html := "var clientId = 'REPLACE_ME_USER_POOL_CLIENT_ID';";
    kinesis_file := "mysfits_api_url = 'REPLACE_ME_API_URL'";
    xray_file := "receiver_email = 'REPLACE_ME_RECEIVER_EMAIL'";
    recommendations_file := "ENDPOINT_NAME = 'REPLACE_ME_SAGEMAKER_ENDPOINT_NAME'"]}.

Definition demo_world (rg : Region) : World :=
  mkWorld demo_files ∅ [] demo_env (mkCloud {["eu-west-1" := rg]} [] [] ∅ ∅).

Definition demo_argv (mode : string) : list string := ["utils/prepare_files.py"; mode].

Lemma main_web_no_api_witness :
  let w := demo_world empty_region in
  run (main (demo_argv "replace_web_endpoints_and_cognito_ids")) w =
    (Raise (SystemExit 1), set_out (out w ++ ["Found no API MysfitsApi"]) w) /\
  exit_status (fst (run (main (demo_argv "replace_web_endpoints_and_cognito_ids")) w)) = 1%Z.
Proof. apply (main_web_no_api _ _ "eu-west-1"); concrete. Defined.

Lemma main_email_unset_witness :
  let w := demo_world demo_region in
  run (main (demo_argv "replace_email")) w =
    (Ok tt, set_fs (<[xray_file := str_replace "receiver_email = 'REPLACE_ME_RECEIVER_EMAIL'"
                                     "REPLACE_ME_RECEIVER_EMAIL" "NOT_FOUND"]> (fs w)) w).
Proof. apply (main_email_unset _ _ "eu-west-1"); concrete. Defined.

Lemma main_unknown_mode_witness :
  run (main (demo_argv "replace_everything")) (demo_world demo_region) =
    (Ok tt, demo_world demo_region).
Proof. apply (main_unknown_mode _ _ "eu-west-1" "replace_everything"); concrete. Defined.

Lemma prepare_web_files_prints_witness :
  prints_only (fun msg => msg ∈ ["Found no API MysfitsApi"; "Found no user pool MysfitsUserPool";
                                 "Found no user pool client MysfitsUserPoolClient"])
    (prepare_web_files "eu-west-1").
Proof. apply prepare_web_files_prints. Defined.

Lemma main_writes_only_witness :
  writes_only {[kinesis_file]} (main (demo_argv "replace_clickprocessingapi_endpoint")).
Proof. apply (main_writes_only _ "replace_clickprocessingapi_endpoint"). concrete. Defined.

Lemma web_missing_pool_crashes_witness :
  let rg := mkRegion [mkRestApi "MysfitsApi" "m1abc"] [] [] [] [] [] [] [] [] in
  let w := demo_world rg in
  run (prepare_web_files "eu-west-1") w =
    (Raise (ParamValidationError "UserPoolId"),
     set_out (out w ++ ["Found no user pool MysfitsUserPool"]) w).
Proof.
  apply (web_missing_pool_crashes _ "eu-west-1" (execute_api_url "m1abc" "eu-west-1")
           None None None); concrete.
Defined.
