(* ===== verification/CleanUtils.v ===== *)
(** * The cleanup script [clean_utils.py]

    The functions of src/webgen/utils/clean_utils.py, each a statement on
    the world, and the script's [__main__] block ([clean_utils_main]). The
    boto3 calls are those of [AwsOps.v]; [clean_pools_by_names] calls the
    AWS instance of [Lookup.get_user_pool_id], as the script imports it
    from [prepare_files]. A [try: ... except ClientError as e: if
    e.response['Error']['Code'] != code: raise e] is [try_except] with the
    handler [ignore_client_error code]; the lists the loops append to are
    the accumulators of [fold_m]. *)

From Stdlib Require Import String ZArith.
From stdpp Require Import base list gmap strings sorting.
From S2P Require Import Spec2Rocq PyStr Cloud World AwsOps Lookup.

(** [except ClientError as e: if e.response['Error']['Code'] != code:
    raise e]: a [ClientError] with that code is swallowed and the loop goes
    on with [acc]; any other exception propagates. *)
Definition ignore_client_error {A} (code : string) (acc : A) (e : exn) : script A :=
  match e with
  | ClientError c => if String.eqb c code then mret acc else raise e
  | _ => raise e
  end.

(** The banner [print('\n---------- NAME ' + '-' * k)] that opens each
    part of the output. *)
Definition section_header (name : string) (k : nat) : string :=
  nl +:+ String.concat "" (replicate 10 "-") +:+ " " +:+ name +:+ " " +:+ String.concat "" (replicate k "-").

(** [print(f'\nRegion {current_region}:')]. *)
Definition print_region (current_region : string) : script unit :=
  print (nl +:+ "Region " +:+ current_region +:+ ":").

(** ** Buckets (lines 12-47) *)

(** [delete_buckets_by_prefix(s3_client, prefix, region)]. S3 lists the
    buckets of the whole account whatever the region of [s3_client]; the
    loop keeps those whose [LocationConstraint] is [region] and, when
    [prefix] is not empty, whose name starts with it. *)
Definition delete_buckets_by_prefix (s3_client prefix region : string) : script unit :=
  bucket_names ← list_buckets;
  deleted_buckets ← fold_m (fun deleted_buckets bucket_name =>
      loc ← get_bucket_location bucket_name;
      if bool_decide (loc <> Some region) then mret deleted_buckets
      else if truthy prefix &&
              negb (String.eqb (str_take (String.length prefix) bucket_name) prefix)
      then mret deleted_buckets
      else
        delete_objects bucket_name;;
        print ("Deleted all objects in bucket bucket " +:+ bucket_name);;
        delete_bucket bucket_name;;
        mret (deleted_buckets ++ [bucket_name]))
    bucket_names [];
  if truthy deleted_buckets
  then print ("Deleted buckets: " +:+ join nl deleted_buckets)
  else print ("No buckets with prefix:" +:+ nl +:+ prefix).

Definition clean_buckets_by_prefixes (prefixes deployment_regions : list string) : script unit :=
  print (section_header "BUCKETS" 50);;
  for_ deployment_regions (fun current_region =>
    print_region current_region;;
    s3_client ← client (Some current_region);
    for_ prefixes (fun prefix => delete_buckets_by_prefix s3_client prefix current_region)).

(** ** Log groups (lines 50-66) *)

Definition delete_log_groups_by_prefixes (logs_client : string) (prefixes : list string)
    : script unit :=
  log_groups ← describe_log_groups logs_client;
  for_ log_groups (fun log_group_name =>
    for_ prefixes (fun prefix =>
      if contains (lower prefix) (lower log_group_name) then
        delete_log_group logs_client log_group_name;;
        print ("Deleted log group: " +:+ log_group_name)
      else mret tt)).

Definition clean_logs_by_prefixes (prefixes deployment_regions : list string) : script unit :=
  print (section_header "LOG GROUPS" 47);;
  for_ deployment_regions (fun current_region =>
    print_region current_region;;
    logs_client ← client (Some current_region);
    delete_log_groups_by_prefixes logs_client prefixes).

(** ** Tables, user pools, repositories (lines 69-144) *)

Definition clean_tables_by_names (names deployment_regions : list string) : script unit :=
  print (section_header "DynamoDB Tables" 50);;
  deleted_tables ← fold_m (fun deleted_tables current_region =>
      print_region current_region;;
      ddb_client ← client (Some current_region);
      fold_m (fun deleted_tables table_name =>
          try_except
            (delete_table ddb_client table_name;; mret (deleted_tables ++ [table_name]))
            (ignore_client_error "ResourceNotFoundException" deleted_tables))
        names deleted_tables)
    deployment_regions [];
  if truthy deleted_tables
  then print ("Deleted tables: " +:+ join nl deleted_tables)
  else print ("No tables with names:" +:+ nl +:+ repr_list names).

(** The pool looked up is always ['MysfitsUserPool'], with
    [get_user_pool_id], whose client is bound to [AWS_DEFAULT_REGION]. *)
Definition clean_pools_by_names (names deployment_regions : list string) : script unit :=
  print (section_header "Cognito User Pools" 50);;
  deleted_pools ← fold_m (fun deleted_pools current_region =>
      print_region current_region;;
      cidp_client ← client (Some current_region);
      fold_m (fun deleted_pools pool_name =>
          user_pool_id ← get_user_pool_id "MysfitsUserPool" current_region;
          match user_pool_id with
          | Some user_pool_id =>
              try_except
                (delete_user_pool cidp_client user_pool_id;; mret (deleted_pools ++ [pool_name]))
                (ignore_client_error "ResourceNotFoundException" deleted_pools)
          | None => mret deleted_pools
          end)
        names deleted_pools)
    deployment_regions [];
  if truthy deleted_pools
  then print ("Deleted pools: " +:+ join nl deleted_pools)
  else print ("No pools with names:" +:+ nl +:+ repr_list names).

Definition clean_repositories_by_names (names deployment_regions : list string) : script unit :=
  print (section_header "ECR Repositories" 50);;
  deleted_repositories ← fold_m (fun deleted_repositories current_region =>
      print_region current_region;;
      ecr_client ← client (Some current_region);
      fold_m (fun deleted_repositories repository_name =>
          try_except
            (delete_repository ecr_client repository_name;;
             mret (deleted_repositories ++ [repository_name]))
            (ignore_client_error "RepositoryNotFoundException" deleted_repositories))
        names deleted_repositories)
    deployment_regions [];
  if truthy deleted_repositories
  then print ("Deleted repositories: " +:+ join nl deleted_repositories)
  else print ("No repositories with names:" +:+ nl +:+ repr_list names).

(** ** NAT gateways (lines 147-173) *)

Definition list_nat_gateways (deployment_regions : list string) : script (list (string * string)) :=
  print (section_header "NAT Gateways" 50);;
  fold_m (fun nat_gateways current_region =>
      print_region current_region;;
      ec2_client ← client (Some current_region);
      response ← describe_nat_gateways ec2_client;
      mret (nat_gateways ++ ((fun g => (nat_id g, nat_state g)) <$> response)))
    deployment_regions [].

(** ** SageMaker (lines 176-225) *)

(** [if x: body(x)] for an optional string argument (default [None]). *)
Definition if_truthy (o : option string) (body : string -> script unit) : script unit :=
  match o with
  | Some p => if truthy p then body p else mret tt
  | None => mret tt
  end.

Definition clean_sagemaker_endpoints_by_prefix (deployment_regions : list string)
    (endpoint_prefix endpoint_config_prefix model_prefix : option string) : script unit :=
  print (section_header "Sagemaker" 50);;
  for_ deployment_regions (fun current_region =>
    sm_client ← client (Some current_region);
    if_truthy endpoint_prefix (fun p =>
      try_except
        (response ← list_endpoints sm_client p "InService";
         for_ response (fun endpoint =>
           delete_endpoint sm_client (ep_name endpoint);;
           print ("Deleted endpoint " +:+ ep_name endpoint +:+ " in region " +:+ current_region)))
        raise);;
    if_truthy endpoint_config_prefix (fun p =>
      try_except
        (response ← list_endpoint_configs sm_client p;
         for_ response (fun endpoint_config =>
           delete_endpoint_config sm_client (nm_name endpoint_config);;
           print ("Deleted endpoint configuration " +:+ nm_name endpoint_config +:+
                  " in region " +:+ current_region)))
        raise);;
    if_truthy model_prefix (fun p =>
      try_except
        (response ← list_models sm_client p;
         for_ response (fun model =>
           delete_model sm_client (nm_name model);;
           print ("Deleted model " +:+ nm_name model +:+ " in region " +:+ current_region)))
        raise)).

(** ** The [__main__] block (lines 228-283) *)

Definition deployment_region_list : list string := ["eu-west-1"].
Definition bucket_prefixes : list string := ["mythicalmysfits"; "sagemaker"].
Definition log_prefixes : list string :=
  ["mysfits"; "welcome"; "NotebookInstances"; "ProcessingJobs"; "TrainingJobs"].
Definition table_names : list string := ["MysfitsTable"; "MysfitsQuestionsTable"].
Definition pool_names : list string := ["MysfitsUserPool"].
Definition repository_names : list string := ["mythicalmysfits/service"].

Definition clean_utils_main : script unit :=
  clean_buckets_by_prefixes bucket_prefixes deployment_region_list;;
  clean_logs_by_prefixes log_prefixes deployment_region_list;;
  clean_tables_by_names table_names deployment_region_list;;
  clean_pools_by_names pool_names deployment_region_list;;
  clean_repositories_by_names repository_names deployment_region_list;;
  clean_sagemaker_endpoints_by_prefix deployment_region_list
    (Some "mysfits") (Some "mysfits") (Some "knn");;
  current_nat_gateways ← list_nat_gateways deployment_region_list;
  if truthy current_nat_gateways then
    for_ current_nat_gateways (fun gateway =>
      print ("Please check if the following NAT Gateway requires manual deletion: " +:+
             gateway.1 +:+ "  -  state: " +:+ gateway.2))
  else print "Found no NAT Gateway".

(** * Properties *)

(** ** Log groups *)

(** The prefixes whose lower-case form occurs in the lower-case name. *)
Definition matching_prefixes (prefixes : list string) (log_group_name : string) : list string :=
  filter (fun prefix => contains (lower prefix) (lower log_group_name) = true) prefixes.

Definition log_groups_in (r : string) (w : World) : list string := rg_log_groups (region_in w r).

Section log_groups.
Context (r : string) (prefixes : list string).

(** The loop over the prefixes for one log group: the first matching
    prefix deletes the group; a second one finds it gone and raises. *)
Lemma log_group_loop g w :
  "logs:DeleteLogGroup" ∉ denied (cloud w) ->
  let k := length (matching_prefixes prefixes g) in
  let present := bool_decide (g ∈ log_groups_in r w) in
  let res := run (for_ prefixes (fun prefix =>
               if contains (lower prefix) (lower g) then
                 delete_log_group r g;; print ("Deleted log group: " +:+ g)
               else mret tt)) w in
  fst res = (if k =? 0 then Ok tt
             else if present && (k =? 1) then Ok tt
             else Raise (ClientError "ResourceNotFoundException")) /\
  log_groups_in r (snd res) =
    (if present && negb (k =? 0) then filter (fun h => h <> g) (log_groups_in r w)
     else log_groups_in r w) /\
  denied (cloud (snd res)) = denied (cloud w).
Proof.
  intros Hd. cbv zeta. revert w Hd. unfold matching_prefixes.
  induction prefixes as [|p ps IH]; intros w Hd; [by simpl; rewrite andb_false_r|].
  cbn [for_]. rewrite run_bind, filter_cons.
  destruct (contains (lower p) (lower g)) eqn:Hc; simpl; [|by apply IH].
  rewrite run_bind, run_delete_log_group by done. unfold log_groups_in in *.
  destruct (decide (g ∈ rg_log_groups (region_in w r))) as [Hin|Hin];
    [rewrite !bool_decide_true by done | by rewrite !bool_decide_false by done].
  rewrite run_print. set (w2 := set_out _ _).
  destruct (IH w2 Hd) as (Ho & Hg & Hden). clear IH.
  assert (Hw2 : rg_log_groups (region_in w2 r) = filter (fun h => h <> g) (rg_log_groups (region_in w r))).
  { unfold w2, region_in. simpl. by rewrite region_of_set_region, decide_True. }
  assert (Hgone : g ∉ filter (fun h => h <> g) (rg_log_groups (region_in w r)))
    by (rewrite list_elem_of_filter; naive_solver).
  rewrite Hw2, (bool_decide_eq_false_2 _ Hgone) in Ho, Hg.
  simpl in Ho, Hg. split; [|split].
  - rewrite Ho. by destruct (length _) as [|[]].
  - by rewrite Hg.
  - by rewrite Hden.
Qed.

(** The loop over distinct log groups that all exist: it raises as soon
    as one group matches two prefixes; otherwise it deletes exactly the
    groups that match one. *)
Lemma log_groups_loop gs w :
  "logs:DeleteLogGroup" ∉ denied (cloud w) -> NoDup gs -> gs ⊆ log_groups_in r w ->
  let res := run (for_ gs (fun log_group_name =>
               for_ prefixes (fun prefix =>
                 if contains (lower prefix) (lower log_group_name) then
                   delete_log_group r log_group_name;;
                   print ("Deleted log group: " +:+ log_group_name)
                 else mret tt))) w in
  fst res = (if forallb (fun g => length (matching_prefixes prefixes g) <=? 1) gs
             then Ok tt else Raise (ClientError "ResourceNotFoundException")) /\
  (fst res = Ok tt ->
   log_groups_in r (snd res) =
     filter (fun h => ~ (h ∈ gs /\ matching_prefixes prefixes h <> [])) (log_groups_in r w)).
Proof.
  cbv zeta. revert w. induction gs as [|g gs IH]; intros w Hd Hnd Hsub.
  { split; [done|]. intros _. simpl. symmetry. apply filter_all. set_solver. }
  apply NoDup_cons in Hnd as [Hg Hnd]. cbn [for_ forallb]. rewrite run_bind.
  destruct (log_group_loop g w Hd) as (Ho & Hlg & Hden). cbv zeta in Ho, Hlg.
  rewrite bool_decide_true in Ho, Hlg by set_solver.
  destruct (run _ w) as [o w1]. simpl in Ho, Hlg, Hden. subst o.
  destruct (length (matching_prefixes prefixes g)) as [|[|k]] eqn:Hk;
    simpl in Hlg |- *.
  - (* no prefix matches: nothing happens to [g] *)
    rewrite <- Hden in Hd.
    destruct (IH w1 Hd Hnd ltac:(rewrite Hlg; set_solver)) as [-> Hres]. split; [done|].
    intros Hok. rewrite Hres, Hlg by done. apply list_filter_iff.
    intros h. apply length_zero_iff_nil in Hk. set_solver.
  - (* one prefix matches: [g] is deleted *)
    rewrite <- Hden in Hd.
    assert (Hsub1 : gs ⊆ log_groups_in r w1).
    { rewrite Hlg. intros h Hh. apply list_elem_of_filter. set_solver. }
    destruct (IH w1 Hd Hnd Hsub1) as [-> Hres]. split; [done|].
    intros Hok. rewrite Hres, Hlg, list_filter_filter by done. apply list_filter_iff.
    intros h. assert (matching_prefixes prefixes g <> []) by (intros E; rewrite E in Hk; done).
    set_solver.
  - split; [done|]. done.
Qed.
End log_groups.

(** C21: [delete_log_groups_by_prefixes] looks only at the first page of
    log groups (50). If one of them contains two of the prefixes (case
    insensitively), its second deletion finds it gone and the script stops
    with [ResourceNotFoundException]. Otherwise it completes and deletes
    exactly the groups of the first page that contain a prefix. *)
Theorem delete_log_groups_by_prefixes_spec r prefixes w :
  "logs:DescribeLogGroups" ∉ denied (cloud w) -> "logs:DeleteLogGroup" ∉ denied (cloud w) ->
  NoDup (log_groups_in r w) ->
  let page := log_groups_page (region_in w r) in
  let res := run (delete_log_groups_by_prefixes r prefixes) w in
  fst res = (if forallb (fun g => length (matching_prefixes prefixes g) <=? 1) page
             then Ok tt else Raise (ClientError "ResourceNotFoundException")) /\
  (fst res = Ok tt ->
   log_groups_in r (snd res) =
     filter (fun h => ~ (h ∈ page /\ matching_prefixes prefixes h <> [])) (log_groups_in r w)).
Proof.
  intros Hd1 Hd2 Hnd. unfold delete_log_groups_by_prefixes.
  rewrite run_bind, run_describe_log_groups by done.
  apply log_groups_loop; [done| |].
  - eapply sublist_NoDup; [exact Hnd|]. apply sublist_take.
  - apply sublist_subseteq, sublist_take.
Qed.

(** ** The account stays well formed *)

Lemma ignore_client_error_keeps {A} (P : World -> Prop) code (acc : A) e :
  keeps P (ignore_client_error code acc e).
Proof. destruct e; simpl; try case_match; auto with py. Qed.

Lemma if_truthy_keeps (P : World -> Prop) o body :
  (forall p, keeps P (body p)) -> keeps P (if_truthy o body).
Proof. intros Hb. destruct o as [p|]; simpl; auto with py. Qed.

Lemma client_keeps (P : World -> Prop) r : keeps P (client r).
Proof. apply keeps_ro, client_ro. Qed.

Lemma get_user_pool_id_keeps (P : World -> Prop) n r : keeps P (get_user_pool_id n r).
Proof. apply keeps_ro, get_user_pool_id_ro. Qed.

Lemma list_endpoints_keeps (P : World -> Prop) r p st : keeps P (list_endpoints r p st).
Proof. apply keeps_ro, list_endpoints_ro. Qed.

#[export] Hint Resolve ignore_client_error_keeps if_truthy_keeps client_keeps
  get_user_pool_id_keeps list_endpoints_keeps : py.
Lemma clean_tables_by_names_wf names regions : keeps world_wf (clean_tables_by_names names regions).
Proof. unfold clean_tables_by_names, print_region. auto 10 with py. Qed.

Lemma delete_buckets_by_prefix_wf c prefix region :
  keeps world_wf (delete_buckets_by_prefix c prefix region).
Proof. unfold delete_buckets_by_prefix. auto 12 with py. Qed.

#[export] Hint Resolve delete_buckets_by_prefix_wf : py.

Lemma clean_buckets_by_prefixes_wf prefixes regions :
  keeps world_wf (clean_buckets_by_prefixes prefixes regions).
Proof. unfold clean_buckets_by_prefixes, print_region. auto 10 with py. Qed.

Lemma clean_logs_by_prefixes_wf prefixes regions :
  keeps world_wf (clean_logs_by_prefixes prefixes regions).
Proof. unfold clean_logs_by_prefixes, delete_log_groups_by_prefixes, print_region. auto 10 with py. Qed.

Lemma clean_pools_by_names_wf names regions : keeps world_wf (clean_pools_by_names names regions).
Proof. unfold clean_pools_by_names, print_region. auto 14 with py. Qed.

Lemma clean_repositories_by_names_wf names regions :
  keeps world_wf (clean_repositories_by_names names regions).
Proof. unfold clean_repositories_by_names, print_region. auto 10 with py. Qed.

Lemma list_nat_gateways_wf regions : keeps world_wf (list_nat_gateways regions).
Proof. unfold list_nat_gateways, print_region. auto 10 with py. Qed.

Lemma clean_sagemaker_endpoints_by_prefix_wf regions p1 p2 p3 :
  keeps world_wf (clean_sagemaker_endpoints_by_prefix regions p1 p2 p3).
Proof. unfold clean_sagemaker_endpoints_by_prefix. auto 14 with py. Qed.

#[export] Hint Resolve clean_buckets_by_prefixes_wf clean_logs_by_prefixes_wf
  clean_tables_by_names_wf clean_pools_by_names_wf clean_repositories_by_names_wf
  list_nat_gateways_wf clean_sagemaker_endpoints_by_prefix_wf : py.

(** ** Tables and repositories *)

(** [clean_tables_by_names] and [clean_repositories_by_names] have the
    same loops around a deletion [del r n] that removes the name [n] from
    the list [get] of a region, or fails with [code] when it is missing. *)
Section clean_by_names.
Context (op code : string) (get : Region -> list string)
  (set : list string -> Region -> Region)
  (get_set : forall l rg, get (set l rg) = l)
  (del : string -> string -> script unit)
  (run_del : forall r n w, op ∉ denied (cloud w) ->
     run (del r n) w =
       if bool_decide (n ∈ get (region_in w r))
       then (Ok tt, set_cloud (set_region r
                      (set (filter (fun m => m <> n) (get (region_in w r))) (region_in w r))
                      (cloud w)) w)
       else (Raise (ClientError code), w)).

Definition names_in (r : string) (w : World) : list string := get (region_in w r).

Lemma names_in_set r r' rg w :
  names_in r' (set_cloud (set_region r rg (cloud w)) w) =
    if decide (r = r') then get rg else names_in r' w.
Proof. unfold names_in. rewrite region_in_set_region. by case_decide. Qed.

Lemma ignore_client_error_same {A} (acc : A) s :
  run (ignore_client_error code acc (ClientError code)) s = (Ok acc, s).
Proof. simpl. by rewrite String.eqb_refl. Qed.

(** The loop over the names in one region deletes those that exist and
    skips the others. *)
Lemma delete_names_loop r names acc w :
  op ∉ denied (cloud w) ->
  exists acc' w',
    run (fold_m (fun acc n =>
           try_except (del r n;; mret (acc ++ [n])) (ignore_client_error code acc))
         names acc) w = (Ok acc', w') /\
    denied (cloud w') = denied (cloud w) /\
    forall r', names_in r' w' =
      if decide (r = r') then filter (fun m => m ∉ names) (names_in r w) else names_in r' w.
Proof.
  intros Hd.
  pose (I := (fun (d : list string) (s : World) => denied (cloud s) = denied (cloud w) /\
     forall r', names_in r' s =
       if decide (r = r') then filter (fun m => m ∉ d) (names_in r w) else names_in r' w)).
  apply (fold_m_ok I); unfold I.
  - intros d n rest b s _ [Hden Hs]. rewrite run_try_except, run_bind, run_del by congruence.
    destruct (decide (n ∈ get (region_in s r))) as [Hin|Hin].
    + rewrite bool_decide_true by done. eexists _, _. split; [done|]. split; [done|].
      intros r'. rewrite names_in_set, get_set, filter_not_in_snoc.
      pose proof (Hs r) as Hr. rewrite decide_True in Hr by done. unfold names_in in Hr.
      rewrite Hr. case_decide; [done|]. by rewrite Hs, decide_False.
    + rewrite bool_decide_false, ignore_client_error_same by done.
      eexists _, _. split; [done|]. split; [done|]. intros r'. rewrite Hs.
      case_decide; [subst r'|done]. rewrite filter_not_in_snoc. symmetry. apply filter_all.
      intros m Hm. pose proof (Hs r) as Hr. rewrite decide_True in Hr by done.
      unfold names_in in Hr. rewrite Hr in Hin. set_solver.
  - split; [done|]. intros r'. case_decide; [|done]. subst. symmetry. apply filter_all. set_solver.
Qed.

(** The loop over the regions. *)
Lemma delete_names_regions names regions w :
  op ∉ denied (cloud w) ->
  exists acc w',
    run (fold_m (fun acc current_region =>
           print_region current_region;;
           c ← client (Some current_region);
           fold_m (fun acc n =>
               try_except (del c n;; mret (acc ++ [n])) (ignore_client_error code acc))
             names acc)
         regions []) w = (Ok acc, w') /\
    denied (cloud w') = denied (cloud w) /\
    forall r', names_in r' w' =
      if decide (r' ∈ regions) then filter (fun m => m ∉ names) (names_in r' w) else names_in r' w.
Proof.
  intros Hd.
  pose (I := (fun (d : list string) (s : World) => denied (cloud s) = denied (cloud w) /\
     forall r', names_in r' s =
       if decide (r' ∈ d) then filter (fun m => m ∉ names) (names_in r' w) else names_in r' w)).
  apply (fold_m_ok I); unfold I.
  - intros d x rest b s _ [Hden Hs]. unfold print_region. rewrite run_bind, run_print.
    cbn [client]. rewrite run_bind, run_ret.
    destruct (delete_names_loop x names b (set_out (out s ++ [nl +:+ "Region " +:+ x +:+ ":"]) s))
      as (b' & s' & Hrun & Hden' & Hs'); [simpl; congruence|].
    rewrite Hrun. eexists _, _. split; [done|]. split; [simpl in Hden'; congruence|].
    intros r'. rewrite Hs'.
    assert (Hs1 : forall r o, names_in r (set_out o s) = names_in r s) by done.
    rewrite !Hs1, !Hs. repeat case_decide; subst; try set_solver. by rewrite filter_idemp.
  - split; [done|]. intros r'. case_decide; [set_solver|done].
Qed.
End clean_by_names.

Ltac run_delete_solve :=
  intros ? ? ? ?; cbv beta delta [delete_table delete_repository];
  rewrite run_delete_resource, bool_decide_false by done; reflexivity.

(** C22: [clean_tables_by_names] always completes when it may delete
    tables: in each region of the list it deletes the tables of the list
    that exist, a missing table being skipped ([ResourceNotFoundException]
    is caught), and no other region is touched. *)
Theorem clean_tables_by_names_spec names regions w :
  "dynamodb:DeleteTable" ∉ denied (cloud w) ->
  let res := run (clean_tables_by_names names regions) w in
  fst res = Ok tt /\
  forall r, rg_tables (region_in (snd res) r) =
    if decide (r ∈ regions) then filter (fun t => t ∉ names) (rg_tables (region_in w r))
    else rg_tables (region_in w r).
Proof.
  intros Hd. unfold clean_tables_by_names. rewrite run_bind, run_print, run_bind.
  set (w1 := set_out _ w).
  destruct (delete_names_regions "dynamodb:DeleteTable" "ResourceNotFoundException"
              rg_tables set_rg_tables (fun _ _ => eq_refl) delete_table
              ltac:(run_delete_solve) names regions w1 Hd) as (acc & w' & -> & _ & Hn).
  split; [by destruct (truthy acc)|]. intros r. specialize (Hn r). by destruct (truthy acc).
Qed.

(** [clean_repositories_by_names] behaves in the same way for the ECR
    repositories ([RepositoryNotFoundException] is caught): it completes,
    and deletes, images included, the listed repositories that exist in
    the listed regions. *)
Theorem clean_repositories_by_names_spec names regions w :
  "ecr:DeleteRepository" ∉ denied (cloud w) ->
  let res := run (clean_repositories_by_names names regions) w in
  fst res = Ok tt /\
  forall r, rg_repositories (region_in (snd res) r) =
    if decide (r ∈ regions) then filter (fun t => t ∉ names) (rg_repositories (region_in w r))
    else rg_repositories (region_in w r).
Proof.
  intros Hd. unfold clean_repositories_by_names. rewrite run_bind, run_print, run_bind.
  set (w1 := set_out _ w).
  destruct (delete_names_regions "ecr:DeleteRepository" "RepositoryNotFoundException"
              rg_repositories set_rg_repositories (fun _ _ => eq_refl) delete_repository
              ltac:(run_delete_solve) names regions w1 Hd) as (acc & w' & -> & _ & Hn).
  split; [by destruct (truthy acc)|]. intros r. specialize (Hn r). by destruct (truthy acc).
Qed.

(** ** User pools *)

Lemma run_aws_list_user_pools r n w :
  "cognito-idp:ListUserPools" ∉ denied (cloud w) ->
  run (list_user_pools r n) w = (Ok (user_pools_page (region_in w r) n), w).
Proof.
  intros Hd. cbn [list_user_pools aws_provider]. unfold aws_list_user_pools.
  rewrite run_bind, run_aws_call. by case_bool_decide.
Qed.

(** C23: [clean_pools_by_names] looks for the pool named
    ['MysfitsUserPool'] (whatever names it is given) with a client of the
    default region [AWS_DEFAULT_REGION], not of the region it cleans. When
    the default region's first page of pools has no such pool, the script
    completes and deletes nothing, in any region, even when the regions it
    is asked to clean hold that pool. *)
Theorem clean_pools_by_names_default_region names regions w r0 :
  environ w !! "AWS_DEFAULT_REGION" = Some r0 ->
  "cognito-idp:ListUserPools" ∉ denied (cloud w) ->
  Forall (fun p => pool_name p <> "MysfitsUserPool") (user_pools_page (region_in w r0) 10) ->
  let res := run (clean_pools_by_names names regions) w in
  fst res = Ok tt /\ cloud (snd res) = cloud w.
Proof.
  intros Henv Hd Hno.
  pose (I := fun (_ : list string) (s : World) => cloud s = cloud w /\ environ s = environ w).
  assert (Hlookup : forall r s, I [] s ->
            run (get_user_pool_id "MysfitsUserPool" r) s = (Ok None, s)).
  { intros r s [Hc He]. rewrite run_get_user_pool_id. unfold client_region.
    rewrite He, Henv, run_aws_list_user_pools by congruence. simpl.
    replace (region_in s r0) with (region_in w r0) by (unfold region_in; congruence).
    f_equal. f_equal. apply last_match_None. eapply Forall_impl; [exact Hno|].
    intros p Hp. by apply String.eqb_neq. }
  unfold clean_pools_by_names. rewrite run_bind, run_print, run_bind.
  set (w1 := set_out _ w).
  match goal with
  | |- context [run (fold_m ?body regions []) w1] =>
      destruct (fold_m_ok I body regions [] w1) as (acc & w' & -> & Hc & _); [| done |]
  end.
  - intros d r rest b s _ Hs. unfold print_region. rewrite run_bind, run_print.
    cbn [client]. rewrite run_bind, run_ret.
    apply (fold_m_ok (fun _ => I (d ++ [r]))); [|done].
    intros d' n rest' b' s' _ Hs'. rewrite run_bind, (Hlookup r s' Hs'). eauto.
  - by destruct (truthy acc).
Qed.

(** ** Buckets *)

(** The buckets [delete_buckets_by_prefix prefix region] deletes: the
    [LocationConstraint] is [region] and, when [prefix] is not empty, the
    first [len(prefix)] characters of the name are [prefix]. *)
Definition bucket_selected (prefix region : string) (b : Bucket) : Prop :=
  bucket_location b = Some region /\
  (truthy prefix = true -> str_take (String.length prefix) (bucket_name b) = prefix).

#[export] Instance bucket_selected_dec prefix region b : Decision (bucket_selected prefix region b).
Proof. unfold bucket_selected. apply _. Defined.

(** The test of the loop, as the code writes it, is [bucket_selected]. *)
Lemma bucket_test_selected prefix region c :
  (if bool_decide (bucket_location c <> Some region) then false
   else negb (truthy prefix &&
              negb (String.eqb (str_take (String.length prefix) (bucket_name c)) prefix))) =
  bool_decide (bucket_selected prefix region c).
Proof.
  unfold bucket_selected. case_bool_decide as Hloc; case_bool_decide as Hsel; try naive_solver.
  - destruct (truthy prefix) eqn:Ht; simpl; [|naive_solver].
    destruct (String.eqb_spec (str_take (String.length prefix) (bucket_name c)) prefix); naive_solver.
  - destruct (truthy prefix) eqn:Ht; simpl; [|naive_solver].
    destruct (String.eqb_spec (str_take (String.length prefix) (bucket_name c)) prefix); naive_solver.
Qed.

(** One iteration of the bucket loop on the bucket [c], found in the
    state between the buckets already processed (and kept) and the rest. *)
Lemma bucket_iteration prefix region (deleted : list string) l1 c l2 s :
  s3_allowed s -> buckets (cloud s) = l1 ++ c :: l2 ->
  others (bucket_name c) l1 -> others (bucket_name c) l2 ->
  exists s',
    run (loc ← get_bucket_location (bucket_name c);
         if bool_decide (loc <> Some region) then mret deleted
         else if truthy prefix &&
                 negb (String.eqb (str_take (String.length prefix) (bucket_name c)) prefix)
         then mret deleted
         else
           delete_objects (bucket_name c);;
           print ("Deleted all objects in bucket bucket " +:+ bucket_name c);;
           delete_bucket (bucket_name c);;
           mret (deleted ++ [bucket_name c])) s =
      (Ok (if bool_decide (bucket_selected prefix region c) then deleted ++ [bucket_name c]
           else deleted), s') /\
    s3_allowed s' /\
    buckets (cloud s') = l1 ++ (if bool_decide (bucket_selected prefix region c) then [] else [c]) ++ l2.
Proof.
  intros Hd Hs H1 H2. rewrite run_bind, (run_get_bucket_location _ c)
    by first [done | rewrite Hs; by apply find_bucket_mid].
  pose proof (bucket_test_selected prefix region c) as Hsel.
  destruct (bool_decide (bucket_location c <> Some region)) eqn:E1;
    [|destruct (truthy prefix && _) eqn:E2]; rewrite <- Hsel; simpl.
  - exists s. by rewrite Hs.
  - exists s. by rewrite Hs.
  - destruct (run_delete_objects_bucket l1 c l2
               ("Deleted all objects in bucket bucket " +:+ bucket_name c)
               (mret (deleted ++ [bucket_name c])) s Hd Hs H1 H2) as (s' & -> & Hb & Hden).
    exists s'. split; [done|]. split; [|done]. by eapply s3_allowed_denied.
Qed.

Lemma delete_buckets_by_prefix_run s3_client prefix region w :
  s3_allowed w -> world_wf w ->
  exists w', run (delete_buckets_by_prefix s3_client prefix region) w = (Ok tt, w') /\
  s3_allowed w' /\
  buckets (cloud w') = filter (fun b => ~ bucket_selected prefix region b) (buckets (cloud w)).
Proof.
  intros Hd [_ Hnd]. unfold delete_buckets_by_prefix. rewrite run_bind, run_list_buckets by done.
  set (bs := buckets (cloud w)) in *. set (keep := fun b => ~ bucket_selected prefix region b).
  pose (I := fun (d : list string) (s : World) => s3_allowed s /\
    buckets (cloud s) = filter keep (take (length d) bs) ++ drop (length d) bs).
  rewrite run_bind.
  match goal with
  | |- context [run (fold_m ?body _ []) w] =>
      destruct (fold_m_ok I body (bucket_name <$> bs) [] w) as (acc & w' & -> & Hs' & Hw')
  end.
  - intros d x rest b s Hl [Hs Hbs].
    apply fmap_app_inv in Hl as (l1 & k & -> & Hk & ->). symmetry in Hk.
    apply fmap_cons_inv in Hk as (c & l2 & -> & -> & ->).
    rewrite length_fmap, take_app_length', drop_app_length' in Hbs by done.
    destruct (others_NoDup l1 c l2 Hnd) as [H1 H2].
    destruct (bucket_iteration prefix region b (filter keep l1) c l2 s Hs Hbs
                (others_filter_sub _ _ _ H1) H2) as (s' & Hrun & Hs' & Hb').
    eexists _, s'. split; [exact Hrun|]. split; [done|].
    rewrite Hb', length_app, length_fmap. simpl.
    replace (l1 ++ c :: l2) with ((l1 ++ [c]) ++ l2) by by rewrite <- app_assoc.
    rewrite take_app_length', drop_app_length', filter_app by (rewrite length_app; simpl; lia).
    rewrite <- app_assoc. f_equal. unfold keep.
    destruct (decide (bucket_selected prefix region c)) as [Hc|Hc].
    + by rewrite bool_decide_true, filter_cons_False by tauto.
    + by rewrite bool_decide_false, filter_cons_True by tauto.
  - split; [done|]. by rewrite drop_0.
  - rewrite length_fmap, take_ge, drop_ge, app_nil_r in Hw' by lia.
    exists (set_out (out w' ++ [if truthy acc then "Deleted buckets: " +:+ join nl acc
                               else "No buckets with prefix:" +:+ nl +:+ prefix]) w').
    by destruct (truthy acc).
Qed.

(** C24: In a well-formed account where the S3 calls are allowed,
    [delete_buckets_by_prefix] completes and deletes, objects first,
    exactly the buckets whose [LocationConstraint] is the region and whose
    name starts with the prefix (any name when the prefix is empty). The
    loop runs over the list of buckets taken once at the start. *)
Theorem delete_buckets_by_prefix_spec s3_client prefix region w :
  s3_allowed w -> world_wf w ->
  let res := run (delete_buckets_by_prefix s3_client prefix region) w in
  fst res = Ok tt /\
  buckets (cloud (snd res)) =
    filter (fun b => ~ bucket_selected prefix region b) (buckets (cloud w)).
Proof.
  intros Hd Hwf. destruct (delete_buckets_by_prefix_run s3_client prefix region w Hd Hwf)
    as (w' & Hrun & _ & Hb). simpl. by rewrite Hrun.
Qed.

(** The buckets [clean_buckets_by_prefixes prefixes regions] deletes:
    those some region and some prefix of the lists select. *)
Definition bucket_cleaned (prefixes regions : list string) (b : Bucket) : Prop :=
  Exists (fun r => Exists (fun p => bucket_selected p r b) prefixes) regions.

#[export] Instance bucket_cleaned_dec prefixes regions b :
  Decision (bucket_cleaned prefixes regions b).
Proof. unfold bucket_cleaned. apply _. Defined.

Lemma clean_buckets_by_prefixes_run prefixes regions w :
  s3_allowed w -> world_wf w ->
  exists w', run (clean_buckets_by_prefixes prefixes regions) w = (Ok tt, w') /\
  buckets (cloud w') = filter (fun b => ~ bucket_cleaned prefixes regions b) (buckets (cloud w)).
Proof.
  intros Hd Hwf. set (bs := buckets (cloud w)).
  unfold clean_buckets_by_prefixes. rewrite run_bind, run_print.
  set (w1 := set_out _ w).
  pose (I := fun (d : list string) (s : World) => s3_allowed s /\ world_wf s /\
    buckets (cloud s) = filter (fun b => ~ bucket_cleaned prefixes d b) bs).
  for_loop I as (w' & -> & _ & _ & Hb); cycle 1.
  { split; [done|]. split; [done|]. symmetry. apply filter_all. intros b _ Hx. inversion Hx. }
  { by exists w'. }
  intros d x rest s _ (Hs & Hws & Hbs). unfold print_region.
  rewrite run_bind, run_print. cbn [client]. rewrite run_bind, run_ret.
  set (s1 := set_out _ s).
  pose (J := fun (dp : list string) (t : World) => s3_allowed t /\ world_wf t /\
    buckets (cloud t) = filter (fun b => ~ (bucket_cleaned prefixes d b \/
                                            Exists (fun p => bucket_selected p x b) dp)) bs).
  for_loop J as (s' & -> & Hs' & Hws' & Hbs'); cycle 2.
  { exists s'. split; [done|]. split; [done|]. split; [done|]. rewrite Hbs'.
    apply list_filter_iff. intros b. unfold bucket_cleaned.
    rewrite Exists_app, Exists_cons, Exists_nil. tauto. }
  - intros dp p rest' t _ (Ht & Hwt & Hbt).
    destruct (delete_buckets_by_prefix_run x p x t Ht Hwt) as (t' & Hrun & Ht' & Hbt').
    exists t'. split; [done|]. split; [done|]. split.
    + pose proof (delete_buckets_by_prefix_wf x p x t Hwt) as Hw'. by rewrite Hrun in Hw'.
    + rewrite Hbt', Hbt, list_filter_filter. apply list_filter_iff. intros b.
      rewrite Exists_app, Exists_cons, Exists_nil. tauto.
  - split; [done|]. split; [done|]. unfold s1. simpl. rewrite Hbs. apply list_filter_iff.
    intros b. rewrite Exists_nil. tauto.
Qed.

(** C25: [clean_buckets_by_prefixes] never deletes a bucket whose
    [LocationConstraint] is [None], which is what S3 answers for the
    buckets of us-east-1: listing ['us-east-1'] among the regions does not
    clean the buckets of that region, because the loop compares [None] with
    the string ['us-east-1']. *)
Theorem clean_buckets_keeps_us_east_1 prefixes regions w b :
  s3_allowed w -> world_wf w -> b ∈ buckets (cloud w) -> bucket_location b = None ->
  let res := run (clean_buckets_by_prefixes prefixes regions) w in
  fst res = Ok tt /\ b ∈ buckets (cloud (snd res)).
Proof.
  intros Hd Hwf Hb Hloc. destruct (clean_buckets_by_prefixes_run prefixes regions w Hd Hwf)
    as (w' & Hrun & Hbs). simpl. rewrite Hrun. split; [done|]. simpl. rewrite Hbs.
  apply list_elem_of_filter. split; [|done]. unfold bucket_cleaned.
  rewrite Exists_exists. intros (r & _ & Hr). rewrite Exists_exists in Hr.
  destruct Hr as (p & _ & Hsel & _). congruence.
Qed.

(** ** SageMaker *)

Definition endpoints_in (r : string) (w : World) : list Endpoint := rg_endpoints (region_in w r).

Lemma print_endpoints msg r : preserves (endpoints_in r) (print msg).
Proof. done. Qed.

Lemma delete_endpoint_config_endpoints r n r' : preserves (endpoints_in r') (delete_endpoint_config r n).
Proof. by apply (delete_resource_region_frame rg_endpoints). Qed.

Lemma delete_model_endpoints r n r' : preserves (endpoints_in r') (delete_model r n).
Proof. by apply (delete_resource_region_frame rg_endpoints). Qed.

Lemma if_truthy_preserves {T} (proj : World -> T) o body :
  (forall p, preserves proj (body p)) -> preserves proj (if_truthy o body).
Proof. intros Hb. destruct o as [p|]; simpl; [destruct (truthy p)|]; auto with py. Qed.

#[export] Hint Resolve print_endpoints delete_endpoint_config_endpoints delete_model_endpoints
  if_truthy_preserves : py.

Lemma run_aws_list_endpoints r p st w :
  "sagemaker:ListEndpoints" ∉ denied (cloud w) ->
  run (list_endpoints r p st) w = (Ok (endpoints_page (region_in w r) p st), w).
Proof. intros Hd. cbn [list_endpoints aws_provider]. unfold aws_list_endpoints. by rewrite run_aws_allowed. Qed.

(** Deleting, one after the other, endpoints of distinct names that all
    exist deletes exactly them. *)
Lemma delete_endpoints_loop r current_region gs w :
  "sagemaker:DeleteEndpoint" ∉ denied (cloud w) -> NoDup (ep_name <$> gs) ->
  (forall e, e ∈ gs -> e ∈ endpoints_in r w) ->
  exists w', run (for_ gs (fun endpoint =>
                   delete_endpoint r (ep_name endpoint);;
                   print ("Deleted endpoint " +:+ ep_name endpoint +:+ " in region " +:+
                          current_region))) w = (Ok tt, w') /\
    endpoints_in r w' = filter (fun e => ep_name e ∉ ep_name <$> gs) (endpoints_in r w).
Proof.
  intros Hd Hnd Hin.
  pose (I := fun (d : list Endpoint) (s : World) => denied (cloud s) = denied (cloud w) /\
    endpoints_in r s = filter (fun e => ep_name e ∉ ep_name <$> d) (endpoints_in r w)).
  for_loop I as (w' & -> & _ & Hw'); cycle 1.
  { split; [done|]. symmetry. apply filter_all. set_solver. }
  { by exists w'. }
  intros d x rest s Hgs [Hden Hs]. unfold delete_endpoint.
  rewrite run_bind, run_delete_allowed by congruence.
  assert (Hx : ep_name x ∉ ep_name <$> d).
  { rewrite Hgs, fmap_app, fmap_cons in Hnd. apply NoDup_app in Hnd as (_ & Hdisj & _).
    intros Hxd. apply (Hdisj _ Hxd). left. }
  rewrite bool_decide_true; cycle 1.
  { fold (endpoints_in r s). rewrite Hs. apply list_elem_of_fmap_2, list_elem_of_filter.
    split; [done|]. apply Hin. rewrite Hgs. set_solver. }
  rewrite run_print. eexists. split; [done|]. split; [done|].
  unfold endpoints_in at 1, region_in. simpl. rewrite region_of_set_region, decide_True by done.
  simpl. fold (region_in s r) (endpoints_in r s). rewrite Hs, list_filter_filter. apply list_filter_iff.
  intros e. rewrite fmap_app. set_solver.
Qed.

(** C26: [clean_sagemaker_endpoints_by_prefix] deletes only the first
    page of matching endpoints: in a region cleaned once, the endpoints
    left are all those except the (at most 10) newest [InService]
    endpoints whose name contains the prefix. Endpoints in another status
    ([Creating], [Failed], ...) and older matching ones beyond the first
    page are never deleted. *)
Theorem clean_sagemaker_endpoints_first_page r p cfg model w :
  truthy p = true -> world_wf w ->
  "sagemaker:ListEndpoints" ∉ denied (cloud w) -> "sagemaker:DeleteEndpoint" ∉ denied (cloud w) ->
  endpoints_in r (snd (run (clean_sagemaker_endpoints_by_prefix [r] (Some p) cfg model) w)) =
    filter (fun e => ep_name e ∉ ep_name <$> endpoints_page (region_in w r) p "InService")
      (endpoints_in r w).
Proof.
  intros Hp [Hwf _] Hd1 Hd2. unfold clean_sagemaker_endpoints_by_prefix.
  rewrite run_bind, run_print. set (w1 := set_out _ w). cbn [for_ client].
  rewrite frame_ret, bind_ret_l. cbn [if_truthy]. rewrite Hp.
  destruct (delete_endpoints_loop r r (endpoints_page (region_in w1 r) p "InService") w1)
    as (w2 & Hrun & Hw2); [done| | |].
  - apply endpoints_page_NoDup. unfold region_in, region_of.
    destruct (regions (cloud w1) !! r) as [rg|] eqn:E; simpl; [|constructor].
    by apply (Hwf r rg E).
  - intros e He. by apply endpoints_page_elem in He as [? _].
  - erewrite frame_after; [exact Hw2| |auto 10 with py].
    rewrite try_except_reraise, run_bind, run_aws_list_endpoints by done. exact Hrun.
Qed.

(** ** NAT gateways *)

(** The pairs [(NatGatewayId, State)] of the gateways of a region. *)
Definition nat_pairs (w : World) (r : string) : list (string * string) :=
  (fun g => (nat_id g, nat_state g)) <$>
    filter (fun g => nat_state g ∈ nat_states) (rg_nat_gateways (region_in w r)).

(** [list_nat_gateways] completes, changes no resource, and returns
    the (id, state) pairs of all the NAT gateways of the listed regions,
    region by region: the filter names all five states a gateway can be
    in. *)
Theorem list_nat_gateways_spec regions w :
  "ec2:DescribeNatGateways" ∉ denied (cloud w) ->
  let res := run (list_nat_gateways regions) w in
  fst res = Ok (regions ≫= nat_pairs w) /\ cloud (snd res) = cloud w.
Proof.
  intros Hd. unfold list_nat_gateways. rewrite run_bind, run_print.
  set (w1 := set_out _ w).
  fold_acc_loop (fun d b (s : World) => cloud s = cloud w /\ b = d ≫= nat_pairs w)
    as (acc & w' & -> & Hc & ->); [| done |by split].
  intros d x rest b s _ [Hs ->]. unfold print_region. rewrite run_bind, run_print.
  cbn [client]. rewrite bind_ret_l, run_bind. unfold describe_nat_gateways.
  rewrite run_aws_allowed by (simpl; congruence). rewrite run_gets, run_ret.
  eexists _, _. split; [done|]. split; [done|].
  rewrite bind_app, bind_cons. simpl. rewrite app_nil_r. unfold nat_pairs, region_in. simpl.
  by rewrite Hs.
Qed.

(** ** A concrete account *)

(** The account after the workshop in eu-west-1: the web bucket and a
    SageMaker bucket, a us-east-1 bucket, the log group of the SageMaker
    notebook ([mysfits-notebook]: its name contains two of the prefixes),
    the tables, the user pool, the repository, endpoints, configuration,
    model and a NAT gateway. *)
Definition demo_clean_region : Region :=
  mkRegion []
    [mkPool "MysfitsUserPool" "eu-west-1_abc" [mkClient "MysfitsUserPoolClient" "client42"]]
    [mkEndpoint "mysfits-knn-1" "InService" 5%Z; mkEndpoint "mysfits-knn-0" "Failed" 3%Z]
    [mkNamed "mysfits-knn-config" 4%Z] [mkNamed "knn-model" 4%Z]
    ["/aws/sagemaker/NotebookInstances/mysfits-notebook/jupyter.log"; "/aws/codebuild/other"]
    ["MysfitsTable"; "MysfitsQuestionsTable"] ["mythicalmysfits/service"]
    [mkNat "nat-0a1" "available"].

Definition demo_clean_cloud : Cloud :=
  mkCloud {[ "eu-west-1" := demo_clean_region ]}
    [mkBucket "mythicalmysfits-site" (Some "eu-west-1") ["index.html"];
     mkBucket "sagemaker-eu-west-1-123" (Some "eu-west-1") ["model.tar.gz"];
     mkBucket "mythicalmysfits-us" None ["index.html"]] [] ∅ ∅.

Definition demo_clean_world : World :=
  mkWorld ∅ ∅ [] {[ "AWS_DEFAULT_REGION" := "eu-west-1" ]} demo_clean_cloud.

(** On that account the cleanup script deletes the buckets of
    eu-west-1, then stops with [ResourceNotFoundException] on the notebook's
    log group (deleted for ['mysfits'], then again for
    ['NotebookInstances']): the tables, the user pool, the repository and
    the SageMaker resources are left in place. *)
Theorem clean_utils_main_double_match :
  let res := run clean_utils_main demo_clean_world in
  fst res = Raise (ClientError "ResourceNotFoundException") /\
  buckets (cloud (snd res)) = [mkBucket "mythicalmysfits-us" None ["index.html"]] /\
  rg_tables (region_in (snd res) "eu-west-1") = ["MysfitsTable"; "MysfitsQuestionsTable"] /\
  rg_endpoints (region_in (snd res) "eu-west-1") = rg_endpoints demo_clean_region.
Proof. vm_compute. repeat split. Qed.

(** ** Witnesses *)

Lemma delete_log_groups_by_prefixes_spec_witness :
  let w := demo_clean_world in
  let page := log_groups_page (region_in w "eu-west-1") in
  let res := run (delete_log_groups_by_prefixes "eu-west-1" log_prefixes) w in
  fst res = (if forallb (fun g => length (matching_prefixes log_prefixes g) <=? 1) page
             then Ok tt else Raise (ClientError "ResourceNotFoundException")) /\
  (fst res = Ok tt ->
   log_groups_in "eu-west-1" (snd res) =
     filter (fun h => ~ (h ∈ page /\ matching_prefixes log_prefixes h <> []))
       (log_groups_in "eu-west-1" w)).
Proof. apply delete_log_groups_by_prefixes_spec; concrete. Defined.

Lemma clean_tables_by_names_spec_witness :
  let res := run (clean_tables_by_names table_names deployment_region_list) demo_clean_world in
  fst res = Ok tt /\
  forall r, rg_tables (region_in (snd res) r) =
    if decide (r ∈ deployment_region_list)
    then filter (fun t => t ∉ table_names) (rg_tables (region_in demo_clean_world r))
    else rg_tables (region_in demo_clean_world r).
Proof. apply clean_tables_by_names_spec. concrete. Defined.

Lemma clean_repositories_by_names_spec_witness :
  let res := run (clean_repositories_by_names repository_names deployment_region_list)
               demo_clean_world in
  fst res = Ok tt /\
  forall r, rg_repositories (region_in (snd res) r) =
    if decide (r ∈ deployment_region_list)
    then filter (fun t => t ∉ repository_names) (rg_repositories (region_in demo_clean_world r))
    else rg_repositories (region_in demo_clean_world r).
Proof. apply clean_repositories_by_names_spec. concrete. Defined.

(** The default region is us-east-1, where there is no user pool; the
    pool of eu-west-1 is not deleted. *)
Definition demo_us_default_world : World :=
  mkWorld ∅ ∅ [] {[ "AWS_DEFAULT_REGION" := "us-east-1" ]} demo_clean_cloud.

Lemma clean_pools_by_names_default_region_witness :
  let res := run (clean_pools_by_names pool_names deployment_region_list) demo_us_default_world in
  fst res = Ok tt /\ cloud (snd res) = cloud demo_us_default_world.
Proof. apply (clean_pools_by_names_default_region _ _ _ "us-east-1"); concrete. Defined.

Lemma delete_buckets_by_prefix_spec_witness :
  let res := run (delete_buckets_by_prefix "eu-west-1" "mythicalmysfits" "eu-west-1")
               demo_clean_world in
  fst res = Ok tt /\
  buckets (cloud (snd res)) =
    filter (fun b => ~ bucket_selected "mythicalmysfits" "eu-west-1" b)
      (buckets (cloud demo_clean_world)).
Proof. apply delete_buckets_by_prefix_spec; concrete. Defined.

Lemma clean_buckets_keeps_us_east_1_witness :
  let res := run (clean_buckets_by_prefixes bucket_prefixes ["us-east-1"; "eu-west-1"])
               demo_clean_world in
  fst res = Ok tt /\ mkBucket "mythicalmysfits-us" None ["index.html"] ∈ buckets (cloud (snd res)).
Proof. apply clean_buckets_keeps_us_east_1; concrete. Defined.

Lemma clean_sagemaker_endpoints_first_page_witness :
  endpoints_in "eu-west-1"
    (snd (run (clean_sagemaker_endpoints_by_prefix ["eu-west-1"] (Some "mysfits")
                 (Some "mysfits") (Some "knn")) demo_clean_world)) =
    filter (fun e => ep_name e ∉ ep_name <$>
                       endpoints_page (region_in demo_clean_world "eu-west-1") "mysfits" "InService")
      (endpoints_in "eu-west-1" demo_clean_world).
Proof. apply clean_sagemaker_endpoints_first_page; concrete. Defined.

Lemma list_nat_gateways_spec_witness :
  let res := run (list_nat_gateways deployment_region_list) demo_clean_world in
  fst res = Ok (deployment_region_list ≫= nat_pairs demo_clean_world) /\
  cloud (snd res) = cloud demo_clean_world.
Proof. apply list_nat_gateways_spec. concrete. Defined.
