(* ===== verification/Checks.v ===== *)
(** * The deployment checks [test_ecr_empty.py], [test_no_inference_endpoint.py]
    and the redeploy script [deploy_ecs_service.py]

    Three small scripts of src/webgen/utils run between the deployment
    steps: two print ['true'] or ['false'] for a shell script to test
    (is the service's ECR repository empty, is there no kNN inference
    endpoint in service), the third forces a new deployment of the ECS
    service. Their clients are created with no region, so they act on
    [AWS_DEFAULT_REGION]. The ECR [ListImages] and ECS [UpdateService]
    calls are given here, on the account of [Cloud.v]. *)

From Stdlib Require Import String ZArith.
From stdpp Require Import base list gmap strings sorting.
From S2P Require Import Spec2Rocq PyStr Cloud World AwsOps Lookup.

(** ** The calls *)

(** [ecr.list_images(repositoryName=repo, filter={'tagStatus': 'ANY'})]:
    the images of the repository, tagged or not. *)
Definition list_images (r repo : string) : script (list string) :=
  aws_call "ecr:ListImages";;
  present ← gets (fun w : World => bool_decide (repo ∈ rg_repositories (region_in w r)));
  if (present : bool)
  then gets (fun w : World => default [] (ecr_images (cloud w) !! (r, repo)))
  else raise (ClientError "RepositoryNotFoundException").

Definition set_ecs_deployments (d : gmap (string * string * string) nat) (c : Cloud) : Cloud :=
  mkCloud (regions c) (buckets c) (denied c) (ecr_images c) d.

(** [ecs.update_service(cluster=c, service=s, forceNewDeployment=True)]:
    starts a new deployment of the service. *)
Definition update_service (r cluster service : string) : script unit :=
  aws_call "ecs:UpdateService";;
  n ← gets (fun w : World => ecs_deployments (cloud w) !! (r, cluster, service));
  match n with
  | Some k => update_cloud (fun c => set_ecs_deployments
                                      (<[(r, cluster, service) := S k]> (ecs_deployments c)) c)
  | None => raise (ClientError "ServiceNotFoundException")
  end.

(** ** The scripts *)

Definition service_repository : string := "mythicalmysfits/service".

(** [test_ecr_empty.py]. *)
Definition test_ecr_empty : script unit :=
  try_except
    (ecr_client ← client None;
     response ← list_images ecr_client service_repository;
     if truthy response then print "false" else print "true")
    (fun e => match e with
              | ClientError code =>
                  if negb (String.eqb code "RepositoryNotFoundException") then raise e
                  else print "true"
              | _ => raise e
              end).

(** [test_no_inference_endpoint.py]. *)
Definition test_no_inference_endpoint : script unit :=
  try_except
    (sm_client ← client None;
     response ← list_endpoints sm_client "knn" "InService";
     if truthy response then print "false" else print "true")
    raise.

Definition ecs_cluster_name : string := "MythicalMysfits-Cluster".
Definition ecs_service_name : string := "MythicalMysfits-FargateService".

(** [deploy_ecs_service.py]. *)
Definition deploy_ecs_service : script unit :=
  ecs_client ← client None;
  update_service ecs_client ecs_cluster_name ecs_service_name.

(** * Properties *)

(** The service repository has an image in region [r]. *)
Definition ecr_has_images (w : World) (r : string) : bool :=
  bool_decide (service_repository ∈ rg_repositories (region_in w r)) &&
  truthy (default [] (ecr_images (cloud w) !! (r, service_repository))).

(** [test_ecr_empty.py] prints ['false'] when the service repository
    of the default region holds an image, and ['true'] when it holds none
    or does not exist (the [RepositoryNotFoundException] is caught); it
    changes nothing else. *)
Theorem test_ecr_empty_spec w r :
  environ w !! "AWS_DEFAULT_REGION" = Some r -> "ecr:ListImages" ∉ denied (cloud w) ->
  run test_ecr_empty w = (Ok tt, set_out (out w ++ [if ecr_has_images w r then "false" else "true"]) w).
Proof.
  intros Henv Hd. unfold test_ecr_empty. rewrite run_try_except, run_bind, run_client.
  unfold client_region. rewrite Henv. cbn iota beta. unfold list_images.
  rewrite run_bind, run_aws_allowed by done. rewrite run_bind, run_gets.
  unfold ecr_has_images. case_bool_decide; simpl.
  - by destruct (truthy _).
  - reflexivity.
Qed.

(** The first page of a sorted listing is empty only when the listing is. *)
Lemma take_merge_sort_nil {A} (R : relation A) `{!RelDecision R} n (l : list A) :
  0 < n -> take n (merge_sort R l) = [] <-> l = [].
Proof.
  intros Hn. split; [|intros ->; apply take_nil]. intros Hl.
  assert (merge_sort R l = []) as Hs by (destruct (merge_sort R l), n; simpl in *; done || lia).
  apply Permutation_nil_r. rewrite <- Hs. symmetry. apply merge_sort_Permutation.
Qed.

Lemma endpoints_page_nil rg p st :
  endpoints_page rg p st = [] <->
  Forall (fun e => ~ (contains p (ep_name e) = true /\ ep_status e = st)) (rg_endpoints rg).
Proof.
  unfold endpoints_page, sagemaker_max_results.
  rewrite take_merge_sort_nil by lia. apply filter_nil_Forall.
Qed.

(** A kNN endpoint in service in region [r]. *)
Definition knn_in_service (w : World) (r : string) : Prop :=
  Exists (fun e => contains "knn" (ep_name e) = true /\ ep_status e = "InService")
    (rg_endpoints (region_in w r)).

#[export] Instance knn_in_service_dec w r : Decision (knn_in_service w r).
Proof. unfold knn_in_service. apply _. Defined.

(** [test_no_inference_endpoint.py] prints ['false'] when the first page
    of the kNN endpoints in service of the default region is not empty. *)
Lemma run_test_no_inference_endpoint w r :
  environ w !! "AWS_DEFAULT_REGION" = Some r -> "sagemaker:ListEndpoints" ∉ denied (cloud w) ->
  run test_no_inference_endpoint w =
    (Ok tt, set_out (out w ++ [if truthy (endpoints_page (region_in w r) "knn" "InService")
                               then "false" else "true"]) w).
Proof.
  intros Henv Hd. unfold test_no_inference_endpoint. rewrite try_except_reraise, run_bind, run_client.
  unfold client_region. rewrite Henv. cbn iota beta. rewrite run_bind.
  cbn [list_endpoints aws_provider]. unfold aws_list_endpoints. rewrite run_aws_allowed by done.
  rewrite run_gets. by destruct (truthy _).
Qed.

(** [test_no_inference_endpoint.py] prints ['false'] exactly when
    the default region has an [InService] endpoint whose name contains
    ['knn'], and ['true'] otherwise; it changes nothing else. *)
Theorem test_no_inference_endpoint_spec w r :
  environ w !! "AWS_DEFAULT_REGION" = Some r -> "sagemaker:ListEndpoints" ∉ denied (cloud w) ->
  run test_no_inference_endpoint w =
    (Ok tt, set_out (out w ++ [if bool_decide (knn_in_service w r) then "false" else "true"]) w).
Proof.
  intros Henv Hd. rewrite (run_test_no_inference_endpoint w r) by done. unfold knn_in_service.
  destruct (endpoints_page (region_in w r) "knn" "InService") eqn:E; simpl.
  - apply endpoints_page_nil in E. rewrite bool_decide_false; [done|].
    rewrite <- Forall_Exists_neg. exact E.
  - rewrite bool_decide_true; [done|]. apply dec_stable. intros Hn.
    rewrite <- Forall_Exists_neg in Hn. apply endpoints_page_nil in Hn. congruence.
Qed.

(** [deploy_ecs_service.py] starts one new deployment of the
    service [MythicalMysfits-FargateService] of the cluster
    [MythicalMysfits-Cluster] in the default region and changes nothing
    else; when that service does not exist it fails with
    [ServiceNotFoundException] and changes nothing. *)
Theorem deploy_ecs_service_spec w r :
  environ w !! "AWS_DEFAULT_REGION" = Some r -> "ecs:UpdateService" ∉ denied (cloud w) ->
  run deploy_ecs_service w =
    match ecs_deployments (cloud w) !! (r, ecs_cluster_name, ecs_service_name) with
    | Some k => (Ok tt, set_cloud (set_ecs_deployments
                   (<[(r, ecs_cluster_name, ecs_service_name) := S k]> (ecs_deployments (cloud w)))
                   (cloud w)) w)
    | None => (Raise (ClientError "ServiceNotFoundException"), w)
    end.
Proof.
  intros Henv Hd. unfold deploy_ecs_service. rewrite run_bind, run_client.
  unfold client_region. rewrite Henv. cbn iota beta. unfold update_service.
  rewrite run_aws_allowed by done. rewrite run_bind, run_gets.
  by destruct (ecs_deployments _ !! _).
Qed.

(** ** Witnesses *)

(** A region where the service image has been pushed, a kNN endpoint is
    in service and the Fargate service has been deployed once. *)
Definition demo_checks_region : Region :=
  mkRegion [] [] [mkEndpoint "mysfits-knn-ml-m4-xlarge-1" "InService" 7%Z] [] [] [] []
    [service_repository] [].

Definition demo_checks_world : World :=
  mkWorld ∅ ∅ [] {[ "AWS_DEFAULT_REGION" := "eu-west-1" ]}
    (mkCloud {[ "eu-west-1" := demo_checks_region ]} [] []
       {[ ("eu-west-1", service_repository) := ["sha256:5f1a"] ]}
       {[ ("eu-west-1", ecs_cluster_name, ecs_service_name) := 1 ]}).

Lemma test_ecr_empty_witness :
  run test_ecr_empty demo_checks_world = (Ok tt, set_out ["false"] demo_checks_world).
Proof.
  rewrite (test_ecr_empty_spec demo_checks_world "eu-west-1"); [reflexivity|reflexivity|].
  vm_compute. set_solver.
Defined.

Lemma test_no_inference_endpoint_witness :
  run test_no_inference_endpoint demo_checks_world = (Ok tt, set_out ["false"] demo_checks_world).
Proof.
  rewrite (test_no_inference_endpoint_spec demo_checks_world "eu-west-1"); [|reflexivity|].
  - rewrite bool_decide_true; [reflexivity|]. vm_compute. repeat constructor.
  - vm_compute. set_solver.
Defined.

Lemma deploy_ecs_service_witness :
  ecs_deployments (cloud (snd (run deploy_ecs_service demo_checks_world)))
    !! ("eu-west-1", ecs_cluster_name, ecs_service_name) = Some 2.
Proof.
  rewrite (deploy_ecs_service_spec demo_checks_world "eu-west-1"); [reflexivity|reflexivity|].
  vm_compute. set_solver.
Defined.
