(* ===== verification/Dynamo.v ===== *)
(** * The DynamoDB table of the service

    The table the service reads and updates, as the CDK stack
    [webgen/dynamodb_stack.py] declares it ([MysfitsTable], partition key
    [MysfitId], global secondary indexes [LawChaosIndex] and
    [GoodEvilIndex] on [LawChaos] and [GoodEvil], each sorted by
    [MysfitId], all attributes projected), and the low-level DynamoDB
    operations of boto3's [dynamodb] client the service calls: [Scan],
    [Query] on an index with an [EQ] key condition, [GetItem],
    [UpdateItem] with the two [SET] expressions of the code, and
    [PutItem]. An item is a map from attribute names to typed values
    ([S], [N], [BOOL], [NULL], [L], [M]); a number is DynamoDB's exact
    decimal ([number] of PyDecimal.v). A table's items are keyed by their
    partition key value. [serialize] is boto3's [TypeSerializer], which
    the [Table] resource applies to the Python values of an item before
    [PutItem]; DynamoDB then checks the item: every key attribute of the
    table and its indexes a string, and not empty, every number in range. *)

From Stdlib Require Import String ZArith.
From stdpp Require Import base list gmap strings sorting.
From S2P Require Import Spec2Rocq PyStr Json PyDecimal.

(** ** Items and tables *)

Inductive AttributeValue :=
| AttrS (s : string)
| AttrN (n : number)
| AttrBOOL (b : bool)
| AttrNULL
| AttrL (l : list AttributeValue)
| AttrM (m : list (string * AttributeValue)).

#[export] Instance AttributeValue_eq_dec : EqDecision AttributeValue.
Proof.
  refine (fix go (a b : AttributeValue) {struct a} : Decision (a = b) :=
    match a, b with
    | AttrS x, AttrS y => cast_if (decide (x = y))
    | AttrN x, AttrN y => cast_if (decide (x = y))
    | AttrBOOL x, AttrBOOL y => cast_if (decide (x = y))
    | AttrNULL, AttrNULL => left _
    | AttrL x, AttrL y => cast_if (@decide (x = y) (@list_eq_dec _ go x y))
    | AttrM x, AttrM y =>
        cast_if (@decide (x = y) (@list_eq_dec _ (@prod_eq_dec _ _ _ go) x y))
    | _, _ => right _
    end); clear go; abstract congruence.
Defined.

Abbreviation Item := (gmap string AttributeValue).

(** A global secondary index: its name, partition and sort keys. *)
Record GSI := mkGSI { gsi_name : string; gsi_hash : string; gsi_range : string }.

Record Table := mkTable {
  tbl_name : string;
  tbl_key : string;              (** the partition key attribute *)
  tbl_indexes : list GSI;
  tbl_items : gmap string Item   (** items by partition key value *)
}.

Definition set_items (items : gmap string Item) (t : Table) : Table :=
  mkTable (tbl_name t) (tbl_key t) (tbl_indexes t) items.

(** [DynamoDBStack]: the table and its two indexes (lines 11-37). *)
Definition mysfits_table_name : string := "MysfitsTable".
Definition mysfits_indexes : list GSI :=
  [mkGSI "LawChaosIndex" "LawChaos" "MysfitId"; mkGSI "GoodEvilIndex" "GoodEvil" "MysfitId"].
Definition mysfits_table (items : gmap string Item) : Table :=
  mkTable mysfits_table_name "MysfitId" mysfits_indexes items.

(** The DynamoDB tables of the account, by name. *)
Abbreviation Ddb := (gmap string Table).

(** ** Operations *)

(** A state that holds the DynamoDB tables. *)
Class HasDdb (S : Type) := {
  get_ddb : S -> Ddb;
  set_ddb : Ddb -> S -> S
}.

Section operations.
Context {S : Type} `{HasDdb S}.

Definition with_table {A} (name : string) (k : Table -> pyM S A) : pyM S A :=
  t ← gets (fun s => get_ddb s !! name);
  match t with
  | Some t => k t
  | None => raise (ClientError "ResourceNotFoundException")
  end.

Definition put_table (t : Table) : pyM S unit :=
  modify (fun s => set_ddb (<[tbl_name t := t]> (get_ddb s)) s).

(** [scan(TableName=name)]: the items in the table's order (one page). *)
Definition scan (name : string) : pyM S (list Item) :=
  with_table name (fun t => mret (snd <$> map_to_list (tbl_items t))).

(** The order of the sort key of an index: string order of the values. *)
Definition sort_key_le (range : string) (a b : Item) : Prop :=
  match a !! range, b !! range with
  | Some (AttrS x), Some (AttrS y) => String.compare x y <> Gt
  | _, _ => True
  end.

#[export] Instance sort_key_le_dec range : RelDecision (sort_key_le range).
Proof. intros a b. unfold sort_key_le. repeat case_match; apply _. Defined.

(** An item is in an index when it has both of its keys as strings. *)
Definition in_index (g : GSI) (item : Item) : Prop :=
  (exists h, item !! gsi_hash g = Some (AttrS h)) /\
  (exists r, item !! gsi_range g = Some (AttrS r)).

#[export] Instance in_index_dec g item : Decision (in_index g item).
Proof.
  unfold in_index.
  destruct (item !! gsi_hash g) as [[h| | | | |]|], (item !! gsi_range g) as [[r| | | | |]|];
    first [left; naive_solver | right; naive_solver].
Defined.

(** [query(TableName=name, IndexName=index,
           KeyConditions={attr: {'AttributeValueList': [{'S': v}],
                                 'ComparisonOperator': 'EQ'}})]:
    the index must exist and [attr] must be its partition key; the
    answer is the items of the index with that key value, in the order of
    the sort key (one page). *)
Definition query (name index attr v : string) : pyM S (list Item) :=
  with_table name (fun t =>
    match list_find (fun g => gsi_name g = index) (tbl_indexes t) with
    | None => raise (ClientError "ValidationException")
    | Some (_, g) =>
        if bool_decide (gsi_hash g = attr) then
          mret (merge_sort (sort_key_le (gsi_range g))
                  (filter (fun item => in_index g item /\ item !! attr = Some (AttrS v))
                     (snd <$> map_to_list (tbl_items t))))
        else raise (ClientError "ValidationException")
    end).

(** [get_item(TableName=name, Key={key: {'S': k}})]: the response has an
    ['Item'] only when the item exists. *)
Definition get_item (name k : string) : pyM S (option Item) :=
  with_table name (fun t => mret (tbl_items t !! k)).

(** The update expressions of the code: [SET a = b + :n] and
    [SET a = :v]. *)
Inductive UpdateExpression :=
| SetPlus (attr operand : string) (n : number)
| SetValue (attr : string) (v : AttributeValue).

(** An update applies to the item, or to an item holding only its key when
    there is none ([UpdateItem] creates it). Adding to an attribute that
    does not exist or is not a number, or a sum out of DynamoDB's range,
    is a [ValidationException], and nothing is written. *)
Definition apply_update (u : UpdateExpression) (item : Item) : option Item :=
  match u with
  | SetPlus a b n =>
      match item !! b with
      | Some (AttrN m) => let r := num_add m n in if num_ok r then Some (<[a := AttrN r]> item) else None
      | _ => None
      end
  | SetValue a v => Some (<[a := v]> item)
  end.

(** [update_item(TableName=name, Key={key: {'S': k}}, UpdateExpression=u, ...)]. *)
Definition update_item (name k : string) (u : UpdateExpression) : pyM S unit :=
  with_table name (fun t =>
    let item := default {[ tbl_key t := AttrS k ]} (tbl_items t !! k) in
    match apply_update u item with
    | Some item' => put_table (set_items (<[k := item']> (tbl_items t)) t)
    | None => raise (ClientError "ValidationException")
    end).

(** Every number of a value is in DynamoDB's range. *)
Fixpoint value_ok (v : AttributeValue) : bool :=
  match v with
  | AttrN n => num_ok n
  | AttrL l => forallb value_ok l
  | AttrM m => forallb (fun kv => value_ok kv.2) m
  | _ => true
  end.

(** The key attributes of a table: its partition key and the keys of its
    indexes (all declared [STRING] by the stack). *)
Definition key_attrs (t : Table) : list string :=
  tbl_key t :: concat ((fun g => [gsi_hash g; gsi_range g]) <$> tbl_indexes t).

(** A key attribute an item has must be a non-empty string. *)
Definition key_ok (v : option AttributeValue) : bool :=
  match v with
  | None => true
  | Some (AttrS k) => negb (String.eqb k EmptyString)
  | Some _ => false
  end.

Definition item_ok (t : Table) (item : Item) : bool :=
  forallb (fun a => key_ok (item !! a)) (key_attrs t) &&
  bool_decide (map_Forall (fun _ v => value_ok v = true) item).

(** [PutItem] of an item: it must carry its key and pass DynamoDB's
    checks; it replaces the item of that key. *)
Definition put_item (name : string) (item : Item) : pyM S unit :=
  with_table name (fun t =>
    match item !! tbl_key t with
    | Some (AttrS k) =>
        if item_ok t item then put_table (set_items (<[k := item]> (tbl_items t)) t)
        else raise (ClientError "ValidationException")
    | _ => raise (ClientError "ValidationException")
    end).
End operations.

(** ** boto3's [TypeSerializer]

    The Python values of an item the [Table] resource sends: a JSON value
    as [json.load] gives it, or a [Decimal]. [None] stands for a value
    whose text DynamoDB refuses (['-Infinity'], ['-NaN']): the request is
    sent and refused as a whole. *)
Inductive pyval :=
| PyJson (j : json)
| PyDec (d : pydec).

Definition map_outcome {A B} (f : A -> B) (x : outcome A) : outcome B :=
  match x with Ok a => Ok (f a) | Raise e => Raise e end.

(** Serializing the elements of a list in order: the first exception
    raised stops it. *)
Definition cons_serialized {A} (x : outcome (option A)) (xs : outcome (option (list A))) :
    outcome (option (list A)) :=
  match x with
  | Raise e => Raise e
  | Ok vx => map_outcome (fun vl => v ← vx; l ← vl; Some (v :: l)) xs
  end.

(** The entries of a Python dict built from JSON members: a repeated key
    keeps its first place and takes its last value. *)
Definition py_dict {A} (kvs : list (string * A)) : list (string * A) :=
  foldl (fun d kv =>
           if bool_decide (kv.1 ∈ d.*1) then (fun kv' => if String.eqb kv'.1 kv.1 then kv else kv') <$> d
           else d ++ [kv]) [] kvs.

(** [None] is [NULL], a [bool] [BOOL], an [int] [N] through the decimal
    context, a [str] [S], a [dict] [M], a [list] [L]. *)
Fixpoint serialize_json (j : json) : outcome (option AttributeValue) :=
  match j with
  | JNull => Ok (Some AttrNULL)
  | JBool b => Ok (Some (AttrBOOL b))
  | JInt z => map_outcome (fmap AttrN) (serialize_number (Finite z 0))
  | JStr s => Ok (Some (AttrS s))
  | JArr l =>
      map_outcome (fmap AttrL)
        (foldr (fun x acc => cons_serialized (serialize_json x) acc) (Ok (Some [])) l)
  | JObj kvs =>
      map_outcome (fmap AttrM)
        (foldr (fun kv acc => cons_serialized (map_outcome (fmap (fun v => (kv.1, v))) kv.2) acc)
               (Ok (Some [])) (py_dict (List.map (fun kv => (kv.1, serialize_json kv.2)) kvs)))
  end.

Definition serialize (v : pyval) : outcome (option AttributeValue) :=
  match v with
  | PyJson j => serialize_json j
  | PyDec d => map_outcome (fmap AttrN) (serialize_number d)
  end.

(** The entries of an item, serialized in order. *)
Definition serialize_item (d : list (string * pyval)) : outcome (option (list (string * AttributeValue))) :=
  foldr (fun kv acc => cons_serialized (map_outcome (fmap (fun v => (kv.1, v))) (serialize kv.2)) acc)
        (Ok (Some [])) d.

Section resource.
Context {S : Type} `{HasDdb S}.

(** [Table(name).put_item(Item=d)] of boto3's resource layer: the values
    are serialized on the client (its exceptions first), then the request
    is sent; a refused text makes DynamoDB refuse the whole request. *)
Definition table_put_item (name : string) (d : list (string * pyval)) : pyM S unit :=
  match serialize_item d with
  | Raise e => raise e
  | Ok None => raise (ClientError "ValidationException")
  | Ok (Some kvs) => put_item name (list_to_map kvs)
  end.

End resource.
