(* ===== verification/TableClient.v ===== *)
(** * The service's table client [mysfitsTableClient.py]

    The functions of src/webgen/app/service/mysfitsTableClient.py, the
    data layer of the Flask service behind the [MysfitsApi] REST API:
    [load_initial_values], [getAllMysfits], [queryMysfits], [getMysfit],
    [likeMysfit] and [adoptMysfit]. They run on a [Service] state: the
    DynamoDB tables of the account and the text of the files the
    service can open; [json.load] is the parser [json_loads] of Json.v.
    Each returns the text [json.dumps] makes of its answer. A subscript [d[k]] that fails is a [KeyError]; [item[a]['S']]
    on an attribute of another type is [KeyError 'S']; [item[a]['N']] is
    the text DynamoDB answers for a number, which [int()] reads back.
    [load_initial_values] builds a Python dict per mysfit with [Decimal]
    of the file's number texts ([decimal], PyDecimal.v) and writes it with
    [table.put_item], which serializes it (boto3's [TypeSerializer]) and
    lets DynamoDB validate it ([table_put_item] of Dynamo.v). The
    [logging.info] calls only log and are not modelled. The lemmas here
    give each function's result on every branch; MysfitStore.v states
    what they implement together. *)

From Stdlib Require Import String ZArith.
From stdpp Require Import base list gmap strings sorting pretty.
From S2P Require Import Spec2Rocq PyStr Json PyDecimal Dynamo.

Record Service := mkService {
  svc_ddb : Ddb;
  svc_files : gmap string string   (** the text of each file the service can open *)
}.

Definition set_svc_ddb (d : Ddb) (s : Service) : Service := mkService d (svc_files s).

#[export] Instance service_ddb : HasDdb Service := {
  get_ddb := svc_ddb;
  set_ddb := set_svc_ddb
}.

Abbreviation service := (pyM Service).

(** ** Reading items and JSON documents *)

(** [item[a]['S']], [item[a]['N']], [item[a]['BOOL']]. *)
Definition attr_S (item : Item) (a : string) : service string :=
  match item !! a with
  | Some (AttrS s) => mret s
  | Some _ => raise (KeyError "S")
  | None => raise (KeyError a)
  end.

(** [item[a]['N']] is the number's text, as DynamoDB answers it. *)
Definition attr_N (item : Item) (a : string) : service string :=
  match item !! a with
  | Some (AttrN n) => mret (num_text n)
  | Some _ => raise (KeyError "N")
  | None => raise (KeyError a)
  end.

Definition attr_BOOL (item : Item) (a : string) : service bool :=
  match item !! a with
  | Some (AttrBOOL b) => mret b
  | Some _ => raise (KeyError "BOOL")
  | None => raise (KeyError a)
  end.

(** [int(s)] on a text; [ValueError] when it is not an integer. *)
Definition py_int (s : string) : service Z :=
  match parse_int s with Some z => mret z | None => raise (ValueError "int") end.

(** [j[k]] on a parsed JSON document. *)
Definition json_item (j : json) (k : string) : service json :=
  match j with
  | JObj kvs =>
      match list_find (fun kv => kv.1 = k) (py_dict kvs) with
      | Some (_, kv) => mret kv.2
      | None => raise (KeyError k)
      end
  | _ => raise (TypeError "subscript")
  end.

(** A path of subscripts [j[k1][k2]...]. *)
Fixpoint json_path (j : json) (ks : list string) : service json :=
  match ks with
  | [] => mret j
  | k :: ks' => j' ← json_item j k; json_path j' ks'
  end.

(** [defaultdict(list)] with [d[k].append(v)]: keys in insertion order. *)
Definition dd_append (k : string) (v : json) (d : list (string * list json)) :
    list (string * list json) :=
  match list_find (fun kv => kv.1 = k) d with
  | Some (i, (_, vs)) => <[i := (k, vs ++ [v])]> d
  | None => d ++ [(k, [v])]
  end.

Definition dd_json (d : list (string * list json)) : json :=
  JObj ((fun kv => (kv.1, JArr kv.2)) <$> d).

(** ** The functions of the module *)

(** The loop body of [getAllMysfits] and [queryMysfits] (lines 77-84):
    the summary of a mysfit. *)
Definition mysfit_summary (item : Item) : service json :=
  mysfitId ← attr_S item "MysfitId";
  name ← attr_S item "Name";
  goodevil ← attr_S item "GoodEvil";
  lawchaos ← attr_S item "LawChaos";
  species ← attr_S item "Species";
  thumbImageUri ← attr_S item "ThumbImageUri";
  mret (JObj [("mysfitId", JStr mysfitId); ("name", JStr name); ("goodevil", JStr goodevil);
              ("lawchaos", JStr lawchaos); ("species", JStr species);
              ("thumbImageUri", JStr thumbImageUri)]).

Definition summaries (items : list Item) : service json :=
  mysfitList ← fold_m (fun mysfitList item =>
      mysfit ← mysfit_summary item;
      mret (dd_append "mysfits" mysfit mysfitList))
    items [];
  mret (dd_json mysfitList).

Definition getAllMysfits : service string :=
  items ← scan "MysfitsTable";
  j ← summaries items;
  mret (json_dumps j).

(** [queryParam] is the dict of the request's query string. *)
Definition queryMysfits (queryParam : gmap string string) : service string :=
  filter ← (match queryParam !! "filter" with
            | Some f => mret f | None => raise (KeyError "filter") end);
  value ← (match queryParam !! "value" with
           | Some v => mret v | None => raise (KeyError "value") end);
  items ← query "MysfitsTable" (filter +:+ "Index") filter value;
  j ← summaries items;
  mret (json_dumps j).

Definition getMysfit (mysfitId : string) : service string :=
  response ← get_item "MysfitsTable" mysfitId;
  item ← (match response with Some item => mret item | None => raise (KeyError "Item") end);
  mysfitId ← attr_S item "MysfitId";
  name ← attr_S item "Name";
  age ← attr_N item "Age" ≫= py_int;
  goodevil ← attr_S item "GoodEvil";
  lawchaos ← attr_S item "LawChaos";
  species ← attr_S item "Species";
  description ← attr_S item "Description";
  thumbImageUri ← attr_S item "ThumbImageUri";
  profileImageUri ← attr_S item "ProfileImageUri";
  likes ← attr_N item "Likes";
  adopted ← attr_BOOL item "Adopted";
  mret (json_dumps (JObj [
    ("mysfitId", JStr mysfitId); ("name", JStr name); ("age", JInt age);
    ("goodevil", JStr goodevil); ("lawchaos", JStr lawchaos); ("species", JStr species);
    ("description", JStr description); ("thumbImageUri", JStr thumbImageUri);
    ("profileImageUri", JStr profileImageUri);
    (** [item["Likes"]["N"]] is the number's text, not a number *)
    ("likes", JStr likes);
    ("adopted", JBool adopted)])).

Definition update_success : string := json_dumps (JObj [("Update", JStr "Success")]).

Definition likeMysfit (mysfitId : string) : service string :=
  update_item "MysfitsTable" mysfitId (SetPlus "Likes" "Likes" (Num 1 0));;
  mret update_success.

Definition adoptMysfit (mysfitId : string) : service string :=
  update_item "MysfitsTable" mysfitId (SetValue "Adopted" (AttrBOOL true));;
  mret update_success.

(** An [int] argument of [Decimal]: an integer, or a [bool]. *)
Definition int_like (j : json) : option Z :=
  match j with JInt z => Some z | JBool b => Some (Z.b2z b) | _ => None end.

(** [Decimal(l)] on a list reads it as a tuple [(sign, digits, exponent)]:
    a sign 0 or 1, digits from 0 to 9, an integer exponent or ['F']
    (infinity), ['n'] or ['N'] (NaN); [None]: [ValueError]. *)
Definition decimal_of_tuple (l : list json) : option pydec :=
  match l with
  | [s; JArr ds; e] =>
      sign ← int_like s;
      if bool_decide (sign = 0 \/ sign = 1)%Z then
        digits ← mapM (fun d => z ← int_like d; if bool_decide (0 <= z <= 9)%Z then Some z else None) ds;
        let neg := bool_decide (sign = 1%Z) in
        match e with
        | JStr "F" => Some (Infinity neg)
        | JStr "n" | JStr "N" => Some (NaN neg)
        | _ => x ← int_like e; Some (Finite (signed neg (foldl (fun a d => 10 * a + d)%Z 0%Z digits)) x)
        end
      else None
  | _ => None
  end.

(** [Decimal(x)] on a value [json.load] gives. *)
Definition decimal (j : json) : service pydec :=
  match j with
  | JStr s => match parse_decimal s with Some d => mret d | None => raise (DecimalSignal "InvalidOperation") end
  | JInt z => mret (Finite z 0)
  | JBool b => mret (Finite (Z.b2z b) 0)
  | JArr l => match decimal_of_tuple l with Some d => mret d | None => raise (ValueError "Decimal") end
  | JNull => raise (TypeError "conversion from NoneType to Decimal is not supported")
  | JObj _ => raise (TypeError "conversion from dict to Decimal is not supported")
  end.

(** The dict built from one [PutRequest] of the file (lines 39-51): the
    values as the file has them, the two numbers through [Decimal]. *)
Definition initial_item (mysfit : json) : service (list (string * pyval)) :=
  let get a t := json_path mysfit ["PutRequest"; "Item"; a; t] in
  mysfitId ← get "MysfitId" "S";
  name ← get "Name" "S";
  species ← get "Species" "S";
  description ← get "Description" "S";
  age ← get "Age" "N" ≫= decimal;
  goodevil ← get "GoodEvil" "S";
  lawchaos ← get "LawChaos" "S";
  thumb ← get "ThumbImageUri" "S";
  profile ← get "ProfileImageUri" "S";
  likes ← get "Likes" "N" ≫= decimal;
  adopted ← get "Adopted" "BOOL";
  mret [("MysfitId", PyJson mysfitId); ("Name", PyJson name); ("Species", PyJson species);
        ("Description", PyJson description); ("Age", PyDec age);
        ("GoodEvil", PyJson goodevil); ("LawChaos", PyJson lawchaos);
        ("ThumbImageUri", PyJson thumb); ("ProfileImageUri", PyJson profile);
        ("Likes", PyDec likes); ("Adopted", PyJson adopted)].

(** [for x in j:]: a list gives its elements, a dict its keys, a string
    its characters; other values are not iterable. *)
Definition iter_json (j : json) : service (list json) :=
  match j with
  | JArr l => mret l
  | JObj kvs => mret ((fun kv => JStr kv.1) <$> kvs)
  | JStr s => mret ((fun c => JStr (String c EmptyString)) <$> list_ascii_of_string s)
  | _ => raise (TypeError "iterate")
  end.

Definition populate_file : string := "./populate-dynamodb.json".

(** [json.load(json_file)]: the document, or [json.JSONDecodeError], a
    [ValueError]. *)
Definition json_load (text : string) : service json :=
  match json_loads text with Some j => mret j | None => raise (ValueError "JSONDecodeError") end.

Definition load_initial_values : service unit :=
  f ← gets (fun s => svc_files s !! populate_file);
  json_file ← (match f with Some t => mret t | None => raise (FileNotFoundError populate_file) end);
  mysfit_list ← json_load json_file;
  mysfits ← json_item mysfit_list "MysfitsTable" ≫= iter_json;
  for_ mysfits (fun mysfit =>
    item ← initial_item mysfit;
    table_put_item "MysfitsTable" item).

(** * Properties *)

(** ** Complete items *)

(** A string, an integral number ([getMysfit] reads the age with
    [int()]), a boolean. *)
Inductive attr_type := TS | TInt | TBOOL.

Definition has_type (v : AttributeValue) (t : attr_type) : bool :=
  match v, t with
  | AttrS _, TS | AttrBOOL _, TBOOL => true
  | AttrN n, TInt => bool_decide (0 <= num_exp n)%Z
  | _, _ => false
  end.

(** The attributes of a mysfit, as [populate-dynamodb.json] gives them. *)
Definition mysfit_schema : list (string * attr_type) :=
  [("Name", TS); ("Species", TS); ("Description", TS); ("Age", TInt); ("GoodEvil", TS);
   ("LawChaos", TS); ("ThumbImageUri", TS); ("ProfileImageUri", TS); ("Likes", TInt);
   ("Adopted", TBOOL)].

(** The item of key [k] is a complete mysfit. *)
Definition complete_item (k : string) (item : Item) : Prop :=
  item !! "MysfitId" = Some (AttrS k) /\
  Forall (fun at_ => exists v, item !! at_.1 = Some v /\ has_type v at_.2 = true) mysfit_schema.

#[export] Instance complete_item_dec k item : Decision (complete_item k item).
Proof.
  unfold complete_item. apply and_dec; [apply _|]. apply Forall_dec. intros [a t]. simpl.
  destruct (item !! a) as [v|]; [destruct (has_type v t) eqn:E|].
  - left. eauto.
  - right. intros (v' & Hv & Ht). injection Hv as ->. congruence.
  - right. intros (v' & Hv & _). discriminate.
Defined.

(** The table of the service: as the stack declares it, every item a
    complete mysfit. *)
Definition table_ok (s : Service) : Prop :=
  exists items, svc_ddb s !! "MysfitsTable" = Some (mysfits_table items) /\
                map_Forall complete_item items.

(** The text of a string attribute, the value of a number attribute. *)
Definition s_of (item : Item) (a : string) : string :=
  match item !! a with Some (AttrS s) => s | _ => EmptyString end.
Definition n_of (item : Item) (a : string) : Z :=
  match item !! a with Some (AttrN n) => num_int n | _ => 0%Z end.
Definition b_of (item : Item) (a : string) : bool :=
  match item !! a with Some (AttrBOOL b) => b | _ => false end.

Definition summary_json (item : Item) : json :=
  JObj [("mysfitId", JStr (s_of item "MysfitId")); ("name", JStr (s_of item "Name"));
        ("goodevil", JStr (s_of item "GoodEvil")); ("lawchaos", JStr (s_of item "LawChaos"));
        ("species", JStr (s_of item "Species"));
        ("thumbImageUri", JStr (s_of item "ThumbImageUri"))].

(** The dict the list functions dump: empty when there is no item. *)
Definition mysfits_json (items : list Item) : json :=
  dd_json (match items with [] => [] | _ => [("mysfits", summary_json <$> items)] end).

Lemma complete_S k item a :
  complete_item k item -> (a, TS) ∈ mysfit_schema -> exists s, item !! a = Some (AttrS s).
Proof.
  intros [_ Hf] Ha. eapply Forall_forall in Hf as (v & Hv & Ht); [|exact Ha].
  destruct v; simpl in Ht; try done. eauto.
Qed.

Lemma run_attr_S item a s (st : Service) :
  item !! a = Some (AttrS s) -> run (attr_S item a) st = (Ok s, st).
Proof. unfold attr_S. intros ->. done. Qed.

Ltac schema_in := unfold mysfit_schema; repeat first [left | right].

Lemma run_mysfit_summary k item st :
  complete_item k item -> run (mysfit_summary item) st = (Ok (summary_json item), st).
Proof.
  intros Hc. pose proof Hc as [Hid _].
  destruct (complete_S k item "Name" Hc ltac:(schema_in)) as [n Hn].
  destruct (complete_S k item "GoodEvil" Hc ltac:(schema_in)) as [g Hg].
  destruct (complete_S k item "LawChaos" Hc ltac:(schema_in)) as [l Hl].
  destruct (complete_S k item "Species" Hc ltac:(schema_in)) as [sp Hsp].
  destruct (complete_S k item "ThumbImageUri" Hc ltac:(schema_in)) as [t Ht].
  unfold mysfit_summary. repeat (rewrite run_bind; erewrite run_attr_S by eassumption).
  unfold summary_json, s_of. rewrite Hid, Hn, Hg, Hl, Hsp, Ht. reflexivity.
Qed.

Lemma dd_append_single k v l : dd_append k v [(k, l)] = [(k, l ++ [v])].
Proof. unfold dd_append. simpl. by rewrite decide_True. Qed.

Definition summary_step (mysfitList : list (string * list json)) (item : Item) :
    service (list (string * list json)) :=
  mysfit ← mysfit_summary item; mret (dd_append "mysfits" mysfit mysfitList).

Lemma summaries_loop items l st :
  Forall (fun item => exists k, complete_item k item) items ->
  run (fold_m summary_step items [("mysfits", l)]) st =
    (Ok [("mysfits", l ++ (summary_json <$> items))], st).
Proof.
  revert l. induction items as [|item items IH]; intros l Hall.
  { by rewrite app_nil_r. }
  apply Forall_cons in Hall as [[k Hk] Hall]. cbn [fold_m].
  rewrite run_bind. unfold summary_step at 1. rewrite run_bind, (run_mysfit_summary k) by done.
  rewrite run_ret, dd_append_single, IH by done. by rewrite <- app_assoc.
Qed.

Lemma run_summaries items st :
  Forall (fun item => exists k, complete_item k item) items ->
  run (summaries items) st = (Ok (mysfits_json items), st).
Proof.
  intros Hall. unfold summaries. fold summary_step. rewrite run_bind.
  destruct items as [|item items]; [done|]. cbn [fold_m].
  apply Forall_cons in Hall as [[k Hk] Hall].
  rewrite run_bind. unfold summary_step at 1. rewrite run_bind, (run_mysfit_summary k) by done.
  rewrite run_ret. change (dd_append "mysfits" (summary_json item) []) with [("mysfits", [summary_json item])].
  by rewrite summaries_loop.
Qed.

Lemma table_items_complete (items : gmap string Item) :
  map_Forall complete_item items ->
  Forall (fun item => exists k, complete_item k item) (snd <$> map_to_list items).
Proof.
  intros Hm. apply map_Forall_to_list in Hm. apply Forall_fmap.
  eapply Forall_impl; [exact Hm|]. intros [k item] Hk. simpl. eauto.
Qed.

Lemma run_with_table {A} name t (k : Table -> service A) st :
  svc_ddb st !! name = Some t -> run (with_table name k) st = run (k t) st.
Proof. intros Ht. unfold with_table. rewrite run_bind, run_gets. simpl. by rewrite Ht. Qed.

(** ** Listing *)

(** [getAllMysfits] on the service's table changes nothing and
    answers the summaries (id, name, good/evil, law/chaos, species,
    thumbnail) of all the mysfits in the table's scan order, under the key
    ["mysfits"]. With no mysfit the answer is [{}], without the
    ["mysfits"] key, because [defaultdict] creates the key only on the
    first append. *)
Lemma getAllMysfits_spec st items :
  svc_ddb st !! "MysfitsTable" = Some (mysfits_table items) -> map_Forall complete_item items ->
  run getAllMysfits st = (Ok (json_dumps (mysfits_json (snd <$> map_to_list items))), st).
Proof.
  intros Ht Hc. unfold getAllMysfits, scan. rewrite run_bind, (run_with_table _ (mysfits_table items)) by done.
  rewrite run_ret, run_bind, run_summaries by (by apply table_items_complete). done.
Qed.

(** ** Reading one mysfit *)

Lemma complete_Int k item a :
  complete_item k item -> (a, TInt) ∈ mysfit_schema ->
  exists n, item !! a = Some (AttrN n) /\ (0 <= num_exp n)%Z.
Proof.
  intros [_ Hf] Ha. eapply Forall_forall in Hf as (v & Hv & Ht); [|exact Ha].
  destruct v; simpl in Ht; try done. apply bool_decide_eq_true in Ht. eauto.
Qed.

Lemma complete_BOOL k item a :
  complete_item k item -> (a, TBOOL) ∈ mysfit_schema -> exists b, item !! a = Some (AttrBOOL b).
Proof.
  intros [_ Hf] Ha. eapply Forall_forall in Hf as (v & Hv & Ht); [|exact Ha].
  destruct v; simpl in Ht; try done. eauto.
Qed.

Lemma run_attr_N item a n (st : Service) :
  item !! a = Some (AttrN n) -> run (attr_N item a) st = (Ok (num_text n), st).
Proof. unfold attr_N. intros ->. done. Qed.

(** [int()] of the text of an integral number is its value. *)
Lemma run_py_int n (st : Service) :
  (0 <= num_exp n)%Z -> run (py_int (num_text n)) st = (Ok (num_int n), st).
Proof. intros He. unfold py_int. by rewrite parse_int_num_text. Qed.

Lemma run_attr_int item a n (st : Service) :
  item !! a = Some (AttrN n) -> (0 <= num_exp n)%Z ->
  run (attr_N item a ≫= py_int) st = (Ok (num_int n), st).
Proof. intros Ha He. by rewrite run_bind, (run_attr_N _ _ n), run_py_int. Qed.

Lemma run_attr_BOOL item a b (st : Service) :
  item !! a = Some (AttrBOOL b) -> run (attr_BOOL item a) st = (Ok b, st).
Proof. unfold attr_BOOL. intros ->. done. Qed.

(** The attribute equations of a complete item, as hypotheses. *)
Ltac complete_facts Hc :=
  let H := fresh in pose proof Hc as [H _];
  repeat match goal with
  | |- context [attr_S ?item ?a] =>
      lazymatch goal with _ : item !! a = Some _ |- _ => fail | _ => idtac end;
      destruct (complete_S _ item a Hc ltac:(schema_in)) as [? ?]
  | |- context [attr_N ?item ?a] =>
      lazymatch goal with _ : item !! a = Some _ |- _ => fail | _ => idtac end;
      destruct (complete_Int _ item a Hc ltac:(schema_in)) as (? & ? & ?)
  | |- context [attr_BOOL ?item ?a] =>
      lazymatch goal with _ : item !! a = Some _ |- _ => fail | _ => idtac end;
      destruct (complete_BOOL _ item a Hc ltac:(schema_in)) as [? ?]
  end.

(** Running a chain of attribute reads. *)
Ltac attrs_run :=
  repeat (rewrite run_bind;
          first [ erewrite run_attr_S by eassumption
                | erewrite run_attr_int by eassumption
                | erewrite run_attr_N by eassumption
                | erewrite run_attr_BOOL by eassumption ]).

Definition detail_json (item : Item) : json :=
  JObj [("mysfitId", JStr (s_of item "MysfitId")); ("name", JStr (s_of item "Name"));
        ("age", JInt (n_of item "Age")); ("goodevil", JStr (s_of item "GoodEvil"));
        ("lawchaos", JStr (s_of item "LawChaos")); ("species", JStr (s_of item "Species"));
        ("description", JStr (s_of item "Description"));
        ("thumbImageUri", JStr (s_of item "ThumbImageUri"));
        ("profileImageUri", JStr (s_of item "ProfileImageUri"));
        ("likes", JStr (pretty (n_of item "Likes")));
        ("adopted", JBool (b_of item "Adopted"))].

(** [getMysfit(id)] changes nothing; for a mysfit of the table it
    answers all its attributes, the age as a JSON number but the likes as
    a JSON string (the text DynamoDB gives for a number); for an id with no
    item it raises [KeyError 'Item'] (an HTTP 500 in the service). *)
Theorem getMysfit_spec st items mysfitId :
  svc_ddb st !! "MysfitsTable" = Some (mysfits_table items) -> map_Forall complete_item items ->
  run (getMysfit mysfitId) st =
    match items !! mysfitId with
    | Some item => (Ok (json_dumps (detail_json item)), st)
    | None => (Raise (KeyError "Item"), st)
    end.
Proof.
  intros Ht Hc. unfold getMysfit, get_item. rewrite run_bind, (run_with_table _ (mysfits_table items)) by done.
  rewrite run_ret. simpl tbl_items. destruct (items !! mysfitId) as [item|] eqn:Hi; [|done].
  rewrite run_bind, run_ret. pose proof (Hc _ _ Hi) as Hci.
  complete_facts Hci. attrs_run. rewrite run_ret. unfold detail_json, s_of, n_of, b_of.
  rewrite (num_text_int _) by eassumption.
  repeat match goal with H : item !! _ = Some _ |- _ => rewrite H; clear H end. done.
Qed.

(** ** Updates *)

Lemma run_update_item st items id u :
  svc_ddb st !! "MysfitsTable" = Some (mysfits_table items) ->
  run (update_item "MysfitsTable" id u) st =
    match apply_update u (default {[ "MysfitId" := AttrS id ]} (items !! id)) with
    | Some item' => (Ok tt, set_svc_ddb (<["MysfitsTable" := mysfits_table (<[id := item']> items)]>
                                          (svc_ddb st)) st)
    | None => (Raise (ClientError "ValidationException"), st)
    end.
Proof.
  intros Ht. unfold update_item. rewrite (run_with_table _ (mysfits_table items)) by done.
  simpl. by destruct (apply_update u _).
Qed.

(** [likeMysfit(id)] adds one to the likes of the mysfit and
    answers [{"Update": "Success"}]; nothing else changes. DynamoDB
    refuses the update ([ValidationException], the table unchanged) for an
    id with no item ([Likes] does not exist) and for a sum out of its
    range (more than 38 significant digits). *)
Lemma likeMysfit_spec st items mysfitId :
  svc_ddb st !! "MysfitsTable" = Some (mysfits_table items) -> map_Forall complete_item items ->
  run (likeMysfit mysfitId) st =
    match items !! mysfitId with
    | Some item =>
        let likes := normalize (n_of item "Likes" + 1) 0 in
        if num_ok likes then
          (Ok update_success,
           set_svc_ddb (<["MysfitsTable" := mysfits_table
                            (<[mysfitId := <["Likes" := AttrN likes]> item]> items)]>
                          (svc_ddb st)) st)
        else (Raise (ClientError "ValidationException"), st)
    | None => (Raise (ClientError "ValidationException"), st)
    end.
Proof.
  intros Ht Hc. unfold likeMysfit. rewrite run_bind, (run_update_item _ items) by done.
  destruct (items !! mysfitId) as [item|] eqn:Hi; simpl; [|by rewrite lookup_singleton_ne].
  destruct (complete_Int _ item "Likes" (Hc _ _ Hi) ltac:(schema_in)) as (n & Hn & He).
  rewrite Hn. cbn zeta. rewrite num_add_one by done. unfold n_of. rewrite Hn. by destruct (num_ok _).
Qed.

(** [adoptMysfit(id)] sets [Adopted] to true; for an id with no item,
    [UpdateItem] creates an item holding only the key and [Adopted]. *)
Lemma adoptMysfit_run st items mysfitId :
  svc_ddb st !! "MysfitsTable" = Some (mysfits_table items) ->
  run (adoptMysfit mysfitId) st =
    (Ok update_success,
     set_svc_ddb (<["MysfitsTable" := mysfits_table
                      (<[mysfitId := <["Adopted" := AttrBOOL true]>
                                       (default {[ "MysfitId" := AttrS mysfitId ]} (items !! mysfitId))]>
                         items)]> (svc_ddb st)) st).
Proof. intros Ht. unfold adoptMysfit. by rewrite run_bind, (run_update_item _ items). Qed.

(** ** A mysfit adopted that does not exist *)

(** An item with a key but no name, as [adoptMysfit] leaves for an
    unknown id. *)
Definition nameless (item : Item) : Prop :=
  (exists k, item !! "MysfitId" = Some (AttrS k)) /\ item !! "Name" = None.

Lemma summaries_loop_raise items acc st :
  Forall (fun item => (exists k, complete_item k item) \/ nameless item) items ->
  Exists nameless items ->
  fst (run (fold_m summary_step items acc) st) = Raise (KeyError "Name").
Proof.
  revert acc st. induction items as [|item items IH]; intros acc st Hall Hex;
    [by apply Exists_nil in Hex|].
  apply Forall_cons in Hall as [Hitem Hall]. cbn [fold_m]. rewrite run_bind.
  unfold summary_step at 1. rewrite run_bind.
  destruct Hitem as [[k Hk] | [[k Hid] Hname]].
  - rewrite (run_mysfit_summary k) by done. simpl. apply IH; [done|].
    apply Exists_cons in Hex as [[_ Hn]|Hex]; [|done].
    destruct (complete_S k item "Name" Hk ltac:(schema_in)) as [? ?]. congruence.
  - assert (Hr : run (mysfit_summary item) st = (Raise (KeyError "Name"), st)).
    { unfold mysfit_summary. rewrite run_bind, (run_attr_S _ _ k) by done.
      cbn beta iota. rewrite run_bind. unfold attr_S. rewrite Hname. done. }
    by rewrite Hr.
Qed.

(** C33: Adopting an id that has no mysfit succeeds and writes an item
    holding only [MysfitId] and [Adopted]; from then on [getAllMysfits]
    fails with [KeyError 'Name'] for every caller, until the item is
    removed by hand. *)
Theorem adopt_unknown_breaks_listing st items mysfitId :
  svc_ddb st !! "MysfitsTable" = Some (mysfits_table items) -> map_Forall complete_item items ->
  items !! mysfitId = None ->
  fst (run (adoptMysfit mysfitId) st) = Ok update_success /\
  fst (run (adoptMysfit mysfitId;; getAllMysfits) st) = Raise (KeyError "Name").
Proof.
  intros Ht Hc Hi. rewrite run_bind, !(adoptMysfit_run _ items) by done. split; [done|].
  rewrite Hi. simpl. unfold getAllMysfits, scan.
  set (ph := <["Adopted" := AttrBOOL true]> {["MysfitId" := AttrS mysfitId]} : Item).
  rewrite run_bind, (run_with_table _ (mysfits_table (<[mysfitId := ph]> items)))
    by (simpl; by rewrite lookup_insert_eq).
  rewrite run_ret. apply fst_run_bind_raise. unfold summaries. fold summary_step.
  apply fst_run_bind_raise. apply summaries_loop_raise.
  - apply Forall_fmap. apply Forall_forall. intros [k item] Hki.
    apply elem_of_map_to_list in Hki. simpl in Hki |- *.
    destruct (decide (k = mysfitId)) as [->|Hne].
    + rewrite lookup_insert_eq in Hki. injection Hki as <-. right.
      split; [exists mysfitId|]; by vm_compute.
    + rewrite lookup_insert_ne in Hki by congruence. left. exists k. by apply Hc.
  - apply Exists_exists. exists ph. split.
    + apply list_elem_of_fmap. exists (mysfitId, ph). split; [done|].
      apply elem_of_map_to_list. simpl. by rewrite lookup_insert_eq.
    + split; [exists mysfitId|]; by vm_compute.
Qed.

(** ** Querying *)

(** The attributes the service's table has an index on. *)
Definition indexed_attrs : list string := gsi_hash <$> mysfits_indexes.

Lemma find_index f :
  (f ∈ indexed_attrs -> exists i g,
     list_find (fun g => gsi_name g = f +:+ "Index") mysfits_indexes = Some (i, g) /\
     gsi_hash g = f /\ g ∈ mysfits_indexes) /\
  (f ∉ indexed_attrs -> list_find (fun g => gsi_name g = f +:+ "Index") mysfits_indexes = None).
Proof.
  split.
  - unfold indexed_attrs. simpl. intros Hf.
    apply elem_of_cons in Hf as [->|Hf];
      [|apply elem_of_cons in Hf as [->|Hf]; [|by apply elem_of_nil in Hf]].
    + exists 0, (mkGSI "LawChaosIndex" "LawChaos" "MysfitId"). split; [done|]. split; [done|]. left.
    + exists 1, (mkGSI "GoodEvilIndex" "GoodEvil" "MysfitId"). split; [done|]. split; [done|].
      right. left.
  - intros Hf. apply list_find_None. unfold indexed_attrs in Hf. simpl in Hf.
    apply Forall_cons_2; [|apply Forall_cons_2; [|apply Forall_nil_2]]; simpl; intros H; apply Hf;
      first [ rewrite (str_app_suffix_inj f "LawChaos" "Index" (eq_sym H))
            | rewrite (str_app_suffix_inj f "GoodEvil" "Index" (eq_sym H)) ]; set_solver.
Qed.

(** Complete items are in both indexes. *)
Lemma complete_in_index k item g :
  complete_item k item -> g ∈ mysfits_indexes -> in_index g item.
Proof.
  intros Hc Hg. pose proof Hc as [Hid _].
  destruct (complete_S k item "LawChaos" Hc ltac:(schema_in)).
  destruct (complete_S k item "GoodEvil" Hc ltac:(schema_in)).
  unfold mysfits_indexes in Hg. repeat (apply elem_of_cons in Hg as [->|Hg]);
    [split; simpl; eauto..|by apply elem_of_nil in Hg].
Qed.

(** C34: [queryMysfits({'filter': f, 'value': v})] changes nothing; when
    [f] is [LawChaos] or [GoodEvil] (the attributes the stack indexes) it
    answers the summaries of the mysfits whose [f] is [v], in [MysfitId]
    order; for any other attribute there is no index [f + 'Index'] and
    the call raises [ValidationException]. *)
Theorem queryMysfits_spec st items queryParam f v :
  svc_ddb st !! "MysfitsTable" = Some (mysfits_table items) -> map_Forall complete_item items ->
  queryParam !! "filter" = Some f -> queryParam !! "value" = Some v ->
  run (queryMysfits queryParam) st =
    if decide (f ∈ indexed_attrs) then
      (Ok (json_dumps (mysfits_json
             (merge_sort (sort_key_le "MysfitId")
                (filter (fun item => item !! f = Some (AttrS v)) (snd <$> map_to_list items))))), st)
    else (Raise (ClientError "ValidationException"), st).
Proof.
  intros Ht Hc Hf Hv. unfold queryMysfits. rewrite Hf, Hv. cbn iota beta.
  rewrite !bind_ret_l, run_bind. unfold query.
  rewrite (run_with_table _ (mysfits_table items)) by done.
  cbn [tbl_indexes mysfits_table tbl_items]. pose proof (table_items_complete _ Hc) as Hall.
  destruct (find_index f) as [Hin Hout]. case_decide as Hfi; [|by rewrite Hout].
  destruct (Hin Hfi) as (i & g & -> & Hhash & Hg). rewrite bool_decide_true by done.
  assert (Hrange : gsi_range g = "MysfitId").
  { unfold mysfits_indexes in Hg. repeat (apply elem_of_cons in Hg as [->|Hg]); [done..|].
    by apply elem_of_nil in Hg. }
  rewrite Hrange, (filter_ext_in _ (fun item => item !! f = Some (AttrS v))).
  - rewrite run_ret, run_bind, run_summaries; [done|]. apply Forall_forall. intros item Hi.
    rewrite (merge_sort_Permutation _ _), list_elem_of_filter in Hi.
    destruct Hi as [_ Hi]. by eapply Forall_forall in Hall.
  - intros item Hitem. eapply Forall_forall in Hall as [k Hk]; [|exact Hitem].
    pose proof (complete_in_index k item g Hk Hg). tauto.
Qed.

(** ** The table stays complete *)

Lemma schema_type_unique a t u :
  (a, t) ∈ mysfit_schema -> (a, u) ∈ mysfit_schema -> t = u.
Proof.
  unfold mysfit_schema. rewrite !elem_of_cons, !elem_of_nil. intros Ha Hb.
  repeat destruct Ha as [Ha|Ha]; repeat destruct Hb as [Hb|Hb]; try done; congruence.
Qed.

Lemma complete_insert k item a t v :
  complete_item k item -> (a, t) ∈ mysfit_schema -> has_type v t = true -> a <> "MysfitId" ->
  complete_item k (<[a := v]> item).
Proof.
  intros [Hid Hf] Ha Hv Hne. split; [by rewrite lookup_insert_ne|].
  apply Forall_forall. intros [b u] Hb. simpl. destruct (decide (a = b)) as [<-|Hab].
  - rewrite lookup_insert_eq. exists v. split; [done|].
    by rewrite <- (schema_type_unique a t u).
  - rewrite lookup_insert_ne by done. by eapply Forall_forall in Hf; [|exact Hb].
Qed.

Lemma table_ok_update st items id item' :
  map_Forall complete_item items -> complete_item id item' ->
  table_ok (set_svc_ddb (<["MysfitsTable" := mysfits_table (<[id := item']> items)]> (svc_ddb st)) st).
Proof.
  intros Hc Hi. exists (<[id := item']> items). split.
  - simpl. by rewrite lookup_insert_eq.
  - by apply map_Forall_insert_2.
Qed.

(** ** Loading the initial values *)

(** A mysfit as [populate-dynamodb.json] describes it. *)
Record Mysfit := mkMysfit {
  m_id : string; m_name : string; m_species : string; m_description : string; m_age : Z;
  m_goodevil : string; m_lawchaos : string; m_thumb : string; m_profile : string;
  m_likes : Z; m_adopted : bool }.

(** A value in DynamoDB's JSON format: [{"S": ...}], [{"N": ...}] with
    the number as text, [{"BOOL": ...}]. *)
Definition typed (t : string) (v : json) : json := JObj [(t, v)].

(** The entry of the file for a mysfit. *)
Definition put_request (m : Mysfit) : json :=
  JObj [("PutRequest", JObj [("Item", JObj [
    ("MysfitId", typed "S" (JStr (m_id m))); ("Name", typed "S" (JStr (m_name m)));
    ("Species", typed "S" (JStr (m_species m))); ("Description", typed "S" (JStr (m_description m)));
    ("Age", typed "N" (JStr (pretty (m_age m)))); ("GoodEvil", typed "S" (JStr (m_goodevil m)));
    ("LawChaos", typed "S" (JStr (m_lawchaos m))); ("ThumbImageUri", typed "S" (JStr (m_thumb m)));
    ("ProfileImageUri", typed "S" (JStr (m_profile m)));
    ("Likes", typed "N" (JStr (pretty (m_likes m))));
    ("Adopted", typed "BOOL" (JBool (m_adopted m)))])])].

Definition populate_document (ms : list Mysfit) : json :=
  JObj [("MysfitsTable", JArr (put_request <$> ms))].

(** A mysfit the service can store: the values of the table's and the
    indexes' keys ([MysfitId], [LawChaos], [GoodEvil]) not empty, the age
    and the likes of at most 38 digits (boto3's decimal context). *)
Definition mysfit_ok (m : Mysfit) : bool :=
  negb (String.eqb (m_id m) "") && negb (String.eqb (m_goodevil m) "") &&
  negb (String.eqb (m_lawchaos m) "") &&
  bool_decide (Z.abs (m_age m) < 10 ^ prec)%Z && bool_decide (Z.abs (m_likes m) < 10 ^ prec)%Z.

(** The dict [initial_item] builds for a mysfit of the file. *)
Definition mysfit_dict (m : Mysfit) : list (string * pyval) :=
  [("MysfitId", PyJson (JStr (m_id m))); ("Name", PyJson (JStr (m_name m)));
   ("Species", PyJson (JStr (m_species m))); ("Description", PyJson (JStr (m_description m)));
   ("Age", PyDec (Finite (m_age m) 0)); ("GoodEvil", PyJson (JStr (m_goodevil m)));
   ("LawChaos", PyJson (JStr (m_lawchaos m))); ("ThumbImageUri", PyJson (JStr (m_thumb m)));
   ("ProfileImageUri", PyJson (JStr (m_profile m))); ("Likes", PyDec (Finite (m_likes m) 0));
   ("Adopted", PyJson (JBool (m_adopted m)))].

(** The attributes DynamoDB stores for it. *)
Definition mysfit_attrs (m : Mysfit) : list (string * AttributeValue) :=
  [("MysfitId", AttrS (m_id m)); ("Name", AttrS (m_name m)); ("Species", AttrS (m_species m));
   ("Description", AttrS (m_description m)); ("Age", AttrN (normalize (m_age m) 0));
   ("GoodEvil", AttrS (m_goodevil m)); ("LawChaos", AttrS (m_lawchaos m));
   ("ThumbImageUri", AttrS (m_thumb m)); ("ProfileImageUri", AttrS (m_profile m));
   ("Likes", AttrN (normalize (m_likes m) 0)); ("Adopted", AttrBOOL (m_adopted m))].

Definition mysfit_item (m : Mysfit) : Item := list_to_map (mysfit_attrs m).

(** The items after putting the mysfits in order: a later entry with the
    same id replaces an earlier one. *)
Definition load_items (items : gmap string Item) (ms : list Mysfit) : gmap string Item :=
  foldl (fun items m => <[m_id m := mysfit_item m]> items) items ms.

Lemma run_initial_item m st : run (initial_item (put_request m)) st = (Ok (mysfit_dict m), st).
Proof.
  destruct m. unfold initial_item. cbv -[pretty parse_decimal].
  rewrite !parse_decimal_pretty. reflexivity.
Qed.

Lemma serialize_mysfit m : mysfit_ok m = true -> serialize_item (mysfit_dict m) = Ok (Some (mysfit_attrs m)).
Proof.
  intros Hm. unfold mysfit_ok in Hm. rewrite !andb_true_iff, !bool_decide_eq_true in Hm.
  destruct Hm as [[_ Ha] Hl]. unfold serialize_item, mysfit_dict.
  cbn [foldr serialize serialize_json fst snd]. rewrite !serialize_small by done. reflexivity.
Qed.

Lemma map_Forall_list_to_map {A} (P : string -> A -> Prop) (l : list (string * A)) :
  Forall (uncurry P) l -> map_Forall P (list_to_map l : gmap string A).
Proof.
  induction 1 as [|[i x] l Hx Hl IH]; [apply map_Forall_empty|].
  rewrite list_to_map_cons. by apply map_Forall_insert_2.
Qed.

Lemma mysfit_item_key m : mysfit_item m !! "MysfitId" = Some (AttrS (m_id m)).
Proof. unfold mysfit_item, mysfit_attrs. cbn [list_to_map foldr]. by rewrite lookup_insert_eq. Qed.

(** DynamoDB accepts the item of a storable mysfit. *)
Lemma mysfit_item_ok items m : mysfit_ok m = true -> item_ok (mysfits_table items) (mysfit_item m) = true.
Proof.
  intros Hm. unfold mysfit_ok in Hm. rewrite !andb_true_iff, !bool_decide_eq_true in Hm.
  destruct Hm as [[[[Hi Hg] Hl] Ha] Hk]. unfold item_ok. apply andb_true_iff. split.
  - destruct m. unfold mysfit_item, mysfit_attrs. cbn in *. simplify_map_eq. cbn. by rewrite Hi, Hg, Hl.
  - apply bool_decide_eq_true, map_Forall_list_to_map. repeat constructor; simpl; by apply num_ok_small.
Qed.

Lemma set_svc_ddb_same st : set_svc_ddb (svc_ddb st) st = st.
Proof. by destruct st. Qed.

Lemma run_put_mysfit st items m :
  svc_ddb st !! "MysfitsTable" = Some (mysfits_table items) -> mysfit_ok m = true ->
  run (table_put_item "MysfitsTable" (mysfit_dict m)) st =
    (Ok tt, set_svc_ddb (<["MysfitsTable" := mysfits_table (<[m_id m := mysfit_item m]> items)]> (svc_ddb st)) st).
Proof.
  intros Ht Hm. unfold table_put_item. rewrite serialize_mysfit by done. fold (mysfit_item m).
  unfold put_item. rewrite (run_with_table _ (mysfits_table items)) by done.
  cbn [tbl_key mysfits_table]. by rewrite mysfit_item_key, mysfit_item_ok.
Qed.

(** The loop of [load_initial_values] puts the items in the file's order. *)
Lemma load_loop ms items st :
  svc_ddb st !! "MysfitsTable" = Some (mysfits_table items) -> Forall (fun m => mysfit_ok m = true) ms ->
  run (for_ (put_request <$> ms) (fun mysfit => item ← initial_item mysfit; table_put_item "MysfitsTable" item)) st =
    (Ok tt, set_svc_ddb (<["MysfitsTable" := mysfits_table (load_items items ms)]> (svc_ddb st)) st).
Proof.
  intros Ht Hms. revert items st Ht. induction Hms as [|m ms Hm Hms IH]; intros items st Ht.
  - cbn. by rewrite insert_id, set_svc_ddb_same.
  - cbn [fmap list_fmap for_]. rewrite run_bind, run_bind, run_initial_item, (run_put_mysfit _ items) by done.
    rewrite (IH (<[m_id m := mysfit_item m]> items)) by (cbn [svc_ddb set_svc_ddb]; by rewrite lookup_insert_eq).
    cbn [svc_ddb svc_files set_svc_ddb load_items foldl]. by rewrite insert_insert_eq.
Qed.

Lemma populate_document_wf ms : json_wf (populate_document ms) = true.
Proof.
  assert (forallb json_wf (put_request <$> ms) = true) as H.
  { induction ms as [|m ms IH]; [done|]. cbn [fmap list_fmap forallb]. rewrite IH, andb_true_r.
    by destruct m. }
  cbn [populate_document json_wf forallb snd]. by rewrite H.
Qed.

(** [load_initial_values] on the file [json.dumps] writes for a list
    of mysfits (each a [PutRequest] in DynamoDB's JSON format) parses it
    back and puts one item per mysfit into [MysfitsTable], in the file's
    order, with the number attributes converted by [Decimal]; a later
    entry with the same id replaces an earlier one. Nothing else changes. *)
Lemma load_initial_values_spec st items ms :
  svc_files st !! populate_file = Some (json_dumps (populate_document ms)) ->
  svc_ddb st !! "MysfitsTable" = Some (mysfits_table items) -> Forall (fun m => mysfit_ok m = true) ms ->
  run load_initial_values st =
    (Ok tt, set_svc_ddb (<["MysfitsTable" := mysfits_table (load_items items ms)]> (svc_ddb st)) st).
Proof.
  intros Hf Ht Hms. unfold load_initial_values. rewrite run_bind, run_gets, Hf, run_bind, run_ret, run_bind.
  unfold json_load. rewrite json_loads_dumps by apply populate_document_wf.
  rewrite run_ret, run_bind. cbn. by apply load_loop.
Qed.

(** ** A concrete table *)

Definition demo_mysfit (id name species goodevil lawchaos : string) (age likes : Z) : Item :=
  list_to_map [("MysfitId", AttrS id); ("Name", AttrS name); ("Species", AttrS species);
               ("Description", AttrS "A mysfit."); ("Age", AttrN (normalize age 0));
               ("GoodEvil", AttrS goodevil); ("LawChaos", AttrS lawchaos);
               ("ThumbImageUri", AttrS "thumb.png"); ("ProfileImageUri", AttrS "profile.png");
               ("Likes", AttrN (normalize likes 0)); ("Adopted", AttrBOOL false)].

Definition demo_items : gmap string Item :=
  {[ "4e53920c" := demo_mysfit "4e53920c" "Evangeline" "Chimera" "Evil" "Lawful" 43 0;
     "2b473002" := demo_mysfit "2b473002" "Pauly" "Cyclops" "Neutral" "Chaotic" 2 3 ]}.

Definition demo_service : Service :=
  mkService {[ "MysfitsTable" := mysfits_table demo_items ]} ∅.

Lemma getMysfit_spec_witness :
  run (getMysfit "4e53920c") demo_service =
    (Ok (json_dumps (detail_json (demo_mysfit "4e53920c" "Evangeline" "Chimera" "Evil" "Lawful" 43 0))),
     demo_service).
Proof. rewrite (getMysfit_spec _ demo_items); concrete. Defined.

Lemma adopt_unknown_breaks_listing_witness :
  fst (run (adoptMysfit "zz") demo_service) = Ok update_success /\
  fst (run (adoptMysfit "zz";; getAllMysfits) demo_service) = Raise (KeyError "Name").
Proof. apply (adopt_unknown_breaks_listing _ demo_items); concrete. Defined.

Lemma queryMysfits_spec_witness :
  run (queryMysfits {[ "filter" := "Species"; "value" := "Cyclops" ]}) demo_service =
    (Raise (ClientError "ValidationException"), demo_service).
Proof.
  rewrite (queryMysfits_spec _ demo_items _ "Species" "Cyclops"); concrete.
Defined.

Definition demo_mysfits : list Mysfit :=
  [mkMysfit "4e53920c" "Evangeline" "Chimera" "A mysfit." 43 "Evil" "Lawful" "thumb.png" "profile.png" 0 false;
   mkMysfit "2b473002" "Pauly" "Cyclops" "A mysfit." 2 "Neutral" "Chaotic" "thumb.png" "profile.png" 3 true].

Definition demo_load_service : Service :=
  mkService {[ "MysfitsTable" := mysfits_table ∅ ]}
            {[ populate_file := json_dumps (populate_document demo_mysfits) ]}.

