(* ===== verification/MysfitStore.v ===== *)
(** * The mysfit store: what the service promises, and its refinement

    The web pages see the service of [mysfitsTableClient.py] as a store of
    mysfits indexed by their id: they list them, read one, like one,
    adopt one, and the service is filled from [populate-dynamodb.json]
    when it starts. [Store] states this contract on an abstract state, a
    finite map from ids to [Mysfit] records, with one pure function per
    operation. [abstract_table] reads the abstract state out of the
    service's DynamoDB table by decoding every item.

    The theorems show that the handlers refine the store: on a table of
    complete items, each handler gives the answer the abstract operation
    gives, and a session of requests served one after another leaves a
    complete table whose abstraction is the store's state after the
    session ([reads_refine_store], [session_refines_store]); [load_initial_values]
    fills the store with the file's mysfits ([load_refines_store]); and
    the listing after a load holds exactly the file's mysfits, in the
    table's order rather than the file's ([load_then_list]). The one
    handler outside the refinement is [adoptMysfit] on an unknown id,
    which creates a broken item ([adopt_unknown_breaks_listing]).
    [queryMysfits] is not a request of the session: its answer, sorted by
    the index's range key, is stated on the table's items
    ([queryMysfits_spec]). *)

From Stdlib Require Import String ZArith.
From stdpp Require Import base list gmap strings pretty.
From S2P Require Import Spec2Rocq PyStr Json PyDecimal Dynamo TableClient.

(** ** The abstract store *)

(** A request of the web pages to the service: the routes of the Flask
    service that calls the table client (the service itself is not in the
    repository). *)
Inductive request :=
| ListMysfits
| GetMysfit (mysfitId : string)
| LikeMysfit (mysfitId : string)
| AdoptMysfit (mysfitId : string).

Module Store.

Abbreviation t := (gmap string Mysfit).

Definition set_likes (n : Z) (m : Mysfit) : Mysfit :=
  mkMysfit (m_id m) (m_name m) (m_species m) (m_description m) (m_age m) (m_goodevil m)
    (m_lawchaos m) (m_thumb m) (m_profile m) n (m_adopted m).

Definition set_adopted (b : bool) (m : Mysfit) : Mysfit :=
  mkMysfit (m_id m) (m_name m) (m_species m) (m_description m) (m_age m) (m_goodevil m)
    (m_lawchaos m) (m_thumb m) (m_profile m) (m_likes m) b.

(** What the listing shows of a mysfit. *)
Definition summary (m : Mysfit) : json :=
  JObj [("mysfitId", JStr (m_id m)); ("name", JStr (m_name m)); ("goodevil", JStr (m_goodevil m));
        ("lawchaos", JStr (m_lawchaos m)); ("species", JStr (m_species m));
        ("thumbImageUri", JStr (m_thumb m))].

(** The listing of some mysfits: [{"mysfits": [...]}], or [{}] for none. *)
Definition listing (ms : list Mysfit) : json :=
  dd_json (match ms with [] => [] | _ => [("mysfits", summary <$> ms)] end).

(** What the page of one mysfit shows. *)
Definition detail (m : Mysfit) : json :=
  JObj [("mysfitId", JStr (m_id m)); ("name", JStr (m_name m)); ("age", JInt (m_age m));
        ("goodevil", JStr (m_goodevil m)); ("lawchaos", JStr (m_lawchaos m));
        ("species", JStr (m_species m)); ("description", JStr (m_description m));
        ("thumbImageUri", JStr (m_thumb m)); ("profileImageUri", JStr (m_profile m));
        ("likes", JStr (pretty (m_likes m))); ("adopted", JBool (m_adopted m))].

(** The mysfits of the store, in its order. *)
Definition all (s : t) : list Mysfit := snd <$> map_to_list s.

(** Liking and adopting are defined for the mysfits of the store; a like
    count must stay a number DynamoDB can hold (38 significant digits). *)
Definition like (id : string) (s : t) : option t :=
  m ← s !! id;
  if num_ok (normalize (m_likes m + 1) 0) then Some (<[id := set_likes (m_likes m + 1) m]> s) else None.

Definition adopt (id : string) (s : t) : option t :=
  m ← s !! id; Some (<[id := set_adopted true m]> s).

(** Loading puts the mysfits in order: a later one with the same id
    replaces an earlier one. *)
Definition load (ms : list Mysfit) (s : t) : t :=
  foldl (fun s m => <[m_id m := m]> s) s ms.

(** The answer to a request and the store after it. Adopting an id the
    store does not hold is outside the contract ([None]). *)
Definition answer (r : request) (s : t) : option (outcome string * t) :=
  match r with
  | ListMysfits => Some (Ok (json_dumps (listing (all s))), s)
  | GetMysfit id =>
      Some (match s !! id with
            | Some m => Ok (json_dumps (detail m))
            | None => Raise (KeyError "Item")
            end, s)
  | LikeMysfit id =>
      Some (match like id s with
            | Some s' => (Ok update_success, s')
            | None => (Raise (ClientError "ValidationException"), s)
            end)
  | AdoptMysfit id => s' ← adopt id s; Some (Ok update_success, s')
  end.

(** The answers to requests served one after another. *)
Fixpoint session (rs : list request) (s : t) : option (list (outcome string) * t) :=
  match rs with
  | [] => Some ([], s)
  | r :: rs =>
      match answer r s with
      | Some (o, s1) =>
          match session rs s1 with Some (os, s2) => Some (o :: os, s2) | None => None end
      | None => None
      end
  end.

End Store.

(** ** The abstraction of the service's table *)

(** The mysfit an item describes. *)
Definition decode (item : Item) : Mysfit :=
  mkMysfit (s_of item "MysfitId") (s_of item "Name") (s_of item "Species") (s_of item "Description")
    (n_of item "Age") (s_of item "GoodEvil") (s_of item "LawChaos") (s_of item "ThumbImageUri")
    (s_of item "ProfileImageUri") (n_of item "Likes") (b_of item "Adopted").

Definition abstract_table (st : Service) : option Store.t :=
  (fun t => decode <$> tbl_items t) <$> svc_ddb st !! "MysfitsTable".

(** The handler of a request. *)
Definition handle (r : request) : service string :=
  match r with
  | ListMysfits => getAllMysfits
  | GetMysfit id => getMysfit id
  | LikeMysfit id => likeMysfit id
  | AdoptMysfit id => adoptMysfit id
  end.

(** Requests served one after another: a request that raises is answered
    with its error (an HTTP 500) and the next one is served on the state
    it left. *)
Fixpoint serve (rs : list request) (st : Service) : list (outcome string) * Service :=
  match rs with
  | [] => ([], st)
  | r :: rs =>
      let '(o, st1) := run (handle r) st in
      let '(os, st2) := serve rs st1 in (o :: os, st2)
  end.

(** ** Lemmas on the abstraction *)

Lemma decode_mysfit_item m : decode (mysfit_item m) = m.
Proof.
  destruct m as [i n sp d a g l th p k ad]. unfold decode, mysfit_item, mysfit_attrs, s_of, n_of, b_of.
  cbn [list_to_map foldr fst snd]. simplify_map_eq.
  by rewrite (proj2 (normalize_int_0 a)), (proj2 (normalize_int_0 k)).
Qed.

Lemma decode_likes item n : decode (<["Likes" := AttrN n]> item) = Store.set_likes (num_int n) (decode item).
Proof. unfold decode, Store.set_likes, s_of, n_of, b_of. by simplify_map_eq. Qed.

Lemma decode_adopted item b : decode (<["Adopted" := AttrBOOL b]> item) = Store.set_adopted b (decode item).
Proof. unfold decode, Store.set_adopted, s_of, n_of, b_of. by simplify_map_eq. Qed.

Lemma all_decode (items : gmap string Item) :
  Store.all (decode <$> items) = decode <$> (snd <$> map_to_list items).
Proof. unfold Store.all. rewrite map_to_list_fmap, <-!list_fmap_compose. done. Qed.

(** The listing the handlers build is the abstract listing. *)
Lemma listing_decode (items : list Item) : mysfits_json items = Store.listing (decode <$> items).
Proof. destruct items; [done|]. unfold mysfits_json, Store.listing. by rewrite <-list_fmap_compose. Qed.

Lemma abstract_table_update st items :
  abstract_table (set_svc_ddb (<["MysfitsTable" := mysfits_table items]> (svc_ddb st)) st) =
    Some (decode <$> items).
Proof. unfold abstract_table. simpl. by rewrite lookup_insert_eq. Qed.

Lemma abstract_table_ok st s :
  table_ok st -> abstract_table st = Some s ->
  exists items, svc_ddb st !! "MysfitsTable" = Some (mysfits_table items) /\
    map_Forall complete_item items /\ s = decode <$> items.
Proof.
  intros (items & Ht & Hc). unfold abstract_table. rewrite Ht. intros [= <-]. by exists items.
Qed.

(** Setting one attribute of a stored mysfit to a value of its type keeps
    the table complete and moves its abstraction by the decoded item. *)
Lemma abstract_table_set st (items : gmap string Item) id item a t v (s' : Store.t) :
  map_Forall complete_item items -> items !! id = Some item ->
  (a, t) ∈ mysfit_schema -> has_type v t = true -> a <> "MysfitId" ->
  s' = <[id := decode (<[a := v]> item)]> (decode <$> items) ->
  table_ok (set_svc_ddb (<["MysfitsTable" := mysfits_table (<[id := <[a := v]> item]> items)]> (svc_ddb st)) st) /\
  abstract_table (set_svc_ddb (<["MysfitsTable" := mysfits_table (<[id := <[a := v]> item]> items)]> (svc_ddb st)) st) =
    Some s'.
Proof.
  intros Hc Hi Ha Hv Hne ->. split.
  - apply table_ok_update; [done|]. eapply complete_insert; [by apply Hc|done..].
  - by rewrite abstract_table_update, fmap_insert.
Qed.

Lemma mysfit_item_complete m : complete_item (m_id m) (mysfit_item m).
Proof.
  split; [apply mysfit_item_key|]. destruct m. unfold mysfit_item, mysfit_attrs, mysfit_schema.
  cbn [list_to_map foldr fst snd].
  repeat apply Forall_cons_2; try apply Forall_nil_2; eexists; (split; [by simplify_map_eq|]);
    cbn; try done; apply bool_decide_eq_true, normalize_int_0.
Qed.

Lemma load_items_complete items ms :
  map_Forall complete_item items -> map_Forall complete_item (load_items items ms).
Proof.
  revert items. induction ms as [|m ms IH]; intros items Hc; [done|].
  apply IH, map_Forall_insert_2; [apply mysfit_item_complete|done].
Qed.

Lemma decode_load_items items ms : decode <$> load_items items ms = Store.load ms (decode <$> items).
Proof.
  revert items. induction ms as [|m ms IH]; intros items; [done|].
  cbn [load_items Store.load foldl]. by rewrite IH, fmap_insert, decode_mysfit_item.
Qed.

(** Loading mysfits of distinct ids, none of them in the store, adds
    exactly them to the listing, in some order. *)
Lemma all_load ms s :
  NoDup (m_id <$> ms) -> Forall (fun m => s !! m_id m = None) ms ->
  Store.all (Store.load ms s) ≡ₚ ms ++ Store.all s.
Proof.
  revert s. induction ms as [|m ms IH]; intros s Hnd Hs; [done|].
  apply NoDup_cons in Hnd as [Hm Hnd]. apply Forall_cons in Hs as [Hs0 Hs].
  change (Store.load (m :: ms) s) with (Store.load ms (<[m_id m := m]> s)). rewrite IH; [|done|].
  - unfold Store.all. rewrite map_to_list_insert by done. simpl. by rewrite Permutation_middle.
  - apply Forall_forall. intros m' Hm'. rewrite lookup_insert_ne.
    + by eapply Forall_forall in Hs.
    + intros Heq. apply Hm. rewrite Heq. by apply list_elem_of_fmap_2.
Qed.

(** ** The handlers refine the store *)

(** C31: On a complete table, the two read handlers answer what the store
    answers and change nothing: [getAllMysfits] gives the listing of all
    the mysfits of the store (the empty object for an empty store), and
    [getMysfit(id)] gives the page of the mysfit of that id, or raises
    [KeyError 'Item'] when there is none. *)
Theorem reads_refine_store st s mysfitId :
  table_ok st -> abstract_table st = Some s ->
  run getAllMysfits st = (Ok (json_dumps (Store.listing (Store.all s))), st) /\
  run (getMysfit mysfitId) st =
    match s !! mysfitId with
    | Some m => (Ok (json_dumps (Store.detail m)), st)
    | None => (Raise (KeyError "Item"), st)
    end.
Proof.
  intros Hok Hs. destruct (abstract_table_ok _ _ Hok Hs) as (items & Ht & Hc & ->). split.
  - by rewrite (getAllMysfits_spec _ items), all_decode, listing_decode.
  - rewrite (getMysfit_spec _ items), lookup_fmap by done. by destruct (items !! mysfitId).
Qed.

(** C32: On a complete table, any sequence of requests of the web pages
    that the store accepts (every adopted id a mysfit of the store) is
    served as the store answers it: each handler answers in turn what the
    store answers (listings, pages, [KeyError 'Item'] for an unknown page,
    [{"Update": "Success"}] for likes and adoptions, [ValidationException]
    for liking an unknown id or past DynamoDB's 38 significant digits), every request sees the state the previous
    one left, and the table stays complete and abstracts to the store's
    final state. *)
Theorem session_refines_store st s rs outs s' :
  table_ok st -> abstract_table st = Some s -> Store.session rs s = Some (outs, s') ->
  fst (serve rs st) = outs /\ table_ok (snd (serve rs st)) /\ abstract_table (snd (serve rs st)) = Some s'.
Proof.
  revert st s outs. induction rs as [|r rs IH]; intros st s outs Hok Hs Hsess; [by injection Hsess as <- <-|].
  cbn [Store.session] in Hsess. destruct (Store.answer r s) as [[o s1]|] eqn:Ha; [|done].
  destruct (Store.session rs s1) as [[os s2]|] eqn:Hr; [|done]. injection Hsess as <- <-.
  assert (exists st1, run (handle r) st = (o, st1) /\ table_ok st1 /\ abstract_table st1 = Some s1)
    as (st1 & Hrun & Hok1 & Hs1).
  { destruct (abstract_table_ok _ _ Hok Hs) as (items & Ht & Hc & ->).
    destruct r as [|id|id|id]; cbn [handle Store.answer] in Ha |- *;
      unfold Store.like, Store.adopt in Ha; rewrite ?lookup_fmap in Ha.
    - injection Ha as <- <-. exists st. by rewrite (getAllMysfits_spec _ items), all_decode, listing_decode.
    - rewrite (getMysfit_spec _ items) by done. exists st. by destruct (items !! id); injection Ha as <- <-.
    - rewrite (likeMysfit_spec _ items) by done.
      destruct (items !! id) as [item|] eqn:Hi; simpl in Ha; [|injection Ha as <- <-; by eexists].
      cbn zeta.
      destruct (num_ok _) eqn:Hn; injection Ha as <- <-; eexists; (split; [done|]); [|done].
      apply abstract_table_set with (t := TInt); [done..|schema_in| |done|].
      + apply bool_decide_eq_true, normalize_int_0.
      + by rewrite decode_likes, (proj2 (normalize_int_0 _)).
    - rewrite (adoptMysfit_run _ items) by done.
      destruct (items !! id) as [item|] eqn:Hi; [|done]. injection Ha as <- <-. eexists; split; [done|].
      apply abstract_table_set with (t := TBOOL); [done..|schema_in|done|done|by rewrite decode_adopted]. }
  cbn [serve]. rewrite Hrun. destruct (IH st1 s1 os Hok1 Hs1 Hr) as (Hos & Hok2 & Hs2).
  destruct (serve rs st1) as [os' st2]. simpl in *. by subst.
Qed.

(** C9: [load_initial_values] on the file [json.dumps] writes for a list
    of mysfits the table can hold ([mysfit_ok]: key values not empty, age
    and likes of at most 38 digits) loads them into the store, in the
    file's order (a later entry with the same id replaces an earlier
    one): the texts of the numbers go through [Decimal], boto3's decimal
    context and DynamoDB's checks unchanged; it returns normally, keeps
    the table complete and leaves the files as they were. *)
Theorem load_refines_store st s ms :
  svc_files st !! populate_file = Some (json_dumps (populate_document ms)) ->
  Forall (fun m => mysfit_ok m = true) ms -> table_ok st -> abstract_table st = Some s ->
  fst (run load_initial_values st) = Ok tt /\
  table_ok (snd (run load_initial_values st)) /\
  abstract_table (snd (run load_initial_values st)) = Some (Store.load ms s) /\
  svc_files (snd (run load_initial_values st)) = svc_files st.
Proof.
  intros Hf Hms Hok Hs. destruct (abstract_table_ok _ _ Hok Hs) as (items & Ht & Hc & ->).
  rewrite (load_initial_values_spec _ items ms) by done. cbn [fst snd]. split_and!; [done| |by rewrite abstract_table_update, decode_load_items|done].
  eexists. split; [simpl; by rewrite lookup_insert_eq|]. by apply load_items_complete.
Qed.

(** C35: Loading storable mysfits of distinct ids into an empty table and then
    listing shows exactly the loaded mysfits, each once, in the table's
    scan order, which need not be the file's. *)
Theorem load_then_list st ms :
  svc_files st !! populate_file = Some (json_dumps (populate_document ms)) ->
  svc_ddb st !! "MysfitsTable" = Some (mysfits_table ∅) ->
  Forall (fun m => mysfit_ok m = true) ms -> NoDup (m_id <$> ms) ->
  exists order, order ≡ₚ ms /\
    run (load_initial_values;; getAllMysfits) st =
      (Ok (json_dumps (Store.listing order)), snd (run load_initial_values st)).
Proof.
  intros Hf Ht Hms Hnd. exists (Store.all (Store.load ms ∅)). split.
  - rewrite all_load by (done || by apply Forall_forall). unfold Store.all. by rewrite map_to_list_empty, app_nil_r.
  - rewrite run_bind, (load_initial_values_spec _ ∅ ms) by done. simpl fst; simpl snd.
    rewrite (getAllMysfits_spec _ (load_items ∅ ms)).
    + by rewrite listing_decode, <-all_decode, decode_load_items, fmap_empty.
    + simpl. by rewrite lookup_insert_eq.
    + apply load_items_complete, map_Forall_empty.
Qed.

(** ** The claims at concrete services *)

Lemma reads_refine_store_witness :
  run getAllMysfits demo_service =
    (Ok (json_dumps (Store.listing (Store.all (decode <$> demo_items)))), demo_service) /\
  run (getMysfit "zz") demo_service = (Raise (KeyError "Item"), demo_service).
Proof.
  assert (table_ok demo_service) as Hok by (exists demo_items; split; concrete).
  destruct (reads_refine_store demo_service (decode <$> demo_items) "zz" Hok) as [Hl Hg]; [concrete|].
  split; [exact Hl|]. rewrite Hg. concrete.
Defined.

Lemma session_refines_store_witness :
  fst (serve [LikeMysfit "4e53920c"; AdoptMysfit "4e53920c"; GetMysfit "zz"; LikeMysfit "zz"] demo_service) =
    [Ok update_success; Ok update_success; Raise (KeyError "Item"); Raise (ClientError "ValidationException")].
Proof.
  set (rs := [LikeMysfit "4e53920c"; AdoptMysfit "4e53920c"; GetMysfit "zz"; LikeMysfit "zz"]).
  assert (table_ok demo_service) as Hok by (exists demo_items; split; concrete).
  destruct (Store.session rs (decode <$> demo_items)) as [[outs s']|] eqn:E; [|vm_compute in E; discriminate].
  destruct (session_refines_store demo_service (decode <$> demo_items) rs outs s' Hok) as [-> _]; [concrete|done|].
  vm_compute in E. by injection E.
Defined.

Lemma load_refines_store_witness :
  fst (run load_initial_values demo_load_service) = Ok tt /\
  abstract_table (snd (run load_initial_values demo_load_service)) = Some (Store.load demo_mysfits ∅).
Proof.
  assert (table_ok demo_load_service) as Hok by (exists ∅; split; [concrete|apply map_Forall_empty]).
  destruct (load_refines_store demo_load_service ∅ demo_mysfits) as (H1 & _ & H3 & _); [concrete|concrete|done|concrete|].
  split; [exact H1|exact H3].
Defined.

Lemma load_then_list_witness :
  exists order, order ≡ₚ demo_mysfits /\
    run (load_initial_values;; getAllMysfits) demo_load_service =
      (Ok (json_dumps (Store.listing order)), snd (run load_initial_values demo_load_service)).
Proof. apply load_then_list; concrete. Defined.
