(* ===== verification/Stacks.v ===== *)
(** * The CDK application [app.py] and the resources of its stacks

    [app.py] reads [AWS_DEFAULT_REGION] ([os.environ[...]], a [KeyError]
    when it is unset), builds ten stacks bound to that region, passing
    the constructs one stack exports to the stacks that use them, and
    synthesises the cloud assembly; [cdk deploy --all] then creates the
    stacks, a stack after the stacks it depends on.

    A stack is modelled by the resources it declares that the scripts of
    src/webgen/utils can see through the account model of [Cloud.v]: REST
    APIs, the user pool and its client, DynamoDB tables, the ECR
    repository, the ECS service, NAT gateways and S3 buckets. IAM roles and
    policies, Lambda functions, CloudFront, Firehose and the construct
    wiring are outside the account model. Physical names that
    CloudFormation generates (API ids, pool ids, bucket names) are given by
    a function [physical_id] from the construct path ([stack id/logical
    id]) to the name. The dependencies of a stack are the stacks whose
    constructs its constructor receives. *)

From Stdlib Require Import String ZArith.
From stdpp Require Import base list gmap strings.
From S2P Require Import Spec2Rocq PyStr Cloud World AwsOps Lookup Checks Dynamo.

(** ** Stacks *)

(** A resource of a stack, with its logical id where CloudFormation
    generates its physical name. *)
Inductive Resource :=
| RRestApi (logical_id api_name : string)
| RUserPool (logical_id pool_name client_logical_id client_name : string)
| RTable (table_name : string)
| RRepository (repository_name : string)
| REcsService (cluster service : string)
| RNatGateway (logical_id : string)
| RBucket (logical_id : string).

Record Stack := mkStack {
  stack_id : string;
  stack_deps : list string;
  stack_resources : list Resource
}.

(** *** The resources, as the stack classes declare them *)

(** [DynamoDBStack]: [dynamo_db.Table(self, "MysfitsTable", table_name="MysfitsTable", ...)]. *)
Definition mysfits_table_resource : Resource := RTable mysfits_table_name.

(** [NetworkStack]: [ec2.Vpc(self, "WebVpc", max_azs=2, nat_gateways=1)]. *)
Definition vpc_nat_gateway : Resource := RNatGateway "WebVpc".

(** [EcrStack]: [ecr.Repository(self, 'Repository', repository_name='mythicalmysfits/service')]. *)
Definition ecr_repository : Resource := RRepository service_repository.

(** [EcsStack]: the cluster [MythicalMysfits-Cluster] and its
    [NetworkLoadBalancedFargateService] [MythicalMysfits-FargateService]. *)
Definition fargate_service : Resource := REcsService ecs_cluster_name ecs_service_name.

(** [CognitoStack]: [MysfitsUserPool] and its client [MysfitsUserPoolClient]. *)
Definition user_pool : Resource :=
  RUserPool "UserPool" "MysfitsUserPool" "UserPoolClient" "MysfitsUserPoolClient".

(** [APIGatewayStack]: [apigw.CfnRestApi(self, 'Schema', name='MysfitsApi', ...)]. *)
Definition mysfits_api : Resource := RRestApi "Schema" "MysfitsApi".

(** [KinesisFirehoseStack]: the bucket of the processed clicks and
    [apigw.RestApi(self, "APIEndpoint", rest_api_name="ClickProcessingApi")]. *)
Definition clicks_destination_bucket : Resource := RBucket "Bucket".
Definition click_processing_api : Resource := RRestApi "APIEndpoint" "ClickProcessingApi".

(** [XRayStack]: [MysfitsQuestionsTable] and the [LambdaRestApi] [QuestionsAPI]. *)
Definition questions_table : Resource := RTable "MysfitsQuestionsTable".
Definition questions_api : Resource := RRestApi "APIEndpoint" "QuestionsAPI".

(** [SageMakerStack]: the [LambdaRestApi] [RecommendationsAPI]. *)
Definition recommendations_api : Resource := RRestApi "APIEndpoint" "RecommendationsAPI".

(** [WebApplicationStack]: [_s3.Bucket(self, 'Bucket', website_index_document='index.html')]. *)
Definition website_bucket : Resource := RBucket "Bucket".

(** *** The stacks, as [app.py] builds them *)

(** The dependencies are the stacks whose constructs the constructor
    receives: [vpc=network_stack.vpc], [ecr_repository=ecr_stack...],
    [load_balancer_...=ecs_stack...], [user_pool_id=cognito_stack...],
    [table=table_stack.table]. *)
Definition table_stack : Stack :=
  mkStack "MythicalMysfits-DynamoDB-stack" [] [mysfits_table_resource].
Definition network_stack : Stack :=
  mkStack "MythicalMysfits-Network-stack" [] [vpc_nat_gateway].
Definition ecr_stack : Stack :=
  mkStack "MythicalMysfits-ECR-stack" [] [ecr_repository].
Definition ecs_stack : Stack :=
  mkStack "MythicalMysfits-ECS-stack" ["MythicalMysfits-Network-stack"; "MythicalMysfits-ECR-stack"]
    [fargate_service].
Definition cognito_stack : Stack :=
  mkStack "MythicalMysfits-Cognito-stack" [] [user_pool].
Definition apigateway_stack : Stack :=
  mkStack "MythicalMysfits-APIGateway-stack" ["MythicalMysfits-ECS-stack"; "MythicalMysfits-Cognito-stack"]
    [mysfits_api].
Definition firehose_stack : Stack :=
  mkStack "MythicalMysfits-KinesisFirehose-stack" ["MythicalMysfits-DynamoDB-stack"]
    [clicks_destination_bucket; click_processing_api].
Definition xray_stack : Stack :=
  mkStack "MythicalMysfits-XRay-stack" [] [questions_table; questions_api].
Definition sagemaker_stack : Stack :=
  mkStack "MythicalMysfits-SageMaker-stack" [] [recommendations_api].
Definition web_s3_stack : Stack :=
  mkStack "MythicalMysfits-Website-stack" [] [website_bucket].

(** The stacks in the order [app.py] builds them. *)
Definition app_stacks : list Stack :=
  [table_stack; network_stack; ecr_stack; ecs_stack; cognito_stack; apigateway_stack;
   firehose_stack; xray_stack; sagemaker_stack; web_s3_stack].

(** [app.py]: the region of every stack, read from the environment; the
    assembly is the stacks bound to it. *)
Definition app_synth : script (string * list Stack) :=
  deploy_region ← environ_item "AWS_DEFAULT_REGION";
  mret (deploy_region, app_stacks).

(** Every dependency of a stack comes before it. *)
Fixpoint deps_ordered (seen : list string) (stacks : list Stack) : bool :=
  match stacks with
  | [] => true
  | s :: rest =>
      forallb (fun d => bool_decide (d ∈ seen)) (stack_deps s) &&
      deps_ordered (stack_id s :: seen) rest
  end.

(** The first stack whose dependencies are all in [deployed], and the
    other stacks in their order. *)
Fixpoint pick_ready (deployed : list string) (stacks : list Stack) : option (Stack * list Stack) :=
  match stacks with
  | [] => None
  | s :: rest =>
      if forallb (fun d => bool_decide (d ∈ deployed)) (stack_deps s) then Some (s, rest)
      else '(s', rest') ← pick_ready deployed rest; Some (s', s :: rest')
  end.

(** The order in which the stacks are deployed. *)
Fixpoint deploy_order (fuel : nat) (deployed : list string) (stacks : list Stack)
    : option (list Stack) :=
  match stacks, fuel with
  | [], _ => Some []
  | _, 0 => None
  | _, S fuel =>
      '(s, rest) ← pick_ready deployed stacks;
      order ← deploy_order fuel (stack_id s :: deployed) rest;
      Some (s :: order)
  end.

(** ** Deployment *)

Section deploy.
Variable physical_id : string -> string.

Definition construct_path (s : Stack) (logical_id : string) : string :=
  stack_id s +:+ "/" +:+ logical_id.

(** GetBucketLocation answers [None] for a bucket of us-east-1. *)
Definition location_constraint (r : string) : option string :=
  if String.eqb r "us-east-1" then None else Some r.

(** The creation of one resource of stack [s] in region [r]. *)
Definition create (r : string) (s : Stack) (res : Resource) (c : Cloud) : Cloud :=
  let rg := region_of c r in
  match res with
  | RRestApi l n =>
      set_region r (mkRegion (rg_rest_apis rg ++ [mkRestApi n (physical_id (construct_path s l))])
                      (rg_user_pools rg) (rg_endpoints rg) (rg_endpoint_configs rg)
                      (rg_models rg) (rg_log_groups rg) (rg_tables rg)
                      (rg_repositories rg) (rg_nat_gateways rg)) c
  | RUserPool l n cl cn =>
      set_region r (set_rg_user_pools
                      (rg_user_pools rg ++ [mkPool n (physical_id (construct_path s l))
                                              [mkClient cn (physical_id (construct_path s cl))]])
                      rg) c
  | RTable n => set_region r (set_rg_tables (rg_tables rg ++ [n]) rg) c
  | RRepository n => set_region r (set_rg_repositories (rg_repositories rg ++ [n]) rg) c
  | REcsService cl sv =>
      set_ecs_deployments (<[(r, cl, sv) := 1]> (ecs_deployments c)) c
  | RNatGateway l =>
      set_region r (mkRegion (rg_rest_apis rg) (rg_user_pools rg) (rg_endpoints rg)
                      (rg_endpoint_configs rg) (rg_models rg) (rg_log_groups rg) (rg_tables rg)
                      (rg_repositories rg)
                      (rg_nat_gateways rg ++ [mkNat (physical_id (construct_path s l)) "available"])) c
  | RBucket l =>
      set_buckets (buckets c ++ [mkBucket (physical_id (construct_path s l))
                                   (location_constraint r) []]) c
  end.

(** A resource whose name is taken cannot be created: table and
    repository names are unique in a region, bucket names in the whole of
    S3, and a service name in its cluster. *)
Definition name_taken (r : string) (s : Stack) (res : Resource) (c : Cloud) : bool :=
  let rg := region_of c r in
  match res with
  | RTable n => bool_decide (n ∈ rg_tables rg)
  | RRepository n => bool_decide (n ∈ rg_repositories rg)
  | REcsService cl sv => bool_decide (is_Some (ecs_deployments c !! (r, cl, sv)))
  | RBucket l => bool_decide (physical_id (construct_path s l) ∈ bucket_name <$> buckets c)
  | _ => false
  end.

(** The resources of a stack, each with its stack. *)
Definition stack_items (s : Stack) : list (Stack * Resource) := pair s <$> stack_resources s.

Fixpoint create_all (r : string) (items : list (Stack * Resource)) (c : Cloud) : option Cloud :=
  match items with
  | [] => Some c
  | (s, res) :: rest => if name_taken r s res c then None else create_all r rest (create r s res c)
  end.

(** A stack is created as a whole or rolled back: when one of its
    resources cannot be created the account is left as the stack found it. *)
Definition deploy_stack (r : string) (s : Stack) (c : Cloud) : option Cloud :=
  create_all r (stack_items s) c.

(** The stacks one after the other; the first stack that rolls back
    stops the deployment, the stacks before it stay deployed. *)
Fixpoint deploy_stacks (r : string) (stacks : list Stack) : script unit :=
  match stacks with
  | [] => mret tt
  | s :: rest =>
      c ← gets cloud;
      match deploy_stack r s c with
      | Some c' => update_cloud (fun _ => c');; deploy_stacks r rest
      | None => raise (ClientError "AlreadyExists")
      end
  end.

(** [cdk deploy --all] creates each stack after the stacks it depends
    on: it takes, again and again, the first stack of the assembly whose
    dependencies are all deployed; when none is, the dependencies have a
    cycle (or name a stack that is not in the assembly) and nothing is
    deployed. One stack is taken per round, so [length stacks] rounds
    are enough. *)
Definition cdk_deploy (assembly : string * list Stack) : script unit :=
  let '(r, stacks) := assembly in
  match deploy_order (length stacks) [] stacks with
  | Some order => deploy_stacks r order
  | None => raise (ValueError "cyclic dependency")
  end.

(** Synthesis then deployment. *)
Definition deploy_app : script unit := app_synth ≫= cdk_deploy.
End deploy.

(** * Properties *)

(** ** The deployment order *)

Lemma pick_ready_first deployed s rest :
  forallb (fun d => bool_decide (d ∈ deployed)) (stack_deps s) = true ->
  pick_ready deployed (s :: rest) = Some (s, rest).
Proof. intros Hs. simpl. by rewrite Hs. Qed.

(** An assembly whose order respects its dependencies is deployed in
    that order. *)
Lemma deploy_order_ordered stacks deployed :
  deps_ordered deployed stacks = true ->
  deploy_order (length stacks) deployed stacks = Some stacks.
Proof.
  revert deployed. induction stacks as [|s rest IH]; intros deployed; [done|].
  simpl. intros [Hs Hrest]%andb_prop.
  rewrite Hs. simpl. by rewrite IH.
Qed.

Lemma app_stacks_ordered : deps_ordered [] app_stacks = true.
Proof. vm_compute. reflexivity. Qed.

(** ** What a deployment creates *)

Section footprint.
Variable physical_id : string -> string.
Variable r : string.

Definition item_rest_apis (it : Stack * Resource) : list RestApi :=
  match it.2 with
  | RRestApi l n => [mkRestApi n (physical_id (construct_path it.1 l))]
  | _ => []
  end.
Definition item_user_pools (it : Stack * Resource) : list UserPool :=
  match it.2 with
  | RUserPool l n cl cn =>
      [mkPool n (physical_id (construct_path it.1 l)) [mkClient cn (physical_id (construct_path it.1 cl))]]
  | _ => []
  end.
Definition item_tables (it : Stack * Resource) : list string :=
  match it.2 with RTable n => [n] | _ => [] end.
Definition item_repositories (it : Stack * Resource) : list string :=
  match it.2 with RRepository n => [n] | _ => [] end.
Definition item_services (it : Stack * Resource) : list (string * string * string) :=
  match it.2 with REcsService cl sv => [(r, cl, sv)] | _ => [] end.
Definition item_buckets (it : Stack * Resource) : list string :=
  match it.2 with RBucket l => [physical_id (construct_path it.1 l)] | _ => [] end.

(** The names the items take are free in [c] and distinct. *)
Definition fresh (items : list (Stack * Resource)) (c : Cloud) : Prop :=
  let rg := region_of c r in
  (Forall (fun n => n ∉ rg_tables rg) (items ≫= item_tables) /\ NoDup (items ≫= item_tables)) /\
  (Forall (fun n => n ∉ rg_repositories rg) (items ≫= item_repositories) /\
     NoDup (items ≫= item_repositories)) /\
  (Forall (fun k => ecs_deployments c !! k = None) (items ≫= item_services) /\
     NoDup (items ≫= item_services)) /\
  (Forall (fun n => n ∉ bucket_name <$> buckets c) (items ≫= item_buckets) /\
     NoDup (items ≫= item_buckets)).

Lemma region_create s res :
  let c' := create physical_id r s res in
  forall c, rg_rest_apis (region_of (c' c) r) = rg_rest_apis (region_of c r) ++ item_rest_apis (s, res) /\
    rg_tables (region_of (c' c) r) = rg_tables (region_of c r) ++ item_tables (s, res) /\
    rg_repositories (region_of (c' c) r) = rg_repositories (region_of c r) ++ item_repositories (s, res).
Proof.
  intros c' c. unfold c'.
  destruct res; cbn [create item_rest_apis item_tables item_repositories snd];
    rewrite ?region_of_set_region, ?decide_True by done; simpl; rewrite ?app_nil_r; done.
Qed.

Lemma cloud_create s res c :
  buckets (create physical_id r s res c) = buckets c ++
    ((fun n => mkBucket n (location_constraint r) []) <$> item_buckets (s, res)) /\
  ecs_deployments (create physical_id r s res c) =
    foldr (fun k m => <[k := 1]> m) (ecs_deployments c) (item_services (s, res)) /\
  denied (create physical_id r s res c) = denied c.
Proof. destruct res; simpl; rewrite ?app_nil_r; done. Qed.

Ltac fresh_simpl :=
  repeat match goal with
  | H : Forall _ (_ :: _) |- _ => apply Forall_cons in H as [? ?]
  | H : NoDup (_ :: _) |- _ => apply NoDup_cons in H as [? ?]
  | H : _ /\ _ |- _ => destruct H
  end.

(** Creating a free resource leaves the other names free. *)
Lemma fresh_step s res l c :
  fresh ((s, res) :: l) c ->
  name_taken physical_id r s res c = false /\ fresh l (create physical_id r s res c).
Proof.
  unfold fresh. rewrite !bind_cons.
  destruct (region_create s res c) as (_ & -> & ->).
  destruct (cloud_create s res c) as (-> & -> & _). rewrite fmap_app.
  destruct res; cbn [item_tables item_repositories item_services item_buckets snd fst
    app foldr fmap list_fmap bucket_name] in *; rewrite ?app_nil_r; intros Hf; fresh_simpl;
    (split; [unfold name_taken; cbn; rewrite ?bool_decide_false by done;
             first [done | rewrite bool_decide_false; [done|]; intros [? ?]; congruence]|]);
    repeat split; auto using Forall_notin_snoc, Forall_lookup_insert_None.
Qed.

(** Free resources are all created; the REST APIs are listed after the
    ones already there, and the permissions do not change. *)
Lemma create_all_fresh l c :
  fresh l c ->
  exists c', create_all physical_id r l c = Some c' /\
    rg_rest_apis (region_of c' r) = rg_rest_apis (region_of c r) ++ (l ≫= item_rest_apis) /\
    denied c' = denied c.
Proof.
  revert c. induction l as [|[s res] l IH]; intros c Hf.
  - exists c. by rewrite app_nil_r.
  - destruct (fresh_step s res l c Hf) as [Ht Hf']. simpl. rewrite Ht.
    destruct (IH _ Hf') as (c' & Hc' & Ha & Hd). exists c'. split; [done|].
    destruct (region_create s res c) as (Ha' & _ & _). destruct (cloud_create s res c) as (_ & _ & Hd').
    rewrite Ha, Ha', Hd, Hd', <- app_assoc. done.
Qed.

Lemma create_all_app l1 l2 c :
  create_all physical_id r (l1 ++ l2) c = create_all physical_id r l1 c ≫= create_all physical_id r l2.
Proof.
  revert c. induction l1 as [|[s res] l1 IH]; intros c; [done|].
  simpl. by case_match.
Qed.
Lemma region_create_pools s res c :
  rg_user_pools (region_of (create physical_id r s res c) r) =
    rg_user_pools (region_of c r) ++ item_user_pools (s, res).
Proof.
  destruct res; cbn [create item_user_pools snd];
    rewrite ?region_of_set_region, ?decide_True by done; simpl; rewrite ?app_nil_r; done.
Qed.

(** The user pools a deployment creates are listed after the ones
    already there. *)
Lemma create_all_pools l c c' :
  create_all physical_id r l c = Some c' ->
  rg_user_pools (region_of c' r) = rg_user_pools (region_of c r) ++ (l ≫= item_user_pools).
Proof.
  revert c. induction l as [|[s res] l IH]; intros c; simpl.
  - intros [= ->]. by rewrite app_nil_r.
  - destruct (name_taken _ _ _ _ _); [done|]. intros Hc.
    by rewrite (IH _ Hc), region_create_pools, <-app_assoc.
Qed.
End footprint.

#[export] Instance fresh_dec physical_id r items c : Decision (fresh physical_id r items c).
Proof. unfold fresh. apply _. Defined.

(** ** Running the deployment *)

Lemma run_deploy_stacks physical_id r stacks w c' :
  create_all physical_id r (stacks ≫= stack_items) (cloud w) = Some c' ->
  run (deploy_stacks physical_id r stacks) w = (Ok tt, set_cloud c' w).
Proof.
  revert w. induction stacks as [|s rest IH]; intros w Hc.
  - simpl in Hc. simplify_eq. by destruct w.
  - rewrite bind_cons, create_all_app in Hc. simpl. rewrite run_bind, run_gets. simpl.
    unfold deploy_stack. destruct (create_all physical_id r (stack_items s) (cloud w)) as [c1|];
      [|done]. simpl in Hc. rewrite run_bind. simpl. by rewrite (IH (set_cloud c1 w)).
Qed.

(** [app.py] then [cdk deploy --all]: the stacks are deployed in the
    order of [app.py], which respects their dependencies. *)
Lemma run_deploy_app physical_id w r :
  environ w !! "AWS_DEFAULT_REGION" = Some r ->
  run (deploy_app physical_id) w = run (deploy_stacks physical_id r app_stacks) w.
Proof.
  intros Henv.
  assert (cdk_deploy physical_id (r, app_stacks) = deploy_stacks physical_id r app_stacks) as Hd.
  { unfold cdk_deploy. cbv beta iota. by rewrite (deploy_order_ordered app_stacks [] app_stacks_ordered). }
  unfold deploy_app, app_synth, environ_item.
  rewrite !run_bind, run_environ_get, Henv. cbv beta iota. rewrite !run_ret. by rewrite Hd.
Qed.

(** The REST APIs the application creates, in deployment order. *)
Lemma app_rest_apis physical_id :
  (app_stacks ≫= stack_items) ≫= item_rest_apis physical_id =
    [mkRestApi "MysfitsApi" (physical_id (construct_path apigateway_stack "Schema"));
     mkRestApi "ClickProcessingApi" (physical_id (construct_path firehose_stack "APIEndpoint"));
     mkRestApi "QuestionsAPI" (physical_id (construct_path xray_stack "APIEndpoint"));
     mkRestApi "RecommendationsAPI" (physical_id (construct_path sagemaker_stack "APIEndpoint"))].
Proof. reflexivity. Qed.

(** The last API called [name] on the first page, when an API of that
    name is on the page and only differently named ones follow it. *)
Lemma last_match_rest_apis_page old a rest :
  length old < rest_apis_limit ->
  Forall (fun b => rest_api_name b <> rest_api_name a) rest ->
  last_match (fun api => String.eqb (rest_api_name api) (rest_api_name a)) rest_api_id
    (take rest_apis_limit (old ++ a :: rest)) = Some (rest_api_id a).
Proof.
  intros Hlen Hrest. rewrite take_app_ge by lia.
  destruct (rest_apis_limit - length old) as [|n] eqn:E; [unfold rest_apis_limit in *; lia|].
  rewrite last_match_spec. simpl. rewrite filter_app, filter_cons_True by apply String.eqb_refl.
  rewrite (proj2 (filter_nil_Forall _ (take n rest))); [by rewrite last_snoc|].
  eapply Forall_impl; [apply Forall_take, Hrest|]. intros b Hb. by rewrite String.eqb_eq.
Qed.

(** ** The deployed application as the scripts see it *)

(** Deploying the application ([app.py], then [cdk deploy --all])
    into [AWS_DEFAULT_REGION], on an account where the names the stacks
    take are free and fewer than 25 REST APIs exist, succeeds, and the
    lookup [prepare_files.py] makes in its web mode then finds the
    [MysfitsApi] the APIGateway stack created: the [prod] URL of its
    physical id. (With 25 or more APIs already there, the unpaginated
    listing misses it.) *)
Theorem deploy_app_mysfits_api physical_id w r :
  environ w !! "AWS_DEFAULT_REGION" = Some r ->
  fresh physical_id r (app_stacks ≫= stack_items) (cloud w) ->
  length (rg_rest_apis (region_in w r)) < rest_apis_limit ->
  "apigateway:GetRestApis" ∉ denied (cloud w) ->
  physical_id (construct_path apigateway_stack "Schema") <> "" ->
  exists w', run (deploy_app physical_id) w = (Ok tt, w') /\
    run (get_execute_api_endpoint "MysfitsApi" r) w' =
      (Ok (Some (execute_api_url (physical_id (construct_path apigateway_stack "Schema")) r)), w').
Proof.
  intros Henv Hfresh Hlen Hd Hid.
  destruct (create_all_fresh physical_id r _ _ Hfresh) as (c' & Hc & Hapis & Hden).
  exists (set_cloud c' w). split; [rewrite (run_deploy_app _ _ r Henv); by apply run_deploy_stacks|].
  rewrite run_get_execute_api_endpoint_response. cbn [get_rest_apis aws_provider].
  unfold aws_get_rest_apis. rewrite run_aws_allowed by (simpl; by rewrite Hden).
  rewrite run_gets. unfold api_endpoint_of, rest_apis_page, region_in. cbn [fst cloud set_cloud].
  rewrite Hapis, app_rest_apis, (last_match_rest_apis_page _ (mkRestApi "MysfitsApi" _)); [|done|].
  - cbn [rest_api_id]. destruct (truthy _) eqn:E; [done|]. by apply truthy_string_false in E.
  - repeat constructor; simpl; congruence.
Qed.

(** C6: A redeployment needs the cleanup: [MysfitsTable] survives the
    deletion of its stack (a table is retained by default), and while it
    is there the first stack of [app.py], the DynamoDB stack, rolls back
    and the deployment stops with the account unchanged. This is why
    [clean_utils.py] deletes the tables by name. *)
Lemma deploy_app_retained_table physical_id w r :
  environ w !! "AWS_DEFAULT_REGION" = Some r ->
  mysfits_table_name ∈ rg_tables (region_in w r) ->
  run (deploy_app physical_id) w = (Raise (ClientError "AlreadyExists"), w).
Proof.
  intros Henv Ht. rewrite (run_deploy_app _ _ r Henv).
  cbn [deploy_stacks app_stacks]. rewrite run_bind, run_gets.
  unfold deploy_stack, stack_items. cbn [stack_resources table_stack mysfits_table_resource fmap list_fmap create_all].
  assert (name_taken physical_id r table_stack mysfits_table_resource (cloud w) = true) as ->;
    [by apply bool_decide_true|done].
Qed.

(** ** Witnesses *)

Definition demo_physical_id (path : string) : string := "phys-" +:+ path.

Definition demo_stack_world : World :=
  mkWorld ∅ ∅ [] {[ "AWS_DEFAULT_REGION" := "eu-west-1" ]}
    (mkCloud {[ "eu-west-1" := mkRegion [mkRestApi "LegacyApi" "q1w2e3"] [] [] [] [] [] [] [] [] ]}
       [mkBucket "mythicalmysfits-site" (Some "eu-west-1") []] [] ∅ ∅).

Lemma deploy_app_mysfits_api_witness :
  exists w', run (deploy_app demo_physical_id) demo_stack_world = (Ok tt, w') /\
    run (get_execute_api_endpoint "MysfitsApi" "eu-west-1") w' =
      (Ok (Some (execute_api_url "phys-MythicalMysfits-APIGateway-stack/Schema" "eu-west-1")), w').
Proof.
  apply (deploy_app_mysfits_api demo_physical_id demo_stack_world "eu-west-1").
  - reflexivity.
  - apply (bool_decide_unpack _). vm_compute. reflexivity.
  - vm_compute. lia.
  - apply (bool_decide_unpack _). vm_compute. reflexivity.
  - vm_compute. discriminate.
Defined.

Lemma deploy_app_retained_table_witness :
  let w := mkWorld ∅ ∅ [] {[ "AWS_DEFAULT_REGION" := "eu-west-1" ]}
             (mkCloud {[ "eu-west-1" := mkRegion [] [] [] [] [] [] [mysfits_table_name] [] [] ]}
                [] [] ∅ ∅) in
  run (deploy_app demo_physical_id) w = (Raise (ClientError "AlreadyExists"), w).
Proof.
  intros w. apply (deploy_app_retained_table demo_physical_id w "eu-west-1").
  - reflexivity.
  - vm_compute. left.
Defined.
