(* ===== verification/Schedule.v ===== *)
(** * The order in which [cdk deploy --all] deploys the stacks of [app.py]

    [cdk deploy] starts a stack once every stack it depends on is
    deployed; among the stacks that are ready, the order is the CLI's
    choice (and [cdk deploy <stack>] deploys a stack with its dependencies
    only). This file models the choice as a step relation
    on a schedule state (the stacks deployed, most recent first, and the
    stacks still pending): one step deploys any pending stack whose
    dependencies are deployed. The deterministic scheduler of [Stacks.v]
    ([deploy_order], which takes the first ready stack, with one round of
    fuel per stack) is one run of the relation.

    The dependencies are those of [Stacks.v], read off the constructs
    [app.py] passes from one stack's constructor to another's
    (src/webgen/app.py:42-70); [app_py_order] lists the orders these
    arguments force, and every ordered arrangement of the stacks respects
    them ([declared_pairs_respected]). The theorems show that the scheduler
    never deploys a stack before its dependencies (an invariant of every
    reachable state), that every schedule of [app.py]'s stacks deploys all
    ten of them (liveness: no run gets stuck, none is infinite), and that
    [length stacks] rounds of fuel are enough for [deploy_order] to find an
    order whenever one exists (termination). *)

From Stdlib Require Import String.
From stdpp Require Import base list strings relations.
From S2P Require Import Spec2Rocq PyStr Stacks.

(** ** The schedule state and its steps *)

(** The dependencies of [s] are all among [deployed]: the test of
    [pick_ready] and [deps_ordered]. *)
Definition ready (deployed : list string) (s : Stack) : bool :=
  forallb (fun d => bool_decide (d ∈ deployed)) (stack_deps s).

Record Sched := mkSched {
  sch_done : list Stack;      (** deployed, the most recent first *)
  sch_pending : list Stack
}.

Definition done_ids (st : Sched) : list string := stack_id <$> sch_done st.

(** One stack starts: any pending stack whose dependencies are deployed. *)
Inductive sched_step : Sched -> Sched -> Prop :=
| sched_deploy dn l1 s l2 :
    ready (stack_id <$> dn) s = true ->
    sched_step (mkSched dn (l1 ++ s :: l2)) (mkSched (s :: dn) (l1 ++ l2)).

Definition sched_finished (st : Sched) : Prop := sch_pending st = [].

(** [eventually P st]: every run from [st] reaches a state satisfying
    [P]: either [st] does, or [st] can step and every successor
    eventually does. *)
Inductive eventually (P : Sched -> Prop) : Sched -> Prop :=
| eventually_now st : P st -> eventually P st
| eventually_step st :
    (exists st', sched_step st st') ->
    (forall st', sched_step st st' -> eventually P st') ->
    eventually P st.

(** An order of the stacks that respects their dependencies exists. *)
Definition schedulable (deployed : list string) (stacks : list Stack) : Prop :=
  exists order, order ≡ₚ stacks /\ deps_ordered deployed order = true.

(** The deployment history respects the dependencies: each stack was
    deployed after the stacks it depends on. *)
Definition history_ok (st : Sched) : Prop := deps_ordered [] (rev (sch_done st)) = true.

(** The order the constructor arguments of [app.py] force, as pairs
    [(a, b)]: [a] is deployed after [b]. The ECS stack is given the
    network stack's VPC and the ECR stack's repository (app.py:42-45),
    the API Gateway stack the ECS stack's load balancer and the Cognito
    stack's user pool (61-65), the Kinesis Firehose stack the DynamoDB
    stack's table (68-70). *)
Definition app_py_order : list (string * string) :=
  [("MythicalMysfits-ECS-stack", "MythicalMysfits-Network-stack");
   ("MythicalMysfits-ECS-stack", "MythicalMysfits-ECR-stack");
   ("MythicalMysfits-APIGateway-stack", "MythicalMysfits-ECS-stack");
   ("MythicalMysfits-APIGateway-stack", "MythicalMysfits-Cognito-stack");
   ("MythicalMysfits-KinesisFirehose-stack", "MythicalMysfits-DynamoDB-stack")].

(** [b] is deployed before the stack [a] in [order]. *)
Definition deployed_before (order : list Stack) (b a : string) : Prop :=
  exists o1 s o2, order = o1 ++ s :: o2 /\ stack_id s = a /\ b ∈ stack_id <$> o1.

(** The stack [a] of [stacks] lists [b] among its dependencies. *)
Definition declares (stacks : list Stack) (a b : string) : bool :=
  existsb (fun s => bool_decide (stack_id s = a) && bool_decide (b ∈ stack_deps s)) stacks.

(** * Properties *)

(** ** Dependencies and the deployed set *)

Lemma ready_mono d d' s :
  (forall x, x ∈ d -> x ∈ d') -> ready d s = true -> ready d' s = true.
Proof.
  unfold ready. intros Hd. rewrite !forallb_forall. intros H x Hx.
  apply bool_decide_eq_true. apply Hd, (bool_decide_eq_true_1 _), H, Hx.
Qed.

Lemma deps_ordered_cons seen s l :
  deps_ordered seen (s :: l) = ready seen s && deps_ordered (stack_id s :: seen) l.
Proof. done. Qed.

Lemma deps_ordered_mono seen seen' l :
  (forall x, x ∈ seen -> x ∈ seen') -> deps_ordered seen l = true -> deps_ordered seen' l = true.
Proof.
  revert seen seen'. induction l as [|s l IH]; intros seen seen' Hs; [done|].
  rewrite !deps_ordered_cons. intros [Hr Hl]%andb_prop. apply andb_true_intro. split.
  - by apply (ready_mono seen).
  - apply (IH (stack_id s :: seen)); [|done]. intros x. rewrite !elem_of_cons. naive_solver.
Qed.

Lemma deps_ordered_app seen l1 l2 :
  deps_ordered seen (l1 ++ l2) = deps_ordered seen l1 && deps_ordered (rev (stack_id <$> l1) ++ seen) l2.
Proof.
  revert seen. induction l1 as [|s l1 IH]; intros seen; [done|].
  simpl. rewrite IH, andb_assoc. by rewrite <-app_assoc.
Qed.

(** Taking a ready stack out of an ordered list keeps the rest ordered,
    once that stack is deployed. *)
Lemma deps_ordered_remove seen o1 s o2 :
  deps_ordered seen (o1 ++ s :: o2) = true -> deps_ordered (stack_id s :: seen) (o1 ++ o2) = true.
Proof.
  revert seen. induction o1 as [|x o1 IH]; intros seen.
  - by intros [_ H]%andb_prop.
  - simpl. intros [Hx H]%andb_prop. apply andb_true_intro. split.
    + apply (ready_mono seen); [|done]. set_solver.
    + apply (deps_ordered_mono (stack_id s :: stack_id x :: seen)); [set_solver|]. by apply IH.
Qed.

Lemma schedulable_remove d l1 s l2 :
  schedulable d (l1 ++ s :: l2) -> schedulable (stack_id s :: d) (l1 ++ l2).
Proof.
  intros (order & Hp & Ho).
  assert (s ∈ order) as [o1 [o2 ->]]%list_elem_of_split by (rewrite Hp; set_solver).
  exists (o1 ++ o2). split.
  - by apply Permutation_app_inv in Hp.
  - by apply deps_ordered_remove.
Qed.

(** An assembly with an order and a pending stack has a ready stack. *)
Lemma schedulable_progress d l :
  schedulable d l -> l <> [] -> exists l1 s l2, l = l1 ++ s :: l2 /\ ready d s = true.
Proof.
  intros ([|o order] & Hp & Ho) Hl.
  - apply Permutation_nil in Hp. done.
  - rewrite deps_ordered_cons in Ho. apply andb_prop in Ho as [Hr _].
    assert (o ∈ l) as [l1 [l2 ->]]%list_elem_of_split by (rewrite <-Hp; set_solver).
    by exists l1, o, l2.
Qed.

(** A dependency-ordered list deploys each dependency of a stack before it. *)
Lemma deps_before order s d :
  deps_ordered [] order = true -> s ∈ order -> d ∈ stack_deps s -> deployed_before order d (stack_id s).
Proof.
  intros Ho Hs Hd. apply list_elem_of_split in Hs as (o1 & o2 & ->).
  exists o1, s, o2. split_and!; [done|done|].
  rewrite deps_ordered_app in Ho. apply andb_prop in Ho as [_ Ho].
  rewrite deps_ordered_cons in Ho. apply andb_prop in Ho as [Hr _].
  unfold ready in Hr. rewrite forallb_forall in Hr. apply list_elem_of_In in Hd.
  apply Hr, bool_decide_eq_true in Hd. rewrite app_nil_r in Hd.
  apply list_elem_of_In, in_rev, list_elem_of_In in Hd. done.
Qed.

(** A dependency-ordered arrangement of [app.py]'s stacks deploys [b]
    before [a] for every pair [(a, b)] that [declares] finds among the
    stacks' dependencies. *)
Lemma declared_pairs_respected order pairs :
  order ≡ₚ app_stacks -> deps_ordered [] order = true ->
  forallb (fun '(a, b) => declares app_stacks a b) pairs = true ->
  Forall (fun '(a, b) => deployed_before order b a) pairs.
Proof.
  intros Hp Ho Hd. apply Forall_forall. intros [a b] Hab.
  rewrite forallb_forall in Hd. apply list_elem_of_In in Hab. specialize (Hd _ Hab). cbv beta iota in Hd.
  unfold declares in Hd. apply existsb_exists in Hd as (s & Hs & Hsd).
  apply andb_prop in Hsd as [<-%bool_decide_eq_true Hb%bool_decide_eq_true].
  apply deps_before; [done| |done]. rewrite Hp. by apply list_elem_of_In.
Qed.

(** ** The step relation *)

Lemma sched_step_length st st' :
  sched_step st st' -> length (sch_pending st') < length (sch_pending st).
Proof. destruct 1. simpl. rewrite !length_app. simpl. lia. Qed.

(** A step keeps the stacks: the deployed and the pending ones together
    are the same stacks. *)
Lemma sched_step_stacks st st' :
  sched_step st st' -> sch_done st' ++ sch_pending st' ≡ₚ sch_done st ++ sch_pending st.
Proof. destruct 1. simpl. rewrite Permutation_middle. by rewrite (Permutation_middle l1 l2 s). Qed.

Lemma sched_step_history st st' : sched_step st st' -> history_ok st -> history_ok st'.
Proof.
  destruct 1 as [dn l1 s l2 Hr]. unfold history_ok. simpl. intros Hh.
  rewrite deps_ordered_app, Hh. simpl. rewrite app_nil_r. unfold ready in Hr.
  rewrite andb_true_r. apply (ready_mono (stack_id <$> dn)); [|done].
  intros x. rewrite !list_elem_of_In, <-in_rev, <-!list_elem_of_In, !list_elem_of_fmap.
  setoid_rewrite list_elem_of_In. setoid_rewrite <-in_rev. done.
Qed.

Lemma sched_step_schedulable st st' :
  sched_step st st' -> schedulable (done_ids st) (sch_pending st) ->
  schedulable (done_ids st') (sch_pending st').
Proof. destruct 1. apply schedulable_remove. Qed.

Lemma rtc_sched_history st st' : rtc sched_step st st' -> history_ok st -> history_ok st'.
Proof. induction 1; eauto using sched_step_history. Qed.

Lemma rtc_sched_stacks st st' :
  rtc sched_step st st' -> sch_done st' ++ sch_pending st' ≡ₚ sch_done st ++ sch_pending st.
Proof. induction 1 as [|x y z H _ IH]; [done|]. by rewrite IH, (sched_step_stacks _ _ H). Qed.

Lemma eventually_rtc (P : Sched -> Prop) st :
  (forall st', rtc sched_step st st' -> sch_pending st' = [] -> P st') ->
  schedulable (done_ids st) (sch_pending st) -> eventually P st.
Proof.
  remember (length (sch_pending st)) as n eqn:En. revert st En.
  induction (lt_wf n) as [n _ IH]. intros st -> HP Hs.
  destruct (decide (sch_pending st = [])) as [He|Hne].
  - apply eventually_now, HP; [done|done].
  - apply eventually_step.
    + destruct st as [dn l]. simpl in *. destruct (schedulable_progress _ _ Hs Hne) as (l1 & s & l2 & -> & Hr).
      eexists. by constructor.
    + intros st' Hst. apply (IH (length (sch_pending st'))); [by apply sched_step_length| done | |].
      * intros st'' Hr. apply HP. by econstructor.
      * by apply (sched_step_schedulable st).
Qed.

(** ** The deterministic scheduler of [Stacks.v] *)

Lemma pick_ready_spec d l s rest :
  pick_ready d l = Some (s, rest) ->
  exists l1 l2, l = l1 ++ s :: l2 /\ rest = l1 ++ l2 /\ ready d s = true.
Proof.
  revert rest. induction l as [|x l IH]; intros rest; [done|]. simpl.
  destruct (forallb _ (stack_deps x)) eqn:Hx.
  - intros [= <- <-]. by exists [], l.
  - destruct (pick_ready d l) as [[s' rest']|] eqn:E; [|done]. simpl. intros [= -> <-].
    destruct (IH rest' eq_refl) as (l1 & l2 & -> & -> & Hr). by exists (x :: l1), l2.
Qed.

Lemma pick_ready_some d l1 s l2 :
  ready d s = true -> exists s' rest, pick_ready d (l1 ++ s :: l2) = Some (s', rest).
Proof.
  intros Hs. induction l1 as [|x l1 IH]; simpl.
  - unfold ready in Hs. rewrite Hs. eauto.
  - destruct (forallb _ (stack_deps x)); [eauto|]. destruct IH as (s' & rest & ->). simpl. eauto.
Qed.

(** Each round of [deploy_order] is a step of the scheduler: the order it
    finds is one run, from the state it starts in to a finished state. *)
Lemma deploy_order_run fuel dn l order :
  deploy_order fuel (stack_id <$> dn) l = Some order ->
  rtc sched_step (mkSched dn l) (mkSched (rev order ++ dn) []).
Proof.
  revert dn l order. induction fuel as [|fuel IH]; intros dn l order.
  - destruct l; [intros [= <-]; done|done].
  - destruct l as [|x l]; [intros [= <-]; done|]. cbn [deploy_order].
    destruct (pick_ready _ (x :: l)) as [[s rest]|] eqn:Hp; [|done]. simpl.
    destruct (deploy_order fuel _ rest) as [order'|] eqn:Ho; [|done]. simpl. intros [= <-].
    destruct (pick_ready_spec _ _ _ _ Hp) as (l1 & l2 & Hl & -> & Hr). rewrite Hl.
    eapply rtc_l; [by constructor|]. simpl. rewrite <-app_assoc. simpl.
    by apply (IH (s :: dn)).
Qed.

(** Any [fuel] of at least the number of stacks lets [deploy_order]
    find an order whenever one exists, and the order it finds is a
    permutation of the stacks that respects their dependencies. *)
Lemma deploy_order_complete_fuel fuel d l :
  length l <= fuel -> schedulable d l ->
  exists order, deploy_order fuel d l = Some order /\ order ≡ₚ l /\ deps_ordered d order = true.
Proof.
  revert d l. induction fuel as [|fuel IH]; intros d l Hlen Hs.
  - destruct l; [by exists []|simpl in Hlen; lia].
  - destruct l as [|x l]; [by exists []|].
    destruct (schedulable_progress d (x :: l) Hs) as (l1 & s & l2 & Hl & Hr); [done|].
    destruct (pick_ready_some d l1 s l2 Hr) as (s' & rest & Hp). rewrite <-Hl in Hp.
    destruct (pick_ready_spec _ _ _ _ Hp) as (k1 & k2 & Hk & -> & Hr').
    rewrite Hk in Hs, Hlen. rewrite length_app in Hlen. simpl in Hlen.
    destruct (IH (stack_id s' :: d) (k1 ++ k2)) as (order & Ho & Hperm & Hord);
      [rewrite length_app; lia|by apply schedulable_remove|].
    exists (s' :: order). cbn [deploy_order]. rewrite Hp. simpl. rewrite Ho. split; [done|]. split.
    + rewrite Hk, Hperm. apply Permutation_middle.
    + apply andb_true_intro. by split.
Qed.

(** ** The stacks of [app.py] *)

(** C7: Every schedule [cdk deploy] may choose for the stacks of
    [app.py] deploys all of them: no run gets stuck with a stack whose
    dependencies can never be deployed, no run is infinite, and every run
    ends with the ten stacks deployed, each after the stacks it depends
    on; in particular the ECS stack after the network and ECR stacks, the
    API Gateway stack after the ECS and Cognito stacks, and the Kinesis
    Firehose stack after the DynamoDB stack ([app_py_order]). *)
Theorem app_stacks_eventually_deployed :
  eventually (fun st => sch_pending st = [] /\ rev (sch_done st) ≡ₚ app_stacks /\ history_ok st /\
                        Forall (fun '(a, b) => deployed_before (rev (sch_done st)) b a) app_py_order)
    (mkSched [] app_stacks).
Proof.
  apply eventually_rtc; [|exists app_stacks; split; [done|vm_compute; reflexivity]].
  intros st Hr Hp. pose proof (rtc_sched_history _ _ Hr ltac:(done)) as Hh.
  assert (rev (sch_done st) ≡ₚ app_stacks) as Hs.
  { pose proof (rtc_sched_stacks _ _ Hr) as Hs. rewrite Hp, app_nil_r in Hs. simpl in Hs.
    by rewrite <-Hs, <-Permutation_rev. }
  split_and!; [done|done|done|]. apply declared_pairs_respected; [done|done|vm_compute; reflexivity].
Qed.

(** C29: Whatever order [app.py] built its stacks in, [length stacks]
    rounds of [deploy_order] are enough: [cdk deploy] finds an order of
    them (it does not report a cyclic dependency), that order holds
    every stack once, each after the stacks it depends on and in
    particular in the order [app.py]'s constructor arguments force
    ([app_py_order]), and it is one of the schedules of [sched_step]. *)
Theorem app_deploy_order_found stacks :
  stacks ≡ₚ app_stacks ->
  exists order, deploy_order (length stacks) [] stacks = Some order /\
    order ≡ₚ app_stacks /\ deps_ordered [] order = true /\
    Forall (fun '(a, b) => deployed_before order b a) app_py_order /\
    rtc sched_step (mkSched [] stacks) (mkSched (rev order) []).
Proof.
  intros Hp.
  destruct (deploy_order_complete_fuel (length stacks) [] stacks) as (order & Hd & Hperm & Hok);
    [done|exists app_stacks; split; [done|vm_compute; reflexivity]|].
  assert (order ≡ₚ app_stacks) as Ho by (by rewrite Hperm, Hp).
  exists order. split_and!; [done|done|done|apply declared_pairs_respected; [done|done|vm_compute; reflexivity]|].
  rewrite <-(app_nil_r (rev order)). by apply (deploy_order_run (length stacks)).
Qed.

(** C30: The table the Fargate service populates is not a dependency of
    the service: [app.py] leaves [ecs_stack.add_dependency(table_stack)]
    commented out, so a schedule exists in which the ECS stack is
    deployed, its tasks started, while the DynamoDB stack that creates
    [MysfitsTable] is still pending. *)
Theorem ecs_stack_before_table_stack :
  exists st, rtc sched_step (mkSched [] app_stacks) st /\
    ecs_stack ∈ sch_done st /\ table_stack ∈ sch_pending st.
Proof.
  eexists. split.
  - eapply rtc_l; [by apply (sched_deploy [] [table_stack] network_stack)|].
    eapply rtc_l; [by apply (sched_deploy [network_stack] [table_stack] ecr_stack)|].
    eapply rtc_l; [by apply (sched_deploy [ecr_stack; network_stack] [table_stack] ecs_stack)|].
    reflexivity.
  - simpl. split; left.
Qed.

Lemma app_deploy_order_found_witness :
  rev app_stacks ≡ₚ app_stacks /\
  exists order, deploy_order (length (rev app_stacks)) [] (rev app_stacks) = Some order /\
    order ≡ₚ app_stacks /\ deps_ordered [] order = true /\
    Forall (fun '(a, b) => deployed_before order b a) app_py_order /\
    rtc sched_step (mkSched [] (rev app_stacks)) (mkSched (rev order) []).
Proof.
  split; [symmetry; apply Permutation_rev|].
  apply app_deploy_order_found. symmetry. apply Permutation_rev.
Defined.
