(* ===== verification/Iam.v ===== *)
(** * IAM policy statements and their evaluation

    The stacks of src/webgen/webgen build their permissions with the CDK's
    [aws_iam.PolicyStatement]: an empty statement (effect [ALLOW]) grown
    by [add_actions], [add_resources] and [add_all_resources], and its
    [effect] set; the statements go to a role ([Role.add_to_policy], a
    [Policy] attached to roles, a Lambda function's [initial_policy]).
    This file gives the statement builder, the wildcard matching IAM uses
    for action names and resource ARNs, and the evaluation of a list of
    statements: a request is allowed when an [Allow] statement covers it
    and no [Deny] statement does; otherwise it is implicitly denied.

    [wmatch] is the executable matcher ([*] any sequence, [?] any one
    character); [glob] is its relational specification, and
    [wmatch_glob] proves them equivalent. Action names are compared
    without regard to case, as IAM does; resource ARNs with it. *)

From Stdlib Require Import String Ascii ZArith Bool.
From stdpp Require Import base list strings.
From S2P Require Import Spec2Rocq PyStr.

(** ** Wildcard matching *)

Fixpoint wmatch (p s : string) : bool :=
  match p with
  | EmptyString => match s with EmptyString => true | String _ _ => false end
  | String c p' =>
      if Ascii.eqb c "*"%char then
        (fix star (s : string) : bool :=
           wmatch p' s || match s with EmptyString => false | String _ s' => star s' end) s
      else
        match s with
        | EmptyString => false
        | String d s' => (Ascii.eqb c "?"%char || Ascii.eqb c d) && wmatch p' s'
        end
  end.

(** The specification: [*] matches any sequence (by consuming the text
    one character at a time), [?] any one character, every other
    character itself. *)
Inductive glob : string -> string -> Prop :=
| glob_nil : glob "" ""
| glob_star_nil p s : glob p s -> glob (String "*" p) s
| glob_star_cons p c s : glob (String "*" p) s -> glob (String "*" p) (String c s)
| glob_any p c s : glob p s -> glob (String "?" p) (String c s)
| glob_char p c s : c <> "*"%char -> c <> "?"%char -> glob p s -> glob (String c p) (String c s).

(** ** Statements *)

Inductive Effect := Allow | Deny.

#[export] Instance Effect_eq_dec : EqDecision Effect.
Proof. solve_decision. Defined.

Record Statement := mkStatement {
  st_effect : Effect;
  st_actions : list string;
  st_resources : list string
}.

(** [_iam.PolicyStatement()]: no action, no resource, effect [ALLOW]. *)
Definition policy_statement : Statement := mkStatement Allow [] [].

(** [stm.add_actions(a1, a2, ...)]. *)
Definition add_actions (acts : list string) (st : Statement) : Statement :=
  mkStatement (st_effect st) (st_actions st ++ acts) (st_resources st).

(** [stm.add_resources(r1, r2, ...)]. *)
Definition add_resources (arns : list string) (st : Statement) : Statement :=
  mkStatement (st_effect st) (st_actions st) (st_resources st ++ arns).

(** [stm.add_all_resources()]: the resource ["*"]. *)
Definition add_all_resources (st : Statement) : Statement := add_resources ["*"] st.

(** [stm.effect = e]. *)
Definition set_effect (e : Effect) (st : Statement) : Statement :=
  mkStatement e (st_actions st) (st_resources st).

(** A statement IAM accepts names at least one action and one resource
    (the CDK refuses to synthesise one that does not). *)
Definition statement_valid (st : Statement) : Prop :=
  st_actions st <> [] /\ st_resources st <> [].

#[export] Instance statement_valid_dec st : Decision (statement_valid st).
Proof. unfold statement_valid. apply _. Defined.

(** ** Evaluation *)

Definition action_matches (pattern action : string) : bool :=
  wmatch (lower pattern) (lower action).

Definition applies (st : Statement) (action resource : string) : bool :=
  existsb (fun p => action_matches p action) (st_actions st) &&
  existsb (fun p => wmatch p resource) (st_resources st).

Definition effect_applies (e : Effect) (sts : list Statement) (action resource : string) : bool :=
  existsb (fun st => bool_decide (st_effect st = e) && applies st action resource) sts.

(** A request is allowed when an [Allow] statement applies and no [Deny]
    statement does. *)
Definition allows (sts : list Statement) (action resource : string) : bool :=
  effect_applies Allow sts action resource && negb (effect_applies Deny sts action resource).

(** ** Roles *)

(** A role: its name ([role_name=...], or generated), the service
    principal that assumes it, and its statements. *)
Record Role := mkRole {
  role_name : option string;
  assumed_by : string;
  role_statements : list Statement
}.

(** [_iam.Role(self, id, role_name=n, assumed_by=ServicePrincipal(p))]. *)
Definition new_role (name : option string) (principal : string) : Role := mkRole name principal [].

(** [role.add_to_policy(stm)], and a [_iam.Policy(statements=..., roles=[role])]. *)
Definition add_to_policy (sts : list Statement) (r : Role) : Role :=
  mkRole (role_name r) (assumed_by r) (role_statements r ++ sts).

(** The ARN of a construct, as CloudFormation resolves it. *)
Definition arn (path : string) : string := "arn:aws:" +:+ path.

(** [bucket.arn_for_objects(pattern)]. *)
Definition arn_for_objects (bucket_arn pattern : string) : string := bucket_arn +:+ "/" +:+ pattern.

(** * Properties *)

(** ** The matcher meets its specification *)

Lemma glob_star_inv p s : glob (String "*" p) s -> glob p s \/ exists c s', s = String c s' /\ glob (String "*" p) s'.
Proof. inversion 1; subst; eauto. congruence. Qed.

Lemma wmatch_star_nil p : wmatch (String "*" p) "" = wmatch p "".
Proof. simpl. by rewrite orb_false_r. Qed.

Lemma wmatch_star_cons p d s :
  wmatch (String "*" p) (String d s) = wmatch p (String d s) || wmatch (String "*" p) s.
Proof. reflexivity. Qed.

Lemma wmatch_glob p s : wmatch p s = true <-> glob p s.
Proof.
  revert s. induction p as [|c p IH]; intros s.
  - destruct s; simpl; split; intros H; try done; [constructor|inversion H].
  - destruct (Ascii.eqb c "*") eqn:Ec.
    + apply Ascii.eqb_eq in Ec as ->. induction s as [|d s IHs].
      * rewrite wmatch_star_nil, IH. split; [by constructor|].
        intros [H|(? & ? & [=] & _)]%glob_star_inv; done.
      * rewrite wmatch_star_cons, orb_true_iff, IH, IHs. split.
        { intros [H|H]; by constructor. }
        intros [H|(? & ? & [= -> ->] & H)]%glob_star_inv; auto.
    + assert (c <> "*"%char) as Hc by by apply Ascii.eqb_neq.
      destruct s as [|d s]; simpl; rewrite Ec.
      * split; [done|]. inversion 1; congruence.
      * rewrite andb_true_iff, orb_true_iff, IH, !Ascii.eqb_eq.
        split.
        { intros [[->| ->] H]; [by constructor|].
          destruct (decide (d = "?"%char)) as [->|Hq]; by constructor. }
        inversion 1; subst; auto; congruence.
Qed.

(** ** Matching lemmas *)

Lemma wmatch_star s : wmatch "*" s = true.
Proof. apply wmatch_glob. induction s; constructor; [constructor|done]. Qed.

(** A pattern without wildcards matches exactly itself. *)
Fixpoint literal (p : string) : bool :=
  match p with
  | EmptyString => true
  | String c p' => negb (Ascii.eqb c "*"%char) && negb (Ascii.eqb c "?"%char) && literal p'
  end.

Lemma wmatch_literal_app x p s :
  literal x = true -> wmatch (x +:+ p) (x +:+ s) = wmatch p s.
Proof.
  induction x as [|c x IH]; [done|]. simpl.
  intros [[Hs%negb_true_iff Hq%negb_true_iff]%andb_true_iff Hx]%andb_true_iff.
  rewrite Hs, Hq, Ascii.eqb_refl. simpl. by apply IH.
Qed.

Lemma wmatch_literal x s : literal x = true -> wmatch x s = true <-> s = x.
Proof.
  revert s. induction x as [|c x IH]; intros s; simpl.
  - destruct s; split; congruence.
  - intros [[Hs%negb_true_iff Hq%negb_true_iff]%andb_true_iff Hx]%andb_true_iff.
    rewrite Hs. destruct s as [|d s]; [split; congruence|].
    rewrite Hq, andb_true_iff, IH by done. simpl. rewrite Ascii.eqb_eq. naive_solver.
Qed.

(** [arn_for_objects(b, '*')] covers every object of the bucket. *)
Lemma wmatch_objects b key : literal b = true -> wmatch (arn_for_objects b "*") (arn_for_objects b key) = true.
Proof.
  intros Hb. unfold arn_for_objects. rewrite wmatch_literal_app by done. apply wmatch_star.
Qed.

(** ** Evaluation lemmas *)

Lemma allows_app sts1 sts2 a r :
  effect_applies Deny (sts1 ++ sts2) a r = false ->
  allows (sts1 ++ sts2) a r = effect_applies Allow sts1 a r || effect_applies Allow sts2 a r.
Proof. unfold allows, effect_applies. rewrite !existsb_app. intros ->. by rewrite andb_true_r. Qed.

(** Statements that all allow: no [Deny] applies. *)
Definition all_allow (sts : list Statement) : Prop := Forall (fun st => st_effect st = Allow) sts.

Lemma effect_applies_deny_all_allow sts a r : all_allow sts -> effect_applies Deny sts a r = false.
Proof.
  unfold effect_applies. induction 1 as [|st sts Hst _ IH]; [done|].
  simpl. by rewrite Hst, IH.
Qed.

Lemma allows_all_allow sts a r :
  all_allow sts ->
  allows sts a r = true <-> exists st, st ∈ sts /\ applies st a r = true.
Proof.
  intros Hall. unfold allows. rewrite effect_applies_deny_all_allow by done. rewrite andb_true_r.
  unfold effect_applies. rewrite existsb_exists.
  split; intros (st & Hin & H); exists st; (split; [by apply list_elem_of_In|]).
  - by apply andb_true_iff in H as [_ ->].
  - unfold all_allow in Hall. rewrite Forall_forall in Hall.
    rewrite (Hall st Hin), bool_decide_eq_true_2 by done. done.
Qed.

(** A request is allowed by statements that only allow when one of them
    applies. *)
Lemma allows_by st sts a r : all_allow sts -> st ∈ sts -> applies st a r = true -> allows sts a r = true.
Proof. intros Hall Hst Ha. apply allows_all_allow; [done|]. by exists st. Qed.

(** A statement applies when it names the action and a resource pattern
    matches. *)
Lemma applies_by st a r q :
  existsb (fun p => action_matches p a) (st_actions st) = true -> q ∈ st_resources st -> wmatch q r = true ->
  applies st a r = true.
Proof.
  intros Ha Hq Hm. unfold applies. rewrite Ha. apply existsb_exists. exists q. by rewrite <-list_elem_of_In.
Qed.

Lemma applies_iff st a r :
  applies st a r = true <->
  (exists p, p ∈ st_actions st /\ action_matches p a = true) /\
  (exists q, q ∈ st_resources st /\ wmatch q r = true).
Proof.
  unfold applies. rewrite andb_true_iff, !existsb_exists.
  by setoid_rewrite <- list_elem_of_In.
Qed.

(** Statements whose patterns have no wildcard: a request is covered
    exactly when its action is one of the actions (up to case) and its
    resource one of the resources. *)
Lemma applies_literal st a r :
  Forall (fun p => literal (lower p) = true) (st_actions st) ->
  Forall (fun q => literal q = true) (st_resources st) ->
  applies st a r = true <-> lower a ∈ lower <$> st_actions st /\ r ∈ st_resources st.
Proof.
  intros Ha Hr. rewrite applies_iff, list_elem_of_fmap. unfold action_matches.
  rewrite Forall_forall in Ha, Hr. split.
  - intros [(p & Hp & Hm) (q & Hq & Hm')].
    apply wmatch_literal in Hm; [|by apply Ha]. apply wmatch_literal in Hm'; [|by apply Hr].
    subst. eauto.
  - intros [(p & Hl & Hp) Hq]. split.
    + exists p. split; [done|]. apply wmatch_literal; [by apply Ha|done].
    + exists r. split; [done|]. apply wmatch_literal; [by apply Hr|done].
Qed.

(** A literal followed by [*] matches the texts that start with it. *)
Lemma wmatch_literal_star x s :
  literal x = true -> wmatch (x +:+ "*") s = true <-> exists rest, s = x +:+ rest.
Proof.
  revert s. induction x as [|c x IH]; intros s Hx.
  - split; [by exists s|]. intros _. apply wmatch_star.
  - simpl in Hx. apply andb_true_iff in Hx as [[Hs%negb_true_iff Hq%negb_true_iff]%andb_true_iff Hx].
    simpl. rewrite Hs. destruct s as [|d s]; [split; [done|]; by intros [? ?]|].
    rewrite Hq, andb_true_iff, IH by done. simpl. rewrite Ascii.eqb_eq.
    split; [intros [-> [rest ->]]; by exists rest|].
    intros [rest [= -> ->]]. split; [done|]. by exists rest.
Qed.

Lemma literal_app x y : literal (x +:+ y) = literal x && literal y.
Proof. induction x as [|c x IH]; [done|]. simpl. rewrite IH. by rewrite !andb_assoc. Qed.
