(* ===== verification/ApiGw.v ===== *)
(** * API Gateway REST APIs as the stacks declare them

    The CDK constructs of [aws_apigateway] the stacks use: a REST API
    ([RestApi], [LambdaRestApi]) with resources added under its root
    ([api.root.add_resource(path)]), methods added to a resource
    ([resource.add_method(verb, integration, method_responses=...,
    authorization_type=...)]), and the three kinds of integration of the
    code: [AwsIntegration] (a service action called with a role),
    [LambdaIntegration] (a function invoked with a role; a proxy
    integration unless [proxy=False] is given, which neither call of the
    code does) and [MockIntegration] (an answer made by API Gateway
    itself, used for the CORS preflight [OPTIONS]).

    The integration responses API Gateway applies to an answer are those
    of an AWS or mock integration; a proxy integration passes the
    function's own answer through, status and headers included
    ([integration_responses]). The CORS preflight answers the methods a
    browser may use in [Access-Control-Allow-Methods], a quoted
    comma-separated list ([header_list] parses it). *)

From Stdlib Require Import String Ascii ZArith Bool.
From stdpp Require Import base list strings.
From S2P Require Import Spec2Rocq PyStr Iam.

(** ** Constructs *)

(** [apigw.IntegrationResponse(status_code=..., response_templates=...,
    response_parameters=...)]. *)
Record IntegrationResponse := mkIntegrationResponse {
  ir_status : string;
  ir_templates : list (string * string);
  ir_params : list (string * string)
}.

(** [apigw.MethodResponse(status_code=..., response_parameters=...)]. *)
Record MethodResponse := mkMethodResponse {
  mr_status : string;
  mr_params : list (string * bool)
}.

Inductive Integration :=
| AwsIntegration (service integration_http_method action connection_type : string) (credentials_role : Role)
    (responses : list IntegrationResponse) (request_parameters request_templates : list (string * string))
| LambdaIntegration (handler : string) (credentials_role : Role) (proxy : bool)
    (responses : list IntegrationResponse)
| MockIntegration (responses : list IntegrationResponse) (passthrough_behavior : string)
    (request_templates : list (string * string)).

(** The integration responses API Gateway applies to the answers: none
    for a proxy integration, whose answers are the function's. *)
Definition integration_responses (i : Integration) : list IntegrationResponse :=
  match i with
  | AwsIntegration _ _ _ _ _ rs _ _ => rs
  | LambdaIntegration _ _ proxy rs => if proxy then [] else rs
  | MockIntegration rs _ _ => rs
  end.

Record Method := mkMethod {
  m_verb : string;
  m_integration : Integration;
  m_responses : list MethodResponse;
  m_authorization : string   (** [authorization_type], [NONE] by default *)
}.

Record ApiResource := mkApiResource {
  res_path : string;
  res_methods : list Method
}.

Record RestApiDef := mkRestApiDef {
  api_name : string;
  api_handler : option string;   (** the default handler of a [LambdaRestApi] *)
  api_proxy : bool;
  api_tracing : bool;            (** [deploy_options=StageOptions(tracing_enabled=...)] *)
  api_endpoint_types : list string;
  api_resources : list ApiResource
}.

(** [api.root.add_resource(path)], then the methods added to it, in order. *)
Definition add_resource (path : string) (methods : list Method) (api : RestApiDef) : RestApiDef :=
  mkRestApiDef (api_name api) (api_handler api) (api_proxy api) (api_tracing api)
    (api_endpoint_types api) (api_resources api ++ [mkApiResource path methods]).

(** The method-response header names API Gateway uses for CORS. *)
Definition allow_headers_param : string := "method.response.header.Access-Control-Allow-Headers".
Definition allow_methods_param : string := "method.response.header.Access-Control-Allow-Methods".
Definition allow_origin_param : string := "method.response.header.Access-Control-Allow-Origin".
Definition allow_credentials_param : string := "method.response.header.Access-Control-Allow-Credentials".

(** ** CORS *)

(** [s.split(c)]. *)
Fixpoint split_on (c : ascii) (s : string) : list string :=
  match s with
  | EmptyString => [EmptyString]
  | String d s' =>
      if Ascii.eqb c d then EmptyString :: split_on c s'
      else match split_on c s' with
           | [] => [String d EmptyString]
           | w :: ws => String d w :: ws
           end
  end.

(** A static header value is a string literal in single quotes. *)
Definition unquote (s : string) : option string :=
  match s with
  | String q rest =>
      if Ascii.eqb q "'"%char then
        match String.length rest with
        | 0 => None
        | S n => if String.eqb (String.substring n 1 rest) "'" then Some (String.substring 0 n rest)
                 else None
        end
      else None
  | EmptyString => None
  end.

(** The comma-separated list a static header value holds. *)
Definition header_list (v : string) : list string :=
  match unquote v with Some s => split_on ","%char s | None => [] end.

(** [params[k]] of a dict literal. *)
Definition param_value (k : string) (params : list (string * string)) : option string :=
  match list_find (fun kv => kv.1 = k) params with
  | Some (_, kv) => Some kv.2
  | None => None
  end.

(** The headers the integration sets in its responses of status [200]. *)
Definition ok_params (m : Method) : list (string * string) :=
  integration_responses (m_integration m) ≫= fun ir =>
    if String.eqb (ir_status ir) "200" then ir_params ir else [].

(** The methods the preflight of a resource allows: its [OPTIONS]
    method's [Access-Control-Allow-Methods]. *)
Definition preflight_methods (r : ApiResource) : list string :=
  match list_find (fun m => m_verb m = "OPTIONS") (res_methods r) with
  | Some (_, m) => default [] (header_list <$> param_value allow_methods_param (ok_params m))
  | None => []
  end.

(** The preflight of every resource allows each method of the resource. *)
Definition preflight_covers (r : ApiResource) : Prop :=
  Forall (fun m => m_verb m ∈ preflight_methods r) (res_methods r).

#[export] Instance preflight_covers_dec r : Decision (preflight_covers r).
Proof. unfold preflight_covers. apply _. Defined.

(** * Properties *)

Lemma split_on_nonempty c s : split_on c s <> [].
Proof. destruct s as [|d s]; simpl; [done|]. case_match; [done|]. by case_match. Qed.

(** The pieces [split_on] cuts, joined again with the separator, give back the text. *)
Lemma split_on_join c s : String.concat (String c EmptyString) (split_on c s) = s.
Proof.
  induction s as [|d s IH]; [done|]. simpl.
  pose proof (split_on_nonempty c s) as Hne.
  destruct (Ascii.eqb c d) eqn:E.
  - apply Ascii.eqb_eq in E as ->. rewrite concat_cons by done. simpl. by rewrite IH.
  - destruct (split_on c s) as [|w ws]; [done|]. rewrite <- IH.
    destruct ws; [done|]. rewrite !concat_cons by done. done.
Qed.

(** A text without the separator is one piece; before a separator, the
    pieces of a separator-free text are that text. *)
Lemma split_on_sep_free c b k :
  split_on c b = [b] -> split_on c (b +:+ String c k) = b :: split_on c k.
Proof.
  induction b as [|d b IH]; simpl.
  - intros _. by rewrite Ascii.eqb_refl.
  - destruct (Ascii.eqb c d) eqn:E; [done|].
    pose proof (split_on_nonempty c b) as Hne.
    destruct (split_on c b) as [|w ws] eqn:Eb; [done|]. intros [= -> ->].
    by rewrite IH.
Qed.

(** The pieces of a text ending with a separator and [y] end with the
    pieces of [y]. *)
Lemma split_on_sep_app c x y :
  exists w ws, split_on c (x +:+ String c y) = w :: ws ++ split_on c y.
Proof.
  induction x as [|d x (w & ws & IH)]; simpl.
  - rewrite Ascii.eqb_refl. by exists "", [].
  - rewrite IH. destruct (Ascii.eqb c d).
    + by exists "", (w :: ws).
    + by exists (String d w), ws.
Qed.

Lemma last_split_on_sep c x y :
  last (split_on c (x +:+ String c y)) = last (split_on c y).
Proof.
  destruct (split_on_sep_app c x y) as (w & ws & ->).
  pose proof (split_on_nonempty c y) as Hne.
  rewrite app_comm_cons, last_app. destruct (last (split_on c y)) eqn:E; [done|].
  by apply last_None in E.
Qed.
