(* ===== verification/ApiStack.v ===== *)
(** * The API Gateway stack [APIGatewayStack] and the values stacks pass on

    webgen/apigateway_stack.py imports the ECS stack's network load
    balancer by its ARN, builds a VPC link to it, reads the Swagger
    template with [generate_swagger_spec_json] (the replace chain of
    [Substitute.v], then [json.loads]), creates the REST API [MysfitsApi] from it
    ([CfnRestApi], logical id [Schema]), deploys the API to the stage
    [prod] ([CfnDeployment]) and outputs the API id. app.py (lines
    61-65) passes it the load balancer's DNS name and ARN from the ECS
    stack and the user pool id from the Cognito stack.

    Values that name resources of the template are [CfnValue]s: a literal,
    a [Ref] to a construct (its physical id) or an attribute of one
    ([Fn::GetAtt]), or the concatenation of values ([Fn::Join], which a
    Python [+] of a literal and a token becomes). CloudFormation resolves them when it creates the
    stack, through [physical_id] (as in [Stacks.v]) and [attribute]. The
    constructor is run on the resolved values: the CDK's encoding of an
    unresolved value as a token string inside the replaced text is not
    modelled.

    API Gateway routes a request for
    [https://<api id>.execute-api.<region>.amazonaws.com/<stage>/...] to
    the deployment of that API to that stage ([route_execute_api]). *)

From Stdlib Require Import String Ascii.
From stdpp Require Import base list strings.
From S2P Require Import Spec2Rocq PyStr Json Cloud World AwsOps Substitute Lookup Stacks ApiGw.

(** ** Template values and outputs *)

Inductive CfnValue :=
| CLit (s : string)
| CRef (path : string)
| CAtt (path : string) (attribute : string)
| CJoin (parts : list CfnValue).   (** [Fn::Join] with the empty separator *)

Section resolve.
Variable physical_id : string -> string.
Variable attribute : string -> string -> string.

Fixpoint resolve (v : CfnValue) : string :=
  match v with
  | CLit s => s
  | CRef p => physical_id p
  | CAtt p a => attribute p a
  | CJoin parts => String.concat "" (map resolve parts)
  end.
End resolve.

(** [core.CfnOutput(self, id, description=..., value=...)]. *)
Record CfnOutput := mkOutput {
  out_id : string;
  out_description : option string;
  out_value : CfnValue
}.

(** The load balancer [NetworkLoadBalancedFargateService] creates under
    the service construct of the ECS stack. *)
Definition ecs_load_balancer : string :=
  construct_path ecs_stack "MythicalMysfits-FargateService/LB".

(** [ecs_stack.ecs_service.load_balancer.load_balancer_dns_name] and
    [...load_balancer_arn] (a load balancer's [Ref] is its ARN). *)
Definition load_balancer_dns_name : CfnValue := CAtt ecs_load_balancer "DNSName".
Definition load_balancer_arn : CfnValue := CRef ecs_load_balancer.

(** [cognito_stack.user_pool.user_pool_id]. *)
Definition user_pool_id : CfnValue := CRef (construct_path cognito_stack "UserPool").
Definition user_pool_client_id : CfnValue := CRef (construct_path cognito_stack "UserPoolClient").

(** The outputs of the ECS stack (ecs_stack.py:86-88). *)
Definition ecs_outputs : list CfnOutput :=
  [mkOutput "WebLoadBalancerDNS" None load_balancer_dns_name;
   mkOutput "WebLoadBalancerARN" None load_balancer_arn].

(** The outputs of the Cognito stack (cognito_stack.py:24-36). *)
Definition cognito_outputs : list CfnOutput :=
  [mkOutput "CognitoUserPool" (Some "The Cognito User Pool") user_pool_id;
   mkOutput "CognitoUserPoolClient" (Some "The Cognito User Pool Client") user_pool_client_id].

(** The output of the DynamoDB stack (dynamodb_stack.py:39): a table's
    [Ref] is its name. *)
Definition dynamodb_outputs : list CfnOutput :=
  [mkOutput "DynamodbTableName" None (CRef (construct_path table_stack "MysfitsTable"))].

(** ** The constructs of [APIGatewayStack] *)

Record VpcLink := mkVpcLink {
  vpc_link_description : string;
  vpc_link_name : string;
  vpc_link_targets : list string   (** load balancer ARNs *)
}.

Record CfnRestApi := mkCfnRestApi {
  rest_api_logical_id : string;
  rest_api_name_prop : string;
  rest_api_body : json;             (** the Swagger document *)
  endpoint_types : list string;
  fail_on_warnings : bool
}.

Record CfnDeployment := mkCfnDeployment {
  deployment_rest_api : CfnValue;   (** [rest_api_id=api.ref] *)
  deployment_stage : string
}.

Record ApiGatewayConstructs := mkApiGatewayConstructs {
  agw_nlb_arn : string;
  agw_vpc_link : VpcLink;
  agw_rest_api : CfnRestApi;
  agw_deployment : CfnDeployment;
  agw_outputs : list CfnOutput
}.

Definition mysfits_api_ref : CfnValue := CRef (construct_path apigateway_stack "Schema").

(** [apigw.CfnDeployment(self, 'Prod', rest_api_id=api.ref, stage_name='prod')]. *)
Definition prod_deployment : CfnDeployment := mkCfnDeployment mysfits_api_ref "prod".

(** [core.CfnOutput(self, "APIID", description='API Gateway ID', value=api.ref)]. *)
Definition apigateway_outputs : list CfnOutput :=
  [mkOutput "APIID" (Some "API Gateway ID") mysfits_api_ref].

Section constructor.
Variable physical_id : string -> string.

(** [vpc_link.vpc_link_id]. *)
Definition vpc_link_id : string := physical_id (construct_path apigateway_stack "VPCLink").

(** [APIGatewayStack.__init__]: the Swagger template is read when the
    stack is built, so a missing template makes the synthesis fail with
    [FileNotFoundError]. *)
Definition api_gateway_stack (account region dns_name lb_arn pool_id : string)
    : script ApiGatewayConstructs :=
  let nlb := lb_arn in
  let vpc_link := mkVpcLink "VPCLink for our  REST API" "MysfitsApiVpcLink" [nlb] in
  json_schema ← generate_swagger_spec_json account region dns_name pool_id vpc_link_id;
  let api := mkCfnRestApi "Schema" "MysfitsApi" json_schema ["REGIONAL"] true in
  mret (mkApiGatewayConstructs nlb vpc_link api prod_deployment apigateway_outputs).

Variable attribute : string -> string -> string.

(** app.py's [APIGatewayStack(app, ..., load_balancer_dns_name=...,
    load_balancer_arn=..., user_pool_id=...)], with the values resolved. *)
Definition app_api_gateway_stack (account region : string) : script ApiGatewayConstructs :=
  api_gateway_stack account region (resolve physical_id attribute load_balancer_dns_name)
    (resolve physical_id attribute load_balancer_arn) (resolve physical_id attribute user_pool_id).
End constructor.

(** ** Routing of the execute-api URL *)

Definition route_execute_api (url : string) : option (string * string * string) :=
  if String.prefix "https://" url then
    match split_on "/"%char (str_drop 8 url) with
    | host :: stage :: _ =>
        match split_on "."%char host with
        | [api_id; e; region; a; c] =>
            if String.eqb e "execute-api" && String.eqb a "amazonaws" && String.eqb c "com"
            then Some (api_id, region, stage) else None
        | _ => None
        end
    | _ => None
    end
  else None.

(** A text without the character [c]. *)
Definition sep_free (c : ascii) (s : string) : Prop := split_on c s = [s].

(** * Properties *)

(** ** Routing *)

(** Before a text free of the separator, the first piece grows. *)
Lemma split_on_app_free c a b :
  sep_free c a ->
  split_on c (a +:+ b) = match split_on c b with w :: ws => (a +:+ w) :: ws | [] => [] end.
Proof.
  unfold sep_free. induction a as [|d a IH]; simpl.
  - intros _. rewrite str_app_nil_l. destruct (split_on c b); by rewrite ?str_app_nil_l.
  - destruct (Ascii.eqb c d); [done|].
    pose proof (split_on_nonempty c a) as Hne.
    destruct (split_on c a) as [|w ws] eqn:Ea; [done|]. intros [= -> ->].
    rewrite IH by done. pose proof (split_on_nonempty c b) as Hb.
    by destruct (split_on c b).
Qed.

(** The URL [get_execute_api_endpoint] builds is routed to the [prod]
    stage of the API, in the region. *)
Lemma route_execute_api_url api_id r :
  sep_free "/" api_id -> sep_free "/" r -> sep_free "." api_id -> sep_free "." r ->
  route_execute_api (execute_api_url api_id r) = Some (api_id, r, "prod").
Proof.
  intros Hi1 Hr1 Hi2 Hr2. unfold route_execute_api, execute_api_url.
  rewrite prefix_app. change 8 with (String.length "https://"). rewrite str_drop_app_length.
  rewrite (split_on_app_free _ api_id) by done. simpl. rewrite str_app_nil_l.
  rewrite (split_on_app_free _ r) by done. simpl.
  rewrite (split_on_app_free _ api_id) by done. simpl. rewrite ?str_app_nil_l.
  rewrite (split_on_app_free _ r) by done. simpl. by rewrite ?str_app_nil_r.
Qed.

(** ** The stack's constructs *)

(** [APIGatewayStack] as app.py builds it: the VPC link targets the ECS
    stack's load balancer, the Swagger body is the template with the
    region, the account, the Cognito stack's pool id, the link's id and
    the same load balancer's DNS name substituted, and the API is
    deployed to [prod]; without the template the synthesis stops with
    [FileNotFoundError]. *)
Lemma run_app_api_gateway_stack physical_id attribute account r w :
  run (app_api_gateway_stack physical_id attribute account r) w =
    match fs w !! swagger_template with
    | Some tmpl =>
        match json_loads (replace_chain
                 (swagger_replacements account r (attribute ecs_load_balancer "DNSName")
                    (physical_id (construct_path cognito_stack "UserPool")) (vpc_link_id physical_id)) tmpl) with
        | Some spec =>
            (Ok (mkApiGatewayConstructs (physical_id ecs_load_balancer)
                   (mkVpcLink "VPCLink for our  REST API" "MysfitsApiVpcLink" [physical_id ecs_load_balancer])
                   (mkCfnRestApi "Schema" "MysfitsApi" spec ["REGIONAL"] true)
                   prod_deployment apigateway_outputs), w)
        | None => (Raise (ValueError "JSONDecodeError"), w)
        end
    | None => (Raise (FileNotFoundError swagger_template), w)
    end.
Proof.
  unfold app_api_gateway_stack, api_gateway_stack, generate_swagger_spec_json.
  rewrite !run_bind, run_read_file. destruct (fs w !! swagger_template); [|done].
  by destruct (json_loads _).
Qed.

(** ** The URL the web pages are given *)

(** C8: After [app.py] is deployed (on an account where the stacks'
    names are free and fewer than 25 REST APIs exist), the URL the web
    mode of prepare_files.py finds for [MysfitsApi] is routed by API
    Gateway to the stage that the [CfnDeployment] of [APIGatewayStack]
    creates, of the API that deployment deploys: the [/prod] that
    prepare_files.py writes is the stage [apigateway_stack.py] names. *)
Theorem mysfits_api_url_routes_to_prod_stage physical_id w r :
  environ w !! "AWS_DEFAULT_REGION" = Some r ->
  fresh physical_id r (app_stacks ≫= stack_items) (cloud w) ->
  length (rg_rest_apis (region_in w r)) < rest_apis_limit ->
  "apigateway:GetRestApis" ∉ denied (cloud w) ->
  physical_id (construct_path apigateway_stack "Schema") <> "" ->
  sep_free "/" (physical_id (construct_path apigateway_stack "Schema")) ->
  sep_free "." (physical_id (construct_path apigateway_stack "Schema")) ->
  sep_free "/" r -> sep_free "." r ->
  exists w' url p, run (deploy_app physical_id) w = (Ok tt, w') /\
    run (get_execute_api_endpoint "MysfitsApi" r) w' = (Ok (Some url), w') /\
    deployment_rest_api prod_deployment = CRef p /\
    route_execute_api url = Some (physical_id p, r, deployment_stage prod_deployment).
Proof.
  intros Henv Hfresh Hlen Hd Hid Hi1 Hi2 Hr1 Hr2.
  destruct (deploy_app_mysfits_api physical_id w r) as (w' & Hw' & Hurl); [done..|].
  eexists w', _, _. split_and!; [exact Hw'|exact Hurl|reflexivity|]. by apply route_execute_api_url.
Qed.

(** ** The outputs and the lookups of prepare_files.py *)

(** The last matching item of a page holding one item more than the
    items before it. *)
Lemma last_match_take_snoc {A B} (p : A -> bool) (f : A -> B) n old a :
  length old < n -> p a = true -> last_match p f (take n (old ++ [a])) = Some (f a).
Proof.
  intros Hn Ha. rewrite take_ge by (rewrite length_app; simpl; lia).
  rewrite last_match_spec, filter_app, filter_cons_True by done. by rewrite filter_nil, last_snoc.
Qed.

(** After [app.py] is deployed, the user pool id the Cognito stack
    outputs as [CognitoUserPool] is the id the web mode of
    prepare_files.py finds by name and writes into register.html and
    confirm.html, when fewer than 10 pools were there before. *)
Lemma deploy_app_cognito_output physical_id attribute w r :
  environ w !! "AWS_DEFAULT_REGION" = Some r ->
  fresh physical_id r (app_stacks ≫= stack_items) (cloud w) ->
  length (rg_user_pools (region_in w r)) < 10 ->
  "cognito-idp:ListUserPools" ∉ denied (cloud w) ->
  exists w', run (deploy_app physical_id) w = (Ok tt, w') /\
    run (get_user_pool_id "MysfitsUserPool" r) w' =
      (Ok (Some (resolve physical_id attribute user_pool_id)), w') /\
    mkOutput "CognitoUserPool" (Some "The Cognito User Pool") user_pool_id ∈ cognito_outputs.
Proof.
  intros Henv Hfresh Hlen Hd.
  destruct (create_all_fresh physical_id r _ _ Hfresh) as (c' & Hc & _ & Hden).
  exists (set_cloud c' w). split_and!; [rewrite (run_deploy_app _ _ r Henv); by apply run_deploy_stacks| |by left].
  rewrite run_get_user_pool_id. unfold client_region. cbn [environ set_cloud]. rewrite Henv.
  cbn [list_user_pools aws_provider]. unfold aws_list_user_pools.
  rewrite run_aws_allowed by (simpl; by rewrite Hden). rewrite run_gets.
  unfold user_pools_page, region_in. cbn [fst cloud set_cloud].
  rewrite (create_all_pools _ _ _ _ _ Hc).
  assert ((app_stacks ≫= stack_items) ≫= item_user_pools physical_id =
    [mkPool "MysfitsUserPool" (physical_id (construct_path cognito_stack "UserPool"))
       [mkClient "MysfitsUserPoolClient" (physical_id (construct_path cognito_stack "UserPoolClient"))]])
    as -> by reflexivity.
  rewrite last_match_take_snoc; [done|done|apply String.eqb_refl].
Qed.

(** ** Witnesses *)

Definition demo_api_physical_id (path : string) : string :=
  if String.eqb path (construct_path apigateway_stack "Schema") then "k3x9q2w1e7"
  else demo_physical_id path.

Lemma mysfits_api_url_routes_to_prod_stage_witness :
  exists w' url p, run (deploy_app demo_api_physical_id) demo_stack_world = (Ok tt, w') /\
    run (get_execute_api_endpoint "MysfitsApi" "eu-west-1") w' = (Ok (Some url), w') /\
    deployment_rest_api prod_deployment = CRef p /\
    route_execute_api url = Some (demo_api_physical_id p, "eu-west-1", deployment_stage prod_deployment).
Proof.
  apply (mysfits_api_url_routes_to_prod_stage demo_api_physical_id demo_stack_world "eu-west-1").
  - reflexivity.
  - apply (bool_decide_unpack _). vm_compute. reflexivity.
  - vm_compute. lia.
  - apply (bool_decide_unpack _). vm_compute. reflexivity.
  - vm_compute. discriminate.
  - reflexivity.
  - reflexivity.
  - reflexivity.
  - reflexivity.
Defined.
