(* ===== verification/Services.v ===== *)
(** * The serverless stacks: click processing, questions, recommendations

    The constructs of webgen/kinesis_firehose_stack.py, webgen/xray_stack.py
    and webgen/sagemaker_stack.py, as the stack constructors build them:
    Lambda functions with their [initial_policy], IAM roles and the
    policies attached to them, the Firehose delivery stream of the clicks,
    the SNS topic of the questions, and the three REST APIs with their
    methods and integrations. A construct is named by its path in the
    stack ([Stacks.construct_path]) and an ARN refers to it ([Iam.arn]).

    A Lambda function runs with a role the CDK creates for it: the managed
    policy [AWSLambdaBasicExecutionRole] (CloudWatch Logs), the statements
    of [initial_policy], the X-Ray statement when [tracing=ACTIVE], and the
    stream-read statements an event source adds ([fn_role_statements]).

    [service_requests] lists the requests AWS makes on behalf of these
    constructs, each with the statements of the role it is made with: the
    API methods' integrations, the delivery stream's writes to its bucket
    and invocation of its processor, the event source mapping's stream
    reads, and the Lambda runtime's own calls for each function (its logs,
    and its trace segments under [tracing=ACTIVE]). The calls the
    functions' code makes ([sagemaker:InvokeEndpoint], [sns:Publish],
    [dynamodb:PutItem]) are not listed: that code is not in the
    repository (the stacks name asset directories that are absent). The
    integrations of the questions and
    recommendations APIs keep the CDK's default [proxy=True]: the Lambda
    function's answer is the method's answer, so its headers come from
    the function's code, which is not in the repository. *)

From Stdlib Require Import String Ascii ZArith Bool.
From stdpp Require Import base list strings sets.
From S2P Require Import Spec2Rocq PyStr Json Iam ApiGw Stacks.

(** ** Lambda functions *)

Record LambdaFunction := mkLambda {
  fn_path : string;
  fn_handler : string;
  fn_runtime : string;
  fn_memory : Z;          (** [memory_size], MB *)
  fn_timeout : Z;         (** [timeout], seconds *)
  fn_code : string;       (** [Code.asset(path)] *)
  fn_policy : list Statement;
  fn_environment : list (string * string);
  fn_tracing : bool       (** [tracing=Tracing.ACTIVE] *)
}.

Definition fn_arn (fn : LambdaFunction) : string := arn (fn_path fn).

(** [AWSLambdaBasicExecutionRole]. *)
Definition lambda_basic_execution : Statement :=
  mkStatement Allow ["logs:CreateLogGroup"; "logs:CreateLogStream"; "logs:PutLogEvents"] ["*"].

(** What [tracing=ACTIVE] adds to the function's role. *)
Definition lambda_tracing_statement : Statement :=
  mkStatement Allow ["xray:PutTraceSegments"; "xray:PutTelemetryRecords"] ["*"].

(** The statements of the function's role; [extra] are the grants of
    its event sources. *)
Definition fn_role_statements (fn : LambdaFunction) (extra : list Statement) : list Statement :=
  lambda_basic_execution :: fn_policy fn ++
  (if fn_tracing fn then [lambda_tracing_statement] else []) ++ extra.

(** [event.DynamoEventSource(table, starting_position=..., batch_size=n)]
    and the read access to the table's stream it grants the function. *)
Record EventSource := mkEventSource {
  es_table_arn : string;
  es_starting_position : string;
  es_batch_size : Z
}.

Definition stream_arn (table_arn : string) : string := table_arn +:+ "/stream".

Definition event_source_statements (es : EventSource) : list Statement :=
  [mkStatement Allow ["dynamodb:ListStreams"] ["*"];
   mkStatement Allow ["dynamodb:DescribeStream"; "dynamodb:GetRecords"; "dynamodb:GetShardIterator"]
     [stream_arn (es_table_arn es)]].

(** The CORS preflight of the code: a mock integration answering [200]
    with the four headers, declared by its method response. *)
Definition cors_allow_headers : string :=
  "'Content-Type,X-Amz-Date,Authorization,X-Api-Key,X-Amz-Security-Token,X-Amz-User-Agent'".

Definition options_method : Method :=
  mkMethod "OPTIONS"
    (MockIntegration
       [mkIntegrationResponse "200" []
          [(allow_headers_param, cors_allow_headers);
           (allow_origin_param, "'*'");
           (allow_credentials_param, "'false'");
           (allow_methods_param, "'OPTIONS,GET,PUT,POST,DELETE'")]]
       "NEVER" [("application/json", "{" +:+ dq +:+ "statusCode" +:+ dq +:+ ": 200}")])
    [mkMethodResponse "200"
       [(allow_headers_param, true); (allow_methods_param, true);
        (allow_credentials_param, true); (allow_origin_param, true)]]
    "NONE".

(** ['{"status":"OK"}']. *)
Definition status_ok_template : list (string * string) :=
  [("application/json", "{" +:+ dq +:+ "status" +:+ dq +:+ ":" +:+ dq +:+ "OK" +:+ dq +:+ "}")].

(** ** [KinesisFirehoseStack] *)

Section kinesis.
(** [table=table_stack.table]: the ARN of [MysfitsTable]. *)
Variable table_arn : string.

(** The module global the [replace_clickprocessingapi_endpoint] mode of
    prepare_files.py rewrites. *)
Definition mysfits_api_url : string := "REPLACE_ME_API_URL".

Definition clicks_destination_bucket_arn : string :=
  arn (construct_path firehose_stack "Bucket").

Definition click_lambda_policy_stm : Statement :=
  add_resources [table_arn] (add_actions ["dynamodb:GetItem"] policy_statement).

Definition mysfits_click_processor : LambdaFunction :=
  mkLambda (construct_path firehose_stack "Function") "streamProcessor.processRecord" "python3.6"
    128 60 "./lambda_streaming_processor" [click_lambda_policy_stm]
    [("MYSFITS_API_URL", mysfits_api_url)] false.

Definition firehose_delivery_policy_s3_stm : Statement :=
  set_effect Allow
    (add_resources [arn_for_objects clicks_destination_bucket_arn "*"]
       (add_resources [clicks_destination_bucket_arn]
          (add_actions ["s3:AbortMultipartUpload"; "s3:GetBucketLocation"; "s3:GetObject";
                        "s3:ListBucket"; "s3:ListBucketMultipartUploads"; "s3:PutObject"]
             policy_statement))).

Definition firehose_delivery_policy_lambda_stm : Statement :=
  set_effect Allow
    (add_resources [fn_arn mysfits_click_processor]
       (add_actions ["lambda:GetFunctionConfiguration"]
          (add_actions ["lambda:InvokeFunction"] policy_statement))).

Definition firehose_delivery_role : Role :=
  add_to_policy [firehose_delivery_policy_lambda_stm]
    (add_to_policy [firehose_delivery_policy_s3_stm]
       (new_role (Some "FirehoseDeliveryRole") "firehose.amazonaws.com")).

(** [kinfire.CfnDeliveryStream(...)]: a [DirectPut] stream into the
    clicks bucket, buffered, whose records the click processor transforms. *)
Record DeliveryStream := mkDeliveryStream {
  ds_name : string;
  ds_type : string;
  ds_bucket_arn : string;
  ds_interval : Z;          (** [interval_in_seconds] *)
  ds_size_mb : Z;           (** [size_in_m_bs] *)
  ds_compression : string;
  ds_error_prefix : string;
  ds_prefix : string;
  ds_processing : bool;
  ds_processor_arn : string;
  ds_role : Role
}.

Definition mysfits_firehose_to_s3 : DeliveryStream :=
  mkDeliveryStream "DeliveryStream" "DirectPut" clicks_destination_bucket_arn 60 1 "UNCOMPRESSED"
    "errors/" "firehose/" true (fn_arn mysfits_click_processor) firehose_delivery_role.

Definition delivery_stream_arn : string := arn (construct_path firehose_stack "DeliveryStream").

Definition click_api_policy : Statement :=
  set_effect Allow (add_resources [delivery_stream_arn] (add_actions ["firehose:PutRecord"] policy_statement)).

(** [ClickProcessingApiRole] with the policy [api_gateway_firehose_proxy_role]. *)
Definition click_processing_api_role : Role :=
  add_to_policy [click_api_policy]
    (new_role (Some "ClickProcessingApiRole") "apigateway.amazonaws.com").

(** The request the [PUT] method sends to Firehose's [PutRecord]. *)
Definition put_record_template : string :=
  "{ " +:+ dq +:+ "DeliveryStreamName" +:+ dq +:+ ": " +:+ dq +:+ ds_name mysfits_firehose_to_s3 +:+
  dq +:+ ", " +:+ dq +:+ "Record" +:+ dq +:+ ": {   " +:+ dq +:+ "Data" +:+ dq +:+ ": " +:+ dq +:+
  "$util.base64Encode($input.json('$'))" +:+ dq +:+ " } }".

Definition clicks_put_method : Method :=
  mkMethod "PUT"
    (AwsIntegration "firehose" "POST" "PutRecord" "INTERNET" click_processing_api_role
       [mkIntegrationResponse "200" status_ok_template
          [(allow_headers_param, "'Content-Type'");
           (allow_methods_param, "'OPTIONS,PUT'");
           (allow_origin_param, "'*'")]]
       [("integration.request.header.Content-Type", "'application/x-amz-json-1.1'")]
       [("application/json", put_record_template)])
    [mkMethodResponse "200"
       [(allow_headers_param, true); (allow_methods_param, true); (allow_origin_param, true)]]
    "NONE".

(** [apigw.RestApi(self, "APIEndpoint", rest_api_name="ClickProcessingApi",
    endpoint_types=[REGIONAL])], its resource [clicks] and two methods. *)
Definition click_processing_rest_api : RestApiDef :=
  add_resource "clicks" [clicks_put_method; options_method]
    (mkRestApiDef "ClickProcessingApi" None false false ["REGIONAL"] []).
End kinesis.

(** ** [XRayStack] *)

(** The module global the [replace_email] mode rewrites. *)
Definition receiver_email : string := "REPLACE_ME_RECEIVER_EMAIL".

Definition questions_table_arn : string := arn (construct_path xray_stack "MysfitsQuestionsTable").

Definition post_question_policy_stm_ddb : Statement :=
  add_resources [questions_table_arn] (add_actions ["dynamodb:PutItem"] policy_statement).

Definition lambda_function_policy_stm_xray : Statement :=
  add_all_resources
    (add_actions ["xray:PutTraceSegments"; "xray:PutTelemetryRecords"; "xray:GetSamplingRules";
                  "xray:GetSamplingTargets"; "xray:GetSamplingStatisticSummaries"] policy_statement).

Definition mysfits_post_question : LambdaFunction :=
  mkLambda (construct_path xray_stack "PostQuestionFunction") "mysfitsPostQuestion.postQuestion"
    "python3.6" 128 30 "./lambda_questions/PostQuestionsService"
    [post_question_policy_stm_ddb; lambda_function_policy_stm_xray] [] true.

(** [sns.Topic(...)] and its e-mail subscription. *)
Record Topic := mkTopic { topic_display_name : string; topic_name : string; topic_emails : list string }.

Definition questions_topic : Topic :=
  mkTopic "MythicalMysfitsQuestionsTopic" "MythicalMysfitsQuestionsTopic" [receiver_email].

Definition topic_arn : string := arn (construct_path xray_stack "Topic").

Definition post_question_policy_stm_sns : Statement :=
  add_resources [topic_arn] (add_actions ["sns:Publish"] policy_statement).

Definition questions_event_source : EventSource :=
  mkEventSource questions_table_arn "TRIM_HORIZON" 1.

Definition mysfits_process_questions_stream : LambdaFunction :=
  mkLambda (construct_path xray_stack "ProcessQuestionStreamFunction") "mysfitsProcessStream.processStream"
    "python3.6" 128 30 "./lambda_questions/ProcessQuestionsStream"
    [post_question_policy_stm_sns; lambda_function_policy_stm_xray]
    [("SNS_TOPIC_ARN", topic_arn)] true.

Definition questions_api_policy : Statement :=
  set_effect Allow
    (add_resources [fn_arn mysfits_post_question] (add_actions ["lambda:InvokeFunction"] policy_statement)).

Definition questions_api_role : Role :=
  add_to_policy [questions_api_policy] (new_role None "apigateway.amazonaws.com").

Definition questions_integration : Integration :=
  LambdaIntegration (fn_path mysfits_post_question) questions_api_role true
    [mkIntegrationResponse "200" status_ok_template []].

Definition questions_post_method : Method :=
  mkMethod "POST" questions_integration [mkMethodResponse "200" []] "NONE".

(** [questions_method.add_method('OPTIONS', ...)]: the preflight of the
    clicks resource, copied. *)
Definition questions_options_method : Method :=
  mkMethod "OPTIONS"
    (MockIntegration
       [mkIntegrationResponse "200" []
          [(allow_headers_param, cors_allow_headers);
           (allow_origin_param, "'*'");
           (allow_credentials_param, "'false'");
           (allow_methods_param, "'OPTIONS,GET,PUT,POST,DELETE'")]]
       "NEVER" [("application/json", "{" +:+ dq +:+ "statusCode" +:+ dq +:+ ": 200}")])
    [mkMethodResponse "200"
       [(allow_headers_param, true); (allow_methods_param, true);
        (allow_credentials_param, true); (allow_origin_param, true)]]
    "NONE".

Definition questions_rest_api : RestApiDef :=
  add_resource "questions" [questions_post_method; questions_options_method]
    (mkRestApiDef "QuestionsAPI" (Some (fn_path mysfits_post_question)) false true ["EDGE"] []).

(** ** [SageMakerStack] *)

Definition recommendations_policy_stm : Statement :=
  add_all_resources (add_actions ["sagemaker:InvokeEndpoint"] policy_statement).

Definition mysfits_recommendations : LambdaFunction :=
  mkLambda (construct_path sagemaker_stack "RecommendationsFunction") "recommendations.recommend"
    "python3.6" 128 30 "./lambda_recommendations/service" [recommendations_policy_stm] [] false.

Definition recommendations_api_policy : Statement :=
  set_effect Allow
    (add_resources [fn_arn mysfits_recommendations] (add_actions ["lambda:InvokeFunction"] policy_statement)).

Definition recommendations_api_role : Role :=
  add_to_policy [recommendations_api_policy] (new_role None "apigateway.amazonaws.com").

Definition recommendations_integration : Integration :=
  LambdaIntegration (fn_path mysfits_recommendations) recommendations_api_role true
    [mkIntegrationResponse "200" status_ok_template []].

Definition recommendations_post_method : Method :=
  mkMethod "POST" recommendations_integration
    [mkMethodResponse "200"
       [(allow_headers_param, true); (allow_methods_param, true); (allow_origin_param, true)]]
    "NONE".

(** [recommendations_method.add_method('OPTIONS', ...)]: the same
    preflight again. *)
Definition recommendations_options_method : Method :=
  mkMethod "OPTIONS"
    (MockIntegration
       [mkIntegrationResponse "200" []
          [(allow_headers_param, cors_allow_headers);
           (allow_origin_param, "'*'");
           (allow_credentials_param, "'false'");
           (allow_methods_param, "'OPTIONS,GET,PUT,POST,DELETE'")]]
       "NEVER" [("application/json", "{" +:+ dq +:+ "statusCode" +:+ dq +:+ ": 200}")])
    [mkMethodResponse "200"
       [(allow_headers_param, true); (allow_methods_param, true);
        (allow_credentials_param, true); (allow_origin_param, true)]]
    "NONE".

Definition recommendations_rest_api : RestApiDef :=
  add_resource "recommendations" [recommendations_post_method; recommendations_options_method]
    (mkRestApiDef "RecommendationsAPI" (Some (fn_path mysfits_recommendations)) false true ["EDGE"] []).

(** ** The application's wiring *)

(** [table=table_stack.table] in app.py: the click processor reads [MysfitsTable]. *)
Definition mysfits_table_arn : string := arn (construct_path table_stack "MysfitsTable").

(** ** The requests the constructs make at run time

    A request is the statements of the role it is made with, an action and
    a resource. The requests are those AWS makes on behalf of the
    constructs, as the services' documentation lists them: an API method
    calls its integration with the integration's role (Firehose's
    [PutRecord] on the stream its template names, [lambda:InvokeFunction]
    on the function); a delivery stream reads and writes the objects of
    its bucket and invokes its processor; an event source mapping reads
    the table's stream with the function's role; the Lambda runtime writes
    the function's logs, and its trace segments when tracing is active.
    What the functions' own code calls is not in the repository. *)

Definition integration_request (stream : string) (i : Integration) : list (list Statement * string * string) :=
  match i with
  | AwsIntegration service _ action _ role _ _ _ => [(role_statements role, service +:+ ":" +:+ action, stream)]
  | LambdaIntegration handler role _ _ => [(role_statements role, "lambda:InvokeFunction", arn handler)]
  | MockIntegration _ _ _ => []
  end.

Definition api_requests (stream : string) (api : RestApiDef) : list (list Statement * string * string) :=
  api_resources api ≫= fun r => res_methods r ≫= fun m => integration_request stream (m_integration m).

(** Firehose into S3 with a Lambda transformation; [key] is any object
    key it writes. *)
Definition delivery_requests (ds : DeliveryStream) (key : string) : list (list Statement * string * string) :=
  let sts := role_statements (ds_role ds) in
  let obj := arn_for_objects (ds_bucket_arn ds) key in
  [(sts, "s3:AbortMultipartUpload", obj); (sts, "s3:GetBucketLocation", ds_bucket_arn ds);
   (sts, "s3:GetObject", obj); (sts, "s3:ListBucket", ds_bucket_arn ds);
   (sts, "s3:ListBucketMultipartUploads", ds_bucket_arn ds); (sts, "s3:PutObject", obj)] ++
  (if ds_processing ds then
     [(sts, "lambda:InvokeFunction", ds_processor_arn ds);
      (sts, "lambda:GetFunctionConfiguration", ds_processor_arn ds)]
   else []).

Definition event_source_requests (fn : LambdaFunction) (es : EventSource) : list (list Statement * string * string) :=
  let sts := fn_role_statements fn (event_source_statements es) in
  [(sts, "dynamodb:DescribeStream", stream_arn (es_table_arn es));
   (sts, "dynamodb:GetRecords", stream_arn (es_table_arn es));
   (sts, "dynamodb:GetShardIterator", stream_arn (es_table_arn es));
   (sts, "dynamodb:ListStreams", "*")].

(** The runtime's requests for a function whose role has the grants
    [extra]; [log_group] is its log group. *)
Definition runtime_requests (fn : LambdaFunction) (extra : list Statement) (log_group : string) :
    list (list Statement * string * string) :=
  let sts := fn_role_statements fn extra in
  [(sts, "logs:CreateLogGroup", log_group); (sts, "logs:CreateLogStream", log_group);
   (sts, "logs:PutLogEvents", log_group)] ++
  (if fn_tracing fn then [(sts, "xray:PutTraceSegments", "*"); (sts, "xray:PutTelemetryRecords", "*")]
   else []).

Definition service_apis : list RestApiDef :=
  [click_processing_rest_api mysfits_table_arn; questions_rest_api; recommendations_rest_api].

Definition service_functions : list LambdaFunction :=
  [mysfits_click_processor mysfits_table_arn; mysfits_post_question;
   mysfits_process_questions_stream; mysfits_recommendations].

Definition service_requests (key log_group : string) : list (list Statement * string * string) :=
  let t := mysfits_table_arn in
  (service_apis ≫= api_requests delivery_stream_arn) ++
  delivery_requests (mysfits_firehose_to_s3 t) key ++
  event_source_requests mysfits_process_questions_stream questions_event_source ++
  runtime_requests (mysfits_click_processor t) [] log_group ++
  runtime_requests mysfits_post_question [] log_group ++
  runtime_requests mysfits_process_questions_stream (event_source_statements questions_event_source) log_group ++
  runtime_requests mysfits_recommendations [] log_group.

(** The service limits the values must respect for CloudFormation to
    create the resources: a Lambda function has 128 to 10240 MB and runs
    1 to 900 seconds; a Firehose S3 destination buffers 60 to 900 seconds
    and 1 to 128 MB; a DynamoDB event source reads 1 to 10000 records. *)
Definition lambda_within_limits (fn : LambdaFunction) : Prop :=
  (128 <= fn_memory fn <= 10240)%Z /\ (1 <= fn_timeout fn <= 900)%Z.

Definition delivery_stream_within_limits (ds : DeliveryStream) : Prop :=
  (60 <= ds_interval ds <= 900)%Z /\ (1 <= ds_size_mb ds <= 128)%Z.

(** * Properties *)

(** The runtime's requests are allowed by a function role that only
    allows. *)
Lemma runtime_requests_allowed fn extra log_group :
  all_allow (fn_role_statements fn extra) ->
  Forall (fun '(sts, a, r) => allows sts a r = true) (runtime_requests fn extra log_group).
Proof.
  intros Hall. unfold runtime_requests. apply Forall_app. split.
  - repeat apply Forall_cons_2; try apply Forall_nil_2;
      (apply (allows_by lambda_basic_execution); [done|apply list_elem_of_here|]);
      (apply (applies_by _ _ _ "*"); [reflexivity|apply list_elem_of_here|apply wmatch_star]).
  - destruct (fn_tracing fn) eqn:Ht; [|apply Forall_nil_2].
    repeat apply Forall_cons_2; try apply Forall_nil_2;
      (apply (allows_by lambda_tracing_statement); [done| |reflexivity]);
      unfold fn_role_statements; rewrite Ht; set_solver.
Qed.

(** The delivery stream may use every object of its bucket. *)
Lemma delivery_requests_allowed key :
  Forall (fun '(sts, a, r) => allows sts a r = true) (delivery_requests (mysfits_firehose_to_s3 mysfits_table_arn) key).
Proof.
  assert (all_allow (role_statements (firehose_delivery_role mysfits_table_arn))) as Hall by (vm_compute; repeat constructor).
  unfold delivery_requests. cbn [ds_role ds_bucket_arn ds_processing mysfits_firehose_to_s3 app].
  repeat apply Forall_cons_2; try apply Forall_nil_2;
    first [ vm_compute; reflexivity
          | apply (allows_by firehose_delivery_policy_s3_stm); [done|cbn; set_solver|];
            apply (applies_by _ _ _ (arn_for_objects clicks_destination_bucket_arn "*"));
            [reflexivity|cbn; set_solver|by apply wmatch_objects] ].
Qed.

(** C11: Every request AWS makes on behalf of the constructs of the three
    stacks is allowed by the role it is made with, for every object key
    the delivery stream writes and every log group: the API methods'
    integrations (the clicks API's [firehose:PutRecord], the questions
    and recommendations APIs' invocations of their functions), the
    delivery stream's use of its bucket and its processor, the event
    source mapping's reads of the questions table's stream, and the
    Lambda runtime's logs and trace segments. *)
Theorem service_requests_allowed key log_group :
  Forall (fun '(sts, a, r) => allows sts a r = true) (service_requests key log_group).
Proof.
  unfold service_requests. rewrite !Forall_app. split_and!.
  1: vm_compute; repeat constructor.
  1: apply delivery_requests_allowed.
  1: vm_compute; repeat constructor.
  all: apply runtime_requests_allowed; vm_compute; repeat constructor.
Qed.

(** The CORS preflight of every resource of the three APIs allows each
    method defined on the resource. *)
Lemma service_apis_preflight : Forall (fun api => Forall preflight_covers (api_resources api)) service_apis.
Proof. apply (bool_decide_unpack _). vm_compute. reflexivity. Qed.

(** C15: The role of the clicks API may do one thing: put a record into
    the clicks delivery stream. Any other action, or any other resource,
    is denied. *)
Theorem click_api_role_least_privilege a r :
  allows (role_statements click_processing_api_role) a r = true <->
  lower a = "firehose:putrecord" /\ r = delivery_stream_arn.
Proof.
  rewrite allows_all_allow by (repeat constructor).
  cbn [role_statements click_processing_api_role add_to_policy new_role app].
  split.
  - intros (st & ->%list_elem_of_singleton & Hst).
    apply applies_literal in Hst as [Ha Hr]; [|vm_compute; by repeat constructor..].
    simpl in Ha, Hr. rewrite list_elem_of_singleton in Ha, Hr. by subst.
  - intros [Ha ->]. exists click_api_policy. split; [by apply list_elem_of_singleton|].
    apply applies_literal; [vm_compute; by repeat constructor..|].
    rewrite Ha. simpl. split; by apply list_elem_of_singleton.
Qed.

(** The values the stacks give stay within the services' limits, at
    their lower edges: 128 MB, 60 s and 1 MB of buffering, batches of one
    record. *)
Lemma service_limits :
  Forall lambda_within_limits service_functions /\
  delivery_stream_within_limits (mysfits_firehose_to_s3 mysfits_table_arn) /\
  (1 <= es_batch_size questions_event_source <= 10000)%Z.
Proof. vm_compute. repeat split; repeat constructor; discriminate. Qed.
