(* ===== verification/Containers.v ===== *)
(** * The container stacks: [EcsStack], [NetworkECRStack] and [CiCdStack]

    webgen/ecs_stack.py runs the service's container as a load-balanced
    Fargate service; it gives the task execution role and the task role
    one statement each, both on all resources, and opens port 8080 of the
    cluster to any IPv4 address and of the service to the VPC.
    webgen/network_ecr_stack.py (imported by app.py, never instantiated)
    is an earlier variant that builds its own VPC and cluster, reuses the
    account's [ecsTaskExecutionRole] as both roles, and gives the task a
    policy written as a JSON document, read by
    [PolicyDocument.from_json] ([policy_from_json] here).
    webgen/cicd_stack.py (also never instantiated) builds a CodeCommit
    repository, a CodeBuild project and a two-stage pipeline.

    The roles are lists of IAM statements ([Iam.v]); the CDK's own grants
    (pulling the image from ECR for the execution role, pushing and
    pulling for the CodeBuild role) are added as the CDK adds them. *)

From Stdlib Require Import String Ascii ZArith Bool.
From stdpp Require Import base list strings sets.
From S2P Require Import Spec2Rocq PyStr Json Iam Checks Stacks ApiGw ApiStack.

(** ** Fargate services *)

(** A security-group rule: traffic from [peer] to a TCP port. *)
Record IngressRule := mkIngress { ing_peer : string; ing_port : Z }.

(** [ec2.Peer.any_ipv4()] and the VPC's CIDR block ([vpc.vpc_cidr_block],
    the CDK's default [10.0.0.0/16]). *)
Definition any_ipv4 : string := "0.0.0.0/0".
Definition vpc_cidr_block : string := "10.0.0.0/16".

(** [ecs.ContainerImage.from_ecr_repository(repository)] or
    [ecs.ContainerImage.from_registry(name)]. *)
Inductive ContainerImage :=
| FromEcrRepository (repository : string)
| FromRegistry (name : string).

Record FargateService := mkFargateService {
  fg_service_name : option string;
  fg_cluster_name : option string;
  fg_desired_count : Z;
  fg_public_load_balancer : bool;
  fg_min_healthy_percent : option Z;   (** [None]: the service's default *)
  fg_cpu : Z;
  fg_memory_mib : Z;
  fg_logging : bool;
  fg_container_name : option string;
  fg_container_port : Z;
  fg_image : ContainerImage;
  fg_execution_role : list Statement;
  fg_task_role : list Statement;
  fg_cluster_ingress : list IngressRule;
  fg_service_ingress : list IngressRule
}.

(** What [repository.grant_pull(principal)] grants. *)
Definition ecr_pull_statements (repository_arn : string) : list Statement :=
  [mkStatement Allow ["ecr:BatchCheckLayerAvailability"; "ecr:GetDownloadUrlForLayer"; "ecr:BatchGetImage"]
     [repository_arn];
   mkStatement Allow ["ecr:GetAuthorizationToken"] ["*"]].

(** What [repository.grant_pull_push(principal)] grants. *)
Definition ecr_pull_push_statements (repository_arn : string) : list Statement :=
  ecr_pull_statements repository_arn ++
  [mkStatement Allow ["ecr:PutImage"; "ecr:InitiateLayerUpload"; "ecr:UploadLayerPart";
                      "ecr:CompleteLayerUpload"] [repository_arn]].

(** *** [EcsStack] *)

Definition service_repository_arn : string := arn (construct_path ecr_stack "Repository").

Definition task_definition_policy_stm : Statement :=
  add_all_resources
    (add_actions ["ec2:AttachNetworkInterface"; "ec2:CreateNetworkInterface";
                  "ec2:CreateNetworkInterfacePermission"; "ec2:DeleteNetworkInterface";
                  "ec2:DeleteNetworkInterfacePermission"; "ec2:Describe*";
                  "ec2:DetachNetworkInterface";
                  "elasticloadbalancing:DeregisterInstancesFromLoadBalancer";
                  "elasticloadbalancing:DeregisterTargets"; "elasticloadbalancing:Describe*";
                  "elasticloadbalancing:RegisterInstancesWithLoadBalancer";
                  "elasticloadbalancing:RegisterTargets"; "iam:PassRole";
                  "logs:DescribeLogStreams"; "logs:CreateLogGroup"] policy_statement).

Definition task_role_policy_stm : Statement :=
  add_all_resources
    (add_actions ["ecr:GetAuthorizationToken"; "ecr:BatchCheckLayerAvailability";
                  "ecr:GetDownloadUrlForLayer"; "ecr:BatchGetImage"; "logs:CreateLogStream";
                  "logs:CreateLogGroup"; "logs:PutLogEvents"; "dynamodb:*"] policy_statement).

(** The cluster [MythicalMysfits-Cluster] and the service
    [MythicalMysfits-FargateService] (one task, public load balancer,
    container [MythicalMysfits-Service] on 8080, image from the
    [mythicalmysfits/service] repository, the pattern's default 256 CPU
    units and 512 MiB). *)
Definition ecs_fargate_service : FargateService :=
  mkFargateService (Some ecs_service_name) (Some ecs_cluster_name) 1 true (Some 1%Z) 256 512 true
    (Some "MythicalMysfits-Service") 8080 (FromEcrRepository service_repository)
    (ecr_pull_statements service_repository_arn ++ [task_definition_policy_stm])
    [task_role_policy_stm]
    [mkIngress any_ipv4 8080]
    [mkIngress vpc_cidr_block 8080].

(** *** [NetworkECRStack] *)

Section network_ecr.
Variables (region account : string).

Definition table_arn_of (name : string) : string :=
  "arn:aws:dynamodb:" +:+ region +:+ ":" +:+ account +:+ ":table/" +:+ name.

(** The dict [ecs_task_inline_policy] of lines 38-53. *)
Definition ecs_task_inline_policy : json :=
  JObj [("Version", JStr "2012-10-17");
        ("Statement", JArr [JObj [("Sid", JStr "AllActionsOnTable");
                                  ("Action", JArr [JStr "dynamodb:*"]);
                                  ("Effect", JStr "Allow");
                                  ("Resource", JArr [JStr (table_arn_of "MysfitsTable");
                                                     JStr (table_arn_of "MysfitsTable/index/*")])]])].

(** The account's [ecsTaskExecutionRole], imported twice
    ([Role.from_role_arn]) as the execution role and as the task role. *)
Definition ecs_task_execution_role_arn : string :=
  "arn:aws:iam::" +:+ account +:+ ":role/ecsTaskExecutionRole".

(** The image [account.dkr.ecr.region.amazonaws.com/mythicalmysfits/webservice]. *)
Definition webservice_image : string :=
  account +:+ ".dkr.ecr." +:+ region +:+ ".amazonaws.com/mythicalmysfits/webservice".
End network_ecr.

(** ** [PolicyDocument.from_json] *)

Definition json_field (k : string) (kvs : list (string * json)) : option json :=
  match list_find (fun kv => kv.1 = k) kvs with Some (_, kv) => Some kv.2 | None => None end.

Definition json_string (j : json) : option string :=
  match j with JStr s => Some s | _ => None end.

(** An [Action] or [Resource] entry: one string or a list of strings. *)
Definition json_strings (j : json) : option (list string) :=
  match j with
  | JStr s => Some [s]
  | JArr l => mapM json_string l
  | _ => None
  end.

Definition effect_of_string (s : string) : option Effect :=
  if String.eqb s "Allow" then Some Allow else if String.eqb s "Deny" then Some Deny else None.

Definition statement_from_json (j : json) : option Statement :=
  match j with
  | JObj kvs =>
      e ← (json_field "Effect" kvs ≫= json_string) ≫= effect_of_string;
      acts ← json_field "Action" kvs ≫= json_strings;
      res ← json_field "Resource" kvs ≫= json_strings;
      Some (mkStatement e acts res)
  | _ => None
  end.

(** The statements of a policy document: [Statement] holds one statement
    or a list of them. *)
Definition policy_from_json (j : json) : option (list Statement) :=
  match j with
  | JObj kvs =>
      match json_field "Statement" kvs with
      | Some (JArr l) => mapM statement_from_json l
      | Some st => (fun s => [s]) <$> statement_from_json st
      | None => None
      end
  | _ => None
  end.

(** The JSON of a statement, as [PolicyStatement.to_json] writes it. *)
Definition effect_to_string (e : Effect) : string :=
  match e with Allow => "Allow" | Deny => "Deny" end.

Definition statement_to_json (st : Statement) : json :=
  JObj [("Action", JArr (JStr <$> st_actions st));
        ("Effect", JStr (effect_to_string (st_effect st)));
        ("Resource", JArr (JStr <$> st_resources st))].

Definition policy_to_json (sts : list Statement) : json :=
  JObj [("Version", JStr "2012-10-17"); ("Statement", JArr (statement_to_json <$> sts))].

(** *** The rest of [NetworkECRStack] *)

(** [ec2.Vpc(self, "WebVpc", max_azs=2, nat_gateways=1)]: the VPC of
    [NetworkECRStack], as [NetworkStack] builds its own. *)
Record Vpc := mkVpc { vpc_max_azs : Z; vpc_nat_gateways : Z; vpc_cidr : string }.

Definition network_ecr_vpc : Vpc := mkVpc 2 1 vpc_cidr_block.

(** The Fargate service of [NetworkECRStack] (lines 56-105): the cluster
    [WebEc2Cluster] in its VPC, the image from the registry, and the
    account's [ecsTaskExecutionRole] imported twice: immutable as the
    execution role, so the CDK adds no grant to it, and mutable as the
    task role, to which the [ECSTaskPolicy] read by [from_json] is
    attached. Both imports are the same IAM role, so the execution role
    gets that policy too. The cluster's security group is not opened; the
    service's is opened to the VPC on 8080. A document [from_json]
    cannot read stops the synthesis ([None]). *)
Definition network_ecr_fargate_service (region account : string) : option FargateService :=
  task_policy ← policy_from_json (ecs_task_inline_policy region account);
  Some (mkFargateService None None 1 true None 256 512 true None 8080
          (FromRegistry (webservice_image region account))
          task_policy task_policy
          []
          [mkIngress (vpc_cidr network_ecr_vpc) 8080]).

(** The two outputs of lines 107 and 114, for the stack id the class
    would be given. *)
Definition network_ecr_outputs (stack_id : string) : list CfnOutput :=
  let lb := stack_id +:+ "/MythicalMysfits-Service/LB" in
  [mkOutput "WebLoadBalancerDNS" None (CAtt lb "DNSName");
   mkOutput "WebLoadBalancerARN" None (CRef lb)].

(** The repository part of an image name [registry/repository]. *)
Definition registry_repository (name : string) : string :=
  match split_on "/"%char name with
  | _ :: rest => String.concat "/" rest
  | [] => ""
  end.

(** The repository a service's image is pulled from. *)
Definition image_repository (img : ContainerImage) : string :=
  match img with
  | FromEcrRepository repo => repo
  | FromRegistry name => registry_repository name
  end.

(** ** [CiCdStack] *)

(** A pipeline action: the artifacts it reads and the ones it writes. *)
Record PipelineAction := mkAction {
  action_name : string;
  action_inputs : list string;
  action_outputs : list string
}.

Record Stage := mkStage { stage_name : string; stage_actions : list PipelineAction }.

(** [CiCdStack(app, "MythicalMysfits-CICD-stack", ecr_repository=..., ecs_service=...)]. *)
Definition cicd_stack : Stack :=
  mkStack "MythicalMysfits-CICD-stack" ["MythicalMysfits-ECR-stack"; "MythicalMysfits-ECS-stack"] [].

Definition backend_repository_name : string := "MythicalMysfits-BackendRepository".
Definition backend_repository_arn : string := arn (construct_path cicd_stack "BackendRepository").

Definition codebuild_policy_stm : Statement :=
  add_actions ["codecommit:ListBranches"; "codecommit:ListRepositories";
               "codecommit:BatchGetRepositories"; "codecommit:GitPull"]
    (add_resources [backend_repository_arn] policy_statement).

(** The two outputs of lines 90-96: the repository's clone URLs. *)
Definition cicd_outputs : list CfnOutput :=
  [mkOutput "BackendRepositoryCloneUrlHttp" (Some "Backend Repository CloneUrl HTTP")
     (CAtt (construct_path cicd_stack "BackendRepository") "CloneUrlHttp");
   mkOutput "BackendRepositoryCloneUrlSsh" (Some "Backend Repository CloneUrl SSH")
     (CAtt (construct_path cicd_stack "BackendRepository") "CloneUrlSsh")].

(** The CodeBuild project's role: [add_to_role_policy] and the ECR grant. *)
Definition codebuild_role (ecr_repository_arn : string) : list Statement :=
  codebuild_policy_stm :: ecr_pull_push_statements ecr_repository_arn.

(** [codebuild.BuildEnvironment(...)]: the image, the compute type, the
    plain-text variables and the privileged mode the docker build needs. *)
Record BuildEnvironment := mkBuildEnvironment {
  build_image : string;
  compute_type : string;
  environment_variables : list (string * string);
  privileged : bool
}.

Definition codebuild_environment (account region : string) : BuildEnvironment :=
  mkBuildEnvironment "aws/codebuild/ubuntu-base:14.04-python-3.5.2" "BUILD_GENERAL1_SMALL"
    [("AWS_ACCOUNT_ID", account); ("AWS_DEFAULT_REGION", region)] true.

Definition source_action : PipelineAction := mkAction "CodeCommit-Source" [] ["source_output"].
Definition build_action : PipelineAction := mkAction "Build" ["source_output"] ["build_output"].
Definition deploy_action : PipelineAction := mkAction "DeployAction" ["build_output"] [].

(** [pipeline.add_stage(...)] twice; the [Deploy] stage is commented out. *)
Definition pipeline_stages : list Stage :=
  [mkStage "Source" [source_action]; mkStage "Build" [build_action]].

(** CodePipeline accepts a pipeline of at least two stages whose first
    stage holds the source actions (no inputs) and in which every input
    artifact is an output of an earlier stage. *)
Fixpoint inputs_produced (available : list string) (stages : list Stage) : Prop :=
  match stages with
  | [] => True
  | st :: rest =>
      Forall (fun a => Forall (fun i => i ∈ available) (action_inputs a)) (stage_actions st) /\
      inputs_produced (available ++ (stage_actions st ≫= action_outputs)) rest
  end.

Definition pipeline_valid (stages : list Stage) : Prop :=
  2 <= length stages /\
  (match stages with
   | st :: _ => Forall (fun a => action_inputs a = []) (stage_actions st)
   | [] => False
   end) /\
  inputs_produced [] stages.

(** The artifacts written by some action and read by none. *)
Definition unconsumed (stages : list Stage) : list string :=
  let acts := stages ≫= stage_actions in
  filter (fun o => o ∉ acts ≫= action_inputs) (acts ≫= action_outputs).

(** * Properties *)

(** ** Policy documents *)

Lemma json_strings_fmap l : json_strings (JArr (JStr <$> l)) = Some l.
Proof. simpl. by apply mapM_fmap_Some. Qed.

Lemma statement_json_roundtrip st : statement_from_json (statement_to_json st) = Some st.
Proof.
  destruct st as [e acts res]. unfold statement_to_json. simpl st_actions; simpl st_resources.
  pose proof (json_strings_fmap acts) as Ha. pose proof (json_strings_fmap res) as Hr.
  revert Ha Hr. generalize (JArr (JStr <$> acts)) (JArr (JStr <$> res)). intros x y Hx Hy.
  simpl. rewrite Hx, Hy. by destruct e.
Qed.

(** Writing statements as a policy document and reading it back with
    [PolicyDocument.from_json] gives the statements back. *)
Lemma policy_json_roundtrip sts : policy_from_json (policy_to_json sts) = Some sts.
Proof. simpl. apply mapM_fmap_Some, statement_json_roundtrip. Qed.

(** The inline policy of [NetworkECRStack], as [from_json] reads it. *)
Lemma ecs_task_inline_policy_statements region account :
  policy_from_json (ecs_task_inline_policy region account) =
    Some [mkStatement Allow ["dynamodb:*"]
            [table_arn_of region account "MysfitsTable";
             table_arn_of region account "MysfitsTable/index/*"]].
Proof. reflexivity. Qed.

(** ** Permissions *)

Lemma lower_dynamodb_star : lower "dynamodb:*" = "dynamodb:" +:+ "*".
Proof. reflexivity. Qed.

(** The ECS task role of [EcsStack] may perform every DynamoDB action on
    every resource. *)
Lemma ecs_task_role_any_dynamodb a r rest :
  lower a = "dynamodb:" +:+ rest -> allows (fg_task_role ecs_fargate_service) a r = true.
Proof.
  intros Ha. apply allows_all_allow; [repeat constructor|].
  exists task_role_policy_stm. split; [by apply list_elem_of_singleton|].
  apply applies_iff. split.
  - exists "dynamodb:*". split; [cbn; set_solver|].
    unfold action_matches. rewrite lower_dynamodb_star. apply wmatch_literal_star; [done|]. eauto.
  - exists "*". split; [cbn; set_solver|]. apply wmatch_star.
Qed.

(** The statement of [NetworkECRStack] reaches [MysfitsTable] and its
    indexes only. *)
Lemma network_ecr_policy_scope region account a r :
  literal region = true -> literal account = true ->
  allows [mkStatement Allow ["dynamodb:*"]
            [table_arn_of region account "MysfitsTable";
             table_arn_of region account "MysfitsTable/index/*"]] a r = true ->
  r = table_arn_of region account "MysfitsTable" \/
  exists idx, r = table_arn_of region account ("MysfitsTable/index/" +:+ idx).
Proof.
  intros Hr Ha. rewrite allows_all_allow by (repeat constructor).
  intros (st & ->%list_elem_of_singleton & Hst). apply applies_iff in Hst as [_ (q & Hq & Hm)].
  assert (literal (table_arn_of region account "MysfitsTable") = true) as Hl1.
  { unfold table_arn_of. rewrite !literal_app, Hr, Ha. done. }
  assert (literal (table_arn_of region account "MysfitsTable/index/") = true) as Hl2.
  { unfold table_arn_of. rewrite !literal_app, Hr, Ha. done. }
  apply elem_of_cons in Hq as [->|Hq].
  - left. by apply wmatch_literal in Hm.
  - apply list_elem_of_singleton in Hq as ->. right.
    assert (table_arn_of region account "MysfitsTable/index/*" =
            table_arn_of region account "MysfitsTable/index/" +:+ "*") as Heq.
    { unfold table_arn_of. rewrite !str_app_assoc. done. }
    rewrite Heq in Hm. apply wmatch_literal_star in Hm as [idx ->]; [|done].
    exists idx. unfold table_arn_of. rewrite !str_app_assoc. done.
Qed.

(** C27: The task role of [EcsStack] is not confined to the table the
    service populates: it may perform any DynamoDB action on any resource
    (delete [MysfitsQuestionsTable], for one). The policy [NetworkECRStack]
    wrote for the same purpose, read by [PolicyDocument.from_json], reaches
    [MysfitsTable] and its indexes only. *)
Theorem ecs_task_role_unscoped region account :
  literal region = true -> literal account = true ->
  (forall a r rest, lower a = "dynamodb:" +:+ rest ->
     allows (fg_task_role ecs_fargate_service) a r = true) /\
  exists sts, policy_from_json (ecs_task_inline_policy region account) = Some sts /\
    forall a r, allows sts a r = true ->
      r = table_arn_of region account "MysfitsTable" \/
      exists idx, r = table_arn_of region account ("MysfitsTable/index/" +:+ idx).
Proof.
  intros Hr Ha. split; [apply ecs_task_role_any_dynamodb|].
  eexists. split; [apply ecs_task_inline_policy_statements|]. intros a r. by apply network_ecr_policy_scope.
Qed.

(** ** The image of [NetworkECRStack] *)

Lemma registry_repository_webservice region account :
  sep_free "/" region -> sep_free "/" account ->
  registry_repository (webservice_image region account) = "mythicalmysfits/webservice".
Proof.
  intros Hr Ha. unfold registry_repository, webservice_image.
  rewrite (split_on_app_free _ account) by done. simpl. rewrite ?str_app_nil_l.
  rewrite (split_on_app_free _ region) by done. done.
Qed.

(** [NetworkECRStack] runs an image from the repository
    [mythicalmysfits/webservice], which no stack of [app.py] creates (the
    ECR stack creates [mythicalmysfits/service], where [EcsStack] pulls
    from), and its execution role carries the task's table policy. *)
Lemma network_ecr_image_not_created region account :
  sep_free "/" region -> sep_free "/" account ->
  exists svc, network_ecr_fargate_service region account = Some svc /\
    image_repository (fg_image svc) = "mythicalmysfits/webservice" /\
    image_repository (fg_image svc) ∉ (app_stacks ≫= stack_items) ≫= item_repositories /\
    image_repository (fg_image ecs_fargate_service) ∈ (app_stacks ≫= stack_items) ≫= item_repositories /\
    fg_execution_role svc = fg_task_role svc.
Proof.
  intros Hr Ha. eexists. split; [reflexivity|]. cbn [fg_image image_repository].
  rewrite registry_repository_webservice by done. split_and!; [done|cbn; set_solver|cbn; set_solver|done].
Qed.

(** ** The pipeline *)

(** The pipeline of [CiCdStack] is well formed (two stages, a source
    stage, every input produced by an earlier stage), but the image it
    builds is never deployed: [build_output] is read by no action, since
    the stage with the ECS deploy action is commented out. *)
Theorem pipeline_never_deploys :
  pipeline_valid pipeline_stages /\
  unconsumed pipeline_stages = ["build_output"] /\
  deploy_action ∉ pipeline_stages ≫= stage_actions.
Proof.
  split; [|split; [reflexivity|cbn; set_solver]].
  unfold pipeline_valid. cbn. split; [lia|]. split; [repeat constructor|].
  repeat split; repeat constructor; set_solver.
Qed.

(** ** Witnesses *)

Lemma ecs_task_role_unscoped_witness :
  allows (fg_task_role ecs_fargate_service) "dynamodb:DeleteTable"
    "arn:aws:dynamodb:eu-west-1:123456789012:table/MysfitsQuestionsTable" = true /\
  exists sts, policy_from_json (ecs_task_inline_policy "eu-west-1" "123456789012") = Some sts.
Proof.
  destruct (ecs_task_role_unscoped "eu-west-1" "123456789012") as [H1 [sts [H2 _]]];
    [reflexivity|reflexivity|].
  split; [apply (H1 _ _ "deletetable"); reflexivity|]. exists sts. exact H2.
Defined.
