(* ===== verification/Website.v ===== *)
(** * The website stack: [WebApplicationStack]

    webgen/web_application_stack.py hosts the site: an S3 bucket, an
    origin access identity that may read it ([bucket.grant_read]), a
    CloudFront distribution whose origin is the bucket under the origin
    path [/web], and a [BucketDeployment] that uploads the local directory
    [./web] (the directory prepare_files.py rewrites) under the key prefix
    [web/] and invalidates the distribution.

    The local files are the [fs] of a [World]: the upload takes every file
    whose path starts with [web/], names the object [web/] followed by its
    path inside the directory, and replaces the bucket's objects under that
    prefix ([prune], the default). A viewer request for a path is answered
    with the object whose key is the origin path followed by the request
    path, without the leading slash; the request for [/] is answered with
    the default root object [index.html]. *)

From Stdlib Require Import String Ascii ZArith Bool.
From stdpp Require Import base list strings gmap sets.
From S2P Require Import Spec2Rocq PyStr Iam Stacks ApiStack.

(** ** Constructs *)

(** [os.path.abspath('./web')], run from the directory of app.py, where
    prepare_files.py also runs: the paths of its files start with [web/]. *)
Definition web_app_root : string := "web".

Definition site_bucket_arn : string := arn (construct_path web_s3_stack "Bucket").

(** [cloudfront.OriginAccessIdentity(self, 'BucketOrigin', comment='mythical-mysfits')]. *)
Definition origin_access_identity : string := construct_path web_s3_stack "BucketOrigin".

(** What [bucket.grant_read(principal)] adds to the bucket policy for the
    principal. *)
Definition grant_read (bucket_arn : string) : Statement :=
  mkStatement Allow ["s3:GetObject*"; "s3:GetBucket*"; "s3:List*"]
    [bucket_arn; arn_for_objects bucket_arn "*"].

(** The bucket policy: statements per principal. *)
Definition site_bucket_policy : list (string * Statement) :=
  [(origin_access_identity, grant_read site_bucket_arn)].

Definition policy_for (principal : string) (pol : list (string * Statement)) : list Statement :=
  snd <$> filter (fun ps => ps.1 = principal) pol.

Record Distribution := mkDistribution {
  viewer_protocol_policy : string;
  price_class : string;
  max_ttl : Z;   (** of the default behaviour *)
  allowed_methods : list string;
  origin_path : string;
  origin_bucket_arn : string;
  origin_identity : string;
  default_root_object : string
}.

(** [cloudfront.CloudFrontWebDistribution(self, 'CloudFront', ...)]; its
    default root object is the construct's default, [index.html]. *)
Definition cdn : Distribution :=
  mkDistribution "allow-all" "PriceClass_All" 31536000 ["GET"; "HEAD"; "OPTIONS"] "/web"
    site_bucket_arn origin_access_identity "index.html".

Record BucketDeployment := mkBucketDeployment {
  dep_source : string;
  dep_prefix : string;
  dep_bucket_arn : string;
  dep_invalidates : bool;
  dep_retain_on_delete : bool
}.

(** [s3deploy.BucketDeployment(self, 'DeployWebsite', ...)]. *)
Definition deploy_website : BucketDeployment :=
  mkBucketDeployment web_app_root "web/" site_bucket_arn true false.

(** [cdk.CfnOutput(self, 'CloudFrontURL', ..., value='https://' + cdn.domain_name)]. *)
Definition website_outputs : list CfnOutput :=
  [mkOutput "CloudFrontURL" (Some "The CloudFront distribution URL")
     (CJoin [CLit "https://"; CAtt (construct_path web_s3_stack "CloudFront") "DomainName"])].

(** ** The upload and the requests *)

(** A file under the directory [p], named by its path inside it. *)
Definition strip_dir (p : string) (pc : string * string) : option (string * string) :=
  if String.prefix p pc.1 then Some (str_drop (String.length p) pc.1, pc.2) else None.

(** The files of the source directory: their paths inside it and their
    contents. *)
Definition source_files (dir : string) (fs : gmap string string) : list (string * string) :=
  omap (strip_dir (dir +:+ "/")) (map_to_list fs).

(** The objects of the bucket after the deployment. *)
Definition deployed_objects (dep : BucketDeployment) (fs : gmap string string) : gmap string string :=
  list_to_map ((fun rc : string * string => (dep_prefix dep +:+ rc.1, rc.2)) <$>
                 source_files (dep_source dep) fs).

(** The key of the object a viewer request asks the origin for. *)
Definition origin_key (d : Distribution) (path : string) : string :=
  let path := if String.eqb path "/" then "/" +:+ default_root_object d else path in
  str_drop 1 (origin_path d +:+ path).

(** The answer to a viewer request: the object, fetched with the origin
    access identity, which the bucket policy must allow to read it. *)
Definition serve (d : Distribution) (pol : list (string * Statement)) (objects : gmap string string)
    (path : string) : option string :=
  let key := origin_key d path in
  if allows (policy_for (origin_identity d) pol) "s3:GetObject" (arn_for_objects (origin_bucket_arn d) key)
  then objects !! key else None.

(** * Properties *)

Lemma prefix_drop (p s : string) :
  String.prefix p s = true -> p +:+ str_drop (String.length p) s = s.
Proof.
  intros [r ->]%prefix_app_iff. by rewrite str_drop_app_length.
Qed.

(** Putting the prefix back gives the files under it, unchanged. *)
Lemma strip_dir_rebase (p : string) (l : list (string * string)) :
  (fun rc : string * string => (p +:+ rc.1, rc.2)) <$> omap (strip_dir p) l =
  filter (fun pc : string * string => String.prefix p pc.1 = true) l.
Proof.
  induction l as [|[q c] l IH]; [done|]. cbn [omap list_omap]. unfold strip_dir at 1. simpl.
  destruct (String.prefix p q) eqn:E.
  - rewrite filter_cons_True by done. rewrite fmap_cons, IH. simpl. by rewrite prefix_drop.
  - rewrite filter_cons_False by (simpl; congruence). done.
Qed.

(** The deployment of [./web] uploads exactly the files under [web/], each
    at its own path. *)
Lemma deployed_objects_web fs :
  deployed_objects deploy_website fs = filter (fun kv : string * string => String.prefix "web/" kv.1 = true) fs.
Proof.
  rewrite map_filter_alt. unfold deployed_objects, source_files.
  cbn [dep_prefix dep_source deploy_website web_app_root].
  change ("web" +:+ "/") with "web/". by rewrite (strip_dir_rebase "web/").
Qed.

Lemma lookup_deployed_objects fs f :
  deployed_objects deploy_website fs !! ("web/" +:+ f) = fs !! ("web/" +:+ f).
Proof.
  rewrite deployed_objects_web, map_lookup_filter.
  destruct (fs !! _); [|done]. simpl. rewrite option_guard_True; [done|]. apply prefix_app.
Qed.

(** The origin key of a viewer path: the origin path [/web] before it. *)
Lemma origin_key_cdn f :
  origin_key cdn ("/" +:+ f) = "web/" +:+ (if String.eqb f "" then "index.html" else f).
Proof. by destruct f. Qed.

(** [bucket.grant_read] lets the origin access identity read every object. *)
Lemma oai_reads_objects key :
  allows (policy_for origin_access_identity site_bucket_policy) "s3:GetObject"
    (arn_for_objects site_bucket_arn key) = true.
Proof.
  assert (literal site_bucket_arn = true) as Hb by reflexivity. revert Hb.
  assert (policy_for origin_access_identity site_bucket_policy = [grant_read site_bucket_arn]) as ->
    by reflexivity.
  unfold allows, effect_applies, applies, grant_read. generalize site_bucket_arn as b. intros b Hb.
  cbn -[wmatch arn_for_objects]. rewrite (wmatch_objects _ _ Hb). by rewrite !orb_true_r.
Qed.

(** C5: every file of the local [web] directory is served by CloudFront at
    its path inside the directory, the request for [/] is served
    [web/index.html], and nothing else of the directory is served: the
    answer to [/f] is the content of the local file [web/f]. *)
Theorem website_serves_web_dir fs f :
  serve cdn site_bucket_policy (deployed_objects deploy_website fs) ("/" +:+ f) =
  fs !! ("web/" +:+ (if String.eqb f "" then "index.html" else f)).
Proof.
  unfold serve. change (origin_identity cdn) with origin_access_identity.
  change (origin_bucket_arn cdn) with site_bucket_arn.
  rewrite origin_key_cdn, oai_reads_objects. apply lookup_deployed_objects.
Qed.
