(* ===== verification/Notebook.v ===== *)
(** * The SageMaker notebook [mysfit_recommendations_knn.py]

    The notebook, exported as a script, trains the kNN recommendation
    model and deploys it behind a SageMaker endpoint:

    - it makes sure the IAM role [MysfitsSageMakerRole] exists: [get_role],
      and on [NoSuchEntity] [create_role] with a trust policy for SageMaker
      and [attach_role_policy] of [AmazonSageMakerFullAccess]; any other
      error is raised again (lines 48-80);
    - it loads the raw data with [np.loadtxt], shuffles it and splits it
      90/10 into train and test (lines 96-115);
    - it uploads both sets to the session's default bucket and names
      them by [s3://] URIs (lines 124-165);
    - it trains an estimator on them ([trained_estimator_from_hyperparams],
      lines 188-224) and deploys it to the endpoint
      [mysfits-knn-ml-m4-xlarge-<time>] ([predictor_from_estimator],
      lines 239-257).

    The state is the [World] of the scripts with the IAM roles of the
    account and the SageMaker training jobs; boto3 and the SageMaker SDK
    calls are transitions of it. The SDK's tables that the notebook only
    consults (the ECR registry of the kNN image, the float syntax numpy
    accepts) are the variables of the section [notebook]. *)

From Stdlib Require Import String Ascii ZArith Bool Arith.
From stdpp Require Import base list strings gmap pretty.
From S2P Require Import Spec2Rocq PyStr Cloud World AwsOps Json ApiGw Lookup Checks.

(** ** State *)

(** An IAM role: its trust policy document and its attached managed
    policies, in the order attached. *)
Record IamRole := mkIamRole {
  role_trust : string;
  role_policies : list string
}.

(** A completed training job. *)
Record TrainingJob := mkTrainingJob {
  job_name : string;
  job_image : string;
  job_role : string;
  job_instance_type : string;
  job_hyperparams : list (string * json);
  job_channels : list (string * string);
  job_output : string
}.

Record Notebook := mkNotebook {
  nb_world : World;
  nb_roles : gmap string IamRole;
  nb_jobs : list TrainingJob;
  nb_account : string;   (** what [sts.get_caller_identity()['Account']] answers *)
  nb_now : Z             (** the creation time SageMaker gives the endpoint *)
}.

Abbreviation nbM := (pyM Notebook).

Definition set_nb_world (w : World) (s : Notebook) : Notebook :=
  mkNotebook w (nb_roles s) (nb_jobs s) (nb_account s) (nb_now s).
Definition set_nb_roles (r : gmap string IamRole) (s : Notebook) : Notebook :=
  mkNotebook (nb_world s) r (nb_jobs s) (nb_account s) (nb_now s).
Definition set_nb_jobs (j : list TrainingJob) (s : Notebook) : Notebook :=
  mkNotebook (nb_world s) (nb_roles s) j (nb_account s) (nb_now s).

(** A statement of the scripts' world, run inside the notebook. *)
Definition lift {A} (m : script A) : nbM A :=
  fun s => let '(o, w) := m (nb_world s) in (o, set_nb_world w s).

(** ** IAM (lines 48-80) *)

Definition role : string := "MysfitsSageMakerRole".

Definition assume_role_policy : json :=
  JObj [("Version", JStr "2012-10-17");
        ("Statement", JArr [JObj [("Effect", JStr "Allow");
                                  ("Principal", JObj [("Service", JArr [JStr "sagemaker.amazonaws.com"])]);
                                  ("Action", JStr "sts:AssumeRole")]])].

Definition assume_role_policy_document : string := json_dumps assume_role_policy.

Definition sagemaker_full_access : string := "arn:aws:iam::aws:policy/AmazonSageMakerFullAccess".

(** [client.get_role(RoleName=name)]. *)
Definition get_role (name : string) : nbM IamRole :=
  lift (aws_call "iam:GetRole");;
  r ← gets (fun s => nb_roles s !! name);
  match r with Some r => mret r | None => raise (ClientError "NoSuchEntity") end.

(** [client.create_role(RoleName=name, AssumeRolePolicyDocument=doc)]. *)
Definition create_role (name doc : string) : nbM unit :=
  lift (aws_call "iam:CreateRole");;
  r ← gets (fun s => nb_roles s !! name);
  match r with
  | Some _ => raise (ClientError "EntityAlreadyExists")
  | None => modify (fun s => set_nb_roles (<[name := mkIamRole doc []]> (nb_roles s)) s)
  end.

(** [client.attach_role_policy(RoleName=name, PolicyArn=arn)]; attaching
    an attached policy changes nothing. *)
Definition attach_role_policy (name policy_arn : string) : nbM unit :=
  lift (aws_call "iam:AttachRolePolicy");;
  r ← gets (fun s => nb_roles s !! name);
  match r with
  | Some r =>
      let pols := if bool_decide (policy_arn ∈ role_policies r) then role_policies r
                  else role_policies r ++ [policy_arn] in
      modify (fun s => set_nb_roles (<[name := mkIamRole (role_trust r) pols]> (nb_roles s)) s)
  | None => raise (ClientError "NoSuchEntity")
  end.

(** The role cell: [try: get_role except ClientError as e: if NoSuchEntity:
    create and attach, else: raise e]. Exceptions other than
    [ClientError] are not caught. *)
Definition setup_role : nbM unit :=
  try_except (get_role role;; mret tt)
    (fun e => match e with
              | ClientError code =>
                  if String.eqb code "NoSuchEntity"
                  then create_role role assume_role_policy_document;;
                       attach_role_policy role sagemaker_full_access
                  else raise e
              | _ => raise e
              end).

(** ** Paths (lines 96-102, 142-165, 222) *)

(** [os.path.join(a, *ps)] (posixpath). *)
Definition os_path_join (a : string) (ps : list string) : string :=
  foldl (fun path b =>
           if String.prefix "/" b then b
           else if String.eqb path "" || String.eqb (str_drop (String.length path - 1) path) "/"
           then path +:+ b else path +:+ "/" +:+ b) a ps.

Definition data_dir : string := "tmp/mysfit/".
Definition processed_subdir : string := "standardized".
Definition raw_data_file : string := os_path_join data_dir ["raw"; "mysfit-preferences.csv.gz"].
(** The four processed-data paths of lines 99-102; the notebook names
    them but never writes them. *)
Definition train_features_file : string := os_path_join data_dir [processed_subdir; "train/csv/features.csv"].
Definition train_labels_file : string := os_path_join data_dir [processed_subdir; "train/csv/labels.csv"].
Definition test_features_file : string := os_path_join data_dir [processed_subdir; "test/csv/features.csv"].
Definition test_labels_file : string := os_path_join data_dir [processed_subdir; "test/csv/labels.csv"].

Definition prefix : string := "mysfit-recommendation-dataset".
Definition key : string := "recordio-pb-data".

Definition train_key : string := os_path_join prefix ["train"; key].
Definition test_key : string := os_path_join prefix ["test"; key].

(** ['s3://{}/{}/train/{}'.format(bucket, prefix, key)] and its test twin. *)
Definition s3_train_data (bucket : string) : string := "s3://" +:+ bucket +:+ "/" +:+ prefix +:+ "/train/" +:+ key.
Definition s3_test_data (bucket : string) : string := "s3://" +:+ bucket +:+ "/" +:+ prefix +:+ "/test/" +:+ key.

Definition output_path (bucket : string) : string :=
  "s3://" +:+ bucket +:+ "/" +:+ prefix +:+ "/default_example/output".

(** An [s3://bucket/key] URI, as SageMaker reads it. *)
Definition parse_s3_uri (uri : string) : option (string * string) :=
  if String.prefix "s3://" uri then
    let rest := str_drop 5 uri in
    match split_on "/"%char rest with
    | b :: k :: ks => Some (b, String.concat "/" (k :: ks))
    | _ => None
    end
  else None.

(** ** Loading and splitting the data (lines 104-115) *)

Section notebook.

(** Whether [float(field)] accepts a field of the file. *)
Variable is_float : string -> bool.
(** The account of the ECR registry of the built-in algorithms in a region
    (the SDK's table behind [get_image_uri]). *)
Variable ecr_registry : string -> string.

(** The lines of the (decompressed) file, without line breaks; blank lines
    are skipped. *)
Definition data_lines (text : string) : list string :=
  filter (fun l => l <> "") (split_on (Ascii.ascii_of_nat 10) text).

(** The first error [np.loadtxt] meets, line by line: a row with another
    number of columns than the first, or a field that is not a number. *)
Fixpoint row_error (ncols : nat) (rows : list (list string)) : option string :=
  match rows with
  | [] => None
  | r :: rs =>
      if negb (length r =? ncols) then Some "the number of columns changed"
      else if negb (forallb is_float r) then Some "could not convert string to float"
      else row_error ncols rs
  end.

(** [np.squeeze]: the dimensions of size one are dropped. *)
Definition squeeze (shape : list nat) : list nat := filter (fun d => d <> 1) shape.

(** The shape of [np.loadtxt] on a text: an empty text gives an empty
    array of shape [(0,)]. *)
Definition loadtxt_shape (text : string) : outcome (list nat) :=
  let rows := split_on ","%char <$> data_lines text in
  match rows with
  | [] => Ok [0]
  | r :: _ =>
      match row_error (length r) rows with
      | Some msg => Raise (ValueError msg)
      | None => Ok (squeeze [length rows; length r])
      end
  end.

(** [raw = np.loadtxt(path, delimiter=',')]: the shape of [raw]. *)
Definition loadtxt (path : string) : nbM (list nat) :=
  text ← lift (read_file path);
  (fun s => (loadtxt_shape text, s)) : nbM (list nat).

(** [raw.shape[0]] and [raw[:k, :-1]] need a two-dimensional array. *)
Definition matrix_shape (shape : list nat) : nbM (nat * nat) :=
  match shape with
  | [n; c] => mret (n, c)
  | _ => raise IndexError
  end.

(** [int(0.9 * n)]: the double nearest to [0.9] is a little above it, so
    the product is never below [9n/10], and it stays below the next
    integer while [n < 10^15]. *)
Definition train_size (n : nat) : nat := 9 * n / 10.

(** The [repr] of a shape tuple. *)
Definition repr_shape (shape : list nat) : string :=
  match shape with
  | [d] => "(" +:+ pretty d +:+ ",)"
  | _ => "(" +:+ join ", " (pretty <$> shape) +:+ ")"
  end.

(** ** S3 (lines 138-165) *)

(** The region of [sagemaker.Session()] and [boto3.Session()]. *)
Definition session_region : nbM string :=
  r ← lift (environ_get "AWS_DEFAULT_REGION");
  match r with
  | Some r => mret r
  | None => raise (ValueError "Must setup local AWS configuration with a region supported by SageMaker.")
  end.

Definition default_bucket_name (region account : string) : string :=
  "sagemaker-" +:+ region +:+ "-" +:+ account.

Definition add_bucket (name region : string) (c : Cloud) : Cloud :=
  match find_bucket name (buckets c) with
  | Some _ => c
  | None =>
      set_buckets (buckets c ++ [mkBucket name (if String.eqb region "us-east-1" then None else Some region) []]) c
  end.

(** [sagemaker.Session().default_bucket()]: the bucket
    [sagemaker-<region>-<account>], created when it does not exist yet. *)
Definition default_bucket : nbM string :=
  region ← session_region;
  lift (aws_call "sts:GetCallerIdentity");;
  account ← gets nb_account;
  let name := default_bucket_name region account in
  lift (aws_call "s3:CreateBucket");;
  lift (update_cloud (add_bucket name region));;
  mret name.

Definition add_object (name k : string) (bs : list Bucket) : list Bucket :=
  (fun b => if decide (bucket_name b = name)
            then mkBucket (bucket_name b) (bucket_location b)
                   (if bool_decide (k ∈ bucket_objects b) then bucket_objects b else bucket_objects b ++ [k])
            else b) <$> bs.

(** [boto3.resource('s3').Bucket(b).Object(k).upload_fileobj(buf)]. *)
Definition put_object (bucket k : string) : nbM unit :=
  lift (aws_call "s3:PutObject";;
        b ← gets (fun w : World => find_bucket bucket (buckets (cloud w)));
        match b with
        | Some _ => update_cloud (fun c => set_buckets (add_object bucket k (buckets c)) c)
        | None => raise (ClientError "NoSuchBucket")
        end).

(** The object an [s3://] URI names is in the account. *)
Definition object_present (bs : list Bucket) (uri : string) : bool :=
  match parse_s3_uri uri with
  | Some (b, k) =>
      match find_bucket b bs with
      | Some bk => bool_decide (k ∈ bucket_objects bk)
      | None => false
      end
  | None => false
  end.

(** ** Training (lines 182-224) *)

Record Estimator := mkEstimator {
  est_image : string;
  est_role : string;
  est_instance_count : nat;
  est_instance_type : string;
  est_output_path : string;
  est_hyperparams : list (string * json);
  est_job : option string   (** the latest training job *)
}.

(** [get_image_uri(region, algo)] of the built-in algorithms. *)
Definition get_image_uri (region algo : string) : string :=
  ecr_registry region +:+ ".dkr.ecr." +:+ region +:+ ".amazonaws.com/" +:+ algo +:+ ":1".

(** The SDK's [base_name_from_image]: the repository of the image, without
    registry and tag. *)
Definition base_name_from_image (image : string) : string :=
  default "" (head (split_on ":"%char (default "" (last (split_on "/"%char image))))).

(** [estimator.fit(inputs)]: the SDK resolves the role's ARN ([GetRole]),
    starts the job [<base name>-<time stamp>] and waits for it. The job
    fails, and [fit] raises the SDK's [UnexpectedStatusException] (a
    [ValueError]), when the role cannot read the data (it lacks
    [AmazonSageMakerFullAccess]) or an input object is missing; a job that
    completes writes its model under the output path. *)
Definition fit (stamp : string) (inputs : list (string * string)) (est : Estimator) : nbM Estimator :=
  r ← get_role (est_role est);
  lift (aws_call "sagemaker:CreateTrainingJob");;
  let name := base_name_from_image (est_image est) +:+ "-" +:+ stamp in
  ok ← gets (fun s => bool_decide (sagemaker_full_access ∈ role_policies r) &&
                      forallb (fun i => object_present (buckets (cloud (nb_world s))) i.2) inputs);
  if (ok : bool) then
    modify (fun s => set_nb_jobs (nb_jobs s ++ [mkTrainingJob name (est_image est) (est_role est)
                       (est_instance_type est) (est_hyperparams est) inputs (est_output_path est)]) s);;
    (match parse_s3_uri (est_output_path est) with
     | Some (b, k) => put_object b (k +:+ "/" +:+ name +:+ "/output/model.tar.gz")
     | None => mret tt
     end);;
    mret (mkEstimator (est_image est) (est_role est) (est_instance_count est) (est_instance_type est)
            (est_output_path est) (est_hyperparams est) (Some name))
  else raise (ValueError ("Error for Training job " +:+ name +:+ ": Failed")).

(** [trained_estimator_from_hyperparams] (lines 188-208). *)
Definition trained_estimator_from_hyperparams (stamp s3_train_data : string)
    (hyperparams : list (string * json)) (output_path : string) (s3_test_data : option string)
    : nbM Estimator :=
  region ← session_region;
  let knn := mkEstimator (get_image_uri region "knn") role 1 "ml.m5.2xlarge" output_path [] None in
  let knn := mkEstimator (est_image knn) (est_role knn) (est_instance_count knn) (est_instance_type knn)
               (est_output_path knn) hyperparams (est_job knn) in
  let fit_input := [("train", s3_train_data)] ++
                   match s3_test_data with Some t => [("test", t)] | None => [] end in
  fit stamp fit_input knn.

Definition hyperparams : list (string * json) :=
  [("feature_dim", JInt 5); ("k", JInt 10); ("sample_size", JInt 100000);
   ("predictor_type", JStr "classifier")].

(** ** Deployment (lines 239-257) *)

Definition add_named (name : string) (now : Z) (l : list Named) : list Named := l ++ [mkNamed name now].

(** The creation of a regional SageMaker resource: refused without
    permission, [ValidationException] when one of that name exists. *)
Definition create_resource (op r : string) (present : Region -> bool) (add : Region -> Region) : script unit :=
  aws_call op;;
  p ← gets (fun w : World => present (region_in w r));
  if (p : bool) then raise (ClientError "ValidationException") else update_region r add.

(** [estimator.deploy(initial_instance_count, instance_type, endpoint_name)]:
    a model named after the training job, an endpoint configuration and an
    endpoint both named [endpoint_name] (the job's name when it is
    [None]); the SDK waits until the endpoint is [InService]. *)
Definition deploy (count : nat) (instance_type : string) (endpoint_name : option string)
    (est : Estimator) : nbM string :=
  match est_job est with
  | None => raise (ValueError "Estimator is not associated with a training job")
  | Some job =>
      region ← session_region;
      now ← gets nb_now;
      let name := default job endpoint_name in
      lift (create_resource "sagemaker:CreateModel" region
              (fun rg => bool_decide (job ∈ nm_name <$> rg_models rg))
              (fun rg => set_rg_models (add_named job now (rg_models rg)) rg));;
      lift (create_resource "sagemaker:CreateEndpointConfig" region
              (fun rg => bool_decide (name ∈ nm_name <$> rg_endpoint_configs rg))
              (fun rg => set_rg_endpoint_configs (add_named name now (rg_endpoint_configs rg)) rg));;
      lift (create_resource "sagemaker:CreateEndpoint" region
              (fun rg => bool_decide (name ∈ ep_name <$> rg_endpoints rg))
              (fun rg => set_rg_endpoints (rg_endpoints rg ++ [mkEndpoint name "InService" now]) rg));;
      mret name
  end.

Definition predictor_from_estimator (knn_estimator : Estimator) (estimator_name instance_type : string)
    (endpoint_name : option string) : nbM string :=
  deploy 1 instance_type endpoint_name knn_estimator.

Definition instance_type : string := "ml.m4.xlarge".
Definition model_name : string := "mysfits-knn_" +:+ instance_type.

(** ['mysfits-knn-ml-m4-xlarge-%s' % (str(time.time()).replace('.','-'))],
    for the text [t] of [str(time.time())]. *)
Definition endpoint_name (t : string) : string :=
  "mysfits-knn-ml-m4-xlarge-" +:+ str_replace t "." "-".

(** ** The notebook *)

(** The notebook's cells. Lines 104-115: the raw data and the size of
    the split. *)
Definition load_data : nbM (nat * nat) :=
  lift (print ("Reading raw data from " +:+ raw_data_file));;
  shape ← loadtxt raw_data_file;
  matrix_shape shape.

(** Lines 127-148: the training set, uploaded to the default bucket. *)
Definition upload_train (n c : nat) : nbM string :=
  let k := train_size n in
  lift (print ("train_features shape =  " +:+ repr_shape [k; c - 1]));;
  lift (print ("train_labels shape =  " +:+ repr_shape [k]));;
  bucket ← default_bucket;
  put_object bucket train_key;;
  lift (print ("uploaded training data location: " +:+ s3_train_data bucket));;
  mret bucket.

(** Lines 156-165: the test set. *)
Definition upload_test (bucket : string) (n c : nat) : nbM unit :=
  let k := train_size n in
  lift (print ("test_features shape =  " +:+ repr_shape [n - k; c - 1]));;
  lift (print ("test_labels shape =  " +:+ repr_shape [n - k]));;
  put_object bucket test_key;;
  lift (print ("uploaded test data location: " +:+ s3_test_data bucket)).

(** Lines 216-224. *)
Definition train (bucket stamp : string) : nbM Estimator :=
  trained_estimator_from_hyperparams stamp (s3_train_data bucket) hyperparams
    (output_path bucket) (Some (s3_test_data bucket)).

(** Lines 251-257. *)
Definition deploy_endpoint (t : string) (knn_estimator : Estimator) : nbM string :=
  lift (print "setting up the endpoint..");;
  predictor_from_estimator knn_estimator model_name instance_type (Some (endpoint_name t)).

(** The notebook run top to bottom, [t] the text of [str(time.time())] when
    the endpoint is named and [stamp] the time stamp of the training job. *)
Definition notebook (t stamp : string) : nbM string :=
  setup_role;;
  '(n, c) ← load_data;
  bucket ← upload_train n c;
  upload_test bucket n c;;
  knn_estimator ← train bucket stamp;
  deploy_endpoint t knn_estimator.

(** * Properties *)

Lemma set_nb_world_id s : set_nb_world (nb_world s) s = s.
Proof. by destruct s. Qed.

Lemma set_nb_roles_twice r1 r2 s : set_nb_roles r2 (set_nb_roles r1 s) = set_nb_roles r2 s.
Proof. by destruct s. Qed.

Lemma run_lift {A} (m : script A) s o w :
  run m (nb_world s) = (o, w) -> run (lift m) s = (o, set_nb_world w s).
Proof. unfold run, lift. by intros ->. Qed.

Lemma run_lift_eq {A} (m : script A) s :
  run (lift m) s = (fst (run m (nb_world s)), set_nb_world (snd (run m (nb_world s))) s).
Proof. unfold run, lift. by destruct (m (nb_world s)). Qed.

Lemma run_lift_aws_call op s :
  run (lift (aws_call op)) s =
    (if bool_decide (op ∈ denied (cloud (nb_world s)))
     then Raise (ClientError "AccessDeniedException") else Ok tt, s).
Proof.
  unfold run, lift. pose proof (run_aws_call op (nb_world s)) as H. unfold run in H.
  rewrite H. by rewrite set_nb_world_id.
Qed.

Lemma run_lift_allowed {A} op (m : nbM A) s :
  op ∉ denied (cloud (nb_world s)) -> run (lift (aws_call op);; m) s = run m s.
Proof. intros Hd. rewrite run_bind, run_lift_aws_call. by rewrite bool_decide_false. Qed.

(** The role cell, on every path: with [GetRole] refused it raises
    [AccessDenied]; an existing role is kept as it is, whatever its
    policies; a missing one is created with the SageMaker trust policy
    and [AmazonSageMakerFullAccess] attached, and when the attachment is
    refused the role stays created without any policy. *)
Lemma run_setup_role s :
  run setup_role s =
    let den op := bool_decide (op ∈ denied (cloud (nb_world s))) in
    if den "iam:GetRole" then (Raise (ClientError "AccessDeniedException"), s)
    else match nb_roles s !! role with
      | Some _ => (Ok tt, s)
      | None =>
          if den "iam:CreateRole" then (Raise (ClientError "AccessDeniedException"), s)
          else if den "iam:AttachRolePolicy" then
            (Raise (ClientError "AccessDeniedException"),
             set_nb_roles (<[role := mkIamRole assume_role_policy_document []]> (nb_roles s)) s)
          else (Ok tt, set_nb_roles (<[role := mkIamRole assume_role_policy_document
                                               [sagemaker_full_access]]> (nb_roles s)) s)
      end.
Proof.
  unfold setup_role, get_role.
  generalize assume_role_policy_document as doc, sagemaker_full_access as full. intros doc full.
  rewrite run_try_except, !run_bind, run_lift_aws_call.
  case_bool_decide; [done|]. rewrite run_bind, run_gets.
  destruct (nb_roles s !! role) eqn:Hr; [done|].
  rewrite run_raise. cbn beta iota zeta. rewrite String.eqb_refl.
  unfold create_role. rewrite !run_bind, run_lift_aws_call.
  case_bool_decide; [done|]. cbn beta iota zeta. rewrite run_bind, run_gets, Hr, run_modify.
  cbn beta iota zeta. unfold attach_role_policy. rewrite run_bind, run_lift_aws_call.
  cbn [nb_world set_nb_roles]. case_bool_decide; [done|]. cbn beta iota zeta.
  rewrite run_bind, run_gets. cbn [nb_roles set_nb_roles]. rewrite lookup_insert_eq.
  cbn beta iota zeta. rewrite run_modify. cbn [nb_roles set_nb_roles role_policies role_trust].
  rewrite bool_decide_false by set_solver. by rewrite set_nb_roles_twice, insert_insert_eq.
Qed.

(** ** Running the notebook's steps *)

Lemma run_setup_role_exists s ro :
  "iam:GetRole" ∉ denied (cloud (nb_world s)) -> nb_roles s !! role = Some ro ->
  run setup_role s = (Ok tt, s).
Proof.
  intros Hd Hr. unfold setup_role, get_role.
  rewrite run_try_except, run_bind, run_lift_allowed, run_bind, run_gets by done. by rewrite Hr.
Qed.

Lemma run_lift_print msg s :
  run (lift (print msg)) s = (Ok tt, set_nb_world (set_out (out (nb_world s) ++ [msg]) (nb_world s)) s).
Proof. reflexivity. Qed.

Lemma run_loadtxt path text s :
  fs (nb_world s) !! path = Some text -> run (loadtxt path) s = (loadtxt_shape text, s).
Proof.
  intros Hf. unfold loadtxt. rewrite run_bind, (run_lift _ _ (Ok text) (nb_world s)).
  - by rewrite set_nb_world_id.
  - by rewrite run_read_file, Hf.
Qed.

Lemma run_session_region s r :
  environ (nb_world s) !! "AWS_DEFAULT_REGION" = Some r -> run session_region s = (Ok r, s).
Proof.
  intros He. unfold session_region.
  rewrite run_bind, (run_lift _ _ (Ok (Some r)) (nb_world s)), set_nb_world_id; [done|].
  by rewrite run_environ_get, He.
Qed.

Lemma run_default_bucket s r :
  environ (nb_world s) !! "AWS_DEFAULT_REGION" = Some r ->
  "sts:GetCallerIdentity" ∉ denied (cloud (nb_world s)) -> "s3:CreateBucket" ∉ denied (cloud (nb_world s)) ->
  run default_bucket s =
    (Ok (default_bucket_name r (nb_account s)),
     set_nb_world (set_cloud (add_bucket (default_bucket_name r (nb_account s)) r (cloud (nb_world s)))
                     (nb_world s)) s).
Proof.
  intros He Hd1 Hd2. unfold default_bucket.
  rewrite run_bind, (run_session_region _ _ He), run_lift_allowed, run_bind, run_gets,
    run_lift_allowed by done.
  reflexivity.
Qed.

Lemma run_put_object b k s :
  "s3:PutObject" ∉ denied (cloud (nb_world s)) -> is_Some (find_bucket b (buckets (cloud (nb_world s)))) ->
  run (put_object b k) s =
    (Ok tt, set_nb_world (set_cloud (set_buckets (add_object b k (buckets (cloud (nb_world s))))
                                       (cloud (nb_world s))) (nb_world s)) s).
Proof.
  intros Hd [bk Hb]. unfold put_object. apply run_lift.
  rewrite run_aws_allowed, run_bind, run_gets by done. by rewrite Hb.
Qed.

(** ** Buckets and objects *)

(** The bucket [b] holds the object [k]. *)
Definition has_object (bs : list Bucket) (b k : string) : Prop :=
  exists bk, find_bucket b bs = Some bk /\ k ∈ bucket_objects bk.

(** What the cells before the deployment leave unchanged, and the buckets
    and objects they keep. *)
Record nb_frame (s s' : Notebook) : Prop := {
  frame_roles : nb_roles s' = nb_roles s;
  frame_environ : environ (nb_world s') = environ (nb_world s);
  frame_fs : fs (nb_world s') = fs (nb_world s);
  frame_denied : denied (cloud (nb_world s')) = denied (cloud (nb_world s));
  frame_regions : regions (cloud (nb_world s')) = regions (cloud (nb_world s));
  frame_now : nb_now s' = nb_now s;
  frame_account : nb_account s' = nb_account s;
  frame_buckets : forall b, is_Some (find_bucket b (buckets (cloud (nb_world s)))) ->
                            is_Some (find_bucket b (buckets (cloud (nb_world s'))));
  frame_objects : forall b k, has_object (buckets (cloud (nb_world s))) b k ->
                              has_object (buckets (cloud (nb_world s'))) b k
}.

#[export] Instance nb_frame_preorder : PreOrder nb_frame.
Proof.
  split.
  - intros s. by constructor.
  - intros s1 s2 s3 [] []. constructor; try congruence; auto.
Qed.

Lemma find_bucket_add_object b b' k bs :
  find_bucket b (add_object b' k bs) =
    (fun bk => if decide (bucket_name bk = b')
               then mkBucket (bucket_name bk) (bucket_location bk)
                      (if bool_decide (k ∈ bucket_objects bk) then bucket_objects bk
                       else bucket_objects bk ++ [k])
               else bk) <$> find_bucket b bs.
Proof.
  unfold find_bucket, add_object. induction bs as [|bk bs IH]; [done|].
  rewrite fmap_cons, !filter_cons.
  destruct (decide (bucket_name bk = b')) as [Hb'|Hb'];
    destruct (decide (bucket_name bk = b)) as [Hb|Hb]; simpl;
    rewrite ?decide_True, ?decide_False by done; simpl; rewrite ?decide_True by done; done.
Qed.

Lemma add_object_is_Some b b' k bs :
  is_Some (find_bucket b bs) -> is_Some (find_bucket b (add_object b' k bs)).
Proof. rewrite find_bucket_add_object. intros [bk ->]. by eexists. Qed.

Lemma has_object_add_object b k bs :
  is_Some (find_bucket b bs) -> has_object (add_object b k bs) b k.
Proof.
  unfold has_object. rewrite find_bucket_add_object. intros [bk Hb].
  pose proof Hb as Hn. unfold find_bucket in Hn. apply head_Some_elem_of, list_elem_of_filter in Hn as [Hn _].
  rewrite Hb. simpl. rewrite decide_True by done. eexists; split; [done|]. simpl.
  case_bool_decide; set_solver.
Qed.

Lemma has_object_mono b b' k k' bs :
  has_object bs b k -> has_object (add_object b' k' bs) b k.
Proof.
  unfold has_object. rewrite find_bucket_add_object. intros (bk & -> & Hk). simpl.
  case_decide; eexists; split; try done. simpl. case_bool_decide; set_solver.
Qed.

Lemma add_bucket_is_Some name r c : is_Some (find_bucket name (buckets (add_bucket name r c))).
Proof.
  unfold add_bucket. destruct (find_bucket name (buckets c)) eqn:E; [by rewrite E|].
  simpl. unfold find_bucket in *. rewrite filter_app.
  apply head_None in E. rewrite E. simpl. rewrite filter_cons_True by done. by eexists.
Qed.

(** An [s3://] URI of a bucket whose name has no slash names that bucket
    and the rest of the URI as the key. *)
Lemma parse_s3_uri_app b k :
  split_on "/"%char b = [b] -> parse_s3_uri ("s3://" +:+ b +:+ "/" +:+ k) = Some (b, k).
Proof.
  intros Hb. unfold parse_s3_uri. rewrite prefix_app.
  change ("s3://" +:+ b +:+ "/" +:+ k) with ("s3://" +:+ (b +:+ String "/" k)).
  change 5 with (String.length "s3://"). rewrite str_drop_app_length.
  rewrite (split_on_sep_free _ _ _ Hb). pose proof (split_on_nonempty "/"%char k) as Hne.
  destruct (split_on "/"%char k) as [|w ws] eqn:Ek; [done|]. rewrite <- Ek. by rewrite split_on_join.
Qed.

Lemma object_present_has_object bs b k :
  split_on "/"%char b = [b] -> has_object bs b k -> object_present bs ("s3://" +:+ b +:+ "/" +:+ k) = true.
Proof.
  intros Hb (bk & Hf & Hk). unfold object_present. rewrite (parse_s3_uri_app _ _ Hb), Hf.
  by apply bool_decide_true.
Qed.

Lemma find_bucket_app b bs l bk : find_bucket b bs = Some bk -> find_bucket b (bs ++ l) = Some bk.
Proof. unfold find_bucket. rewrite filter_app. by destruct (filter _ bs). Qed.

Lemma add_bucket_find b name r c bk :
  find_bucket b (buckets c) = Some bk -> find_bucket b (buckets (add_bucket name r c)) = Some bk.
Proof. unfold add_bucket. intros Hb. destruct (find_bucket name (buckets c)); [done|]. by apply find_bucket_app. Qed.

Lemma add_bucket_denied name r c : denied (add_bucket name r c) = denied c.
Proof. unfold add_bucket. by destruct (find_bucket _ _). Qed.

Lemma add_bucket_regions name r c : regions (add_bucket name r c) = regions c.
Proof. unfold add_bucket. by destruct (find_bucket _ _). Qed.

Lemma add_bucket_is_Some_mono b name r c :
  is_Some (find_bucket b (buckets c)) -> is_Some (find_bucket b (buckets (add_bucket name r c))).
Proof. intros [bk Hb]. exists bk. by apply add_bucket_find. Qed.

Lemma add_bucket_has_object b k name r c :
  has_object (buckets c) b k -> has_object (buckets (add_bucket name r c)) b k.
Proof. intros (bk & Hb & Hk). exists bk. split; [by apply add_bucket_find|done]. Qed.

(** The buckets and objects a step keeps. *)
Ltac frame_tac :=
  constructor; simpl; rewrite ?add_bucket_denied, ?add_bucket_regions; try done;
  intros; repeat first [ apply add_object_is_Some | apply add_bucket_is_Some_mono
                       | apply has_object_mono | apply add_bucket_has_object ]; done.

Lemma run_load_data s text n c :
  fs (nb_world s) !! raw_data_file = Some text -> loadtxt_shape text = Ok [n; c] ->
  run load_data s =
    (Ok (n, c), set_nb_world (set_out (out (nb_world s) ++ ["Reading raw data from " +:+ raw_data_file])
                                (nb_world s)) s).
Proof.
  intros Hf Hl. unfold load_data. rewrite run_bind, run_lift_print, run_bind, (run_loadtxt _ text) by done.
  by rewrite Hl.
Qed.

(** A data file with a single row (or a single column) loads as a
    one-dimensional array, and the split [raw[:train_size, :-1]] raises
    [IndexError]: e.g. the one-line file [1,0,2,7,0,11]. *)
Lemma run_load_data_not_matrix s text shape :
  fs (nb_world s) !! raw_data_file = Some text -> loadtxt_shape text = Ok shape ->
  length shape <> 2 ->
  run load_data s =
    (Raise IndexError, set_nb_world (set_out (out (nb_world s) ++ ["Reading raw data from " +:+ raw_data_file])
                                      (nb_world s)) s).
Proof.
  intros Hf Hl Hn. unfold load_data. rewrite run_bind, run_lift_print, run_bind, (run_loadtxt _ text) by done.
  rewrite Hl. destruct shape as [|a [|b [|]]]; simpl in Hn; try lia; reflexivity.
Qed.

Lemma run_upload_train s r n c :
  environ (nb_world s) !! "AWS_DEFAULT_REGION" = Some r -> denied (cloud (nb_world s)) = [] ->
  exists s', run (upload_train n c) s = (Ok (default_bucket_name r (nb_account s)), s') /\
    nb_frame s s' /\ has_object (buckets (cloud (nb_world s'))) (default_bucket_name r (nb_account s)) train_key.
Proof.
  intros He Hd. eexists; split.
  { unfold upload_train. rewrite run_bind, run_lift_print, run_bind, run_lift_print.
    rewrite run_bind, (run_default_bucket _ r) by (simpl; rewrite ?Hd; set_solver).
    rewrite run_bind, run_put_object; [|by simpl; rewrite add_bucket_denied, Hd; set_solver|apply add_bucket_is_Some].
    rewrite run_bind, run_lift_print. apply run_ret. }
  split.
  - frame_tac.
  - simpl. apply has_object_add_object, add_bucket_is_Some.
Qed.

(** ** Training and deployment *)

(** Whatever the registry and the region, the jobs of the kNN image are
    named [knn-<stamp>]. *)
Lemma base_name_knn region : base_name_from_image (get_image_uri region "knn") = "knn".
Proof.
  unfold base_name_from_image, get_image_uri.
  change (".amazonaws.com/" +:+ "knn" +:+ ":1") with (".amazonaws.com" +:+ String "/" "knn:1").
  rewrite <- !str_app_assoc, last_split_on_sep. reflexivity.
Qed.

Definition trained (stamp : string) (inputs : list (string * string)) (est : Estimator) : Estimator :=
  mkEstimator (est_image est) (est_role est) (est_instance_count est) (est_instance_type est)
    (est_output_path est) (est_hyperparams est)
    (Some (base_name_from_image (est_image est) +:+ "-" +:+ stamp)).

Lemma run_fit_ok stamp inputs est s ro b k :
  nb_roles s !! est_role est = Some ro -> sagemaker_full_access ∈ role_policies ro ->
  denied (cloud (nb_world s)) = [] ->
  Forall (fun i => object_present (buckets (cloud (nb_world s))) i.2 = true) inputs ->
  parse_s3_uri (est_output_path est) = Some (b, k) ->
  is_Some (find_bucket b (buckets (cloud (nb_world s)))) ->
  exists s', run (fit stamp inputs est) s = (Ok (trained stamp inputs est), s') /\ nb_frame s s'.
Proof.
  intros Hr Hp Hd Hin Ho Hb. eexists; split.
  { unfold fit. rewrite run_bind. unfold get_role.
    rewrite run_lift_allowed by (rewrite Hd; set_solver). rewrite run_bind, run_gets, Hr.
    cbn beta iota. rewrite run_ret, run_lift_allowed by (rewrite Hd; set_solver).
    rewrite run_bind, run_gets, bool_decide_true by done.
    rewrite (proj2 (forallb_forall _ _)); last first.
    { intros i Hi. rewrite Forall_forall in Hin. by apply Hin, list_elem_of_In. }
    cbn [andb]. rewrite run_bind, run_modify, run_bind, Ho.
    rewrite run_put_object; [|by simpl; rewrite Hd; set_solver|done].
    rewrite run_ret. reflexivity. }
  frame_tac.
Qed.


Lemma run_fit_unauthorized stamp inputs est s ro :
  nb_roles s !! est_role est = Some ro -> sagemaker_full_access ∉ role_policies ro ->
  "iam:GetRole" ∉ denied (cloud (nb_world s)) -> "sagemaker:CreateTrainingJob" ∉ denied (cloud (nb_world s)) ->
  run (fit stamp inputs est) s =
    (Raise (ValueError ("Error for Training job " +:+
                        (base_name_from_image (est_image est) +:+ "-" +:+ stamp) +:+ ": Failed")), s).
Proof.
  intros Hr Hp Hd1 Hd2. unfold fit. rewrite run_bind. unfold get_role.
  rewrite run_lift_allowed by done. rewrite run_bind, run_gets, Hr.
  cbn beta iota. rewrite run_ret, run_lift_allowed by done.
  rewrite run_bind, run_gets, bool_decide_false by done. reflexivity.
Qed.

Lemma run_create_resource op r present add s :
  op ∉ denied (cloud (nb_world s)) -> present (region_in (nb_world s) r) = false ->
  run (lift (create_resource op r present add)) s =
    (Ok tt, set_nb_world (set_cloud (set_region r (add (region_in (nb_world s) r)) (cloud (nb_world s)))
                            (nb_world s)) s).
Proof.
  intros Hd Hp. apply run_lift. unfold create_resource.
  rewrite run_aws_allowed, run_bind, run_gets, Hp by done. apply run_update_region.
Qed.

Ltac region_simpl :=
  unfold region_in; simpl; repeat (rewrite region_of_set_region, decide_True by done; simpl).

Lemma run_deploy_ok count itype ename est s r job :
  est_job est = Some job ->
  environ (nb_world s) !! "AWS_DEFAULT_REGION" = Some r ->
  denied (cloud (nb_world s)) = [] ->
  job ∉ nm_name <$> rg_models (region_in (nb_world s) r) ->
  default job ename ∉ nm_name <$> rg_endpoint_configs (region_in (nb_world s) r) ->
  default job ename ∉ ep_name <$> rg_endpoints (region_in (nb_world s) r) ->
  exists s', run (deploy count itype ename est) s = (Ok (default job ename), s') /\
    rg_endpoints (region_in (nb_world s') r) =
      rg_endpoints (region_in (nb_world s) r) ++ [mkEndpoint (default job ename) "InService" (nb_now s)] /\
    nb_roles s' = nb_roles s /\ environ (nb_world s') = environ (nb_world s) /\
    denied (cloud (nb_world s')) = [] /\ buckets (cloud (nb_world s')) = buckets (cloud (nb_world s)).
Proof.
  intros Hj He Hd Hm Hc Hep. eexists; split.
  { unfold deploy. rewrite Hj, run_bind, (run_session_region _ _ He), run_bind, run_gets.
    rewrite run_bind, run_create_resource; [|by rewrite Hd; set_solver|by apply bool_decide_false].
    rewrite run_bind, run_create_resource; cycle 1.
    { simpl. rewrite Hd. set_solver. }
    { region_simpl. by apply bool_decide_false. }
    rewrite run_bind, run_create_resource; cycle 1.
    { simpl. rewrite Hd. set_solver. }
    { region_simpl. by apply bool_decide_false. }
    apply run_ret. }
  region_simpl. done.
Qed.

(** ** The cells *)

Lemma run_setup_role_allowed s :
  denied (cloud (nb_world s)) = [] ->
  (forall ro, nb_roles s !! role = Some ro -> sagemaker_full_access ∈ role_policies ro) ->
  exists s1, run setup_role s = (Ok tt, s1) /\ nb_world s1 = nb_world s /\
    nb_now s1 = nb_now s /\ nb_account s1 = nb_account s /\
    exists ro, nb_roles s1 !! role = Some ro /\ sagemaker_full_access ∈ role_policies ro.
Proof.
  intros Hd Hro. rewrite run_setup_role, Hd. simpl.
  rewrite ?bool_decide_false by set_solver.
  destruct (nb_roles s !! role) as [ro|] eqn:Hr.
  - eexists; split_and!; try done. exists ro. split; [done|]. by apply Hro.
  - eexists; split_and!; try done. simpl. rewrite lookup_insert_eq. eexists; split; [done|]. set_solver.
Qed.

Lemma run_upload_test s b n c :
  denied (cloud (nb_world s)) = [] -> is_Some (find_bucket b (buckets (cloud (nb_world s)))) ->
  exists s', run (upload_test b n c) s = (Ok tt, s') /\ nb_frame s s' /\
    has_object (buckets (cloud (nb_world s'))) b test_key.
Proof.
  intros Hd Hb. eexists; split.
  { unfold upload_test. rewrite run_bind, run_lift_print, run_bind, run_lift_print.
    rewrite run_bind, run_put_object; [|by simpl; rewrite Hd; set_solver|done].
    apply run_lift_print. }
  split; [frame_tac|]. simpl. by apply has_object_add_object.
Qed.

Lemma s3_train_data_key b : s3_train_data b = "s3://" +:+ b +:+ "/" +:+ train_key.
Proof. reflexivity. Qed.

Lemma s3_test_data_key b : s3_test_data b = "s3://" +:+ b +:+ "/" +:+ test_key.
Proof. reflexivity. Qed.

Lemma run_train s r b stamp ro :
  environ (nb_world s) !! "AWS_DEFAULT_REGION" = Some r -> denied (cloud (nb_world s)) = [] ->
  nb_roles s !! role = Some ro -> sagemaker_full_access ∈ role_policies ro ->
  split_on "/"%char b = [b] ->
  has_object (buckets (cloud (nb_world s))) b train_key -> has_object (buckets (cloud (nb_world s))) b test_key ->
  exists s' est, run (train b stamp) s = (Ok est, s') /\ est_job est = Some ("knn-" +:+ stamp) /\ nb_frame s s'.
Proof.
  intros He Hd Hr Hp Hb Htr Hte. unfold train, trained_estimator_from_hyperparams.
  rewrite run_bind, (run_session_region _ _ He).
  edestruct (run_fit_ok stamp [("train", s3_train_data b); ("test", s3_test_data b)]
               (mkEstimator (get_image_uri r "knn") role 1 "ml.m5.2xlarge" (output_path b) hyperparams None)
               s ro b (prefix +:+ "/default_example/output")) as (s' & Hrun & Hf); try done.
  - repeat constructor; simpl; rewrite ?s3_train_data_key, ?s3_test_data_key;
      by apply object_present_has_object.
  - by apply parse_s3_uri_app.
  - destruct Htr as (bk & Hbk & _). by exists bk.
  - exists s', (trained stamp [("train", s3_train_data b); ("test", s3_test_data b)]
      (mkEstimator (get_image_uri r "knn") role 1 "ml.m5.2xlarge" (output_path b) hyperparams None)).
    split_and!; [exact Hrun| |done]. simpl. by rewrite base_name_knn.
Qed.

Lemma run_deploy_endpoint s r t est job :
  est_job est = Some job ->
  environ (nb_world s) !! "AWS_DEFAULT_REGION" = Some r -> denied (cloud (nb_world s)) = [] ->
  job ∉ nm_name <$> rg_models (region_in (nb_world s) r) ->
  endpoint_name t ∉ nm_name <$> rg_endpoint_configs (region_in (nb_world s) r) ->
  endpoint_name t ∉ ep_name <$> rg_endpoints (region_in (nb_world s) r) ->
  exists s', run (deploy_endpoint t est) s = (Ok (endpoint_name t), s') /\
    rg_endpoints (region_in (nb_world s') r) =
      rg_endpoints (region_in (nb_world s) r) ++ [mkEndpoint (endpoint_name t) "InService" (nb_now s)] /\
    environ (nb_world s') = environ (nb_world s) /\ denied (cloud (nb_world s')) = [].
Proof.
  intros Hj He Hd Hm Hc Hep. unfold deploy_endpoint, predictor_from_estimator.
  rewrite run_bind, run_lift_print.
  edestruct (run_deploy_ok 1 instance_type (Some (endpoint_name t)) est
               (set_nb_world (set_out (out (nb_world s) ++ ["setting up the endpoint.."]) (nb_world s)) s) r job)
    as (s' & Hrun & Hep' & _ & He' & Hd' & _); try done.
  exists s'. split_and!; [exact Hrun|exact Hep'|exact He'|exact Hd'].
Qed.

Lemma region_in_regions w w' r : regions (cloud w') = regions (cloud w) -> region_in w' r = region_in w r.
Proof. intros H. unfold region_in, region_of. by rewrite H. Qed.

(** The notebook completes on an account where it may call everything,
    with the raw data file as a matrix, a role (if any) that has the
    SageMaker policy, and none of the names it creates taken; its
    endpoint is then [InService] in the session's region. *)
Lemma run_notebook_ok s r text n c t stamp :
  environ (nb_world s) !! "AWS_DEFAULT_REGION" = Some r ->
  denied (cloud (nb_world s)) = [] ->
  (forall ro, nb_roles s !! role = Some ro -> sagemaker_full_access ∈ role_policies ro) ->
  fs (nb_world s) !! raw_data_file = Some text -> loadtxt_shape text = Ok [n; c] ->
  split_on "/"%char (default_bucket_name r (nb_account s)) = [default_bucket_name r (nb_account s)] ->
  "knn-" +:+ stamp ∉ nm_name <$> rg_models (region_in (nb_world s) r) ->
  endpoint_name t ∉ nm_name <$> rg_endpoint_configs (region_in (nb_world s) r) ->
  endpoint_name t ∉ ep_name <$> rg_endpoints (region_in (nb_world s) r) ->
  exists s', run (notebook t stamp) s = (Ok (endpoint_name t), s') /\
    rg_endpoints (region_in (nb_world s') r) =
      rg_endpoints (region_in (nb_world s) r) ++ [mkEndpoint (endpoint_name t) "InService" (nb_now s)] /\
    environ (nb_world s') = environ (nb_world s) /\ denied (cloud (nb_world s')) = [].
Proof.
  intros He Hd Hro Hf Hl Hb Hm Hc Hep. unfold notebook.
  destruct (run_setup_role_allowed s Hd Hro) as (s1 & Hs1 & Hw1 & Hn1 & Ha1 & ro & Hr1 & Hp1).
  rewrite run_bind, Hs1, run_bind, (run_load_data _ text n c) by (rewrite ?Hw1; done).
  set (s2 := set_nb_world _ s1).
  destruct (run_upload_train s2 r n c) as (s3 & Hs3 & F3 & Htr); [by simpl; rewrite Hw1|by simpl; rewrite Hw1|].
  rewrite run_bind, Hs3. cbn [nb_account s2 set_nb_world] in Htr, Hs3 |- *. rewrite Ha1 in Htr |- *.
  destruct (run_upload_test s3 (default_bucket_name r (nb_account s)) n c) as (s4 & Hs4 & F4 & Hte).
  { rewrite (frame_denied _ _ F3). simpl. by rewrite Hw1. }
  { destruct Htr as (bk & Hbk & _). by exists bk. }
  rewrite run_bind, Hs4.
  assert (nb_frame s2 s4) as F24 by (etrans; eauto).
  destruct (run_train s4 r (default_bucket_name r (nb_account s)) stamp ro) as (s5 & est & Hs5 & Hj & F5);
    try done.
  { rewrite (frame_environ _ _ F24). simpl. by rewrite Hw1. }
  { rewrite (frame_denied _ _ F24). simpl. by rewrite Hw1. }
  { by rewrite (frame_roles _ _ F24). }
  { by apply (frame_objects _ _ F4). }
  rewrite run_bind, Hs5.
  assert (nb_frame s2 s5) as F25 by (etrans; eauto).
  assert (region_in (nb_world s5) r = region_in (nb_world s) r) as Hreg.
  { rewrite (region_in_regions (nb_world s2)) by apply (frame_regions _ _ F25). simpl. by rewrite Hw1. }
  destruct (run_deploy_endpoint s5 r t est ("knn-" +:+ stamp)) as (s6 & Hs6 & Hep6 & He6 & Hd6);
    rewrite ?Hreg; try done.
  { rewrite (frame_environ _ _ F25). simpl. by rewrite Hw1. }
  { rewrite (frame_denied _ _ F25). simpl. by rewrite Hw1. }
  exists s6. split_and!; [done| | |done].
  rewrite Hep6, Hreg, (frame_now _ _ F25). simpl. by rewrite Hn1.
  rewrite He6, (frame_environ _ _ F25). simpl. by rewrite Hw1.
Qed.

Lemma run_train_unauthorized s r b stamp ro :
  environ (nb_world s) !! "AWS_DEFAULT_REGION" = Some r -> denied (cloud (nb_world s)) = [] ->
  nb_roles s !! role = Some ro -> sagemaker_full_access ∉ role_policies ro ->
  run (train b stamp) s = (Raise (ValueError ("Error for Training job " +:+ ("knn-" +:+ stamp) +:+ ": Failed")), s).
Proof.
  intros He Hd Hr Hp. unfold train, trained_estimator_from_hyperparams.
  rewrite run_bind, (run_session_region _ _ He).
  rewrite (run_fit_unauthorized _ _ _ _ ro); try done; [|by rewrite Hd; set_solver..].
  simpl. by rewrite base_name_knn.
Qed.

(** The endpoint's name holds the substrings the other scripts search
    for: ['knn-'] (prepare_files.py), ['knn'] (test_no_inference_endpoint.py)
    and ['mysfits'] (clean_utils.py). *)
Lemma endpoint_name_contains t :
  contains "knn-" (endpoint_name t) = true /\ contains "knn" (endpoint_name t) = true /\
  contains "mysfits" (endpoint_name t) = true.
Proof.
  split_and!.
  - exact (contains_app_mid "mysfits-" "knn-" ("ml-m4-xlarge-" +:+ str_replace t "." "-")).
  - exact (contains_app_mid "mysfits-" "knn" ("-ml-m4-xlarge-" +:+ str_replace t "." "-")).
  - exact (contains_app_mid "" "mysfits" ("-knn-ml-m4-xlarge-" +:+ str_replace t "." "-")).
Qed.

(** C4: The notebook and the scripts that look for its endpoint agree: on
    an account where the notebook may call everything, the data file is a
    matrix, the role (if it exists) has the SageMaker policy, the names
    the notebook creates are free and its endpoint is the newest of the
    region, the notebook completes and answers its endpoint's name; then
    the lookup of prepare_files.py ([get_sagemaker_endpoint_name('knn-',
    region)]) finds that endpoint, and test_no_inference_endpoint.py
    prints ['false']. *)
Theorem notebook_endpoint_found s r text n c t stamp :
  environ (nb_world s) !! "AWS_DEFAULT_REGION" = Some r ->
  denied (cloud (nb_world s)) = [] ->
  (forall ro, nb_roles s !! role = Some ro -> sagemaker_full_access ∈ role_policies ro) ->
  fs (nb_world s) !! raw_data_file = Some text -> loadtxt_shape text = Ok [n; c] ->
  split_on "/"%char (default_bucket_name r (nb_account s)) = [default_bucket_name r (nb_account s)] ->
  "knn-" +:+ stamp ∉ nm_name <$> rg_models (region_in (nb_world s) r) ->
  endpoint_name t ∉ nm_name <$> rg_endpoint_configs (region_in (nb_world s) r) ->
  endpoint_name t ∉ ep_name <$> rg_endpoints (region_in (nb_world s) r) ->
  (forall e, e ∈ rg_endpoints (region_in (nb_world s) r) -> (ep_created e < nb_now s)%Z) ->
  exists s', run (notebook t stamp) s = (Ok (endpoint_name t), s') /\
    run (get_sagemaker_endpoint_name "knn-" r) (nb_world s') = (Ok (Some (endpoint_name t)), nb_world s') /\
    run test_no_inference_endpoint (nb_world s') =
      (Ok tt, set_out (out (nb_world s') ++ ["false"]) (nb_world s')).
Proof.
  intros He Hd Hro Hf Hl Hb Hm Hc Hep Hnew.
  destruct (run_notebook_ok s r text n c t stamp) as (s' & Hrun & Hep' & He' & Hd'); try done.
  exists s'. split; [done|].
  assert (forall p, contains p (endpoint_name t) = true ->
            head (endpoints_page (region_in (nb_world s') r) p "InService") =
            Some (mkEndpoint (endpoint_name t) "InService" (nb_now s))) as Hhead.
  { intros p Hp. apply endpoints_page_head; rewrite ?Hep'; try done; [set_solver|].
    intros e' Hin Hne. apply elem_of_app in Hin as [Hold|Hnew']; [by apply Hnew|set_solver]. }
  destruct (endpoint_name_contains t) as (Hk1 & Hk2 & _). split.
  - unfold get_sagemaker_endpoint_name. rewrite run_query by (intros; apply list_endpoints_ro).
    simpl. unfold aws_list_endpoints. rewrite run_aws_allowed by (rewrite Hd'; set_solver).
    rewrite run_gets. simpl. specialize (Hhead _ Hk1).
    by destruct (endpoints_page _ _ _); simplify_eq/=.
  - rewrite (run_test_no_inference_endpoint _ r) by (rewrite ?He', ?Hd'; first [done | set_solver]).
    specialize (Hhead _ Hk2). by destruct (endpoints_page _ _ _); simplify_eq/=.
Qed.

(** C28: A role that exists without [AmazonSageMakerFullAccess] (as a
    run whose [attach_role_policy] failed leaves it) is accepted by the
    role cell as it is: the notebook uploads the data, its training job
    fails with the SDK's [UnexpectedStatusException], no endpoint is
    created, and the role is still without the policy, so every later run
    fails the same way. *)
Theorem notebook_role_without_policy_fails s r text n c t stamp ro :
  environ (nb_world s) !! "AWS_DEFAULT_REGION" = Some r ->
  denied (cloud (nb_world s)) = [] ->
  nb_roles s !! role = Some ro -> sagemaker_full_access ∉ role_policies ro ->
  fs (nb_world s) !! raw_data_file = Some text -> loadtxt_shape text = Ok [n; c] ->
  exists s', run (notebook t stamp) s =
      (Raise (ValueError ("Error for Training job " +:+ ("knn-" +:+ stamp) +:+ ": Failed")), s') /\
    nb_roles s' !! role = Some ro /\
    has_object (buckets (cloud (nb_world s'))) (default_bucket_name r (nb_account s)) train_key /\
    has_object (buckets (cloud (nb_world s'))) (default_bucket_name r (nb_account s)) test_key /\
    rg_endpoints (region_in (nb_world s') r) = rg_endpoints (region_in (nb_world s) r).
Proof.
  intros He Hd Hr Hp Hf Hl. unfold notebook.
  rewrite run_bind, (run_setup_role_exists _ ro) by (rewrite ?Hd; set_solver || done).
  rewrite run_bind, (run_load_data _ text n c) by done.
  set (s2 := set_nb_world _ s).
  destruct (run_upload_train s2 r n c) as (s3 & Hs3 & F3 & Htr); [done|done|].
  rewrite run_bind, Hs3. cbn [nb_account s2 set_nb_world] in Htr, Hs3 |- *.
  destruct (run_upload_test s3 (default_bucket_name r (nb_account s)) n c) as (s4 & Hs4 & F4 & Hte).
  { by rewrite (frame_denied _ _ F3). }
  { destruct Htr as (bk & Hbk & _). by exists bk. }
  rewrite run_bind, Hs4.
  assert (nb_frame s2 s4) as F24 by (etrans; eauto).
  rewrite run_bind, (run_train_unauthorized _ r _ _ ro); cycle 1.
  { by rewrite (frame_environ _ _ F24). }
  { by rewrite (frame_denied _ _ F24). }
  { by rewrite (frame_roles _ _ F24). }
  { done. }
  eexists; split_and!; [reflexivity|by rewrite (frame_roles _ _ F24)|by apply (frame_objects _ _ F4)|done|].
  f_equal. apply (region_in_regions (nb_world s2)). by rewrite (frame_regions _ _ F24).
Qed.

End notebook.

(** ** Witnesses *)

Definition demo_is_float (f : string) : bool := negb (String.eqb f "").
Definition demo_registry (region : string) : string := "174872738258".
Definition demo_data : string :=
  "1,0,2,7,0,11" +:+ nl +:+ "1,1,1,1,1,2" +:+ nl +:+ "3,3,3,3,3,3" +:+ nl.
Definition demo_nb_world : World :=
  mkWorld {[raw_data_file := demo_data]} ∅ [] {["AWS_DEFAULT_REGION" := "us-west-2"]}
    (mkCloud ∅ [] [] ∅ ∅).
Definition demo_notebook : Notebook := mkNotebook demo_nb_world ∅ [] "123456789012" 1700000000.

Lemma notebook_endpoint_found_witness :
  exists s', run (notebook demo_is_float demo_registry "1700000000.25" "2024-01-01-00-00-00-000")
               demo_notebook = (Ok (endpoint_name "1700000000.25"), s') /\
    run (get_sagemaker_endpoint_name "knn-" "us-west-2") (nb_world s') =
      (Ok (Some (endpoint_name "1700000000.25")), nb_world s') /\
    run test_no_inference_endpoint (nb_world s') =
      (Ok tt, set_out (out (nb_world s') ++ ["false"]) (nb_world s')).
Proof.
  apply (notebook_endpoint_found demo_is_float demo_registry demo_notebook "us-west-2" demo_data 3 6).
  - reflexivity.
  - reflexivity.
  - intros ro Hro. vm_compute in Hro. discriminate.
  - reflexivity.
  - vm_compute. reflexivity.
  - vm_compute. reflexivity.
  - vm_compute. set_solver.
  - vm_compute. set_solver.
  - vm_compute. set_solver.
  - intros e He. simpl in He. set_solver.
Defined.

Definition demo_stale_role : Notebook :=
  mkNotebook demo_nb_world {[role := mkIamRole assume_role_policy_document []]} [] "123456789012" 1700000000.

Lemma notebook_role_without_policy_fails_witness :
  exists s', run (notebook demo_is_float demo_registry "1700000000.25" "2024-01-01-00-00-00-000")
               demo_stale_role =
      (Raise (ValueError ("Error for Training job " +:+ ("knn-" +:+ "2024-01-01-00-00-00-000") +:+
                          ": Failed")), s') /\
    nb_roles s' !! role = Some (mkIamRole assume_role_policy_document []) /\
    has_object (buckets (cloud (nb_world s'))) (default_bucket_name "us-west-2" "123456789012") train_key /\
    has_object (buckets (cloud (nb_world s'))) (default_bucket_name "us-west-2" "123456789012") test_key /\
    rg_endpoints (region_in (nb_world s') "us-west-2") = rg_endpoints (region_in demo_nb_world "us-west-2").
Proof.
  apply (notebook_role_without_policy_fails demo_is_float demo_registry demo_stale_role "us-west-2"
           demo_data 3 6).
  - reflexivity.
  - reflexivity.
  - reflexivity.
  - vm_compute. set_solver.
  - reflexivity.
  - vm_compute. reflexivity.
Defined.

(** The one-line data file loads as a one-dimensional array of six values. *)
Lemma loadtxt_one_row : loadtxt_shape demo_is_float ("1,0,2,7,0,11" +:+ nl) = Ok [6].
Proof. vm_compute. reflexivity. Qed.
